(** * Gold-layer ETL units of the rainforest pipeline

    A shallow embedding of [etl/layers/gold/daily_order_metrics.py] and
    [etl/layers/gold/wide_order_items_gold.py], and the properties of their
    [extract_upstream], [transform_upstream] and [read] methods.

    The two collaborators the units talk to are described only as far as the
    units use them:
    - the dataframe engine (modules [Spark] and [SparkSql]): a frame is a
      list of attributes, each with the expression id the engine refers to
      it by, and a list of rows; [select], [filter], [join], [groupBy/agg],
      [withColumn] and [drop] either return a frame or raise the engine's
      exception.  Column names are compared without regard to case, as the
      engine does by default.  Cells carry their own type; where the
      engine's behaviour depends on a type, a coercion or a version of the
      engine that is not described here, the operation raises [Unmodelled];
    - everything with an effect (the wall clock, the numbering of new
      attributes, loading a stored table, instantiating and driving an
      upstream unit, the renumbering of attributes that precedes a join)
      is an event of a small free monad (module [Runtime]);
      an interpreter runs a program against an arbitrary environment and
      records the events it issued and the answers it got.

    Python objects that a method mutates are passed explicitly: a method that
    assigns to [self] returns the new [self] next to its result. *)

From Stdlib Require Import List String Ascii Bool Arith PeanoNat NArith ZArith QArith Lia
  Permutation.
Import ListNotations.
Open Scope string_scope.
Open Scope nat_scope.
Set Warnings "-register-all".

(* ================================================================== *)
(** * Python values and their rendering                                *)
(* ================================================================== *)

Module Py.

Local Open Scope N_scope.

(** [datetime.datetime]: naive civil time, as Python stores it. *)
Record datetime : Type := mk_datetime {
  year : N; month : N; day : N;
  hour : N; minute : N; second : N; microsecond : N
}.

(** [datetime.date]. *)
Record date : Type := mk_date { d_year : N; d_month : N; d_day : N }.

Definition is_leap (y : N) : bool :=
  ((y mod 4 =? 0) && negb (y mod 100 =? 0)) || (y mod 400 =? 0).

Definition days_in_month (y m : N) : N :=
  match m with
  | 2 => if is_leap y then 29 else 28
  | 4 | 6 | 9 | 11 => 30
  | _ => 31
  end.

(** The range checks Python's constructors enforce. *)
Definition valid_date (d : date) : bool :=
  (1 <=? d_year d) && (d_year d <=? 9999) &&
  (1 <=? d_month d) && (d_month d <=? 12) &&
  (1 <=? d_day d) && (d_day d <=? days_in_month (d_year d) (d_month d)).

Definition date_of (t : datetime) : date :=
  mk_date (year t) (month t) (day t).

Definition valid_datetime (t : datetime) : bool :=
  valid_date (date_of t) &&
  (hour t <? 24) && (minute t <? 60) && (second t <? 60) &&
  (microsecond t <? 1000000).

Definition datetime_fields (t : datetime) : list N :=
  [year t; month t; day t; hour t; minute t; second t; microsecond t].

Definition date_fields (d : date) : list N :=
  [d_year d; d_month d; d_day d].

Fixpoint lex_eqb (a b : list N) : bool :=
  match a, b with
  | [], [] => true
  | x :: a', y :: b' => (x =? y) && lex_eqb a' b'
  | _, _ => false
  end.

Fixpoint lex_ltb (a b : list N) : bool :=
  match a, b with
  | [], _ :: _ => true
  | x :: a', y :: b' => (x <? y) || ((x =? y) && lex_ltb a' b')
  | _, _ => false
  end.

Definition datetime_eqb (a b : datetime) : bool :=
  lex_eqb (datetime_fields a) (datetime_fields b).
Definition datetime_ltb (a b : datetime) : bool :=
  lex_ltb (datetime_fields a) (datetime_fields b).
Definition date_eqb (a b : date) : bool :=
  lex_eqb (date_fields a) (date_fields b).
Definition date_ltb (a b : date) : bool :=
  lex_ltb (date_fields a) (date_fields b).

(** ** Decimal rendering: ["%0wd"] on a value that fits [w] digits. *)

Definition digit (d : N) : ascii := ascii_of_N (48 + d).

Fixpoint zero_padded (w : nat) (n : N) : string :=
  match w with
  | O => ""
  | S w' => String (digit ((n / 10 ^ N.of_nat w') mod 10)) (zero_padded w' n)
  end.

(** [date.isoformat()], which is also [str(date)]. *)
Definition str_date (d : date) : string :=
  zero_padded 4 (d_year d) ++ "-" ++ zero_padded 2 (d_month d) ++ "-" ++
  zero_padded 2 (d_day d).

Definition str_time (t : datetime) : string :=
  zero_padded 2 (hour t) ++ ":" ++ zero_padded 2 (minute t) ++ ":" ++
  zero_padded 2 (second t) ++
  (if microsecond t =? 0 then "" else "." ++ zero_padded 6 (microsecond t)).

(** [str(datetime)] = [isoformat(sep=' ')]: the fraction is printed only
    when the microsecond field is not zero. *)
Definition str_datetime (t : datetime) : string :=
  str_date (date_of t) ++ " " ++ str_time t.

End Py.

(* ================================================================== *)
(** * Exceptions and results                                           *)
(* ================================================================== *)

(** What a call can raise.  [Unmodelled] marks an input outside the
    fragment of the collaborators that this development describes; no
    theorem below draws a conclusion from it. *)
Inductive exn : Type :=
| AttributeError       (* Python: method call on [None] *)
| IndexError           (* Python: list index out of range *)
| AnalysisException    (* Spark: column cannot be resolved, or is ambiguous *)
| ParseException       (* Spark: the SQL text is not an expression *)
| CollaboratorError    (* raised inside storage or an upstream unit *)
| Unmodelled.

Inductive result (A : Type) : Type :=
| Ok (a : A)
| Err (e : exn).
Arguments Ok {A} a.
Arguments Err {A} e.

Definition rbind {A B} (r : result A) (f : A -> result B) : result B :=
  match r with
  | Ok a => f a
  | Err e => Err e
  end.

Fixpoint rmap_list {A B} (f : A -> result B) (l : list A) : result (list B) :=
  match l with
  | [] => Ok []
  | a :: l' => rbind (f a) (fun b => rbind (rmap_list f l') (fun bs => Ok (b :: bs)))
  end.

(** Keeping the elements a fallible test accepts. *)
Fixpoint rfilter {A} (f : A -> result bool) (l : list A) : result (list A) :=
  match l with
  | [] => Ok []
  | a :: l' =>
      rbind (f a) (fun keep =>
      rbind (rfilter f l') (fun kept => Ok (if keep then a :: kept else kept)))
  end.

Declare Scope result_scope.
Delimit Scope result_scope with result.
Notation "x <- r ;; k" := (rbind r (fun x => k))
  (at level 61, r at next level, right associativity) : result_scope.

(* ================================================================== *)

(* ================================================================== *)
(** * The dataframe engine, as far as the units use it                 *)
(* ================================================================== *)

Module Spark.
Import Py.

(** ** Cells *)

(** A cell carries its own type.  The numeric types described are
    [bigint] ([VInt], a value of 64 bits), [decimal(p,s)] ([VDecimal], with
    its unscaled integer) and [double] ([VDouble], a finite value, given
    exactly).  Timestamps and dates are civil times, as in a session whose
    time zone has no daylight-saving shifts. *)
Inductive value : Type :=
| VNull
| VBool (b : bool)
| VInt (z : Z)
| VDecimal (precision scale : nat) (unscaled : Z)
| VDouble (q : Q)
| VStr (s : string)
| VTimestamp (t : datetime)
| VDate (d : date)
| VStruct (fields : list value)
| VArray (items : list value).

(** Equality of two cells of one column, as grouping uses it (nulls are
    told apart by the callers). *)
Fixpoint value_eqb (a b : value) : bool :=
  match a, b with
  | VNull, VNull => true
  | VBool x, VBool y => Bool.eqb x y
  | VInt x, VInt y => Z.eqb x y
  | VDecimal p s x, VDecimal p' s' y => (p =? p') && (s =? s') && Z.eqb x y
  | VDouble x, VDouble y => Qeq_bool x y
  | VStr x, VStr y => String.eqb x y
  | VTimestamp x, VTimestamp y => datetime_eqb x y
  | VDate x, VDate y => date_eqb x y
  | VStruct xs, VStruct ys
  | VArray xs, VArray ys =>
      (fix all2 (l1 l2 : list value) {struct l1} : bool :=
         match l1, l2 with
         | [], [] => true
         | x :: l1', y :: l2' => value_eqb x y && all2 l1' l2'
         | _, _ => false
         end) xs ys
  | _, _ => false
  end.

Definition is_null (v : value) : bool :=
  match v with VNull => true | _ => false end.

(** The scalar types, and the type of a scalar cell that is not null. *)
Inductive scalar_type : Type :=
| TBoolean
| TBigint
| TDecimal (precision scale : nat)
| TDouble
| TString
| TTimestamp
| TDate.

Definition type_of (v : value) : option scalar_type :=
  match v with
  | VBool _ => Some TBoolean
  | VInt _ => Some TBigint
  | VDecimal p s _ => Some (TDecimal p s)
  | VDouble _ => Some TDouble
  | VStr _ => Some TString
  | VTimestamp _ => Some TTimestamp
  | VDate _ => Some TDate
  | _ => None
  end.

Definition scalar_type_eqb (a b : scalar_type) : bool :=
  match a, b with
  | TBoolean, TBoolean | TBigint, TBigint | TDouble, TDouble | TString, TString
  | TTimestamp, TTimestamp | TDate, TDate => true
  | TDecimal p s, TDecimal p' s' => (p =? p') && (s =? s')
  | _, _ => false
  end.

(** Two scalar cells of the same type, neither of them null.  The engine
    compares cells of different types after a coercion; coercions are not
    described here. *)
Definition same_type (a b : value) : bool :=
  match type_of a, type_of b with
  | Some x, Some y => scalar_type_eqb x y
  | _, _ => false
  end.

(** Ordering of scalar cells of one type, as [max] uses it; cells that
    this development does not order have none. *)
Definition value_ltb (a b : value) : option bool :=
  match a, b with
  | VBool x, VBool y => Some (negb x && y)
  | VInt x, VInt y => Some (Z.ltb x y)
  | VDecimal p s x, VDecimal p' s' y =>
      if (p =? p') && (s =? s') then Some (Z.ltb x y) else None
  | VDouble x, VDouble y => Some (negb (Qle_bool y x))
  | VStr x, VStr y => Some (String.ltb x y)
  | VTimestamp x, VTimestamp y => Some (datetime_ltb x y)
  | VDate x, VDate y => Some (date_ltb x y)
  | _, _ => None
  end.

(** ** Casting a string (Spark's [stringToDate] and [stringToTimestamp])

    A cast answers a value, or NULL ([Ok None]) for a text that is no
    date or timestamp.  The texts described are those on which the versions
    of the engine agree: a year of four digits, and, for a timestamp, a full
    time of day without a zone.  A text outside them is [Unmodelled]. *)

Definition is_digit (c : ascii) : bool :=
  (48 <=? N_of_ascii c)%N && (N_of_ascii c <=? 57)%N.

Definition digit_value (c : ascii) : N := (N_of_ascii c - 48)%N.

Fixpoint read_digits (s : string) : list N * string :=
  match s with
  | String c r =>
      if is_digit c
      then let '(ds, r') := read_digits r in (digit_value c :: ds, r')
      else ([], s)
  | EmptyString => ([], s)
  end.

Definition number (ds : list N) : N :=
  fold_left (fun a d => (10 * a + d)%N) ds 0%N.

Definition expect (c : ascii) (s : string) : option string :=
  match s with
  | String c' r => if Ascii.eqb c c' then Some r else None
  | EmptyString => None
  end.

(** Blanks and control characters go from both ends before a cast. *)
Definition is_blank (c : ascii) : bool := (N_of_ascii c <=? 32)%N.

Fixpoint trim_left (s : string) : string :=
  match s with
  | String c r => if is_blank c then trim_left r else s
  | EmptyString => s
  end.

Fixpoint trim_right (s : string) : string :=
  match s with
  | EmptyString => EmptyString
  | String c r =>
      match trim_right r with
      | EmptyString => if is_blank c then EmptyString else String c EmptyString
      | r' => String c r'
      end
  end.

Definition trim_all (s : string) : string := trim_right (trim_left s).

Fixpoint last_char (s : string) : option ascii :=
  match s with
  | EmptyString => None
  | String c EmptyString => Some c
  | String _ r => last_char r
  end.

(** A character past the printable ASCII range at an end of the text: the
    versions of the engine do not trim it alike. *)
Definition is_odd (c : option ascii) : bool :=
  match c with
  | Some c => (127 <=? N_of_ascii c)%N
  | None => false
  end.

Definition odd_ends (s : string) : bool :=
  is_odd (match s with String c _ => Some c | EmptyString => None end)
  || is_odd (last_char s).

Definition lower (c : ascii) : ascii :=
  let n := N_of_ascii c in
  if ((65 <=? n) && (n <=? 90))%N then ascii_of_N (n + 32) else c.

Fixpoint lower_string (s : string) : string :=
  match s with
  | EmptyString => EmptyString
  | String c r => String (lower c) (lower_string r)
  end.

Fixpoint has_prefix (p s : string) : bool :=
  match p, s with
  | EmptyString, _ => true
  | String a p', String b s' => Ascii.eqb a b && has_prefix p' s'
  | _, EmptyString => false
  end.

(** Words that some versions of the engine read as a moment. *)
Definition special_words : list string :=
  ["epoch"; "now"; "today"; "tomorrow"; "yesterday"].

Definition is_special (s : string) : bool :=
  existsb (fun w => has_prefix w (lower_string s)) special_words.

Definition is_sign (c : ascii) : bool := Ascii.eqb c "+" || Ascii.eqb c "-".

(** What ends the date in a text: a blank or a [T]. *)
Definition is_separator (c : ascii) : bool := Ascii.eqb c " " || Ascii.eqb c "T".

(** The date at the start of a text. *)
Inductive date_text : Type :=
| NoDate                                  (* the engine finds none: NULL *)
| UnclearDate                             (* not described *)
| DateThen (d : date) (rest : string).    (* a date and what follows it *)

Definition make_date (y m d : N) (rest : string) : date_text :=
  if (y =? 0)%N then UnclearDate
  else if valid_date (mk_date y m d) then DateThen (mk_date y m d) rest
  else NoDate.

(** A month or a day: one or two digits. *)
Definition short_field (ds : list N) : bool :=
  (1 <=? List.length ds) && (List.length ds <=? 2).

Definition read_day (y m : N) (s : string) : date_text :=
  let '(ds, r) := read_digits s in
  if negb (short_field ds) then NoDate
  else match r with
       | EmptyString => make_date y m (number ds) EmptyString
       | String c _ => if is_separator c then make_date y m (number ds) r else NoDate
       end.

Definition read_month (y : N) (s : string) : date_text :=
  let '(ms, r) := read_digits s in
  if negb (short_field ms) then NoDate
  else match r with
       | EmptyString => make_date y (number ms) 1 EmptyString
       | String c r' =>
           if Ascii.eqb c "-" then read_day y (number ms) r'
           else if is_separator c then UnclearDate
           else NoDate
       end.

(** [yyyy], [yyyy-[m]m] or [yyyy-[m]m-[d]d]; after a full date, a blank or
    a [T] and anything may follow. *)
Definition read_date (s : string) : date_text :=
  let '(ys, r) := read_digits s in
  if List.length ys <? 4 then NoDate
  else if 4 <? List.length ys then UnclearDate
  else match r with
       | EmptyString => make_date (number ys) 1 1 EmptyString
       | String c r' =>
           if Ascii.eqb c "-" then read_month (number ys) r'
           else if is_separator c then UnclearDate
           else NoDate
       end.

(** The cast to date ignores what follows a full date. *)
Definition cast_date (s : string) : result (option date) :=
  let t := trim_all s in
  match t with
  | EmptyString => Ok None
  | String c _ =>
      if odd_ends t || is_special t || is_sign c then Err Unmodelled
      else if is_digit c then
        match read_date t with
        | DateThen d _ => Ok (Some d)
        | NoDate => Ok None
        | UnclearDate => Err Unmodelled
        end
      else Ok None
  end.

(** The fraction of a second: nothing, or a point and one to six digits,
    read as microseconds. *)
Definition read_fraction (s : string) : option N :=
  match s with
  | EmptyString => Some 0%N
  | String c r =>
      if Ascii.eqb c "." then
        let '(fs, r') := read_digits r in
        match r' with
        | EmptyString =>
            if (1 <=? List.length fs) && (List.length fs <=? 6)
            then Some (number fs * 10 ^ N.of_nat (6 - List.length fs))%N
            else None
        | _ => None
        end
      else None
  end.

Definition obind {A B} (o : option A) (f : A -> option B) : option B :=
  match o with Some a => f a | None => None end.

(** [[h]h:[m]m:[s]s[.f]] and nothing after it: the three fields and the
    microseconds. *)
Definition read_time (s : string) : option (N * N * N * N) :=
  let '(hs, r) := read_digits s in
  if negb (short_field hs) then None else
  obind (expect ":" r) (fun r =>
  let '(ms, r) := read_digits r in
  if negb (short_field ms) then None else
  obind (expect ":" r) (fun r =>
  let '(ss, r) := read_digits r in
  if negb (short_field ss) then None else
  obind (read_fraction r) (fun us =>
  Some (number hs, number ms, number ss, us)))).

(** A date alone is its midnight; a time of day follows a full date after a
    blank or a [T].  Fields out of range make the text no timestamp. *)
Definition cast_timestamp (s : string) : result (option datetime) :=
  let t := trim_all s in
  match t with
  | EmptyString => Ok None
  | String c _ =>
      if odd_ends t || is_special t || is_sign c then Err Unmodelled
      else if is_digit c then
        match read_date t with
        | DateThen d EmptyString =>
            Ok (Some (mk_datetime (d_year d) (d_month d) (d_day d) 0 0 0 0))
        | DateThen d (String _ r) =>
            match read_time r with
            | Some (h, mi, sec, us) =>
                let ts := mk_datetime (d_year d) (d_month d) (d_day d) h mi sec us in
                if valid_datetime ts then Ok (Some ts) else Ok None
            | None => Err Unmodelled
            end
        | NoDate =>
            (* digits and a colon start a time of day without a date *)
            match snd (read_digits t) with
            | String c' _ => if Ascii.eqb c' ":" then Err Unmodelled else Ok None
            | EmptyString => Ok None
            end
        | UnclearDate => Err Unmodelled
        end
      else if Ascii.eqb c "T" then Err Unmodelled
      else Ok None
  end.

(** [a = b] in a filter: [Ok None] is SQL's NULL.  A string compared with a
    timestamp or a date is cast to that type; a text that does not cast is
    NULL.  Two cells of one scalar type are compared as they are. *)
Definition sql_eq (a b : value) : result (option bool) :=
  match a, b with
  | VNull, _ | _, VNull => Ok None
  | VTimestamp t, VStr s | VStr s, VTimestamp t =>
      (c <- cast_timestamp s ;; Ok (option_map (datetime_eqb t) c))%result
  | VDate d, VStr s | VStr s, VDate d =>
      (c <- cast_date s ;; Ok (option_map (date_eqb d) c))%result
  | _, _ => if same_type a b then Ok (Some (value_eqb a b)) else Err Unmodelled
  end.

(** ** Sums and means

    [sum] and [avg] skip nulls and are NULL over no value.  Over [bigint]
    the sum is a [bigint] and wraps around; over [decimal(p,s)] it is a
    [decimal(p+10,s)]; over [double] it is described where no addition
    rounds, whatever the order in which the engine adds. *)

Local Open Scope list_scope.

Inductive numbers : Type :=
| NoNumbers
| Longs (zs : list Z)
| Decimals (precision scale : nat) (unscaled : list Z)
| Doubles (qs : list Q).

Definition add_number (v : value) (ns : numbers) : result numbers :=
  match v, ns with
  | VNull, _ => Ok ns
  | VInt z, NoNumbers => Ok (Longs [z])
  | VInt z, Longs zs => Ok (Longs (z :: zs))
  | VDecimal p s u, NoNumbers => Ok (Decimals p s [u])
  | VDecimal p s u, Decimals p' s' us =>
      if (p =? p') && (s =? s') then Ok (Decimals p s (u :: us)) else Err Unmodelled
  | VDouble q, NoNumbers => Ok (Doubles [q])
  | VDouble q, Doubles qs => Ok (Doubles (q :: qs))
  | _, _ => Err Unmodelled
  end.

(** The non-null cells of a numeric column. *)
Fixpoint numeric_cells (vs : list value) : result numbers :=
  match vs with
  | [] => Ok NoNumbers
  | v :: vs' => (ns <- numeric_cells vs' ;; add_number v ns)%result
  end.

Definition Zsum (zs : list Z) : Z := fold_right Z.add 0%Z zs.

Definition Zsum_abs (zs : list Z) : Z :=
  fold_right (fun z acc => (Z.abs z + acc)%Z) 0%Z zs.

Definition Qsum (qs : list Q) : Q := fold_right Qplus (0 # 1)%Q qs.

Definition is_long (z : Z) : bool := ((- 2 ^ 63 <=? z) && (z <? 2 ^ 63))%Z.

(** Addition of [bigint]s wraps around. *)
Definition wrap_long (z : Z) : Z := ((z + 2 ^ 63) mod 2 ^ 64 - 2 ^ 63)%Z.

Definition max_precision : nat := 38.

Definition sum_precision (p : nat) : nat := Nat.min (p + 10) max_precision.

Definition fits (precision : nat) (u : Z) : bool :=
  (Z.abs u <? 10 ^ Z.of_nat precision)%Z.

(** A sum of decimals that stays within its type whatever the order of the
    additions. *)
Definition decimals_add_up (p s : nat) (us : list Z) : bool :=
  (s <=? p) && (p <=? max_precision) && forallb (fits p) us
  && (Zsum_abs us <? 10 ^ Z.of_nat (sum_precision p))%Z.

Definition is_power_of_two (p : positive) : bool :=
  (2 ^ Z.log2 (Zpos p) =? Zpos p)%Z.

(** The finest step among doubles, as the denominator they share, and a
    double as a multiple of that step. *)
Definition grid (qs : list Q) : positive :=
  fold_right (fun q d => Pos.max (Qden q) d) 1%positive qs.

Definition on_grid (d : positive) (q : Q) : Z :=
  (Qnum q * (Zpos d / Zpos (Qden q)))%Z.

(** Doubles that add up without rounding in whatever order: multiples of
    one step, whose absolute values add up to at most [2^53] steps. *)
Definition doubles_add_up (qs : list Q) : bool :=
  forallb (fun q => is_power_of_two (Qden q)) qs
  && (Zpos (grid qs) <=? 2 ^ 1074)%Z
  && (Zsum_abs (map (on_grid (grid qs)) qs) <=? 2 ^ 53)%Z.

Definition sum_cells (vs : list value) : result value :=
  (ns <- numeric_cells vs ;;
   match ns with
   | NoNumbers => Ok VNull
   | Longs zs =>
       if forallb is_long zs then Ok (VInt (wrap_long (Zsum zs))) else Err Unmodelled
   | Decimals p s us =>
       if decimals_add_up p s us
       then Ok (VDecimal (sum_precision p) s (Zsum us))
       else Err Unmodelled
   | Doubles qs =>
       if doubles_add_up qs then Ok (VDouble (Qred (Qsum qs))) else Err Unmodelled
   end)%result.

(** Rounding to the nearest, ties to even: [n / d] for [0 <= n], [0 < d]. *)
Definition round_half_even (n d : Z) : Z :=
  let f := (n / d)%Z in
  match (2 * (n mod d) ?= d)%Z with
  | Lt => f
  | Gt => (f + 1)%Z
  | Eq => if Z.even f then f else (f + 1)%Z
  end.

(** The double nearest to a rational: 53 bits from the exponent of the
    value on, or from [-1022] for the smallest values; nothing beyond the
    greatest double. *)
Definition round_double (q : Q) : option Q :=
  let a := Z.abs (Qnum q) in
  let b := Zpos (Qden q) in
  if (a =? 0)%Z then Some (0 # 1)%Q else
  let e0 := (Z.log2 a - Z.log2 b)%Z in
  let below :=
    if (0 <=? e0)%Z then (a <? b * 2 ^ e0)%Z else (a * 2 ^ (- e0) <? b)%Z in
  let e := Z.max (if below then e0 - 1 else e0)%Z (-1022)%Z in
  let k := (e - 52)%Z in
  let m :=
    if (0 <=? k)%Z then round_half_even a (b * 2 ^ k)%Z
    else round_half_even (a * 2 ^ (- k))%Z b in
  if ((971 <? k) || ((k =? 971) && (2 ^ 53 <=? m)))%Z then None
  else
    let signed := (Z.sgn (Qnum q) * m)%Z in
    Some (Qred (if (0 <=? k)%Z then inject_Z (signed * 2 ^ k)
                else signed # Z.to_pos (2 ^ (- k)))).

(** The mean of doubles: their sum, where it does not round, divided by
    their number, rounded once. *)
Definition mean_doubles (qs : list Q) : result value :=
  if doubles_add_up qs && (Z.of_nat (List.length qs) <=? 2 ^ 53)%Z then
    match round_double (Qsum qs / inject_Z (Z.of_nat (List.length qs))) with
    | Some m => Ok (VDouble m)
    | None => Err Unmodelled
    end
  else Err Unmodelled.

(** Rounding half up, away from zero: [n / d] for [0 < d]. *)
Definition half_up (n d : Z) : Z :=
  (Z.sgn n * ((2 * Z.abs n + d) / (2 * d)))%Z.

(** An unscaled value brought from one scale to another. *)
Definition rescale (u : Z) (from to : nat) : Z :=
  if from <=? to then (u * 10 ^ Z.of_nat (to - from))%Z
  else half_up u (10 ^ Z.of_nat (from - to)).

(** The scale of the division of the sum by the count, a [decimal(20,0)],
    by the engine's rule for the type of a quotient. *)
Definition divide_scale (p s : nat) : nat :=
  if sum_precision p + 21 <=? max_precision then s + 21
  else Nat.max (max_precision - (sum_precision p - s)) 6.

Definition mean_precision (p : nat) : nat := Nat.min (p + 4) max_precision.
Definition mean_scale (s : nat) : nat := Nat.min (s + 4) max_precision.

(** The ways the versions of the engine round the quotient [u / (n 10^s)]
    to the scale of the mean: the quotient is taken at 38 or at 39 digits
    after the point, then brought to the scale of the mean, directly or
    through the scale of the division.  Each way is paired with the value it
    passes through in the type of the division (zero when it passes through
    none). *)
Definition mean_roundings (p s : nat) (u n : Z) : list (Z * Z) :=
  flat_map
    (fun g =>
       let q := half_up (u * 10 ^ Z.of_nat g) (n * 10 ^ Z.of_nat s) in
       let through := rescale q g (divide_scale p s) in
       [(0%Z, rescale q g (mean_scale s));
        (through, rescale through (divide_scale p s) (mean_scale s))])
    [38; 39].

(** The mean of decimals is a [decimal(p+4,s+4)]; it is described where
    every way of rounding gives the same value and nothing overflows. *)
Definition mean_decimals (p s : nat) (us : list Z) : result value :=
  if decimals_add_up p s us then
    match mean_roundings p s (Zsum us) (Z.of_nat (List.length us)) with
    | (_, m) :: _ as ways =>
        if forallb (fun w => fits max_precision (fst w) && Z.eqb (snd w) m) ways
           && fits (mean_precision p) m
        then Ok (VDecimal (mean_precision p) (mean_scale s) m)
        else Err Unmodelled
    | [] => Err Unmodelled
    end
  else Err Unmodelled.

(** The mean of [bigint]s is the mean of the doubles they convert to. *)
Definition mean_cells (vs : list value) : result value :=
  (ns <- numeric_cells vs ;;
   match ns with
   | NoNumbers => Ok VNull
   | Longs zs =>
       if forallb is_long zs then mean_doubles (map inject_Z zs) else Err Unmodelled
   | Decimals p s us => mean_decimals p s us
   | Doubles qs => mean_doubles qs
   end)%result.

(** ** Frames *)

(** An attribute is a column of a frame: the expression id the engine
    refers to it by, and its name. *)
Record attr : Type := mk_attr { expr_id : nat; col_name : string }.

Definition row : Type := list value.

Record DataFrame : Type := mk_df { schema : list attr; rows : list row }.

Definition columns (df : DataFrame) : list string := map col_name (schema df).

Definition cell (r : row) (i : nat) : value := nth i r VNull.

(** Names are compared without regard to the case of letters (the engine's
    default; letters outside ASCII are compared as written). *)
Definition name_eqb (a b : string) : bool :=
  String.eqb (lower_string a) (lower_string b).

Fixpoint positions_from (i : nat) (name : string) (sch : list attr) : list nat :=
  match sch with
  | [] => []
  | a :: sch' =>
      if name_eqb (col_name a) name
      then i :: positions_from (S i) name sch'
      else positions_from (S i) name sch'
  end.

Definition positions (name : string) (sch : list attr) : list nat :=
  positions_from 0 name sch.

Definition id_at (sch : list attr) (i : nat) : nat :=
  expr_id (nth i sch (mk_attr 0 "")).

Fixpoint distinct (l : list nat) : bool :=
  match l with
  | [] => true
  | x :: l' => negb (existsb (Nat.eqb x) l') && distinct l'
  end.

(** A name resolves to the one attribute that bears it, which the engine
    then calls by the name as written.  No attribute of that name, or
    several different ones, is an error of analysis; one attribute standing
    in several columns is not described. *)
Definition resolve (df : DataFrame) (name : string) : result (nat * attr) :=
  match positions name (schema df) with
  | [] => Err AnalysisException
  | [i] => Ok (i, mk_attr (id_at (schema df) i) name)
  | ps => if distinct (map (id_at (schema df)) ps)
          then Err AnalysisException else Err Unmodelled
  end.

(** [df.select([col(c) for c in names])] *)
Definition select (df : DataFrame) (names : list string) : result DataFrame :=
  (cols <- rmap_list (resolve df) names ;;
   Ok (mk_df (map snd cols)
             (map (fun r => map (fun c => cell r (fst c)) cols) (rows df))))%result.

(** A cell of a boolean column, as a filter condition: null does not
    pass; a cell of another type is a type error. *)
Definition as_condition (v : value) : result bool :=
  match v with
  | VBool b => Ok b
  | VNull => Ok false
  | _ => Err AnalysisException
  end.

(** [df.filter(col(name))]: the rows whose cell is [true]. *)
Definition filter_col (df : DataFrame) (name : string) : result DataFrame :=
  (c <- resolve df name ;;
   kept <- rfilter (fun r => as_condition (cell r (fst c))) (rows df) ;;
   Ok (mk_df (schema df) kept))%result.

(** [df[name]]: a reference to one attribute of [df]. *)
Definition getitem (df : DataFrame) (name : string) : result attr :=
  (c <- resolve df name ;; Ok (snd c))%result.

Fixpoint keep_mask {A} (mask : list bool) (l : list A) : list A :=
  match mask, l with
  | b :: mask', x :: l' => if b then x :: keep_mask mask' l' else keep_mask mask' l'
  | _, _ => []
  end.

(** [df.drop(ref)]: every attribute with the reference's expression id goes;
    a reference to nothing in [df] changes nothing. *)
Definition drop (df : DataFrame) (ref : attr) : DataFrame :=
  let mask := map (fun a => negb (expr_id a =? expr_id ref)) (schema df) in
  mk_df (keep_mask mask (schema df)) (map (keep_mask mask) (rows df)).

(** ** Derived columns *)

(** The two column expressions the units build: [lit(v)] and
    [col(name).cast("date")]. *)
Inductive column_expr : Type :=
| Lit (v : value)
| CastDate (name : string).

Definition cast_date_cell (v : value) : result value :=
  match v with
  | VNull => Ok VNull
  | VTimestamp t => Ok (VDate (date_of t))
  | VDate d => Ok (VDate d)
  | VStr s =>
      (d <- cast_date s ;;
       Ok (match d with Some d => VDate d | None => VNull end))%result
  | _ => Err Unmodelled
  end.

Definition eval_column (df : DataFrame) (e : column_expr) : result (list value) :=
  match e with
  | Lit v => Ok (map (fun _ => v) (rows df))
  | CastDate name =>
      (c <- resolve df name ;;
       rmap_list (fun r => cast_date_cell (cell r (fst c))) (rows df))%result
  end.

Fixpoint set_where {A} (mask : list bool) (x : A) (l : list A) : list A :=
  match mask, l with
  | b :: mask', y :: l' => (if b then x else y) :: set_where mask' x l'
  | _, _ => []
  end.

(** [df.withColumn(name, e)]: a column of that name is replaced where it
    stands, otherwise the new column goes last.  [id] is the expression id
    the engine gives the new attribute.  With several columns of that name
    the engine replaces each by an attribute of its own; that case is not
    described. *)
Definition withColumn (df : DataFrame) (name : string) (e : column_expr) (id : nat)
  : result DataFrame :=
  (vs <- eval_column df e ;;
   let mask := map (fun a => name_eqb (col_name a) name) (schema df) in
   match positions name (schema df) with
   | [] => Ok (mk_df (schema df ++ [mk_attr id name])
                     (map (fun rv => fst rv ++ [snd rv]) (combine (rows df) vs)))
   | [_] => Ok (mk_df (set_where mask (mk_attr id name) (schema df))
                      (map (fun rv => set_where mask (snd rv) (fst rv))
                           (combine (rows df) vs)))
   | _ => Err Unmodelled
   end)%result.

(** ** Grouping and aggregation *)

Inductive agg_expr : Type :=
| Sum (c : string)                       (* sum(c) *)
| Mean (c : string)                      (* mean(c) *)
| CollectListStruct (cs : list string).  (* collect_list(struct(cs)) *)

(** An aggregate with its columns resolved: what it makes of a group. *)
Definition bind_agg (df : DataFrame) (a : agg_expr)
  : result (list row -> result value) :=
  match a with
  | Sum c =>
      (i <- resolve df c ;;
       Ok (fun group => sum_cells (map (fun r => cell r (fst i)) group)))%result
  | Mean c =>
      (i <- resolve df c ;;
       Ok (fun group => mean_cells (map (fun r => cell r (fst i)) group)))%result
  | CollectListStruct cs =>
      (ixs <- rmap_list (resolve df) cs ;;
       Ok (fun group =>
             Ok (VArray (map (fun r => VStruct (map (fun i => cell r (fst i)) ixs))
                             group))))%result
  end.

(** The distinct keys, in order of first appearance. *)
Fixpoint distinct_keys (seen ks : list value) : list value :=
  match ks with
  | [] => []
  | k :: ks' =>
      if existsb (value_eqb k) seen
      then distinct_keys seen ks'
      else k :: distinct_keys (k :: seen) ks'
  end.

(** [df.groupBy(key).agg(a1.alias(n1), ...)]: the columns are resolved
    first; then one row per distinct key (null is a key of its own); the key
    keeps its attribute, every aggregate gets the attribute paired with it.
    The engine promises no order of the rows, nor of the elements that
    [collect_list] gathers; the order here is the order of first
    appearance. *)
Definition groupBy_agg (df : DataFrame) (key : string)
    (aggs : list (agg_expr * attr)) : result DataFrame :=
  (k <- resolve df key ;;
   fs <- rmap_list (fun a => bind_agg df (fst a)) aggs ;;
   let keys := distinct_keys [] (map (fun r => cell r (fst k)) (rows df)) in
   out <- rmap_list
            (fun kv =>
               let group := filter (fun r => value_eqb (cell r (fst k)) kv) (rows df) in
               vs <- rmap_list (fun f => f group) fs ;;
               Ok (kv :: vs))
            keys ;;
   Ok (mk_df (snd k :: map snd aggs) out))%result.

(** ** Joins on one named column *)

Inductive join_type : Type := Inner | LeftOuter.

Definition remove_at {A} (i : nat) (l : list A) : list A :=
  firstn i l ++ skipn (S i) l.

(** The attributes of the right side of a join under the expression ids
    the analyzer leaves them with: it gives new ids to attributes of the
    right side that the left side has too, and to those that come from a
    source the two sides share. *)
Fixpoint renumber (sch : list attr) (ids : list nat) : list attr :=
  match sch, ids with
  | a :: sch', id :: ids' => mk_attr id (col_name a) :: renumber sch' ids'
  | _, _ => sch
  end.

(** Whether a key of the left side meets a key of the right side: null
    meets nothing, keys of one scalar type meet when equal.  Keys of
    different types are compared after a coercion, which is not described. *)
Definition keys_meet (k k' : value) : result bool :=
  if is_null k || is_null k' then Ok false
  else if same_type k k' then Ok (value_eqb k k')
  else Err Unmodelled.

(** The column a join takes as the key of a side: the first of that name.
    An attribute standing in several columns is not described. *)
Definition key_position (sch : list attr) (key : string) : result nat :=
  match positions key sch with
  | [] => Err AnalysisException
  | i :: _ =>
      if count_occ Nat.eq_dec (map expr_id sch) (id_at sch i) =? 1
      then Ok i else Err Unmodelled
  end.

(** [l.join(r, key, how)]: the key appears once, from the left side, then
    the other left columns, then the other right columns, the latter under
    the ids [right_ids].  A left row without a match stays, with nulls, in a
    left join. *)
Definition join (l r : DataFrame) (key : string) (how : join_type)
    (right_ids : list nat) : result DataFrame :=
  (li <- key_position (schema l) key ;;
   ri <- key_position (schema r) key ;;
   joined <- rmap_list
     (fun lr =>
        let k := cell lr li in
        ms <- rfilter (fun rr => keys_meet k (cell rr ri)) (rows r) ;;
        Ok (match ms, how with
            | [], LeftOuter =>
                [k :: remove_at li lr ++ repeat VNull (List.length (schema r) - 1)]
            | _, _ => map (fun rr => k :: remove_at li lr ++ remove_at ri rr) ms
            end))
     (rows l) ;;
   Ok (mk_df (nth li (schema l) (mk_attr 0 key)
                :: remove_at li (schema l)
                ++ remove_at ri (renumber (schema r) right_ids))
             (List.concat joined)))%result.

(** ** The latest-partition probe *)

Definition max_step (acc v : value) : result value :=
  if is_null v then Ok acc
  else if is_null acc then Ok v
  else match value_ltb acc v with
       | Some true => Ok v
       | Some false => Ok acc
       | None => Err Unmodelled
       end.

(** [max] skips nulls and is null on no input. *)
Fixpoint max_from (acc : value) (vs : list value) : result value :=
  match vs with
  | [] => Ok acc
  | v :: vs' => rbind (max_step acc v) (fun acc' => max_from acc' vs')
  end.

Definition max_cells (vs : list value) : result value := max_from VNull vs.

(** [df.selectExpr("max(name)").collect()[0][0]] *)
Definition select_max (df : DataFrame) (name : string) : result value :=
  (c <- resolve df name ;;
   max_cells (map (fun r => cell r (fst c)) (rows df)))%result.

(** [str(v)] of a collected cell, for the scalar types a partition column
    holds. *)
Definition py_str (v : value) : result string :=
  match v with
  | VNull => Ok "None"
  | VBool true => Ok "True"
  | VBool false => Ok "False"
  | VStr s => Ok s
  | VTimestamp t => Ok (str_datetime t)
  | VDate d => Ok (str_date d)
  | _ => Err Unmodelled
  end.

End Spark.
(* ================================================================== *)
(** * Filter conditions given as SQL text                              *)
(* ================================================================== *)

(** [df.filter(text)] parses [text] with the engine's expression parser.
    The fragment described here is what the units generate: conjunctions
    [a = b AND c = d ...] whose operands are column names and quoted
    string literals.  Text that the engine may accept but that lies
    outside this fragment yields [Unmodelled]; [ParseException] is
    returned only where the engine rejects the text as well. *)
Module SparkSql.
Import Spark.
Local Open Scope list_scope.

Inductive token : Type :=
| TIdent (s : string)
| TString (s : string)
| TEq.

Definition is_space (c : ascii) : bool :=
  Ascii.eqb c " " || (N_of_ascii c =? 9)%N || (N_of_ascii c =? 10)%N
  || (N_of_ascii c =? 13)%N.

Definition is_letter (c : ascii) : bool :=
  let n := N_of_ascii c in
  ((65 <=? n) && (n <=? 90) || (97 <=? n) && (n <=? 122))%N.

Definition is_ident_char (c : ascii) : bool :=
  is_letter c || is_digit c || Ascii.eqb c "_".

Definition quote : ascii := "'".
Definition backslash : ascii := ascii_of_N 92.

Inductive lex_state : Type :=
| Blank
| InIdent (acc : string)
| InString (acc : string).

Definition snoc (s : string) (c : ascii) : string := (s ++ String c "")%string.

(** The first character of a token. *)
Definition start (c : ascii) : result (list token * lex_state) :=
  if is_space c then Ok ([], Blank)
  else if Ascii.eqb c quote then Ok ([], InString "")
  else if Ascii.eqb c "=" then Ok ([TEq], Blank)
  else if is_ident_char c then Ok ([], InIdent (String c ""))
  else Err Unmodelled.

(** Longest match: an identifier runs on while identifier characters
    follow; a string literal runs to the next quote. *)
Definition step (st : lex_state) (c : ascii) : result (list token * lex_state) :=
  match st with
  | Blank => start c
  | InIdent acc =>
      if is_ident_char c then Ok ([], InIdent (snoc acc c))
      else (p <- start c ;; Ok (TIdent acc :: fst p, snd p))%result
  | InString acc =>
      if Ascii.eqb c quote then Ok ([TString acc], Blank)
      else if Ascii.eqb c backslash then Err Unmodelled
      else Ok ([], InString (snoc acc c))
  end.

Fixpoint lex (st : lex_state) (s : string) : result (list token) :=
  match s with
  | EmptyString =>
      match st with
      | Blank => Ok []
      | InIdent acc => Ok [TIdent acc]
      | InString _ => Err ParseException      (* unterminated literal *)
      end
  | String c r =>
      (p <- step st c ;; ts <- lex (snd p) r ;; Ok (fst p ++ ts))%result
  end.

Definition upper (c : ascii) : ascii :=
  let n := N_of_ascii c in
  if ((97 <=? n) && (n <=? 122))%N then ascii_of_N (n - 32) else c.

Fixpoint upper_string (s : string) : string :=
  match s with
  | EmptyString => EmptyString
  | String c r => String (upper c) (upper_string r)
  end.

Definition is_and (w : string) : bool := String.eqb (upper_string w) "AND".

(** Words that are not plain column names to the parser. *)
Definition keywords : list string :=
  ["AND"; "OR"; "NOT"; "NULL"; "TRUE"; "FALSE"; "IS"; "IN"; "LIKE"; "RLIKE";
   "BETWEEN"; "CASE"; "CAST"; "DATE"; "TIMESTAMP"; "INTERVAL"; "DIV"; "AS";
   "EXISTS"; "X"].

Definition is_keyword (w : string) : bool :=
  existsb (String.eqb (upper_string w)) keywords.

Definition starts_with_digit (w : string) : bool :=
  match w with
  | String c _ => is_digit c
  | EmptyString => false
  end.

Inductive operand : Type :=
| Column (name : string)
| Literal (s : string).

Definition operand_of (t : token) : result operand :=
  match t with
  | TIdent w =>
      if is_keyword w || starts_with_digit w then Err Unmodelled else Ok (Column w)
  | TString s => Ok (Literal s)
  | TEq => Err ParseException
  end.

(** [a = b (AND a = b)*].  After a comparison, a word that is not [AND] is
    read by the engine as an alias, which must end the text: anything after
    it is a syntax error. *)
Fixpoint parse (ts : list token) : result (list (operand * operand)) :=
  match ts with
  | [] => Err ParseException
  | a :: TEq :: b :: rest =>
      (x <- operand_of a ;;
       y <- operand_of b ;;
       match rest with
       | [] => Ok [(x, y)]
       | TIdent w :: rest' =>
           if is_and w then (cs <- parse rest' ;; Ok ((x, y) :: cs))
           else if is_keyword w then Err Unmodelled
           else match rest' with
                | [] => Err Unmodelled
                | _ :: _ => Err ParseException
                end
       | _ => Err Unmodelled
       end)%result
  | _ => Err Unmodelled
  end.

Definition resolve_operand (df : DataFrame) (o : operand) : result (row -> value) :=
  match o with
  | Column n => (c <- resolve df n ;; Ok (fun r => cell r (fst c)))%result
  | Literal s => Ok (fun _ => VStr s)
  end.

Definition resolve_comparison (df : DataFrame) (c : operand * operand)
  : result ((row -> value) * (row -> value)) :=
  (x <- resolve_operand df (fst c) ;;
   y <- resolve_operand df (snd c) ;;
   Ok (x, y))%result.

(** A row passes when every comparison is true (not false, not NULL). *)
Definition holds (cs : list ((row -> value) * (row -> value))) (r : row) : result bool :=
  (vs <- rmap_list (fun c => sql_eq (fst c r) (snd c r)) cs ;;
   Ok (forallb (fun v => match v with Some true => true | _ => false end) vs))%result.

(** [df.filter(condition)] with [condition] a string. *)
Definition filter_expr (df : DataFrame) (condition : string) : result DataFrame :=
  (ts <- lex Blank condition ;;
   cs <- parse ts ;;
   fs <- rmap_list (resolve_comparison df) cs ;;
   kept <- rfilter (holds fs) (rows df) ;;
   Ok (mk_df (schema df) kept))%result.

End SparkSql.

(* ================================================================== *)
(** * Effects: the clock, storage and upstream units                   *)
(* ================================================================== *)

Module Runtime.
Import Py Spark.
Local Open Scope list_scope.

(** Modelled from the spec: the dataset envelope [ETLDataSet] of
    [etl/utils/base_table.py], which is not among the sources; its fields
    are the keyword arguments the units construct it with. *)
Record ETLDataSet : Type := mk_ETLDataSet {
  ds_name : string;
  ds_current_data : DataFrame;
  ds_primary_keys : list string;
  ds_storage_path : string;
  ds_data_format : string;
  ds_database : string;
  ds_partition_keys : list string
}.

(** A Python class object is stood for by its name, an instance created
    from it by a reference that the environment hands out. *)
Definition class_ref : Type := string.
Definition obj : Type := nat.

Inductive event : Type -> Type :=
| Now : event datetime                              (* datetime.now() *)
| NewExprId : event nat                             (* the engine numbers a new attribute *)
| Deduplicate (left right : list attr) : event (list nat)
                                                    (* the analyzer renumbers the right side of a join *)
| Load (data_format storage_path : string) : event DataFrame
                                                    (* spark.read.format(f).load(p) *)
| Instantiate (cls : class_ref) (run_upstream write_data : bool) : event obj
                                                    (* cls(spark=, run_upstream=, write_data=) *)
| CallRun (table : obj) : event unit                (* table.run() *)
| CallRead (table : obj) : event ETLDataSet.        (* table.read() *)

(** Programs: finite trees of events. *)
Inductive prog (A : Type) : Type :=
| Ret (a : A)
| Raise (e : exn)
| Vis (X : Type) (ev : event X) (k : X -> prog A).
Arguments Ret {A} a.
Arguments Raise {A} e.
Arguments Vis {A X} ev k.

Fixpoint bind {A B} (p : prog A) (f : A -> prog B) : prog B :=
  match p with
  | Ret a => f a
  | Raise e => Raise e
  | Vis ev k => Vis ev (fun x => bind (k x) f)
  end.

Definition trigger {X} (ev : event X) : prog X := Vis ev Ret.

Definition lift {A} (r : result A) : prog A :=
  match r with
  | Ok a => Ret a
  | Err e => Raise e
  end.

(** [out = []; for x in l: out.append(body(x))] *)
Fixpoint for_each {A B} (l : list A) (body : A -> prog B) : prog (list B) :=
  match l with
  | [] => Ret []
  | x :: l' =>
      bind (body x) (fun y => bind (for_each l' body) (fun ys => Ret (y :: ys)))
  end.

(** [l.join(r, key, how)].  The analyzer first makes the attributes of the
    two sides differ: it gives new expression ids to attributes of the right
    side, by rules that look at how the two frames were made.  That is an
    event; its answer is the ids of the right side's attributes after it, in
    order.  Everything about the join that depends on the frames alone is in
    [Spark.join]. *)
Definition join_frames (l r : DataFrame) (key : string) (how : join_type)
  : prog DataFrame :=
  bind (trigger (Deduplicate (schema l) (schema r)))
       (fun right_ids => lift (join l r key how right_ids)).

(** [l[i]] *)
Definition index {A} (l : list A) (i : nat) : prog A :=
  match nth_error l i with
  | Some a => Ret a
  | None => Raise IndexError
  end.

(** What a run leaves behind for inspection: every event it issued, with
    its arguments and the environment's answer. *)
Inductive request : Type :=
| RNow
| RNewExprId
| RDeduplicate (left right : list attr)
| RLoad (data_format storage_path : string)
| RInstantiate (cls : class_ref) (run_upstream write_data : bool)
| RRun (table : obj)
| RRead (table : obj).

Inductive answer : Type :=
| ADatetime (t : datetime)
| AExprId (n : nat)
| AExprIds (ids : list nat)
| AFrame (df : DataFrame)
| AObject (o : obj)
| ADone
| AEnvelope (ds : ETLDataSet)
| ARaised (e : exn).

Definition request_of {X} (ev : event X) : request :=
  match ev with
  | Now => RNow
  | NewExprId => RNewExprId
  | Deduplicate l r => RDeduplicate l r
  | Load f p => RLoad f p
  | Instantiate c ru wd => RInstantiate c ru wd
  | CallRun t => RRun t
  | CallRead t => RRead t
  end.

Definition answer_of {X} (ev : event X) : X -> answer :=
  match ev in event X return X -> answer with
  | Now => ADatetime
  | NewExprId => AExprId
  | Deduplicate _ _ => AExprIds
  | Load _ _ => AFrame
  | Instantiate _ _ _ => AObject
  | CallRun _ => fun _ => ADone
  | CallRead _ => AEnvelope
  end.

Definition call : Type := request * answer.

(** An environment answers every event from its own state, or raises. *)
Definition env (W : Type) : Type := forall X, event X -> W -> result X * W.

Record run_result (W A : Type) : Type := mk_run {
  outcome : result A;
  final : W;
  trace : list call
}.
Arguments mk_run {W A}.
Arguments outcome {W A}.
Arguments final {W A}.
Arguments trace {W A}.

Fixpoint interp {W A} (h : env W) (p : prog A) (w : W) : run_result W A :=
  match p with
  | Ret a => mk_run (Ok a) w []
  | Raise e => mk_run (Err e) w []
  | Vis ev k =>
      match h _ ev w with
      | (Ok x, w') =>
          let r := interp h (k x) w' in
          mk_run (outcome r) (final r) ((request_of ev, answer_of ev x) :: trace r)
      | (Err e, w') => mk_run (Err e) w' [(request_of ev, ARaised e)]
      end
  end.

Definition requests (tr : list call) : list request := map fst tr.

Definition is_storage_access (r : request) : bool :=
  match r with RLoad _ _ => true | _ => false end.

(** The times the clock was read, with what it showed. *)
Definition clock_reads (tr : list call) : list answer :=
  map snd (filter (fun c => match fst c with RNow => true | _ => false end) tr).

(** The instances created, the [run()] calls and the [read()] calls, each
    in the order they happened. *)
Definition instantiations (tr : list call) : list (class_ref * bool * bool * answer) :=
  flat_map (fun c => match fst c with
                     | RInstantiate cls ru wd => [(cls, ru, wd, snd c)]
                     | _ => []
                     end) tr.

Definition runs (tr : list call) : list obj :=
  flat_map (fun c => match fst c with RRun t => [t] | _ => [] end) tr.

Definition reads (tr : list call) : list (obj * answer) :=
  flat_map (fun c => match fst c with RRead t => [(t, snd c)] | _ => [] end) tr.

End Runtime.

Declare Scope prog_scope.
Delimit Scope prog_scope with prog.
Notation "x <- p ;; k" := (Runtime.bind p (fun x => k))
  (at level 61, p at next level, right associativity) : prog_scope.

(* ================================================================== *)
(** * The unit base class                                              *)
(* ================================================================== *)

Module Base.
Import Py Spark Runtime.

(** Modelled from the spec: the instance attributes that [TableETL.__init__]
    of [etl/utils/base_table.py] (not among the sources) stores; they are the
    arguments the gold units pass to [super().__init__], plus the
    [current_data] cache that [transform_upstream] fills and [read] serves.
    The [spark] handle is not a field: its calls are events. *)
Record TableETL : Type := mk_TableETL {
  upstream_tables : list class_ref;
  name : string;
  primary_keys : list string;
  storage_path : string;
  data_format : string;
  database : string;
  partition_keys : list string;
  run_upstream : bool;
  write_data : bool;
  current_data : option DataFrame
}.

Definition set_current_data (self : TableETL) (df : DataFrame) : TableETL :=
  mk_TableETL (upstream_tables self) (name self) (primary_keys self)
              (storage_path self) (data_format self) (database self)
              (partition_keys self) (run_upstream self) (write_data self)
              (Some df).

(** A keyword argument left out takes its default. *)
Definition kwarg {A} (given : option A) (default : A) : A :=
  match given with
  | Some a => a
  | None => default
  end.

(** The envelope a unit wraps a frame in. *)
Definition envelope (self : TableETL) (df : DataFrame) : ETLDataSet :=
  mk_ETLDataSet (name self) df (primary_keys self) (storage_path self)
                (data_format self) (database self) (partition_keys self).

(** Python truthiness of an [Optional[Dict]]. *)
Definition truthy {K V} (d : option (list (K * V))) : bool :=
  match d with
  | Some (_ :: _) => true
  | _ => false
  end.

Definition items {K V} (d : option (list (K * V))) : list (K * V) :=
  match d with
  | Some kvs => kvs
  | None => []
  end.

End Base.

(* ================================================================== *)
(** * etl/layers/gold/daily_order_metrics.py                           *)
(* ================================================================== *)

Module DailyOrderMetricsGoldETL.
Import Py Spark SparkSql Runtime Base.
Local Open Scope list_scope.

(** [__init__]: every argument but [spark] has a default. *)
Definition init
    (upstream_tables : option (list class_ref))
    (name : option string)
    (primary_keys : option (list string))
    (storage_path data_format database : option string)
    (partition_keys : option (list string))
    (run_upstream write_data : option bool) : TableETL :=
  mk_TableETL
    (kwarg upstream_tables ["WideOrdersGoldETL"])
    (kwarg name "daily_order_metrics")
    (kwarg primary_keys ["order_ts"])
    (kwarg storage_path "s3a://rainforest/delta/gold/daily_order_metrics")
    (kwarg data_format "delta")
    (kwarg database "rainforest")
    (kwarg partition_keys ["etl_inserted"])
    (kwarg run_upstream true)
    (kwarg write_data true)
    None.

Definition extract_upstream (self : TableETL) : prog (list ETLDataSet) :=
  for_each (upstream_tables self) (fun table_etl_class =>
    (table <- trigger (Instantiate table_etl_class
                                   (run_upstream self) (write_data self)) ;;
     _ <- (if run_upstream self then trigger (CallRun table) else Ret tt) ;;
     trigger (CallRead table))%prog).

(** Returns the envelope together with [self] after the assignment to
    [self.current_data]. *)
Definition transform_upstream (self : TableETL) (upstream_datasets : list ETLDataSet)
  : prog (ETLDataSet * TableETL) :=
  (first <- index upstream_datasets 0 ;;
   let wide_orders_data := ds_current_data first in
   id_date <- trigger NewExprId ;;
   wide_orders_data <-
     lift (withColumn wide_orders_data "order_date" (CastDate "order_ts") id_date) ;;
   wide_orders_data <- lift (filter_col wide_orders_data "is_active") ;;
   id_sum <- trigger NewExprId ;;
   id_mean <- trigger NewExprId ;;
   daily_metrics_data <-
     lift (groupBy_agg wide_orders_data "order_date"
             [(Sum "total_price", mk_attr id_sum "total_price_sum");
              (Mean "total_price", mk_attr id_mean "total_price_mean")]) ;;
   current_timestamp <- trigger Now ;;
   id_ts <- trigger NewExprId ;;
   daily_metrics_data <-
     lift (withColumn daily_metrics_data "etl_inserted"
             (Lit (VTimestamp current_timestamp)) id_ts) ;;
   let etl_dataset := envelope self daily_metrics_data in
   Ret (etl_dataset, set_current_data self (ds_current_data etl_dataset)))%prog.

Definition selected_columns : list string :=
  ["order_date"; "total_price_sum"; "total_price_mean"; "etl_inserted"].

(** [" AND".join([f"{k} = '{v}'" for k, v in partition_values.items()])] *)
Definition partition_filter_of (kvs : list (string * string)) : string :=
  String.concat " AND"
    (map (fun kv => (fst kv ++ " = '" ++ snd kv ++ "'")%string) kvs).

Definition read (self : TableETL) (partition_values : option (list (string * string)))
  : prog ETLDataSet :=
  if negb (write_data self) then
    match current_data self with
    | None => Raise AttributeError
    | Some cached =>
        (data <- lift (select cached selected_columns) ;;
         Ret (envelope self data))%prog
    end
  else
    (partition_filter <-
       (if truthy partition_values
        then Ret (partition_filter_of (items partition_values))
        else
          stored <- trigger (Load (data_format self) (storage_path self)) ;;
          latest_partition <- lift (select_max stored "etl_inserted") ;;
          shown <- lift (py_str latest_partition) ;;
          Ret ("etl_inserted = '" ++ shown ++ "'")%string) ;;
     stored <- trigger (Load (data_format self) (storage_path self)) ;;
     fact_order_data <- lift (filter_expr stored partition_filter) ;;
     fact_order_data <- lift (select fact_order_data selected_columns) ;;
     Ret (envelope self fact_order_data))%prog.

End DailyOrderMetricsGoldETL.

(* ================================================================== *)
(** * etl/layers/gold/wide_order_items_gold.py                         *)
(* ================================================================== *)

Module WideOrderItemsGoldETL.
Import Py Spark SparkSql Runtime Base.
Local Open Scope list_scope.

Definition init
    (upstream_tables : option (list class_ref))
    (name : option string)
    (primary_keys : option (list string))
    (storage_path data_format database : option string)
    (partition_keys : option (list string))
    (run_upstream write_data : option bool) : TableETL :=
  mk_TableETL
    (kwarg upstream_tables
       ["FactOrderItemsSiverETL"; "DimProductSiverETL"; "DimSellerSiverETL";
        "ProductCategorySiverETL"; "DimCategorySiverETL"])
    (kwarg name "wide_order_items")
    (kwarg primary_keys ["order_item_id"])
    (kwarg storage_path "s3a://rainforest/delta/gold/wide_order_items")
    (kwarg data_format "delta")
    (kwarg database "rainforest")
    (kwarg partition_keys ["etl_inserted"])
    (kwarg run_upstream true)
    (kwarg write_data true)
    None.

Definition extract_upstream (self : TableETL) : prog (list ETLDataSet) :=
  for_each (upstream_tables self) (fun table_etl_class =>
    (table <- trigger (Instantiate table_etl_class
                                   (run_upstream self) (write_data self)) ;;
     _ <- (if run_upstream self then trigger (CallRun table) else Ret tt) ;;
     trigger (CallRead table))%prog).

Definition transform_upstream (self : TableETL) (upstream_datasets : list ETLDataSet)
  : prog (ETLDataSet * TableETL) :=
  (d0 <- index upstream_datasets 0 ;;
   d1 <- index upstream_datasets 1 ;;
   d2 <- index upstream_datasets 2 ;;
   d3 <- index upstream_datasets 3 ;;
   d4 <- index upstream_datasets 4 ;;
   let fact_order_items_data := ds_current_data d0 in
   let dim_product_data := ds_current_data d1 in
   let dim_seller_data := ds_current_data d2 in
   let product_category_data := ds_current_data d3 in
   let dim_category_data := ds_current_data d4 in
   current_timestamp <- trigger Now ;;
   with_product <-
     join_frames fact_order_items_data dim_product_data "product_id" LeftOuter ;;
   wide_order_items_data <-
     join_frames with_product dim_seller_data "seller_id" LeftOuter ;;
   bridged <- join_frames product_category_data dim_category_data "category_id" Inner ;;
   category_ts <- lift (getitem dim_category_data "etl_inserted") ;;
   bridge_ts <- lift (getitem product_category_data "etl_inserted") ;;
   let product_category_enriched_data := drop (drop bridged category_ts) bridge_ts in
   id_categories <- trigger NewExprId ;;
   product_category_data_product_grain <-
     lift (groupBy_agg product_category_enriched_data "product_id"
             [(CollectListStruct ["category_id"; "category_name"],
               mk_attr id_categories "categories")]) ;;
   wide_order_items_data <-
     join_frames wide_order_items_data product_category_data_product_grain
                 "product_id" LeftOuter ;;
   fact_ts <- lift (getitem fact_order_items_data "etl_inserted") ;;
   product_ts <- lift (getitem dim_product_data "etl_inserted") ;;
   seller_ts <- lift (getitem dim_seller_data "etl_inserted") ;;
   id_ts <- trigger NewExprId ;;
   wide_order_items_data <-
     lift (withColumn
             (drop (drop (drop wide_order_items_data fact_ts) product_ts) seller_ts)
             "etl_inserted" (Lit (VTimestamp current_timestamp)) id_ts) ;;
   let etl_dataset := envelope self wide_order_items_data in
   Ret (etl_dataset, set_current_data self (ds_current_data etl_dataset)))%prog.

Definition selected_columns : list string :=
  ["order_item_id"; "order_id"; "product_id"; "seller_id"; "quantity";
   "base_price"; "actual_price"; "created_ts"; "tax"; "categories";
   "etl_inserted"].

Definition partition_filter_of (kvs : list (string * string)) : string :=
  String.concat " AND"
    (map (fun kv => (fst kv ++ " = '" ++ snd kv ++ "'")%string) kvs).

Definition read (self : TableETL) (partition_values : option (list (string * string)))
  : prog ETLDataSet :=
  if negb (write_data self) then
    match current_data self with
    | None => Raise AttributeError
    | Some cached =>
        (data <- lift (select cached selected_columns) ;;
         Ret (envelope self data))%prog
    end
  else
    (partition_filter <-
       (if truthy partition_values
        then Ret (partition_filter_of (items partition_values))
        else
          stored <- trigger (Load (data_format self) (storage_path self)) ;;
          latest_partition <- lift (select_max stored "etl_inserted") ;;
          shown <- lift (py_str latest_partition) ;;
          Ret ("etl_inserted = '" ++ shown ++ "'")%string) ;;
     stored <- trigger (Load (data_format self) (storage_path self)) ;;
     fact_order_data <- lift (filter_expr stored partition_filter) ;;
     fact_order_data <- lift (select fact_order_data selected_columns) ;;
     Ret (envelope self fact_order_data))%prog.

End WideOrderItemsGoldETL.

(* ================================================================== *)
(** * Storage and the unit graph, for the statements that need them    *)
(* ================================================================== *)

Module Storage.
Import Spark Runtime Base.
Local Open Scope list_scope.

(** One table per storage path. *)
Definition store : Type := list (string * DataFrame).

Fixpoint lookup (path : string) (s : store) : option DataFrame :=
  match s with
  | [] => None
  | (p, df) :: s' => if String.eqb p path then Some df else lookup path s'
  end.

Fixpoint update (path : string) (df : DataFrame) (s : store) : store :=
  match s with
  | [] => [(path, df)]
  | (p, old) :: s' =>
      if String.eqb p path then (path, df) :: s' else (p, old) :: update path df s'
  end.

Fixpoint same_names (a b : list string) : bool :=
  match a, b with
  | [], [] => true
  | x :: a', y :: b' => String.eqb x y && same_names a' b'
  | _, _ => false
  end.

(** Modelled from the spec: [TableETL.write] of [etl/utils/base_table.py],
    which is not among the sources.  "No-op if [write_data] is false.
    Otherwise appends [current_data] to [storage_path] ... each call is a new
    partition, never a destructive overwrite."  The first write creates the
    table; a later one must bring the same columns. *)
Definition write (self : TableETL) (input : ETLDataSet) (s : store) : result store :=
  if negb (write_data self) then Ok s
  else
    match lookup (storage_path self) s with
    | None => Ok (update (storage_path self) (ds_current_data input) s)
    | Some old =>
        if same_names (columns old) (columns (ds_current_data input))
        then Ok (update (storage_path self)
                        (mk_df (schema old) (rows old ++ rows (ds_current_data input)))
                        s)
        else Err CollaboratorError
    end.

Fixpoint write_all (self : TableETL) (inputs : list ETLDataSet) (s : store)
  : result store :=
  match inputs with
  | [] => Ok s
  | e :: inputs' => (s' <- write self e s ;; write_all self inputs' s')%result
  end.

(** The environment of a unit that only talks to storage: [load] serves
    the table at the path and leaves storage as it is. *)
Definition storage_env : env store :=
  fun X ev s =>
    match ev in event X return result X * store with
    | Load _ path =>
        match lookup path s with
        | Some df => (Ok df, s)
        | None => (Err CollaboratorError, s)
        end
    | _ => (Err CollaboratorError, s)
    end.

End Storage.

Module Pipeline.
Import Spark Runtime Base.
Local Open Scope list_scope.

(** An instance of some unit class, as far as extraction looks at it. *)
Record instance : Type := mk_instance {
  inst_class : class_ref;
  inst_run_upstream : bool;
  inst_write_data : bool
}.

Definition heap : Type := list instance.

Definition unit_of (declared : class_ref -> list class_ref) (i : instance) : TableETL :=
  mk_TableETL (declared (inst_class i)) (inst_class i) [] "" "" "" []
              (inst_run_upstream i) (inst_write_data i) None.

(** Modelled from the spec: the recursion through [TableETL.run] of
    [etl/utils/base_table.py] and through the units that are not among the
    sources.  "calling run() on any unit triggers extract_upstream
    (instantiate each declared upstream type, recursively run() it if
    run_upstream is set, then read() it)"; a unit that declares no upstream
    type is a leaf.  Every unit runs the extraction loop of the gold units;
    what [run()] does after extraction creates no instance and is left out.
    [declared] gives each class its upstream types, [served] the envelope its
    [read()] returns, [depth] bounds the nesting of [run()] calls. *)
Fixpoint pipeline_env (declared : class_ref -> list class_ref)
    (served : class_ref -> ETLDataSet) (depth : nat) {struct depth} : env heap :=
  fun X ev hp =>
    match ev in event X return result X * heap with
    | Instantiate cls ru wd => (Ok (List.length hp), hp ++ [mk_instance cls ru wd])
    | CallRun table =>
        match nth_error hp table, depth with
        | Some i, S depth' =>
            let r := interp (pipeline_env declared served depth')
                            (DailyOrderMetricsGoldETL.extract_upstream
                               (unit_of declared i)) hp in
            (match outcome r with Ok _ => Ok tt | Err e => Err e end, final r)
        | _, _ => (Err CollaboratorError, hp)
        end
    | CallRead table =>
        match nth_error hp table with
        | Some i => (Ok (served (inst_class i)), hp)
        | None => (Err CollaboratorError, hp)
        end
    | _ => (Err CollaboratorError, hp)
    end.

End Pipeline.

(* ================================================================== *)
(** * Notions used to state the properties                             *)
(* ================================================================== *)

Module Notions.
Import Py Spark SparkSql Runtime Base.
Local Open Scope list_scope.

(** The text after a number does not go on with a digit. *)
Definition starts_nondigit (r : string) : Prop :=
  match r with
  | EmptyString => True
  | String c _ => is_digit c = false
  end.

(** The [w] low-order decimal digits of [n], most significant first. *)
Fixpoint digits (w : nat) (n : N) : list N :=
  match w with
  | O => []
  | S w' => ((n / 10 ^ N.of_nat w') mod 10)%N :: digits w' n
  end.

(** A text that starts and ends with a digit: a cast takes it as it
    stands. *)
Definition digit_ends (s : string) : Prop :=
  exists c r c', s = String c r /\ is_digit c = true /\
                 last_char s = Some c' /\ is_digit c' = true.

(** What may follow a printed date: nothing, or a blank and more. *)
Definition date_end (r : string) : Prop :=
  r = ""%string \/ exists r', r = String " " r'.

(** What a fallible test would keep, read as a plain test. *)
Definition accepts {A} (f : A -> result bool) (a : A) : bool :=
  match f a with
  | Ok true => true
  | _ => false
  end.

Fixpoint string_forallb (f : ascii -> bool) (s : string) : bool :=
  match s with
  | EmptyString => true
  | String c r => f c && string_forallb f r
  end.

(** A column name the filter text can carry as it is: letters, digits and
    underscores, not starting with a digit, not a keyword. *)
Definition plain_identifier (k : string) : bool :=
  match k with
  | EmptyString => false
  | String _ _ =>
      string_forallb is_ident_char k && negb (is_keyword k)
      && negb (starts_with_digit k)
  end.

(** A value the filter text can carry between quotes as it is. *)
Definition plain_char (c : ascii) : bool :=
  negb (Ascii.eqb c quote) && negb (Ascii.eqb c backslash).

Definition plain_literal (v : string) : bool := string_forallb plain_char v.

Definition plain_pair (kv : string * string) : Prop :=
  plain_identifier (fst kv) = true /\ plain_literal (snd kv) = true.

(** What [" AND".join] puts after the first pair: for each further pair,
    [" AND"] and then, with nothing in between, the pair's text. *)
Fixpoint joined_tail (kvs : list (string * string)) : string :=
  match kvs with
  | [] => ""
  | kv :: kvs' =>
      (" AND" ++ fst kv ++ " = '" ++ snd kv ++ "'" ++ joined_tail kvs')%string
  end.

(** The tokens of that text: each further key comes glued to [AND]. *)
Definition joined_tail_tokens (kvs : list (string * string)) : list token :=
  flat_map (fun kv => [TIdent ("AND" ++ fst kv)%string; TEq; TString (snd kv)]) kvs.

(** A row passes the filter [column i = 'v']. *)
Definition equals_literal (i : nat) (v : string) (r : row) : result bool :=
  (e <- sql_eq (cell r i) (VStr v) ;;
   Ok (match e with Some true => true | _ => false end))%result.

(** Every row has one cell per attribute. *)
Definition well_formed (df : DataFrame) : Prop :=
  Forall (fun r => List.length r = List.length (schema df)) (rows df).

(** The two [read] methods differ in their column list only; this is their
    common text. *)
Definition read_with (selected_columns : list string) (self : TableETL)
    (partition_values : option (list (string * string))) : prog ETLDataSet :=
  if negb (write_data self) then
    match current_data self with
    | None => Raise AttributeError
    | Some cached =>
        (data <- lift (select cached selected_columns) ;;
         Ret (envelope self data))%prog
    end
  else
    (partition_filter <-
       (if truthy partition_values
        then Ret (DailyOrderMetricsGoldETL.partition_filter_of (items partition_values))
        else
          stored <- trigger (Load (data_format self) (storage_path self)) ;;
          latest_partition <- lift (select_max stored "etl_inserted") ;;
          shown <- lift (py_str latest_partition) ;;
          Ret ("etl_inserted = '" ++ shown ++ "'")%string) ;;
     stored <- trigger (Load (data_format self) (storage_path self)) ;;
     fact_order_data <- lift (filter_expr stored partition_filter) ;;
     fact_order_data <- lift (select fact_order_data selected_columns) ;;
     Ret (envelope self fact_order_data))%prog.

(** The tail shared by the two storage modes of [read]. *)
Definition load_filter_select (selected_columns : list string) (self : TableETL)
    (text : string) : prog ETLDataSet :=
  (stored <- trigger (Load (data_format self) (storage_path self)) ;;
   fact_order_data <- lift (filter_expr stored text) ;;
   fact_order_data <- lift (select fact_order_data selected_columns) ;;
   Ret (envelope self fact_order_data))%prog.

(** In state [w], loading the unit's table serves [stored] and changes
    nothing. *)
Definition serves {W} (h : env W) (self : TableETL) (stored : DataFrame) (w : W)
  : Prop :=
  h _ (Load (data_format self) (storage_path self)) w = (Ok stored, w).

(** The envelope of one write: the rows of a batch under a schema. *)
Definition batch_envelope (self : TableETL) (sch : list attr)
    (b : datetime * list row) : ETLDataSet :=
  envelope self (mk_df sch (snd b)).

(** The cells of column [i] are timestamps Python could have produced. *)
Definition timestamp_column (i : nat) (rs : list row) : Prop :=
  Forall (fun r => exists t, cell r i = VTimestamp t /\ valid_datetime t = true) rs.

(** Every row of a batch carries the batch's timestamp in column [i]. *)
Definition stamped (i : nat) (b : datetime * list row) : Prop :=
  valid_datetime (fst b) = true /\
  Forall (fun r => cell r i = VTimestamp (fst b)) (snd b).

(** The rows of the last write that wrote any row; none when no write
    did. *)
Fixpoint latest_rows (ws : list (datetime * list row)) : list row :=
  match ws with
  | [] => []
  | w :: ws' =>
      match latest_rows ws' with
      | [] => snd w
      | rs => rs
      end
  end.

Fixpoint increasing (ts : list datetime) : bool :=
  match ts with
  | a :: (b :: _) as ts' => datetime_ltb a b && increasing ts'
  | _ => true
  end.

(** The later of two timestamps. *)
Definition later (a t : datetime) : datetime := if datetime_ltb a t then t else a.

(** The load requests a run made. *)
Definition loads (self : TableETL) (frames : list DataFrame) : list call :=
  map (fun df => (RLoad (data_format self) (storage_path self), AFrame df)) frames.

(** ** Reading the daily-metrics transform row by row *)

(** The date of an order: its [order_ts] cast to a date. *)
Definition order_date_of (i_ts : nat) (r : row) : value :=
  match cast_date_cell (cell r i_ts) with
  | Ok d => d
  | Err _ => VNull
  end.

(** Every [is_active] cell is a boolean or null. *)
Definition flagged (i_active : nat) (orders : list row) : Prop :=
  Forall (fun r => exists b, as_condition (cell r i_active) = Ok b) orders.

(** An order counts when its [is_active] cell is [true]. *)
Definition is_active_row (i_active : nat) (r : row) : bool :=
  match cell r i_active with
  | VBool true => true
  | _ => false
  end.

(** The [total_price] cells of the active orders of one date. *)
Definition prices_on (i_ts i_active i_price : nat) (orders : list row) (d : value)
  : list value :=
  map (fun r => cell r i_price)
      (filter (fun r => is_active_row i_active r
                        && value_eqb (order_date_of i_ts r) d) orders).

(** The dates that have an active order, in order of first appearance. *)
Definition active_dates (i_ts i_active : nat) (orders : list row) : list value :=
  distinct_keys [] (map (order_date_of i_ts) (filter (is_active_row i_active) orders)).

(** The orders with their date: frame [dated] holds, for each row [r] of
    [src], the row [f r] with the date at [kpos] and the flag and the price
    where they were. *)
Definition dated_as (src : DataFrame) (i_ts i_active i_price : nat)
    (dated : DataFrame) (kpos : nat) (f : row -> row) : Prop :=
  positions "order_date" (schema dated) = [kpos] /\
  positions "is_active" (schema dated) = [i_active] /\
  positions "total_price" (schema dated) = [i_price] /\
  rows dated = map f (rows src) /\
  forall r, In r (rows src) ->
    cell (f r) kpos = order_date_of i_ts r /\
    cell (f r) i_active = cell r i_active /\
    cell (f r) i_price = cell r i_price.

(** Every [order_ts] cell is of a type the cast to date is described for. *)
Definition castable (i_ts : nat) (orders : list row) : Prop :=
  Forall (fun r => exists d, cast_date_cell (cell r i_ts) = Ok d) orders.

(** The engine's sum and mean are described for the prices of every date
    that has an active order. *)
Definition aggregable (i_ts i_active i_price : nat) (orders : list row) : Prop :=
  Forall (fun d => exists s m,
            sum_cells (prices_on i_ts i_active i_price orders d) = Ok s /\
            mean_cells (prices_on i_ts i_active i_price orders d) = Ok m)
         (active_dates i_ts i_active orders).

(** The environment answers the clock and the attribute counter. *)
Definition engine_answers {W} (h : env W) : Prop :=
  (forall w, exists t w', h _ Now w = (Ok t, w')) /\
  (forall w, exists n w', h _ NewExprId w = (Ok n, w')).

(** The analyzer left the attributes of the right side of a join as they
    were. *)
Definition keeps_ids (c : call) : Prop :=
  forall left right ids,
    c = (RDeduplicate left right, AExprIds ids) -> renumber right ids = right.

(** An envelope of the daily metrics as the unit's defaults make it: the
    primary key is [order_ts], the data has the four published columns, and
    no primary-key column is among them. *)
Definition key_missing_from_data (ds : ETLDataSet) : Prop :=
  ds_primary_keys ds = ["order_ts"] /\
  columns (ds_current_data ds)
  = ["order_date"; "total_price_sum"; "total_price_mean"; "etl_inserted"] /\
  Forall (fun k => ~ In k (columns (ds_current_data ds))) (ds_primary_keys ds).

(** ** Reading the extraction loop call by call *)

(** What one turn of the loop asks of the environment: an instance of the
    class with the unit's flags, its [run()] when [run_upstream] is set, its
    [read()]. *)
Definition extraction_block (ru wd : bool) (x : class_ref * obj * ETLDataSet)
  : list call :=
  (RInstantiate (fst (fst x)) ru wd, AObject (snd (fst x)))
    :: (if ru then [(RRun (snd (fst x)), ADone)] else [])
    ++ [(RRead (snd (fst x)), AEnvelope (snd x))].

(** Every event a program can issue satisfies [ok]. *)
Inductive all_events (ok : forall X, event X -> Prop) {A : Type} : prog A -> Prop :=
| all_ret (a : A) : all_events ok (Ret a)
| all_raise (e : exn) : all_events ok (Raise e)
| all_vis (X : Type) (ev : event X) (k : X -> prog A) :
    ok X ev -> (forall x, all_events ok (k x)) -> all_events ok (Vis ev k).

(** An instantiation passes on the flags of a unit. *)
Definition passes_flags (root : TableETL) (X : Type) (ev : event X) : Prop :=
  match ev with
  | Instantiate _ ru wd => ru = run_upstream root /\ wd = write_data root
  | _ => True
  end.

(** The same, read off a recorded request. *)
Definition request_passes_flags (root : TableETL) (r : request) : Prop :=
  match r with
  | RInstantiate _ ru wd => ru = run_upstream root /\ wd = write_data root
  | _ => True
  end.

(** Modelled from the spec: the first two steps of [TableETL.run] of
    [etl/utils/base_table.py], which is not among the sources:
    "run(): extract_upstream, then transform_upstream, ...". *)
Definition extract_then_transform
    (extract_upstream : TableETL -> prog (list ETLDataSet))
    (transform_upstream : TableETL -> list ETLDataSet -> prog (ETLDataSet * TableETL))
    (self : TableETL) : prog (ETLDataSet * TableETL) :=
  (upstream_datasets <- extract_upstream self ;;
   transform_upstream self upstream_datasets)%prog.

(** An instance carries the flags of a unit. *)
Definition same_flags (root : TableETL) (i : Pipeline.instance) : Prop :=
  Pipeline.inst_run_upstream i = run_upstream root /\
  Pipeline.inst_write_data i = write_data root.

End Notions.

(* ================================================================== *)
(** * Sample data                                                      *)
(* ================================================================== *)

Module Examples.
Import Py Spark SparkSql Runtime Base Storage Pipeline Notions.
Local Open Scope list_scope.

Definition t1 : datetime := mk_datetime 2024 1 1 6 0 0 0.
Definition t2 : datetime := mk_datetime 2024 1 2 6 0 0 250000.

(** A clock that shows [t2], a counter for expression ids, and an analyzer
    that finds nothing to renumber in a join; nothing else is answered. *)
Definition engine : env nat :=
  fun X ev n =>
    match ev in event X return result X * nat with
    | Now => (Ok t2, n)
    | NewExprId => (Ok n, S n)
    | Deduplicate _ r => (Ok (map expr_id r), n)
    | _ => (Err CollaboratorError, n)
    end.

Definition daily_unit (write : bool) : TableETL :=
  DailyOrderMetricsGoldETL.init None None None None None None None None (Some write).

Definition wide_unit (write : bool) : TableETL :=
  WideOrderItemsGoldETL.init None None None None None None None None (Some write).

(** Two partitions of the daily-metrics table; prices are [decimal(10,2)],
    so their sums are [decimal(20,2)] and their means [decimal(14,6)]. *)
Definition daily_schema : list attr :=
  [mk_attr 1 "order_date"; mk_attr 2 "total_price_sum";
   mk_attr 3 "total_price_mean"; mk_attr 4 "etl_inserted"].

Definition daily_batch1 : list row :=
  [[VDate (mk_date 2023 12 31); VDecimal 20 2 5000; VDecimal 14 6 25000000; VTimestamp t1]].

Definition daily_batch2 : list row :=
  [[VDate (mk_date 2023 12 31); VDecimal 20 2 5000; VDecimal 14 6 25000000; VTimestamp t2];
   [VDate (mk_date 2024 1 1); VDecimal 20 2 700; VDecimal 14 6 7000000; VTimestamp t2]].

Definition daily_stored : DataFrame :=
  mk_df daily_schema (daily_batch1 ++ daily_batch2).

Definition daily_store : store :=
  [("s3a://rainforest/delta/gold/daily_order_metrics", daily_stored)].

(** Three orders of one day: two active, of 20.00 and 30.00, one inactive. *)
Definition orders : DataFrame :=
  mk_df [mk_attr 1 "order_id"; mk_attr 2 "order_ts"; mk_attr 3 "total_price";
         mk_attr 4 "is_active"]
        [[VInt 1; VTimestamp (mk_datetime 2024 1 1 9 30 0 0); VDecimal 10 2 2000; VBool true];
         [VInt 2; VTimestamp (mk_datetime 2024 1 1 17 45 0 0); VDecimal 10 2 3000; VBool true];
         [VInt 3; VTimestamp (mk_datetime 2024 1 1 21 0 0 0); VDecimal 10 2 10000; VBool false]].

Definition orders_envelope : ETLDataSet :=
  mk_ETLDataSet "wide_orders" orders ["order_id"]
                "s3a://rainforest/delta/gold/wide_orders" "delta" "rainforest"
                ["etl_inserted"].

Definition order_day : value := VDate (mk_date 2024 1 1).

(** What the daily-metrics transform makes of them when the clock shows
    [t2] and the counter starts at 0. *)
Definition daily_metrics : DataFrame :=
  mk_df [mk_attr 0 "order_date"; mk_attr 1 "total_price_sum";
         mk_attr 2 "total_price_mean"; mk_attr 3 "etl_inserted"]
        [[order_day; VDecimal 20 2 5000; VDecimal 14 6 25000000; VTimestamp t2]].

(** The five upstream frames of the wide table, one order item. *)
Definition wrap (name : string) (df : DataFrame) : ETLDataSet :=
  mk_ETLDataSet name df [] "" "delta" "rainforest" ["etl_inserted"].

Definition fact_order_items : DataFrame :=
  mk_df [mk_attr 11 "order_item_id"; mk_attr 12 "order_id"; mk_attr 13 "product_id";
         mk_attr 14 "seller_id"; mk_attr 15 "quantity"; mk_attr 16 "base_price";
         mk_attr 17 "actual_price"; mk_attr 18 "created_ts"; mk_attr 19 "tax";
         mk_attr 20 "etl_inserted"]
        [[VInt 1; VInt 100; VInt 500; VInt 10; VInt 2; VDecimal 10 2 10000; VDecimal 10 2 9000;
          VTimestamp t1; VDecimal 10 2 1000; VTimestamp t1]].

Definition dim_product : DataFrame :=
  mk_df [mk_attr 21 "product_id"; mk_attr 22 "product_name"; mk_attr 23 "etl_inserted"]
        [[VInt 500; VStr "kettle"; VTimestamp t1]].

Definition dim_seller : DataFrame :=
  mk_df [mk_attr 31 "seller_id"; mk_attr 32 "seller_name"; mk_attr 33 "etl_inserted"]
        [[VInt 10; VStr "user_1"; VTimestamp t1]].

Definition product_category : DataFrame :=
  mk_df [mk_attr 41 "product_id"; mk_attr 42 "category_id"; mk_attr 43 "etl_inserted"]
        [[VInt 500; VInt 1; VTimestamp t1]; [VInt 500; VInt 2; VTimestamp t1]].

Definition dim_category : DataFrame :=
  mk_df [mk_attr 51 "category_id"; mk_attr 52 "category_name"; mk_attr 53 "etl_inserted"]
        [[VInt 1; VStr "Electronics"; VTimestamp t1]; [VInt 2; VStr "Clothing"; VTimestamp t1]].

Definition wide_upstream : list ETLDataSet :=
  [wrap "fact_order_items" fact_order_items; wrap "dim_product" dim_product;
   wrap "dim_seller" dim_seller; wrap "product_category" product_category;
   wrap "dim_category" dim_category].

(** What the wide transform makes of them when the clock shows [t2] and
    the counter starts at 0. *)
Definition wide_order_items : DataFrame :=
  mk_df [mk_attr 13 "product_id"; mk_attr 14 "seller_id"; mk_attr 11 "order_item_id";
         mk_attr 12 "order_id"; mk_attr 15 "quantity"; mk_attr 16 "base_price";
         mk_attr 17 "actual_price"; mk_attr 18 "created_ts"; mk_attr 19 "tax";
         mk_attr 22 "product_name"; mk_attr 32 "seller_name"; mk_attr 0 "categories";
         mk_attr 1 "etl_inserted"]
        [[VInt 500; VInt 10; VInt 1; VInt 100; VInt 2; VDecimal 10 2 10000; VDecimal 10 2 9000;
          VTimestamp t1; VDecimal 10 2 1000; VStr "kettle"; VStr "user_1";
          VArray [VStruct [VInt 1; VStr "Electronics"]; VStruct [VInt 2; VStr "Clothing"]];
          VTimestamp t2]].

(** A unit graph: two of the silver classes sit on a bronze class each. *)
Definition declared (cls : class_ref) : list class_ref :=
  if String.eqb cls "DimSellerSiverETL" then ["SellerBronzeETL"]
  else if String.eqb cls "DimCategorySiverETL" then ["CategoryBronzeETL"]
  else [].

Definition served (cls : class_ref) : ETLDataSet := wrap cls (mk_df [] []).

End Examples.

(* ================================================================== *)
(** * Notions for errors, edges and the rows of the gold tables         *)
(* ================================================================== *)

Module EdgeNotions.
Import Py Spark SparkSql Runtime Base Notions.
Local Open Scope list_scope.

(** A recorded call is a load of the unit's own table. *)
Definition loads_own_table (self : TableETL) (c : call) : Prop :=
  fst c = RLoad (data_format self) (storage_path self).

(** A recorded call asks the clock or the attribute counter. *)
Definition asks_engine (c : call) : Prop :=
  fst c = RNow \/ fst c = RNewExprId.

(** A recorded call asks the analyzer for the ids of the right side of a
    join. *)
Definition asks_analyzer (c : call) : Prop :=
  exists left right, fst c = RDeduplicate left right.

(** A recorded call creates or drives an upstream unit. *)
Definition drives_upstream (c : call) : Prop :=
  match fst c with
  | RInstantiate _ _ _ | RRun _ | RRead _ => True
  | _ => False
  end.

(** An event for the clock or the attribute counter. *)
Definition engine_event (X : Type) (ev : event X) : Prop :=
  match ev with
  | Now | NewExprId => True
  | _ => False
  end.

(** An event for the clock, the attribute counter or the analyzer. *)
Definition analysis_event (X : Type) (ev : event X) : Prop :=
  match ev with
  | Now | NewExprId | Deduplicate _ _ => True
  | _ => False
  end.

(** An event that creates or drives an upstream unit. *)
Definition upstream_event (X : Type) (ev : event X) : Prop :=
  match ev with
  | Instantiate _ _ _ | CallRun _ | CallRead _ => True
  | _ => False
  end.

(** The environment raised in answer to a call. *)
Definition raised (c : call) : bool :=
  match snd c with
  | ARaised _ => true
  | _ => false
  end.

(** The class a recorded instantiation asked for. *)
Definition class_of (x : class_ref * bool * bool * answer) : class_ref :=
  fst (fst (fst x)).

(** Every cell of column [i] is null. *)
Definition null_column (i : nat) (rs : list row) : Prop :=
  Forall (fun r => cell r i = VNull) rs.

(** A name is carried by exactly one column, whatever the case of its
    letters. *)
Definition occurs_once (name : string) (df : DataFrame) : Prop :=
  List.length (positions name (schema df)) = 1.

(** No two columns of the frame are the same attribute. *)
Definition distinct_attributes (df : DataFrame) : Prop :=
  NoDup (map expr_id (schema df)).

(** The comparison of each row's cell in column [i] with the literal [v]
    is described. *)
Definition comparable (i : nat) (v : string) (rs : list row) : Prop :=
  Forall (fun r => exists b, equals_literal i v r = Ok b) rs.

(** A numeric cell as a rational; null counts for nothing. *)
Definition amount (v : value) : Q :=
  match v with
  | VInt z => inject_Z z
  | VDecimal _ s u => (u # Pos.of_nat (10 ^ s))%Q
  | VDouble q => q
  | _ => 0%Q
  end.

(** The non-null cells of a numeric column, added up exactly. *)
Definition amount_of (ns : numbers) : Q :=
  match ns with
  | NoNumbers => 0%Q
  | Longs zs => inject_Z (Zsum zs)
  | Decimals _ s us => (Zsum us # Pos.of_nat (10 ^ s))%Q
  | Doubles qs => Qsum qs
  end.

Definition is_bigint (v : value) : bool :=
  match v with
  | VInt _ => true
  | _ => false
  end.

(** The sum of a column of numeric cells. *)
Definition total (vs : list value) : Q := Qsum (map amount vs).

(** No two rows have the same key in column [i]. *)
Definition unique_key (i : nat) (rs : list row) : Prop :=
  forall k, List.length (filter (fun rr => value_eqb k (cell rr i)) rs) <= 1.

(** Row [r] of frame [df] holds [v] under attribute [a]. *)
Definition carries (df : DataFrame) (r : row) (a : attr) (v : value) : Prop :=
  In (a, v) (combine (schema df) r).

(** Every row of [df] has a row of [df'] that holds all it holds under the
    attributes in [keep], and every row of [df'] comes from such a row. *)
Definition carried_over (keep : attr -> Prop) (df df' : DataFrame) : Prop :=
  (forall r, In r (rows df) ->
     exists r', In r' (rows df') /\
                forall a v, keep a -> carries df r a v -> carries df' r' a v) /\
  (forall r', In r' (rows df') ->
     exists r, In r (rows df) /\
               forall a v, keep a -> carries df r a v -> carries df' r' a v).

(** The attribute bears the name, whatever the case of its letters. *)
Definition named (name : string) (a : attr) : bool := name_eqb (col_name a) name.

(** The condition of a join on one column: the key is not null and equals
    the cell of the other side. *)
Definition key_matches (k : value) (i : nat) (r : row) : bool :=
  negb (is_null k) && value_eqb k (cell r i).

(** The rows a left row gives in a join with the right rows [ms] that meet
    its key. *)
Definition joined_rows (how : join_type) (li ri width : nat) (lr : row)
    (ms : list row) : list row :=
  match ms, how with
  | [], LeftOuter => [cell lr li :: remove_at li lr ++ repeat VNull width]
  | _, _ => map (fun rr => cell lr li :: remove_at li lr ++ remove_at ri rr) ms
  end.

(** Row [r] of [wide] shows a row of [side] whose key, in column [i],
    matches [k]: all that row holds under the attributes in [keep], the
    attribute that [key_attr] refers to apart.  When no row of [side]
    matches, [r] holds null under each of these attributes. *)
Definition joined_side (keep : attr -> Prop) (wide : DataFrame) (r : row)
    (side : DataFrame) (i : nat) (key_attr : attr) (k : value) : Prop :=
  (exists q, In q (rows side) /\ key_matches k i q = true /\
             forall a v, keep a -> expr_id a <> expr_id key_attr ->
                         carries side q a v -> carries wide r a v) \/
  ((forall q, In q (rows side) -> key_matches k i q = false) /\
   forall a, keep a -> expr_id a <> expr_id key_attr -> In a (schema side) ->
             carries wide r a VNull).

(** [e] is the struct of a category of product [p]: the [category_id] of a
    row of the bridge whose [product_id] matches [p], with the
    [category_name] of a category that id matches.  The numbers are the
    positions of the bridge's [product_id] and [category_id] and of the
    categories' [category_id] and [category_name]. *)
Definition category_of (bridge categories : DataFrame)
    (i_bridge_product i_bridge_category i_category i_name : nat)
    (p e : value) : Prop :=
  exists b c,
    In b (rows bridge) /\ In c (rows categories) /\
    key_matches p i_bridge_product b = true /\
    key_matches (cell b i_bridge_category) i_category c = true /\
    e = VStruct [cell b i_bridge_category; cell c i_name].

(** The attribute has another expression id than the [etl_inserted] column
    of the frame. *)
Definition not_timestamp_of (df : DataFrame) (a : attr) : Prop :=
  forall i ts, resolve df "etl_inserted" = Ok (i, ts) -> expr_id a <> expr_id ts.

(** The comparison of two lists of cells inside [value_eqb]. *)
Fixpoint all_eqb (l1 l2 : list value) : bool :=
  match l1, l2 with
  | [], [] => true
  | x :: l1', y :: l2' => value_eqb x y && all_eqb l1' l2'
  | _, _ => false
  end.

(** Characters a bare word is made of. *)
Definition bare_word (s : string) : bool := string_forallb is_ident_char s.

End EdgeNotions.

(* ================================================================== *)
(** * Sample environments that fail                                    *)
(* ================================================================== *)

Module EdgeExamples.
Import Py Spark SparkSql Runtime Base Storage Pipeline Notions EdgeNotions.
Local Open Scope list_scope.

(** Upstream units of which the third created cannot be read: instances
    are numbered as they are created, [run()] always returns, [read()]
    raises on instance 2. *)
Definition third_unreadable : env nat :=
  fun X ev n =>
    match ev in event X return result X * nat with
    | Instantiate _ _ _ => (Ok n, S n)
    | CallRun _ => (Ok tt, n)
    | CallRead table =>
        if table =? 2 then (Err CollaboratorError, n)
        else (Ok (Examples.served "upstream"), n)
    | _ => (Err CollaboratorError, n)
    end.







(** The sample wide table under its published columns: [product_name] and
    [seller_name] are gone, the rest is in the published order. *)
Definition wide_published : DataFrame :=
  mk_df [mk_attr 11 "order_item_id"; mk_attr 12 "order_id"; mk_attr 13 "product_id";
         mk_attr 14 "seller_id"; mk_attr 15 "quantity"; mk_attr 16 "base_price";
         mk_attr 17 "actual_price"; mk_attr 18 "created_ts"; mk_attr 19 "tax";
         mk_attr 0 "categories"; mk_attr 1 "etl_inserted"]
        [[VInt 1; VInt 100; VInt 500; VInt 10; VInt 2; VDecimal 10 2 10000;
          VDecimal 10 2 9000; VTimestamp Examples.t1; VDecimal 10 2 1000;
          VArray [VStruct [VInt 1; VStr "Electronics"];
                  VStruct [VInt 2; VStr "Clothing"]];
          VTimestamp Examples.t2]].

End EdgeExamples.

(* ================================================================== *)
(** * Facts about rendering and casting                                *)
(* ================================================================== *)

Module PyFacts.
Import Py Spark Notions.

Lemma string_app_assoc (a b c : string) : ((a ++ b) ++ c = a ++ (b ++ c))%string.
Proof. induction a as [|x a IH]; simpl; [reflexivity | now rewrite IH]. Qed.

Lemma digit_is_digit (d : N) : (d < 10)%N -> is_digit (digit d) = true.
Proof.
  intros H. unfold is_digit, digit.
  rewrite N_ascii_embedding by lia.
  apply andb_true_iff; split; apply N.leb_le; lia.
Qed.

Lemma digit_value_digit (d : N) : (d < 10)%N -> digit_value (digit d) = d.
Proof.
  intros H. unfold digit_value, digit.
  rewrite N_ascii_embedding by lia. lia.
Qed.

Lemma read_digits_zero_padded (w : nat) (n : N) (r : string) :
  starts_nondigit r ->
  read_digits (zero_padded w n ++ r) = (digits w n, r).
Proof.
  intros Hr. induction w as [|w IH]; simpl.
  - destruct r as [|c r]; simpl in *; [reflexivity | now rewrite Hr].
  - assert (Hd : ((n / 10 ^ N.of_nat w) mod 10 < 10)%N) by (apply N.mod_lt; lia).
    rewrite (digit_is_digit _ Hd), IH, (digit_value_digit _ Hd). reflexivity.
Qed.

Lemma length_digits (w : nat) (n : N) : List.length (digits w n) = w.
Proof. induction w; simpl; congruence. Qed.

Lemma fold_digits (w : nat) (n acc : N) :
  fold_left (fun a d => (10 * a + d)%N) (digits w n) acc
  = (acc * 10 ^ N.of_nat w + n mod 10 ^ N.of_nat w)%N.
Proof.
  revert acc. induction w as [|w IH]; intros acc.
  - simpl. rewrite N.mod_1_r. lia.
  - cbn [digits fold_left]. rewrite IH.
    rewrite Nat2N.inj_succ, N.pow_succ_r'.
    rewrite (N.mul_comm 10 (10 ^ N.of_nat w)).
    rewrite (N.Div0.mod_mul_r n (10 ^ N.of_nat w) 10). lia.
Qed.

Lemma number_digits (w : nat) (n : N) :
  (n < 10 ^ N.of_nat w)%N -> number (digits w n) = n.
Proof.
  intros H. unfold number. rewrite fold_digits, N.mod_small by exact H. lia.
Qed.

Lemma string_app_nil_r (a : string) : (a ++ "")%string = a.
Proof. induction a as [|x a IH]; simpl; [reflexivity | now rewrite IH]. Qed.

Lemma days_in_month_le (y m : N) : (days_in_month y m <= 31)%N.
Proof.
  unfold days_in_month.
  repeat match goal with
         | |- context [match ?x with _ => _ end] => destruct x
         end; lia.
Qed.

Lemma valid_date_bounds (d : date) :
  valid_date d = true ->
  (d_year d < 10 ^ 4 /\ d_month d < 100 /\ d_day d < 100)%N.
Proof.
  unfold valid_date. intros H.
  repeat (apply andb_true_iff in H; destruct H as [H ?]).
  repeat match goal with
         | H : (_ <=? _)%N = true |- _ => apply N.leb_le in H
         end.
  pose proof (days_in_month_le (d_year d) (d_month d)).
  change (10 ^ 4)%N with 10000%N. lia.
Qed.

Lemma valid_datetime_bounds (t : datetime) :
  valid_datetime t = true ->
  valid_date (date_of t) = true /\
  (hour t < 100 /\ minute t < 100 /\ second t < 100 /\ microsecond t < 10 ^ 6)%N.
Proof.
  unfold valid_datetime. intros H.
  do 4 (apply andb_true_iff in H; destruct H as [H ?]).
  repeat match goal with
         | H : (_ <? _)%N = true |- _ => apply N.ltb_lt in H
         end.
  change (10 ^ 6)%N with 1000000%N. split; [assumption | lia].
Qed.

Lemma str_date_app (d : date) (r : string) :
  (str_date d ++ r)%string
  = (zero_padded 4 (d_year d) ++
     String "-" (zero_padded 2 (d_month d) ++
     String "-" (zero_padded 2 (d_day d) ++ r)))%string.
Proof. unfold str_date. now rewrite !string_app_assoc. Qed.

(** *** Trimming leaves a printed date or time as it is *)

Lemma last_char_app (a b : string) :
  b <> ""%string -> last_char (a ++ b) = last_char b.
Proof.
  intros Hb. induction a as [|x a IH]; [reflexivity|].
  cbn [append last_char]. rewrite IH.
  destruct (a ++ b)%string eqn:E; [|reflexivity].
  destruct a; [now subst | discriminate].
Qed.

Lemma last_char_zero_padded (w : nat) (n : N) :
  last_char (zero_padded (S w) n) = Some (digit (n mod 10)).
Proof.
  induction w as [|w IH].
  - cbn. now rewrite N.div_1_r.
  - change (zero_padded (S (S w)) n)
      with (String (digit ((n / 10 ^ N.of_nat (S w)) mod 10)) (zero_padded (S w) n)).
    cbn [last_char]. rewrite IH.
    now destruct (zero_padded (S w) n) eqn:E; [discriminate E|].
Qed.

Lemma trim_right_cons (a : ascii) (r : string) :
  trim_right (String a r)
  = match trim_right r with
    | EmptyString => if is_blank a then EmptyString else String a EmptyString
    | r' => String a r'
    end.
Proof. reflexivity. Qed.

Lemma trim_right_id (s : string) (c : ascii) :
  last_char s = Some c -> is_blank c = false -> trim_right s = s.
Proof.
  revert c. induction s as [|a r IH]; intros c Hl Hc; [discriminate|].
  destruct r as [|b r'].
  - cbn in Hl. injection Hl as ->. cbn. now rewrite Hc.
  - rewrite trim_right_cons, (IH c) by assumption. reflexivity.
Qed.

Lemma digit_not_blank (c : ascii) : is_digit c = true -> is_blank c = false.
Proof.
  unfold is_digit, is_blank. intros H.
  apply andb_true_iff in H. destruct H as [H _]. apply N.leb_le in H.
  apply N.leb_gt. lia.
Qed.

Lemma digit_not_odd (c : ascii) : is_digit c = true -> is_odd (Some c) = false.
Proof.
  unfold is_digit, is_odd. intros H.
  apply andb_true_iff in H. destruct H as [_ H]. apply N.leb_le in H.
  apply N.leb_gt. lia.
Qed.

Lemma digit_not_sign (c : ascii) : is_digit c = true -> is_sign c = false.
Proof.
  intros H. unfold is_sign.
  destruct (Ascii.eqb_spec c "+") as [->|_]; [discriminate H|].
  destruct (Ascii.eqb_spec c "-") as [->|_]; [discriminate H|]. reflexivity.
Qed.

Lemma lower_digit (c : ascii) : is_digit c = true -> lower c = c.
Proof.
  unfold is_digit, lower. intros H.
  apply andb_true_iff in H. destruct H as [_ H]. apply N.leb_le in H.
  destruct (N.leb_spec 65 (N_of_ascii c)); [lia | reflexivity].
Qed.

Lemma digit_not_special (c : ascii) (r : string) :
  is_digit c = true -> is_special (String c r) = false.
Proof.
  intros H. unfold is_special, special_words.
  cbn [lower_string existsb has_prefix]. rewrite (lower_digit c H).
  repeat match goal with
         | |- context [Ascii.eqb ?a c] =>
             destruct (Ascii.eqb_spec a c) as [<-|_]; [discriminate H|]
         end.
  reflexivity.
Qed.

Lemma trim_all_digit_ends (s : string) : digit_ends s -> trim_all s = s.
Proof.
  intros (c & r & c' & -> & Hc & Hl & Hc').
  unfold trim_all. cbn [trim_left]. rewrite (digit_not_blank c Hc).
  apply (trim_right_id _ c' Hl), digit_not_blank, Hc'.
Qed.

Lemma cast_timestamp_digit_ends (s : string) :
  digit_ends s ->
  cast_timestamp s
  = match read_date s with
    | DateThen d EmptyString =>
        Ok (Some (mk_datetime (d_year d) (d_month d) (d_day d) 0 0 0 0))
    | DateThen d (String _ r) =>
        match read_time r with
        | Some (h, mi, sec, us) =>
            let ts := mk_datetime (d_year d) (d_month d) (d_day d) h mi sec us in
            if valid_datetime ts then Ok (Some ts) else Ok None
        | None => Err Unmodelled
        end
    | NoDate =>
        match snd (read_digits s) with
        | String c' _ => if Ascii.eqb c' ":" then Err Unmodelled else Ok None
        | EmptyString => Ok None
        end
    | UnclearDate => Err Unmodelled
    end.
Proof.
  intros H. unfold cast_timestamp. rewrite (trim_all_digit_ends s H).
  destruct H as (c & r & c' & -> & Hc & Hl & Hc').
  unfold odd_ends. rewrite Hl, (digit_not_odd c Hc), (digit_not_odd c' Hc').
  rewrite (digit_not_special c r Hc), (digit_not_sign c Hc), Hc. reflexivity.
Qed.

Lemma cast_date_digit_ends (s : string) :
  digit_ends s ->
  cast_date s
  = match read_date s with
    | DateThen d _ => Ok (Some d)
    | NoDate => Ok None
    | UnclearDate => Err Unmodelled
    end.
Proof.
  intros H. unfold cast_date. rewrite (trim_all_digit_ends s H).
  destruct H as (c & r & c' & -> & Hc & Hl & Hc').
  unfold odd_ends. rewrite Hl, (digit_not_odd c Hc), (digit_not_odd c' Hc').
  rewrite (digit_not_special c r Hc), (digit_not_sign c Hc), Hc. reflexivity.
Qed.

Lemma digit_ends_str_date (d : date) : digit_ends (str_date d).
Proof.
  exists (digit ((d_year d / 10 ^ N.of_nat 3) mod 10)),
         (zero_padded 3 (d_year d) ++ "-" ++ zero_padded 2 (d_month d) ++ "-"
            ++ zero_padded 2 (d_day d))%string,
         (digit (d_day d mod 10)).
  split; [reflexivity|]. split; [apply digit_is_digit, N.mod_lt; lia|].
  split; [|apply digit_is_digit, N.mod_lt; lia].
  unfold str_date. rewrite !last_char_app by discriminate.
  apply last_char_zero_padded.
Qed.

(** *** Reading back a printed date or time *)

Lemma short_field_digits2 (n : N) : short_field (digits 2 n) = true.
Proof. reflexivity. Qed.

Lemma make_date_valid (d : date) (r : string) :
  valid_date d = true -> make_date (d_year d) (d_month d) (d_day d) r = DateThen d r.
Proof.
  intros Hv. unfold make_date.
  assert (Hy : (d_year d =? 0)%N = false).
  { unfold valid_date in Hv.
    repeat (apply andb_true_iff in Hv; destruct Hv as [Hv ?]).
    apply N.leb_le in Hv. apply N.eqb_neq. lia. }
  rewrite Hy. destruct d as [y m dd]; cbn [d_year d_month d_day] in *.
  now rewrite Hv.
Qed.

Lemma date_end_starts_nondigit (r : string) : date_end r -> starts_nondigit r.
Proof. intros [-> | (r' & ->)]; [exact I | reflexivity]. Qed.

Lemma read_date_str_date (d : date) (r : string) :
  valid_date d = true -> date_end r ->
  read_date (str_date d ++ r) = DateThen d r.
Proof.
  intros Hv Hr. destruct (valid_date_bounds d Hv) as (Hy & Hm & Hd).
  unfold read_date. rewrite str_date_app.
  rewrite (read_digits_zero_padded 4) by reflexivity.
  rewrite length_digits. cbn [Nat.ltb Nat.leb]. cbn [Ascii.eqb Bool.eqb].
  unfold read_month.
  rewrite (read_digits_zero_padded 2) by reflexivity.
  rewrite short_field_digits2. cbn [negb Ascii.eqb Bool.eqb].
  unfold read_day.
  rewrite (read_digits_zero_padded 2) by (apply date_end_starts_nondigit, Hr).
  rewrite short_field_digits2. cbn [negb].
  rewrite (number_digits 4) by exact Hy.
  rewrite !(number_digits 2) by assumption.
  destruct Hr as [-> | (r' & ->)].
  - apply make_date_valid, Hv.
  - cbn [is_separator Ascii.eqb Bool.eqb orb]. apply make_date_valid, Hv.
Qed.

Lemma cast_date_str_date (d : date) :
  valid_date d = true -> cast_date (str_date d) = Ok (Some d).
Proof.
  intros Hv. rewrite cast_date_digit_ends by apply digit_ends_str_date.
  rewrite <- (string_app_nil_r (str_date d)).
  rewrite read_date_str_date by (exact Hv || now left). reflexivity.
Qed.

Lemma read_fraction_str (us : N) :
  (us < 10 ^ 6)%N ->
  read_fraction (if (us =? 0)%N then "" else "." ++ zero_padded 6 us) = Some us.
Proof.
  intros H. destruct (N.eqb_spec us 0) as [->|Hne]; [reflexivity|].
  change ("." ++ zero_padded 6 us)%string with (String "." (zero_padded 6 us)).
  unfold read_fraction. rewrite Ascii.eqb_refl.
  rewrite <- (string_app_nil_r (zero_padded 6 us)).
  rewrite (read_digits_zero_padded 6 us "" I), length_digits.
  rewrite (number_digits 6 us) by exact H.
  cbn. f_equal. lia.
Qed.

Lemma fraction_starts_nondigit (us : N) :
  starts_nondigit (if (us =? 0)%N then "" else "." ++ zero_padded 6 us).
Proof. destruct (us =? 0)%N; [exact I | reflexivity]. Qed.

Lemma str_time_eq (t : datetime) :
  str_time t
  = (zero_padded 2 (hour t) ++
     String ":" (zero_padded 2 (minute t) ++
     String ":" (zero_padded 2 (second t) ++
     (if (microsecond t =? 0)%N then "" else "." ++ zero_padded 6 (microsecond t)))))%string.
Proof. reflexivity. Qed.

Lemma read_time_str_time (t : datetime) :
  (hour t < 100 /\ minute t < 100 /\ second t < 100 /\ microsecond t < 10 ^ 6)%N ->
  read_time (str_time t) = Some (hour t, minute t, second t, microsecond t).
Proof.
  intros (Hh & Hmi & Hs & Hus). unfold read_time. rewrite str_time_eq.
  rewrite (read_digits_zero_padded 2) by reflexivity.
  rewrite short_field_digits2. cbn [negb expect obind]. rewrite Ascii.eqb_refl.
  cbn [obind].
  rewrite (read_digits_zero_padded 2) by reflexivity.
  rewrite short_field_digits2. cbn [negb expect obind]. rewrite Ascii.eqb_refl.
  cbn [obind].
  rewrite (read_digits_zero_padded 2) by apply fraction_starts_nondigit.
  rewrite short_field_digits2. cbn [negb].
  rewrite read_fraction_str by exact Hus. cbn [obind].
  now rewrite !(number_digits 2) by assumption.
Qed.

Lemma last_char_cons (a : ascii) (s : string) :
  s <> ""%string -> last_char (String a s) = last_char s.
Proof. destruct s; [congruence | reflexivity]. Qed.

Lemma digit_ends_str_datetime (t : datetime) : digit_ends (str_datetime t).
Proof.
  exists (digit ((year t / 10 ^ N.of_nat 3) mod 10)),
         ((zero_padded 3 (year t) ++ "-" ++ zero_padded 2 (month t) ++ "-"
             ++ zero_padded 2 (day t)) ++ " " ++ str_time t)%string,
         (digit ((if (microsecond t =? 0)%N then second t else microsecond t) mod 10)).
  split; [reflexivity|]. split; [apply digit_is_digit, N.mod_lt; lia|].
  split; [|apply digit_is_digit, N.mod_lt; lia].
  unfold str_datetime. rewrite last_char_app by discriminate.
  change (" " ++ str_time t)%string with (String " " (str_time t)).
  rewrite last_char_cons by discriminate. rewrite str_time_eq.
  rewrite last_char_app by discriminate.
  rewrite last_char_cons by discriminate.
  rewrite last_char_app by discriminate.
  rewrite last_char_cons by (destruct (microsecond t =? 0)%N; discriminate).
  destruct (microsecond t =? 0)%N.
  - rewrite string_app_nil_r. apply last_char_zero_padded.
  - rewrite last_char_app by discriminate.
    rewrite last_char_app by discriminate. apply last_char_zero_padded.
Qed.

(** Spark's cast reads back what Python's [str] printed. *)
Lemma cast_timestamp_str_datetime (t : datetime) :
  valid_datetime t = true -> cast_timestamp (str_datetime t) = Ok (Some t).
Proof.
  intros Hv.
  destruct (valid_datetime_bounds t Hv) as (Hd & Hb).
  rewrite cast_timestamp_digit_ends by apply digit_ends_str_datetime.
  unfold str_datetime.
  rewrite read_date_str_date by (exact Hd || (right; eexists; reflexivity)).
  change (" " ++ str_time t)%string with (String " " (str_time t)).
  cbv beta iota. rewrite read_time_str_time by exact Hb.
  destruct t as [y m d h mi s us].
  cbn [date_of d_year d_month d_day year month day hour minute second microsecond] in *.
  now rewrite Hv.
Qed.

(** The text [None], which [str] makes of a missing value, is no timestamp
    and no date. *)
Lemma cast_timestamp_None : cast_timestamp "None" = Ok None.
Proof. reflexivity. Qed.

Lemma cast_date_None : cast_date "None" = Ok None.
Proof. reflexivity. Qed.

(** ** The order on timestamps *)

Lemma lex_eqb_eq (a b : list N) : lex_eqb a b = true <-> a = b.
Proof.
  revert b. induction a as [|x a IH]; intros [|y b]; simpl;
    try (split; [discriminate | congruence]); [tauto|].
  rewrite andb_true_iff, N.eqb_eq, IH. split; [intros [-> ->] | intros [= -> ->]]; auto.
Qed.

Lemma lex_eqb_refl (a : list N) : lex_eqb a a = true.
Proof. now apply lex_eqb_eq. Qed.

Lemma lex_ltb_irrefl (a : list N) : lex_ltb a a = false.
Proof.
  induction a as [|x a IH]; simpl; [reflexivity|].
  now rewrite N.ltb_irrefl, N.eqb_refl, IH.
Qed.

Lemma lex_ltb_trans (a b c : list N) :
  lex_ltb a b = true -> lex_ltb b c = true -> lex_ltb a c = true.
Proof.
  revert b c. induction a as [|x a IH]; intros [|y b] [|z c]; simpl;
    try discriminate; try reflexivity.
  rewrite !orb_true_iff, !andb_true_iff, !N.ltb_lt, !N.eqb_eq.
  intros [H1 | [-> H1]] [H2 | [-> H2]].
  - left; lia.
  - now left.
  - now left.
  - right; split; [reflexivity | eapply IH; eassumption].
Qed.

Lemma lex_ltb_asym (a b : list N) :
  lex_ltb a b = true -> lex_ltb b a = false.
Proof.
  intros H. destruct (lex_ltb b a) eqn:E; [|reflexivity].
  pose proof (lex_ltb_trans _ _ _ H E) as C. now rewrite lex_ltb_irrefl in C.
Qed.

Lemma datetime_eqb_eq (a b : datetime) : datetime_eqb a b = true <-> a = b.
Proof.
  unfold datetime_eqb. rewrite lex_eqb_eq. destruct a, b; cbn.
  split; [intros [= -> -> -> -> -> -> ->] | intros [= -> -> -> -> -> -> ->]]; reflexivity.
Qed.

Lemma datetime_eqb_refl (a : datetime) : datetime_eqb a a = true.
Proof. now apply datetime_eqb_eq. Qed.

Lemma datetime_ltb_irrefl (a : datetime) : datetime_ltb a a = false.
Proof. apply lex_ltb_irrefl. Qed.

Lemma datetime_ltb_trans (a b c : datetime) :
  datetime_ltb a b = true -> datetime_ltb b c = true -> datetime_ltb a c = true.
Proof. apply lex_ltb_trans. Qed.

Lemma datetime_ltb_asym (a b : datetime) :
  datetime_ltb a b = true -> datetime_ltb b a = false.
Proof. apply lex_ltb_asym. Qed.

Lemma datetime_ltb_neq (a b : datetime) :
  datetime_ltb a b = true -> datetime_eqb a b = false.
Proof.
  intros H. destruct (datetime_eqb a b) eqn:E; [|reflexivity].
  apply datetime_eqb_eq in E. subst. now rewrite datetime_ltb_irrefl in H.
Qed.

End PyFacts.

(* ================================================================== *)
(** * Facts about frames                                               *)
(* ================================================================== *)

Module FrameFacts.
Import Py Spark Notions.
Local Open Scope list_scope.

Lemma rbind_ok {A B} (r : result A) (f : A -> result B) (b : B) :
  rbind r f = Ok b -> exists a, r = Ok a /\ f a = Ok b.
Proof. destruct r as [a|e]; simpl; [eauto | discriminate]. Qed.

Lemma rmap_list_ok {A B} (f : A -> result B) (l : list A) (bs : list B) :
  rmap_list f l = Ok bs -> Forall2 (fun a b => f a = Ok b) l bs.
Proof.
  revert bs. induction l as [|a l IH]; simpl; intros bs H.
  - injection H as <-. constructor.
  - apply rbind_ok in H as (b & Hb & H).
    apply rbind_ok in H as (bs' & Hbs & H). injection H as <-.
    constructor; auto.
Qed.

Lemma rmap_list_length {A B} (f : A -> result B) (l : list A) (bs : list B) :
  rmap_list f l = Ok bs -> List.length bs = List.length l.
Proof.
  intros H. apply rmap_list_ok in H. symmetry. eapply Forall2_length; eauto.
Qed.

Lemma rfilter_ok {A} (f : A -> result bool) (l kept : list A) :
  rfilter f l = Ok kept -> kept = filter (accepts f) l.
Proof.
  revert kept. induction l as [|a l IH]; cbn [rfilter filter]; intros kept H.
  - now injection H as <-.
  - apply rbind_ok in H as (b & Hb & H). apply rbind_ok in H as (k & Hk & H).
    injection H as <-. unfold accepts at 1. rewrite Hb, (IH k Hk).
    now destruct b.
Qed.

Lemma rfilter_total {A} (f : A -> result bool) (g : A -> bool) (l : list A) :
  (forall a, In a l -> f a = Ok (g a)) -> rfilter f l = Ok (filter g l).
Proof.
  induction l as [|a l IH]; intros H; cbn [rfilter filter]; [reflexivity|].
  rewrite (H a) by now left. cbn [rbind].
  rewrite IH by (intros x Hx; apply H; now right). cbn [rbind].
  now destruct (g a).
Qed.

Lemma rfilter_ext {A} (f g : A -> result bool) (l : list A) :
  (forall a, f a = g a) -> rfilter f l = rfilter g l.
Proof.
  intros H. induction l as [|a l IH]; cbn [rfilter]; [reflexivity|].
  now rewrite H, IH.
Qed.

(** ** Name resolution *)

Lemma name_eqb_refl (n : string) : name_eqb n n = true.
Proof. apply String.eqb_refl. Qed.

Lemma name_eqb_sym (a b : string) : name_eqb a b = name_eqb b a.
Proof. apply String.eqb_sym. Qed.

Lemma name_eqb_trans (a b c : string) :
  name_eqb a b = true -> name_eqb b c = true -> name_eqb a c = true.
Proof.
  unfold name_eqb. rewrite !String.eqb_eq. congruence.
Qed.

(** Names that differ in case only are the same name to every frame. *)
Lemma name_eqb_left (a b c : string) :
  name_eqb a b = true -> name_eqb a c = name_eqb b c.
Proof.
  unfold name_eqb. rewrite String.eqb_eq. now intros ->.
Qed.

Lemma positions_from_spec (name : string) (sch : list attr) (k i : nat) :
  In i (positions_from k name sch) <->
  k <= i /\ exists a, nth_error sch (i - k) = Some a /\
                      name_eqb (col_name a) name = true.
Proof.
  revert k. induction sch as [|b sch IH]; intros k; simpl.
  - split; [tauto|]. intros (_ & a & H & _). destruct (i - k); discriminate.
  - destruct (name_eqb (col_name b) name) eqn:E; simpl; rewrite IH.
    + split.
      * intros [<- | (Hk & a & Ha & Hn)].
        -- split; [lia|]. exists b. now rewrite Nat.sub_diag.
        -- split; [lia|]. exists a. split; [|assumption].
           replace (i - k) with (S (i - S k)) by lia. exact Ha.
      * intros (Hk & a & Ha & Hn).
        destruct (Nat.eq_dec k i) as [->|Hne]; [now left|]. right.
        split; [lia|]. exists a. split; [|assumption].
        replace (i - k) with (S (i - S k)) in Ha by lia. exact Ha.
    + split.
      * intros (Hk & a & Ha & Hn). split; [lia|]. exists a. split; [|assumption].
        replace (i - k) with (S (i - S k)) by lia. exact Ha.
      * intros (Hk & a & Ha & Hn).
        destruct (Nat.eq_dec k i) as [->|Hne].
        -- rewrite Nat.sub_diag in Ha. simpl in Ha. congruence.
        -- split; [lia|]. exists a. split; [|assumption].
           replace (i - k) with (S (i - S k)) in Ha by lia. exact Ha.
Qed.

Lemma positions_spec (name : string) (sch : list attr) (i : nat) :
  In i (positions name sch) <->
  exists a, nth_error sch i = Some a /\ name_eqb (col_name a) name = true.
Proof.
  unfold positions. rewrite positions_from_spec, Nat.sub_0_r.
  split; [tauto | intros H; split; [lia | exact H]].
Qed.

Lemma positions_from_none (name : string) (sch : list attr) (k : nat) :
  Forall (fun a => name_eqb (col_name a) name = false) sch ->
  positions_from k name sch = [].
Proof.
  intros H. revert k. induction H as [|b sch Hb _ IH]; intros k; simpl;
    [reflexivity|].
  rewrite Hb. apply IH.
Qed.

Lemma positions_none (name : string) (sch : list attr) :
  positions name sch = [] <->
  Forall (fun a => name_eqb (col_name a) name = false) sch.
Proof.
  split; [|apply positions_from_none].
  intros H. apply Forall_forall. intros a Ha.
  destruct (name_eqb (col_name a) name) eqn:E; [|reflexivity].
  apply In_nth_error in Ha as (i & Hi).
  assert (Hin : In i (positions name sch)) by (apply positions_spec; eauto).
  now rewrite H in Hin.
Qed.

Lemma positions_from_app (name : string) (s1 s2 : list attr) (k : nat) :
  positions_from k name (s1 ++ s2)
  = positions_from k name s1 ++ positions_from (k + List.length s1) name s2.
Proof.
  revert k. induction s1 as [|b s1 IH]; intros k; simpl.
  - now rewrite Nat.add_0_r.
  - rewrite IH. replace (S k + List.length s1) with (k + S (List.length s1)) by lia.
    now destruct (name_eqb (col_name b) name).
Qed.

Lemma positions_from_shift (name : string) (sch : list attr) (k : nat) :
  positions_from k name sch = map (Nat.add k) (positions_from 0 name sch).
Proof.
  revert k. induction sch as [|b sch IH]; intros k; simpl; [reflexivity|].
  rewrite (IH (S k)), (IH 1).
  destruct (name_eqb (col_name b) name); cbn [map]; rewrite map_map;
    [f_equal; [lia|]|]; apply map_ext; intros; lia.
Qed.

(** The positions of a name come in increasing order. *)
Lemma positions_from_sorted (name : string) (sch : list attr) (k : nat) :
  forall i rest, positions_from k name sch = i :: rest ->
                 k <= i /\ Forall (fun j => i < j) rest.
Proof.
  revert k. induction sch as [|b sch IH]; intros k i rest; simpl; [discriminate|].
  destruct (name_eqb (col_name b) name).
  - intros [= <- <-]. split; [lia|]. apply Forall_forall. intros j Hj.
    apply positions_from_spec in Hj. lia.
  - intros H. apply IH in H. split; [lia | tauto].
Qed.

(** Positions depend on the names only. *)
Lemma positions_names (name : string) (s1 s2 : list attr) :
  map col_name s1 = map col_name s2 -> positions name s1 = positions name s2.
Proof.
  unfold positions. generalize 0.
  revert s2. induction s1 as [|a s1 IH]; intros [|b s2] k H; try discriminate;
    [reflexivity|].
  simpl in H. injection H as Hn H. simpl. rewrite Hn, (IH s2 (S k) H). reflexivity.
Qed.

Lemma positions_same_name (n m : string) (sch : list attr) :
  name_eqb n m = true -> positions n sch = positions m sch.
Proof.
  intros H. unfold positions. generalize 0.
  induction sch as [|a sch IH]; intros k; simpl; [reflexivity|].
  rewrite !(name_eqb_sym (col_name a)), (name_eqb_left n m _ H), IH. reflexivity.
Qed.

Lemma id_at_nth (sch : list attr) (i : nat) (b : attr) :
  nth_error sch i = Some b -> id_at sch i = expr_id b.
Proof. intros H. unfold id_at. now rewrite (nth_error_nth _ _ _ H). Qed.

(** What a successful resolution tells: one column bears the name, and the
    reference is that column's attribute under the name as written. *)
Lemma resolve_ok (df : DataFrame) (name : string) (i : nat) (a : attr) :
  resolve df name = Ok (i, a) ->
  positions name (schema df) = [i] /\
  a = mk_attr (id_at (schema df) i) name /\
  exists b, nth_error (schema df) i = Some b /\
            name_eqb (col_name b) name = true /\ expr_id b = expr_id a.
Proof.
  unfold resolve. intros H.
  destruct (positions name (schema df)) as [|j [|? ?]] eqn:E; try discriminate.
  - injection H as <- <-.
    assert (Hin : In j (positions name (schema df))) by (rewrite E; now left).
    apply positions_spec in Hin as (b & Hb & Hn).
    split; [reflexivity|]. split; [reflexivity|]. exists b.
    repeat split; try assumption. cbn. symmetry. now apply id_at_nth.
  - destruct (distinct _); discriminate.
Qed.

Lemma resolve_of_positions (df : DataFrame) (name : string) (i : nat) :
  positions name (schema df) = [i] ->
  resolve df name = Ok (i, mk_attr (id_at (schema df) i) name).
Proof. unfold resolve. now intros ->. Qed.

Lemma resolve_name (df : DataFrame) (name : string) (c : nat * attr) :
  resolve df name = Ok c -> col_name (snd c) = name.
Proof.
  destruct c as [i a]. intros H. apply resolve_ok in H as (_ & -> & _). reflexivity.
Qed.

Lemma resolve_lt (df : DataFrame) (name : string) (c : nat * attr) :
  resolve df name = Ok c -> fst c < List.length (schema df).
Proof.
  destruct c as [i a]. intros H. apply resolve_ok in H as (_ & _ & b & H & _).
  apply nth_error_Some. simpl. congruence.
Qed.

(** Resolution looks at the schema only. *)
Lemma resolve_schema (df df' : DataFrame) (name : string) :
  schema df = schema df' -> resolve df name = resolve df' name.
Proof. unfold resolve. now intros ->. Qed.

(** No column of that name: an error of analysis. *)
Lemma resolve_missing (df : DataFrame) (name : string) :
  positions name (schema df) = [] -> resolve df name = Err AnalysisException.
Proof. unfold resolve. now intros ->. Qed.

(** In a frame that resolves [name], a column of that name is the one
    resolved. *)
Lemma resolve_unique (df : DataFrame) (name : string) (c : nat * attr)
    (j : nat) (b : attr) :
  resolve df name = Ok c -> nth_error (schema df) j = Some b ->
  name_eqb (col_name b) name = true -> j = fst c.
Proof.
  destruct c as [i a]. intros H Hb Hn. apply resolve_ok in H as (Hp & _).
  assert (Hin : In j (positions name (schema df)))
    by (apply positions_spec; eauto).
  rewrite Hp in Hin. destruct Hin as [<- | []]. reflexivity.
Qed.

(** ** Projection *)

Lemma select_columns (df out : DataFrame) (names : list string) :
  select df names = Ok out -> columns out = names.
Proof.
  unfold select. intros H. apply rbind_ok in H as (cols & Hc & H).
  injection H as <-. unfold columns. cbn [schema].
  apply rmap_list_ok in Hc. induction Hc as [|n c names cols Hn _ IH]; simpl.
  - reflexivity.
  - f_equal; [now apply resolve_name in Hn | exact IH].
Qed.

(** What a projection returns: for each name the one column that bears
    it, under the name as written, with that column's cells. *)
Lemma select_inv (df out : DataFrame) (names : list string) :
  select df names = Ok out ->
  exists ps,
    Forall2 (fun name p => positions name (schema df) = [p]) names ps /\
    schema out = map (fun np => mk_attr (id_at (schema df) (snd np)) (fst np))
                     (combine names ps) /\
    rows out = map (fun r => map (cell r) ps) (rows df).
Proof.
  unfold select. intros H. apply rbind_ok in H as (cols & Hc & H).
  injection H as <-. cbn [schema rows]. apply rmap_list_ok in Hc.
  exists (map fst cols). split; [|split].
  - induction Hc as [|n [i a] names cols Hn _ IH]; cbn [map]; constructor;
      [|exact IH].
    now apply resolve_ok in Hn.
  - induction Hc as [|n [i a] names cols Hn _ IH]; cbn [map combine fst snd];
      [reflexivity|].
    rewrite IH. f_equal. now apply resolve_ok in Hn as (_ & -> & _).
  - apply map_ext. intros r. now rewrite map_map.
Qed.

Lemma select_schema_only (df df' : DataFrame) (names : list string) :
  schema df = schema df' ->
  rmap_list (resolve df) names = rmap_list (resolve df') names.
Proof.
  intros E. induction names as [|n names IH]; simpl; [reflexivity|].
  now rewrite (resolve_schema df df' n E), IH.
Qed.

(** ** Masks *)

Lemma keep_mask_filter {A} (f : A -> bool) (l : list A) :
  keep_mask (map f l) l = filter f l.
Proof.
  induction l as [|x l IH]; simpl; [reflexivity|].
  rewrite IH. now destruct (f x).
Qed.

Lemma drop_schema (df : DataFrame) (ref : attr) :
  schema (drop df ref)
  = filter (fun a => negb (expr_id a =? expr_id ref)) (schema df).
Proof. unfold drop. cbn [schema]. apply keep_mask_filter. Qed.

Lemma in_drop_schema (df : DataFrame) (ref a : attr) :
  In a (schema (drop df ref)) <-> In a (schema df) /\ expr_id a <> expr_id ref.
Proof.
  rewrite drop_schema, filter_In, negb_true_iff, Nat.eqb_neq. tauto.
Qed.

Lemma drop_rows (df : DataFrame) (ref : attr) :
  rows (drop df ref)
  = map (keep_mask (map (fun a => negb (expr_id a =? expr_id ref)) (schema df)))
        (rows df).
Proof. reflexivity. Qed.

Lemma in_remove_at {A} (i : nat) (l : list A) (x : A) :
  In x (remove_at i l) -> In x l.
Proof.
  unfold remove_at. rewrite in_app_iff. intros [H|H].
  - rewrite <- (firstn_skipn i l). apply in_or_app. now left.
  - rewrite <- (firstn_skipn (S i) l). apply in_or_app. now right.
Qed.

End FrameFacts.

(* ================================================================== *)
(** * Facts about filter texts                                         *)
(* ================================================================== *)

Module SqlFacts.
Import Py Spark SparkSql Notions PyFacts FrameFacts.
Local Open Scope list_scope.

Lemma string_forallb_app (f : ascii -> bool) (a b : string) :
  string_forallb f (a ++ b)%string = string_forallb f a && string_forallb f b.
Proof.
  induction a as [|c a IH]; simpl; [reflexivity|].
  now rewrite IH, andb_assoc.
Qed.

Lemma start_ident_char (c : ascii) :
  is_ident_char c = true -> start c = Ok ([], InIdent (String c "")).
Proof.
  destruct c as [[] [] [] [] [] [] [] []]; intros H;
    first [discriminate H | reflexivity].
Qed.

Lemma plain_digit (d : N) : (d < 10)%N -> plain_char (digit d) = true.
Proof.
  intros H.
  assert (C : (d = 0 \/ d = 1 \/ d = 2 \/ d = 3 \/ d = 4 \/ d = 5 \/ d = 6
               \/ d = 7 \/ d = 8 \/ d = 9)%N) by lia.
  repeat (destruct C as [-> | C]; [reflexivity|]). now subst.
Qed.

Lemma plain_zero_padded (w : nat) (n : N) : plain_literal (zero_padded w n) = true.
Proof.
  unfold plain_literal. induction w as [|w IH]; simpl; [reflexivity|].
  rewrite IH, plain_digit; [reflexivity | apply N.mod_lt; lia].
Qed.

Lemma plain_app (a b : string) :
  plain_literal a = true -> plain_literal b = true ->
  plain_literal (a ++ b)%string = true.
Proof.
  unfold plain_literal. intros Ha Hb. now rewrite string_forallb_app, Ha, Hb.
Qed.

Lemma plain_str_date (d : date) : plain_literal (str_date d) = true.
Proof.
  unfold str_date.
  repeat (apply plain_app; [first [apply plain_zero_padded | reflexivity]|]).
  apply plain_zero_padded.
Qed.

(** What [str] prints for a timestamp holds no quote and no backslash. *)
Lemma plain_str_datetime (t : datetime) : plain_literal (str_datetime t) = true.
Proof.
  unfold str_datetime, str_time.
  apply plain_app; [apply plain_str_date|].
  repeat (apply plain_app; [first [apply plain_zero_padded | reflexivity]|]).
  destruct (microsecond t =? 0)%N; [reflexivity|].
  apply plain_app; [reflexivity | apply plain_zero_padded].
Qed.

(** ** Lexing *)

Lemma lex_in_ident (k : string) : forall (acc : string) (c : ascii) (r : string),
  string_forallb is_ident_char k = true -> is_ident_char c = false ->
  lex (InIdent acc) (k ++ String c r)%string
  = rbind (start c) (fun p =>
      rbind (lex (snd p) r) (fun ts => Ok ((TIdent (acc ++ k)%string :: fst p) ++ ts))).
Proof.
  induction k as [|x k IH]; intros acc c r Hk Hc.
  - cbn [String.append lex step]. rewrite Hc, string_app_nil_r.
    destruct (start c) as [p|e]; reflexivity.
  - simpl in Hk. apply andb_true_iff in Hk as [Hx Hk].
    cbn [String.append lex step]. rewrite Hx. cbn [rbind snd fst].
    rewrite IH by assumption. unfold snoc.
    rewrite string_app_assoc. cbn [String.append app].
    destruct (start c) as [p|e]; cbn [rbind]; [|reflexivity].
    destruct (lex (snd p) r); reflexivity.
Qed.

Lemma lex_in_string (v : string) : forall (acc r : string),
  plain_literal v = true ->
  lex (InString acc) (v ++ String quote r)%string
  = rbind (lex Blank r) (fun ts => Ok (TString (acc ++ v)%string :: ts)).
Proof.
  induction v as [|x v IH]; intros acc r Hv.
  - cbn [String.append lex step]. rewrite Ascii.eqb_refl, string_app_nil_r.
    cbn [rbind snd fst]. destruct (lex Blank r); reflexivity.
  - unfold plain_literal in Hv. simpl in Hv.
    apply andb_true_iff in Hv as [Hx Hv]. unfold plain_char in Hx.
    apply andb_true_iff in Hx as [Hq Hb]. apply negb_true_iff in Hq, Hb.
    cbn [String.append lex step]. rewrite Hq, Hb. cbn [rbind snd fst].
    rewrite IH by exact Hv. unfold snoc.
    rewrite string_app_assoc. cbn [String.append app].
    destruct (lex Blank r); reflexivity.
Qed.

(** The text of one equality, followed by more text: its three tokens, then
    the tokens of the rest.  The key only has to be made of identifier
    characters. *)
Lemma lex_equality_then (c : ascii) (k v r : string) :
  is_ident_char c = true -> string_forallb is_ident_char k = true ->
  plain_literal v = true ->
  lex Blank (String c k ++ " = '" ++ v ++ "'" ++ r)%string
  = rbind (lex Blank r) (fun ts => Ok (TIdent (String c k) :: TEq :: TString v :: ts)).
Proof.
  intros Hc Hk Hv.
  change (String c k ++ " = '" ++ v ++ "'" ++ r)%string
    with (String c (k ++ String " " (String "=" (String " " (String quote
            (v ++ String quote r)))))%string).
  cbn [lex step]. rewrite (start_ident_char c Hc). cbn [rbind snd fst].
  rewrite lex_in_ident by (exact Hk || reflexivity).
  change (start " ") with (@Ok (list token * lex_state) ([], Blank)).
  cbn [rbind snd fst lex step].
  change (start "=") with (@Ok (list token * lex_state) ([TEq], Blank)).
  cbn [rbind snd fst lex step].
  change (start " ") with (@Ok (list token * lex_state) ([], Blank)).
  cbn [rbind snd fst lex step].
  change (start quote) with (@Ok (list token * lex_state) ([], InString "")).
  cbn [rbind snd fst].
  rewrite lex_in_string by exact Hv.
  destruct (lex Blank r); reflexivity.
Qed.

Lemma plain_identifier_chars (k : string) :
  plain_identifier k = true ->
  exists c k', k = String c k' /\ is_ident_char c = true /\
               string_forallb is_ident_char k' = true /\
               is_keyword k = false /\ starts_with_digit k = false.
Proof.
  destruct k as [|c k]; [discriminate|]. unfold plain_identifier. intros H.
  apply andb_true_iff in H as [H Hd]. apply andb_true_iff in H as [H Hw].
  apply negb_true_iff in Hd, Hw. simpl in H. apply andb_true_iff in H as [Hc Hk].
  exists c, k. auto.
Qed.

Lemma upper_ident_char (c : ascii) :
  is_ident_char c = true -> is_ident_char (upper c) = true.
Proof.
  destruct c as [[] [] [] [] [] [] [] []]; intros H;
    first [discriminate H | reflexivity].
Qed.

(** A word that goes on after [AND] is neither [AND] nor another keyword. *)
Lemma and_glued_word (c : ascii) (k : string) :
  is_and ("AND" ++ String c k) = false /\ is_keyword ("AND" ++ String c k) = false.
Proof.
  unfold is_and, is_keyword. cbn [String.append upper_string].
  change (upper "A") with "A"%char. change (upper "N") with "N"%char.
  change (upper "D") with "D"%char. split; reflexivity.
Qed.

Lemma partition_filter_text (kv : string * string) (kvs : list (string * string)) :
  DailyOrderMetricsGoldETL.partition_filter_of (kv :: kvs)
  = (fst kv ++ " = '" ++ snd kv ++ "'" ++ joined_tail kvs)%string.
Proof.
  unfold DailyOrderMetricsGoldETL.partition_filter_of.
  revert kv. induction kvs as [|kv' kvs IH]; intros kv.
  - reflexivity.
  - change (map ?f (kv :: kv' :: kvs)) with (f kv :: map f (kv' :: kvs)).
    cbn [String.concat]. rewrite (IH kv'). cbn [map joined_tail].
    now rewrite !string_app_assoc.
Qed.

Lemma lex_joined_tail (kvs : list (string * string)) :
  Forall plain_pair kvs ->
  lex Blank (joined_tail kvs) = Ok (joined_tail_tokens kvs).
Proof.
  induction 1 as [|[k v] kvs [Hk Hv] _ IH]; [reflexivity|].
  cbn [fst snd] in Hk, Hv.
  destruct (plain_identifier_chars k Hk) as (c & k' & -> & Hc & Hk' & _ & _).
  cbn [joined_tail fst snd].
  change (" AND" ++ String c k' ++ " = '" ++ v ++ "'" ++ joined_tail kvs)%string
    with (String " " (String "A" (String "N" (String "D" (String c k')))
                        ++ " = '" ++ v ++ "'" ++ joined_tail kvs))%string.
  cbn [lex step]. change (start " ") with (@Ok (list token * lex_state) ([], Blank)).
  cbn [rbind snd fst app].
  rewrite (lex_equality_then "A" (String "N" (String "D" (String c k'))) v)
    by (try reflexivity; try assumption; cbn; now rewrite Hc, Hk').
  rewrite IH. reflexivity.
Qed.

(** The text the units build from two or more pairs: every key after the
    first is glued to [AND], and the parser stops at the [=] that follows the
    first glued word. *)
Lemma several_pairs_do_not_parse (kv1 kv2 : string * string)
    (more : list (string * string)) :
  Forall plain_pair (kv1 :: kv2 :: more) ->
  rbind (lex Blank (DailyOrderMetricsGoldETL.partition_filter_of (kv1 :: kv2 :: more)))
        parse
  = Err ParseException.
Proof.
  intros H. pose proof (Forall_inv H) as [H1 Hv1].
  pose proof (Forall_inv_tail H) as Htail. pose proof (Forall_inv Htail) as [H2 _].
  destruct kv1 as [k1 v1]. destruct kv2 as [k2 v2]. cbn [fst snd] in *.
  destruct (plain_identifier_chars k1 H1) as (c1 & k1' & -> & Hc1 & Hk1 & Hw1 & Hd1).
  destruct (plain_identifier_chars k2 H2) as (c2 & k2' & -> & _ & _ & _ & _).
  rewrite partition_filter_text. cbn [fst snd].
  rewrite lex_equality_then by assumption.
  rewrite (lex_joined_tail _ Htail). cbn [rbind joined_tail_tokens flat_map fst snd app].
  cbn [parse operand_of]. rewrite Hw1, Hd1. cbn [orb rbind].
  destruct (and_glued_word c2 k2') as [Ha Hk]. now rewrite Ha, Hk.
Qed.

(** The text of one equality lexes into its three tokens. *)
Lemma lex_equality (k v : string) :
  plain_identifier k = true -> plain_literal v = true ->
  lex Blank (k ++ " = '" ++ v ++ "'")%string = Ok [TIdent k; TEq; TString v].
Proof.
  intros Hk Hv. destruct k as [|c k]; [discriminate|].
  unfold plain_identifier in Hk.
  apply andb_true_iff in Hk as [Hk _]. apply andb_true_iff in Hk as [Hk _].
  simpl in Hk. apply andb_true_iff in Hk as [Hc Hk].
  change (String c k ++ " = '" ++ v ++ "'")%string
    with (String c (k ++ String " " (String "=" (String " " (String quote
            (v ++ String quote "")))))%string).
  cbn [lex step]. rewrite (start_ident_char c Hc). cbn [rbind snd fst].
  rewrite lex_in_ident by (exact Hk || reflexivity).
  change (start " ") with (@Ok (list token * lex_state) ([], Blank)).
  cbn [rbind snd fst lex step].
  change (start "=") with (@Ok (list token * lex_state) ([TEq], Blank)).
  cbn [rbind snd fst lex step].
  change (start " ") with (@Ok (list token * lex_state) ([], Blank)).
  cbn [rbind snd fst lex step].
  change (start quote) with (@Ok (list token * lex_state) ([], InString "")).
  cbn [rbind snd fst].
  rewrite lex_in_string by exact Hv. reflexivity.
Qed.

Lemma parse_equality (k v : string) :
  plain_identifier k = true ->
  parse [TIdent k; TEq; TString v] = Ok [(Column k, Literal v)].
Proof.
  intros Hk. destruct k as [|c k]; [discriminate|].
  unfold plain_identifier in Hk.
  apply andb_true_iff in Hk as [Hk Hd]. apply andb_true_iff in Hk as [_ Hw].
  apply negb_true_iff in Hd, Hw.
  cbn [parse operand_of]. now rewrite Hw, Hd.
Qed.

(** Filtering by the text of one equality keeps the rows whose cell equals
    the literal. *)
Lemma filter_expr_equality (df : DataFrame) (k v : string) :
  plain_identifier k = true -> plain_literal v = true ->
  filter_expr df (k ++ " = '" ++ v ++ "'")%string
  = rbind (resolve df k) (fun c =>
      rbind (rfilter (equals_literal (fst c) v) (rows df)) (fun kept =>
        Ok (mk_df (schema df) kept))).
Proof.
  intros Hk Hv. unfold filter_expr.
  rewrite lex_equality by assumption. cbn [rbind].
  rewrite parse_equality by assumption.
  cbn [rbind rmap_list]. unfold resolve_comparison, resolve_operand.
  cbn [fst snd].
  destruct (resolve df k) as [c|e]; cbn [rbind]; [|reflexivity].
  erewrite rfilter_ext; [reflexivity|].
  intros r. unfold holds, equals_literal. cbn [rmap_list fst snd].
  destruct (sql_eq (cell r (fst c)) (VStr v)) as [[[]|]|]; reflexivity.
Qed.

End SqlFacts.

(* ================================================================== *)
(** * Facts about running programs                                     *)
(* ================================================================== *)

Module RunFacts.
Import Py Spark SparkSql Runtime Base Notions FrameFacts.
Local Open Scope list_scope.

Section Interp.
Context {W : Type} (h : env W).

Lemma interp_bind {A B} (p : prog A) (f : A -> prog B) (w : W) :
  interp h (bind p f) w
  = match outcome (interp h p w) with
    | Ok a =>
        let r := interp h (f a) (final (interp h p w)) in
        mk_run (outcome r) (final r) (trace (interp h p w) ++ trace r)
    | Err e => mk_run (Err e) (final (interp h p w)) (trace (interp h p w))
    end.
Proof.
  revert w. induction p as [a|e|X ev k IH]; intros w; cbn [bind interp].
  - cbn. now destruct (interp h (f a) w).
  - reflexivity.
  - destruct (h X ev w) as [[x|e] w']; [|reflexivity].
    rewrite IH. cbn [outcome final trace].
    destruct (outcome (interp h (k x) w')); reflexivity.
Qed.

Lemma interp_lift_bind {A B} (r : result A) (f : A -> prog B) (w : W) :
  interp h (bind (lift r) f) w
  = match r with
    | Ok a => interp h (f a) w
    | Err e => mk_run (Err e) w []
    end.
Proof. destruct r; reflexivity. Qed.

Lemma interp_trigger_bind {X B} (ev : event X) (f : X -> prog B) (w : W) :
  interp h (bind (trigger ev) f) w
  = match h _ ev w with
    | (Ok x, w') =>
        let r := interp h (f x) w' in
        mk_run (outcome r) (final r) ((request_of ev, answer_of ev x) :: trace r)
    | (Err e, w') => mk_run (Err e) w' [(request_of ev, ARaised e)]
    end.
Proof. reflexivity. Qed.

Lemma interp_bind_ok {A B} (p : prog A) (f : A -> prog B) (w : W) (b : B) :
  outcome (interp h (bind p f) w) = Ok b ->
  exists a, outcome (interp h p w) = Ok a /\
            outcome (interp h (f a) (final (interp h p w))) = Ok b.
Proof.
  rewrite interp_bind. destruct (outcome (interp h p w)) as [a|e]; cbn.
  - eauto.
  - discriminate.
Qed.

Lemma interp_lift_bind_ok {A B} (r : result A) (f : A -> prog B) (w : W) (b : B) :
  outcome (interp h (bind (lift r) f) w) = Ok b ->
  exists a, r = Ok a /\ outcome (interp h (f a) w) = Ok b.
Proof.
  rewrite interp_lift_bind. destruct r as [a|e]; cbn; [eauto | discriminate].
Qed.

Lemma interp_trigger_bind_ok {X B} (ev : event X) (f : X -> prog B) (w : W) (b : B) :
  outcome (interp h (bind (trigger ev) f) w) = Ok b ->
  exists x w', h _ ev w = (Ok x, w') /\ outcome (interp h (f x) w') = Ok b.
Proof.
  rewrite interp_trigger_bind. destruct (h X ev w) as [[x|e] w']; cbn;
    [eauto | discriminate].
Qed.

End Interp.

(** ** The two [read] methods *)

Lemma daily_read_eq :
  DailyOrderMetricsGoldETL.read
  = read_with DailyOrderMetricsGoldETL.selected_columns.
Proof. reflexivity. Qed.

Lemma wide_read_eq :
  WideOrderItemsGoldETL.read
  = read_with WideOrderItemsGoldETL.selected_columns.
Proof. reflexivity. Qed.

Section Read.
Context {W : Type} (h : env W) (cols : list string) (self : TableETL).

(** Mode 1: the cached frame, projected; nothing is asked of anyone. *)
Lemma read_cached (pv : option (list (string * string))) (cached : DataFrame) (w : W) :
  write_data self = false -> current_data self = Some cached ->
  interp h (read_with cols self pv) w
  = mk_run (rbind (select cached cols) (fun d => Ok (envelope self d))) w [].
Proof.
  intros Hw Hc. unfold read_with. rewrite Hw, Hc. cbn [negb].
  rewrite interp_lift_bind. destruct (select cached cols); reflexivity.
Qed.

Lemma read_uncached (pv : option (list (string * string))) (w : W) :
  write_data self = false -> current_data self = None ->
  interp h (read_with cols self pv) w = mk_run (Err AttributeError) w [].
Proof. intros Hw Hc. unfold read_with. now rewrite Hw, Hc. Qed.

Lemma load_filter_select_run (text : string) (stored : DataFrame) (w w' : W) :
  h _ (Load (data_format self) (storage_path self)) w = (Ok stored, w') ->
  interp h (load_filter_select cols self text) w
  = mk_run (rbind (filter_expr stored text) (fun f =>
            rbind (select f cols) (fun d => Ok (envelope self d))))
           w'
           [(RLoad (data_format self) (storage_path self), AFrame stored)].
Proof.
  intros Hl. unfold load_filter_select. rewrite interp_trigger_bind, Hl.
  rewrite interp_lift_bind. destruct (filter_expr stored text) as [f|e]; [|reflexivity].
  rewrite interp_lift_bind. cbn [rbind]. destruct (select f cols); reflexivity.
Qed.

(** Mode 2: one load, filtered by the text built from the dictionary. *)
Lemma read_explicit (pv : option (list (string * string))) (stored : DataFrame)
    (w w' : W) :
  write_data self = true -> truthy pv = true ->
  h _ (Load (data_format self) (storage_path self)) w = (Ok stored, w') ->
  interp h (read_with cols self pv) w
  = mk_run (rbind (filter_expr stored
                     (DailyOrderMetricsGoldETL.partition_filter_of (items pv)))
              (fun f => rbind (select f cols) (fun d => Ok (envelope self d))))
           w'
           [(RLoad (data_format self) (storage_path self), AFrame stored)].
Proof.
  intros Hw Hp Hl. unfold read_with. rewrite Hw, Hp. cbn [negb bind].
  now apply load_filter_select_run.
Qed.

(** Mode 3: a probe for the greatest [etl_inserted], then a load filtered
    by the text built from what the probe showed. *)
Lemma read_latest (pv : option (list (string * string))) (probed stored : DataFrame)
    (w w1 w2 : W) (latest : value) (shown : string) :
  write_data self = true -> truthy pv = false ->
  h _ (Load (data_format self) (storage_path self)) w = (Ok probed, w1) ->
  h _ (Load (data_format self) (storage_path self)) w1 = (Ok stored, w2) ->
  select_max probed "etl_inserted" = Ok latest ->
  py_str latest = Ok shown ->
  interp h (read_with cols self pv) w
  = mk_run (rbind (filter_expr stored ("etl_inserted = '" ++ shown ++ "'")%string)
              (fun f => rbind (select f cols) (fun d => Ok (envelope self d))))
           w2
           [(RLoad (data_format self) (storage_path self), AFrame probed);
            (RLoad (data_format self) (storage_path self), AFrame stored)].
Proof.
  intros Hw Hp Hl1 Hl2 Hmax Hstr. unfold read_with. rewrite Hw, Hp. cbn [negb].
  rewrite interp_bind, interp_trigger_bind, Hl1.
  rewrite Hmax. cbn [lift bind]. rewrite Hstr.
  cbn [lift bind interp outcome final trace app].
  fold (load_filter_select cols self ("etl_inserted = '" ++ shown ++ "'")%string).
  rewrite (load_filter_select_run _ stored w1 w2 Hl2). reflexivity.
Qed.

(** Whatever the mode and the environment, a frame that [read] returns
    went through [select] last. *)
Lemma read_returns_selected (pv : option (list (string * string))) (w : W)
    (ds : ETLDataSet) :
  outcome (interp h (read_with cols self pv) w) = Ok ds ->
  exists f d, select f cols = Ok d /\ ds = envelope self d.
Proof.
  unfold read_with. destruct (write_data self); cbn [negb].
  - intros H. apply interp_bind_ok in H as (text & _ & H).
    apply interp_trigger_bind_ok in H as (stored & w' & _ & H).
    apply interp_lift_bind_ok in H as (f & _ & H).
    apply interp_lift_bind_ok in H as (d & Hd & H).
    cbn in H. injection H as <-. eauto.
  - destruct (current_data self) as [cached|]; [|discriminate].
    intros H. apply interp_lift_bind_ok in H as (d & Hd & H).
    cbn in H. injection H as <-. eauto.
Qed.

End Read.

End RunFacts.

(* ================================================================== *)
(** * Reading the latest partition                                     *)
(* ================================================================== *)

Module LatestFacts.
Import Py Spark SparkSql Runtime Base Storage Notions PyFacts FrameFacts SqlFacts RunFacts.
Local Open Scope list_scope.

(** ** The greatest timestamp of a column *)

Lemma lex_ltb_total (a b : list N) :
  List.length a = List.length b ->
  lex_ltb a b = false -> lex_ltb b a = true \/ a = b.
Proof.
  revert b. induction a as [|x a IH]; intros [|y b] Hl; simpl in *;
    try discriminate; [now right|].
  injection Hl as Hl. rewrite orb_false_iff, andb_false_iff.
  intros [Hlt [Hne | Hr]].
  - left. apply orb_true_iff. left. apply N.ltb_lt.
    apply N.ltb_ge in Hlt. apply N.eqb_neq in Hne. lia.
  - apply N.ltb_ge in Hlt. destruct (N.eqb_spec y x) as [->|Hne].
    + destruct (IH b Hl Hr) as [H | ->]; [left | now right].
      now rewrite N.ltb_irrefl, H.
    + left. apply orb_true_iff. left. apply N.ltb_lt. lia.
Qed.

Lemma datetime_ltb_total (a b : datetime) :
  datetime_ltb a b = false -> datetime_ltb b a = true \/ a = b.
Proof.
  intros H. destruct (lex_ltb_total (datetime_fields a) (datetime_fields b)
                        eq_refl H) as [H' | H'].
  - now left.
  - right. apply datetime_eqb_eq. unfold datetime_eqb. rewrite H'.
    apply lex_eqb_refl.
Qed.

Lemma later_lt (a t : datetime) : datetime_ltb a t = true -> later a t = t.
Proof. unfold later. now intros ->. Qed.

Lemma later_ge (a t : datetime) : datetime_ltb a t = false -> later a t = a.
Proof. unfold later. now intros ->. Qed.

Lemma fold_later_in (ts : list datetime) (a : datetime) :
  In (fold_left later ts a) (a :: ts).
Proof.
  revert a. induction ts as [|t ts IH]; intros a; cbn [fold_left].
  - now left.
  - destruct (IH (later a t)) as [H | H].
    + rewrite <- H. unfold later. destruct (datetime_ltb a t); simpl; auto.
    + simpl. auto.
Qed.

Lemma fold_later_ge_start (ts : list datetime) (a : datetime) :
  datetime_ltb (fold_left later ts a) a = false.
Proof.
  revert a. induction ts as [|t ts IH]; intros a; cbn [fold_left].
  - apply datetime_ltb_irrefl.
  - specialize (IH (later a t)).
    destruct (datetime_ltb a t) eqn:E.
    + rewrite (later_lt a t E) in *.
      destruct (datetime_ltb (fold_left later ts t) a) eqn:F; [|reflexivity].
      now rewrite (datetime_ltb_trans _ _ _ F E) in IH.
    + now rewrite (later_ge a t E) in *.
Qed.

Lemma fold_later_upper (ts : list datetime) (a t : datetime) :
  In t (a :: ts) -> datetime_ltb (fold_left later ts a) t = false.
Proof.
  revert a. induction ts as [|u ts IH]; intros a [<- | H].
  - apply datetime_ltb_irrefl.
  - destruct H.
  - apply fold_later_ge_start.
  - cbn [fold_left]. destruct H as [<- | H].
    + pose proof (fold_later_ge_start ts (later a u)) as G.
      destruct (datetime_ltb a u) eqn:E.
      * now rewrite (later_lt a u E) in *.
      * rewrite (later_ge a u E) in *.
        destruct (datetime_ltb (fold_left later ts a) u) eqn:F; [|reflexivity].
        destruct (datetime_ltb_total a u E) as [E' | ->]; [|now rewrite F in G].
        now rewrite (datetime_ltb_trans _ _ _ F E') in G.
    + apply IH. now right.
Qed.

Lemma max_from_timestamps (ts : list datetime) (a : datetime) :
  max_from (VTimestamp a) (map VTimestamp ts) = Ok (VTimestamp (fold_left later ts a)).
Proof.
  revert a. induction ts as [|t ts IH]; intros a; cbn [map fold_left max_from];
    [reflexivity|].
  replace (max_step (VTimestamp a) (VTimestamp t)) with (Ok (VTimestamp (later a t)));
    [apply IH|].
  unfold max_step, later. cbn [is_null value_ltb]. now destruct (datetime_ltb a t).
Qed.

Lemma max_cells_timestamps (t : datetime) (ts : list datetime) :
  max_cells (map VTimestamp (t :: ts)) = Ok (VTimestamp (fold_left later ts t)).
Proof. unfold max_cells. cbn [map max_from max_step is_null rbind]. apply max_from_timestamps. Qed.

Lemma timestamps_of (i : nat) (rs : list row) :
  timestamp_column i rs ->
  exists ts, map (fun r => cell r i) rs = map VTimestamp ts /\
             Forall (fun t => valid_datetime t = true) ts.
Proof.
  induction 1 as [|r rs (t & Ht & Hv) _ (ts & IH & Hts)].
  - exists []. split; [reflexivity | constructor].
  - exists (t :: ts). cbn [map]. rewrite Ht, IH. split; [reflexivity | now constructor].
Qed.

(** The probe's answer on a column of timestamps: nothing on no rows,
    otherwise a timestamp of the column that none exceeds. *)
Lemma max_cells_spec (i : nat) (rs : list row) :
  timestamp_column i rs ->
  exists latest,
    max_cells (map (fun r => cell r i) rs) = Ok latest /\
    ((rs = [] /\ latest = VNull) \/
     (exists m, latest = VTimestamp m /\ valid_datetime m = true /\
                (exists r, In r rs /\ cell r i = VTimestamp m) /\
                (forall r t, In r rs -> cell r i = VTimestamp t ->
                             datetime_ltb m t = false))).
Proof.
  intros Hc. destruct (timestamps_of i rs Hc) as (ts & E & Hv).
  destruct ts as [|t ts].
  - exists VNull. destruct rs; [|discriminate]. split; [reflexivity | now left].
  - rewrite E, max_cells_timestamps.
    set (m := fold_left later ts t).
    assert (Hin : In m (t :: ts)) by apply fold_later_in.
    exists (VTimestamp m). split; [reflexivity|]. right.
    exists m. split; [reflexivity|]. split; [|split].
    + rewrite Forall_forall in Hv. now apply Hv.
    + assert (Hm : In (VTimestamp m) (map (fun r => cell r i) rs))
        by (rewrite E; now apply in_map).
      apply in_map_iff in Hm as (r & Hr & Hin'). eauto.
    + intros r u Hr Hu. apply fold_later_upper.
      assert (Hm : In (VTimestamp u) (map VTimestamp (t :: ts))).
      { rewrite <- E, <- Hu. exact (in_map (fun r0 => cell r0 i) rs r Hr). }
      apply in_map_iff in Hm as (u' & [= ->] & Hu'). exact Hu'.
Qed.

(** ** The filter text built from the probe *)

Lemma equals_literal_timestamp (i : nat) (m : datetime) (r : row) (t : datetime) :
  valid_datetime m = true -> cell r i = VTimestamp t ->
  equals_literal i (str_datetime m) r = Ok (value_eqb (cell r i) (VTimestamp m)).
Proof.
  intros Hm Ht. unfold equals_literal. rewrite Ht. cbn [sql_eq value_eqb].
  rewrite cast_timestamp_str_datetime by exact Hm. cbn [rbind option_map].
  now destruct (datetime_eqb t m).
Qed.

Lemma rfilter_timestamp (i : nat) (m : datetime) (rs : list row) :
  valid_datetime m = true -> timestamp_column i rs ->
  rfilter (equals_literal i (str_datetime m)) rs
  = Ok (filter (fun r => value_eqb (cell r i) (VTimestamp m)) rs).
Proof.
  intros Hm Hc. apply rfilter_total. intros r Hin.
  unfold timestamp_column in Hc. rewrite Forall_forall in Hc.
  destruct (Hc r Hin) as (t & Ht & _). now apply equals_literal_timestamp with (t := t).
Qed.

Lemma filter_expr_etl_inserted (df : DataFrame) (v : string) :
  plain_literal v = true ->
  filter_expr df ("etl_inserted = '" ++ v ++ "'")%string
  = rbind (resolve df "etl_inserted") (fun c =>
      rbind (rfilter (equals_literal (fst c) v) (rows df)) (fun kept =>
        Ok (mk_df (schema df) kept))).
Proof. exact (filter_expr_equality df "etl_inserted" v eq_refl). Qed.

Section Latest.
Context {W : Type} (h : env W) (cols : list string) (self : TableETL).

(** With no partition values, [read] probes the stored table for the
    greatest [etl_inserted] and returns the rows that carry it, projected. *)
Lemma read_latest_spec (pv : option (list (string * string))) (stored : DataFrame)
    (i : nat) (a : attr) (w : W) (latest : value) :
  write_data self = true -> truthy pv = false ->
  serves h self stored w ->
  resolve stored "etl_inserted" = Ok (i, a) ->
  timestamp_column i (rows stored) ->
  max_cells (map (fun r => cell r i) (rows stored)) = Ok latest ->
  interp h (read_with cols self pv) w
  = mk_run
      (rbind (select (mk_df (schema stored)
                        (filter (fun r => value_eqb (cell r i) latest) (rows stored)))
                     cols)
             (fun d => Ok (envelope self d)))
      w (loads self [stored; stored]).
Proof.
  intros Hw Hp Hs Hr Hc Hlatest.
  assert (Hmax : select_max stored "etl_inserted" = Ok latest)
    by (unfold select_max; now rewrite Hr).
  destruct (max_cells_spec i (rows stored) Hc)
    as (latest' & Hl' & [[Hnil Hl] | (m & Hl & Hv & _ & _)]);
    rewrite Hlatest in Hl'; injection Hl' as <-.
  - rewrite (read_latest h cols self pv stored stored w w w latest "None");
      auto; [|now rewrite Hl].
    rewrite (filter_expr_etl_inserted stored "None") by reflexivity.
    rewrite Hr, Hnil. reflexivity.
  - rewrite (read_latest h cols self pv stored stored w w w latest (str_datetime m));
      auto; [|now rewrite Hl].
    rewrite (filter_expr_etl_inserted stored (str_datetime m))
      by apply plain_str_datetime.
    rewrite Hr. cbn [rbind fst]. rewrite Hl.
    now rewrite (rfilter_timestamp i m (rows stored) Hv Hc).
Qed.

End Latest.

(** ** Writes followed by a latest read *)

Lemma same_names_refl (l : list string) : same_names l l = true.
Proof. induction l; simpl; [reflexivity | now rewrite String.eqb_refl]. Qed.

Section Writes.
Context (self : TableETL) (sch : list attr).
Hypothesis writes : write_data self = true.

Lemma write_append (rs0 : list row) (b : datetime * list row) :
  write self (batch_envelope self sch b) [(storage_path self, mk_df sch rs0)]
  = Ok [(storage_path self, mk_df sch (rs0 ++ snd b))].
Proof.
  unfold write. rewrite writes. cbn [negb lookup].
  rewrite String.eqb_refl. cbn [columns schema batch_envelope envelope
    ds_current_data rows].
  rewrite same_names_refl. cbn [update]. now rewrite String.eqb_refl.
Qed.

Lemma write_all_append (bs : list (datetime * list row)) : forall rs0,
  write_all self (map (batch_envelope self sch) bs)
            [(storage_path self, mk_df sch rs0)]
  = Ok [(storage_path self, mk_df sch (rs0 ++ List.concat (map snd bs)))].
Proof.
  induction bs as [|b bs IH]; intros rs0; cbn [map write_all List.concat].
  - now rewrite app_nil_r.
  - rewrite write_append. cbn [rbind]. rewrite IH. now rewrite app_assoc.
Qed.

(** Writes into an empty store leave one table: all the rows, in order. *)
Lemma write_all_fresh (b : datetime * list row) (bs : list (datetime * list row)) :
  write_all self (map (batch_envelope self sch) (b :: bs)) []
  = Ok [(storage_path self, mk_df sch (List.concat (map snd (b :: bs))))].
Proof.
  cbn [map write_all]. unfold write at 1. rewrite writes. cbn [negb lookup update rbind].
  exact (write_all_append bs (snd b)).
Qed.

End Writes.

Lemma increasing_before (ts : list datetime) (tN : datetime) (rest : list datetime) :
  increasing (ts ++ tN :: rest) = true ->
  forall t, In t ts -> datetime_ltb t tN = true.
Proof.
  induction ts as [|a ts IH]; intros H t Hin; [destruct Hin|].
  destruct ts as [|b ts].
  - cbn [app increasing] in H. apply andb_true_iff in H as [H _].
    destruct Hin as [<- | []]. exact H.
  - cbn [app increasing] in H. apply andb_true_iff in H as [Hab H].
    destruct Hin as [<- | Hin].
    + apply datetime_ltb_trans with b; [exact Hab|].
      apply IH; [exact H | now left].
    + now apply IH.
Qed.

Lemma filter_none {A} (f : A -> bool) (l : list A) :
  (forall x, In x l -> f x = false) -> filter f l = [].
Proof.
  induction l as [|x l IH]; intros H; simpl; [reflexivity|].
  rewrite (H x) by now left. apply IH. intros y Hy. apply H. now right.
Qed.

Lemma filter_all {A} (f : A -> bool) (l : list A) :
  (forall x, In x l -> f x = true) -> filter f l = l.
Proof.
  induction l as [|x l IH]; intros H; simpl; [reflexivity|].
  rewrite (H x) by now left. f_equal. apply IH. intros y Hy. apply H. now right.
Qed.

Lemma nonempty_has {A} (l : list A) : l <> [] -> exists x, In x l.
Proof. destruct l as [|x l]; [congruence | intros _; exists x; now left]. Qed.

Lemma concat_silent (later : list (datetime * list row)) :
  Forall (fun b => snd b = []) later -> List.concat (map snd later) = [].
Proof.
  induction 1 as [|b later Hb _ IH]; [reflexivity|].
  cbn [map List.concat]. now rewrite Hb, IH.
Qed.

(** The writes are all empty, or there is a last one that wrote rows. *)
Lemma latest_rows_split (ws : list (datetime * list row)) :
  (Forall (fun b => snd b = []) ws /\ latest_rows ws = []) \/
  (exists earlier tN rowsN later,
      ws = earlier ++ (tN, rowsN) :: later /\ rowsN <> [] /\
      Forall (fun b => snd b = []) later /\ latest_rows ws = rowsN).
Proof.
  induction ws as [|[t rs] ws IH]; [left; split; [constructor | reflexivity]|].
  destruct IH as [[Hall Hl] | (earlier & tN & rowsN & later & -> & Hne & Hs & Hl)].
  - cbn [latest_rows]. rewrite Hl. cbn [snd]. destruct rs as [|r rs].
    + left. split; [now constructor | reflexivity].
    + right. exists [], t, (r :: rs), ws. repeat split; [discriminate | exact Hall].
  - right. exists ((t, rs) :: earlier), tN, rowsN, later.
    repeat split; try assumption.
    cbn [latest_rows]. rewrite Hl. destruct rowsN; [congruence | reflexivity].
Qed.

Section LatestAfterWrites.
Context (sch : list attr) (i : nat) (earlier : list (datetime * list row))
        (tN : datetime) (rowsN : list row) (later : list (datetime * list row)).
Hypothesis ordered : increasing (map fst (earlier ++ (tN, rowsN) :: later)) = true.
Hypothesis batches : Forall (stamped i) (earlier ++ (tN, rowsN) :: later).
Hypothesis nonempty : rowsN <> [].
Hypothesis silent : Forall (fun b => snd b = []) later.

Let all_rows : list row := List.concat (map snd (earlier ++ (tN, rowsN) :: later)).

Lemma all_rows_split : all_rows = List.concat (map snd earlier) ++ rowsN.
Proof.
  unfold all_rows. rewrite map_app, concat_app. cbn [map List.concat snd].
  now rewrite (concat_silent later silent), app_nil_r.
Qed.

Lemma earlier_rows (r : row) :
  In r (List.concat (map snd earlier)) ->
  exists t, cell r i = VTimestamp t /\ valid_datetime t = true /\
            datetime_ltb t tN = true.
Proof.
  intros Hin. apply in_concat in Hin as (rs & Hrs & Hr).
  apply in_map_iff in Hrs as ([t rs'] & <- & Hb). cbn [snd] in Hr.
  rewrite Forall_forall in batches.
  destruct (batches (t, rs')) as [Hv Hst]; [apply in_or_app; now left|].
  cbn [fst snd] in *. rewrite Forall_forall in Hst.
  exists t. split; [now apply Hst|]. split; [exact Hv|].
  apply (increasing_before (map fst earlier) tN (map fst later)).
  - rewrite map_app in ordered. exact ordered.
  - change t with (fst (t, rs')). now apply in_map.
Qed.

Lemma last_rows (r : row) :
  In r rowsN -> cell r i = VTimestamp tN.
Proof.
  intros Hin. rewrite Forall_forall in batches.
  destruct (batches (tN, rowsN)) as [_ Hst]; [apply in_or_app; right; now left|].
  cbn [fst snd] in Hst. rewrite Forall_forall in Hst. now apply Hst.
Qed.

Lemma last_valid : valid_datetime tN = true.
Proof.
  rewrite Forall_forall in batches.
  destruct (batches (tN, rowsN)) as [Hv _]; [apply in_or_app; right; now left|].
  exact Hv.
Qed.

Lemma all_rows_timestamps : timestamp_column i all_rows.
Proof.
  unfold timestamp_column. rewrite Forall_forall, all_rows_split.
  intros r Hin. apply in_app_or in Hin as [Hin | Hin].
  - destruct (earlier_rows r Hin) as (t & Ht & Hv & _). eauto.
  - exists tN. split; [now apply last_rows | apply last_valid].
Qed.

(** The greatest timestamp stored is the one of the last write that wrote
    rows. *)
Lemma latest_is_last :
  max_cells (map (fun r => cell r i) all_rows) = Ok (VTimestamp tN).
Proof.
  destruct (max_cells_spec i all_rows all_rows_timestamps)
    as (latest & Hmax & [[Hnil _] | (m & Hl & _ & (r & Hin & Hr) & Hup)]).
  - rewrite all_rows_split in Hnil. apply app_eq_nil in Hnil as [_ Hnil].
    now destruct nonempty.
  - rewrite Hmax, Hl. do 2 f_equal.
    destruct (nonempty_has rowsN nonempty) as (rN & HrN).
    assert (HN : In rN all_rows)
      by (rewrite all_rows_split; apply in_or_app; now right).
    assert (HcN : cell rN i = VTimestamp tN) by now apply last_rows.
    pose proof (Hup rN tN HN HcN) as Hge.
    rewrite all_rows_split in Hin. apply in_app_or in Hin as [Hin | Hin].
    + destruct (earlier_rows r Hin) as (t & Ht & _ & Hlt).
      rewrite Hr in Ht. injection Ht as ->. now rewrite Hlt in Hge.
    + apply last_rows in Hin. rewrite Hr in Hin. now injection Hin.
Qed.

(** The rows that carry it are the rows of that write. *)
Lemma newest_rows :
  filter (fun r => value_eqb (cell r i) (VTimestamp tN)) all_rows = rowsN.
Proof.
  rewrite all_rows_split, filter_app, filter_none, filter_all; [reflexivity| |].
  - intros r Hin. rewrite (last_rows r Hin). cbn. apply datetime_eqb_refl.
  - intros r Hin. destruct (earlier_rows r Hin) as (t & -> & _ & Hlt).
    cbn. now apply datetime_ltb_neq.
Qed.

End LatestAfterWrites.

(** The storage environment serves what was written. *)
Lemma storage_serves (self : TableETL) (df : DataFrame) :
  serves storage_env self df [(storage_path self, df)].
Proof. unfold serves. cbn. now rewrite String.eqb_refl. Qed.

End LatestFacts.

(* ================================================================== *)
(** * The daily-metrics transform                                      *)
(* ================================================================== *)

Module DailyFacts.
Import Py Spark SparkSql Runtime Base Notions FrameFacts RunFacts.
Local Open Scope list_scope.

(** ** Stamping a frame *)

Lemma combine_const {A B} (l : list A) (v : B) :
  combine l (map (fun _ => v) l) = map (fun x => (x, v)) l.
Proof. induction l as [|x l IH]; simpl; [reflexivity | now rewrite IH]. Qed.

(** A literal column under a name the frame does not have goes last, with
    the literal in every row. *)
Lemma withColumn_lit_fresh (df : DataFrame) (name : string) (v : value) (id : nat) :
  positions name (schema df) = [] ->
  withColumn df name (Lit v) id
  = Ok (mk_df (schema df ++ [mk_attr id name]) (map (fun r => r ++ [v]) (rows df))).
Proof.
  intros H. unfold withColumn. cbn [eval_column rbind]. rewrite H.
  rewrite combine_const, map_map. reflexivity.
Qed.

(** Under a name one column of the frame has, it takes that column's place. *)
Lemma withColumn_lit_replace (df : DataFrame) (name : string) (v : value)
    (id i : nat) :
  positions name (schema df) = [i] ->
  withColumn df name (Lit v) id
  = Ok (mk_df (set_where (map (fun a => name_eqb (col_name a) name) (schema df))
                         (mk_attr id name) (schema df))
              (map (set_where (map (fun a => name_eqb (col_name a) name) (schema df)) v)
                   (rows df))).
Proof.
  intros H. unfold withColumn. cbn [eval_column rbind]. rewrite H.
  rewrite combine_const, map_map. reflexivity.
Qed.

Lemma withColumn_lit_cases (df out : DataFrame) (name : string) (v : value) (id : nat) :
  withColumn df name (Lit v) id = Ok out ->
  (positions name (schema df) = [] /\
   out = mk_df (schema df ++ [mk_attr id name]) (map (fun r => r ++ [v]) (rows df))) \/
  (exists i, positions name (schema df) = [i] /\
   out = mk_df (set_where (map (fun a => name_eqb (col_name a) name) (schema df))
                          (mk_attr id name) (schema df))
               (map (set_where (map (fun a => name_eqb (col_name a) name) (schema df)) v)
                    (rows df))).
Proof.
  intros H. destruct (positions name (schema df)) as [|i [|j rest]] eqn:E.
  - left. split; [reflexivity|]. rewrite withColumn_lit_fresh in H by exact E.
    now injection H.
  - right. exists i. split; [reflexivity|].
    rewrite (withColumn_lit_replace df name v id i E) in H. now injection H.
  - unfold withColumn in H. cbn [eval_column rbind] in H. rewrite E in H. discriminate H.
Qed.

(** ** Replacing where a mask says so *)

Lemma set_where_length {A} (mask : list bool) (x : A) (l : list A) :
  List.length mask = List.length l ->
  List.length (set_where mask x l) = List.length l.
Proof.
  revert l. induction mask as [|b mask IH]; intros [|y l] H; try discriminate;
    [reflexivity|].
  cbn [set_where List.length]. f_equal. apply IH. now injection H.
Qed.

Lemma set_where_nth {A} (mask : list bool) (x : A) (l : list A) (i : nat) :
  List.length mask = List.length l ->
  nth_error (set_where mask x l) i
  = match nth_error mask i with
    | Some true => Some x
    | Some false => nth_error l i
    | None => None
    end.
Proof.
  revert l i. induction mask as [|b mask IH]; intros [|y l] i H; try discriminate.
  - now destruct i.
  - destruct i as [|i]; cbn [set_where nth_error].
    + now destruct b.
    + apply IH. now injection H.
Qed.

Lemma mask_nth (name : string) (sch : list attr) (i : nat) :
  nth_error (map (fun a => name_eqb (col_name a) name) sch) i
  = option_map (fun a => name_eqb (col_name a) name) (nth_error sch i).
Proof. apply nth_error_map. Qed.

(** The names after a replacement: the same positions bear the name. *)
Lemma positions_set_where (name : string) (id : nat) (sch : list attr) :
  positions name
    (set_where (map (fun a => name_eqb (col_name a) name) sch) (mk_attr id name) sch)
  = positions name sch.
Proof.
  unfold positions. generalize 0.
  induction sch as [|a sch IH]; intros k; [reflexivity|].
  cbn [map set_where positions_from].
  destruct (name_eqb (col_name a) name) eqn:E; cbn [col_name];
    rewrite ?name_eqb_refl, ?E, IH; reflexivity.
Qed.

(** Where a literal column stands after [withColumn], every row holds the
    literal. *)
Lemma withColumn_lit_cells (df out : DataFrame) (name : string) (v : value) (id : nat) :
  withColumn df name (Lit v) id = Ok out ->
  positions name (schema out) <> [] /\
  (well_formed df -> well_formed out) /\
  (well_formed df ->
   forall r i, In r (rows out) -> In i (positions name (schema out)) -> cell r i = v).
Proof.
  intros H. apply withColumn_lit_cases in H as [[Hp ->] | (j & Hp & ->)];
    cbn [schema rows].
  - assert (E : positions name (schema df ++ [mk_attr id name])
                = [List.length (schema df)]).
    { unfold positions. rewrite positions_from_app.
      fold (positions name (schema df)). rewrite Hp. cbn [app positions_from col_name].
      now rewrite name_eqb_refl. }
    rewrite E. split; [discriminate|]. split.
    + intros Hwf. unfold well_formed in *. cbn [rows schema].
      rewrite Forall_forall in *. intros r Hin.
      apply in_map_iff in Hin as (r0 & <- & Hin).
      rewrite !length_app, (Hwf r0 Hin). reflexivity.
    + intros Hwf r i Hin [<- | []].
      apply in_map_iff in Hin as (r0 & <- & Hin).
      unfold well_formed in Hwf. rewrite Forall_forall in Hwf.
      unfold cell. rewrite <- (Hwf r0 Hin), app_nth2, Nat.sub_diag by lia. reflexivity.
  - rewrite positions_set_where, Hp. split; [discriminate|]. split.
    + intros Hwf. unfold well_formed in *. cbn [rows schema].
      rewrite Forall_forall in *. intros r Hin.
      apply in_map_iff in Hin as (r0 & <- & Hin).
      rewrite !set_where_length; rewrite ?length_map; auto.
      symmetry. auto.
    + intros Hwf r i Hin [<- | []].
      apply in_map_iff in Hin as (r0 & <- & Hin).
      unfold well_formed in Hwf. rewrite Forall_forall in Hwf.
      assert (Hj : In j (positions name (schema df))) by (rewrite Hp; now left).
      apply positions_spec in Hj as (a & Ha & Hn).
      unfold cell. apply nth_error_nth.
      rewrite set_where_nth by (rewrite length_map; symmetry; auto).
      now rewrite mask_nth, Ha; cbn [option_map]; rewrite Hn.
Qed.

(** ** Grouping *)

Lemma groupBy_agg_schema (df out : DataFrame) (key : string)
    (aggs : list (agg_expr * attr)) :
  groupBy_agg df key aggs = Ok out ->
  exists k, resolve df key = Ok k /\ schema out = snd k :: map snd aggs /\
            Forall (fun r => List.length r = S (List.length aggs)) (rows out).
Proof.
  unfold groupBy_agg. intros H.
  apply rbind_ok in H as (k & Hk & H). apply rbind_ok in H as (fs & Hfs & H).
  apply rbind_ok in H as (rs & Hrs & H).
  injection H as <-. exists k. split; [exact Hk|]. split; [reflexivity|].
  cbn [rows]. apply rmap_list_length in Hfs. apply rmap_list_ok in Hrs.
  induction Hrs as [|kv r ks rs Hr _ IH]; constructor; [|exact IH].
  apply rbind_ok in Hr as (vs & Hvs & Hr). injection Hr as <-.
  apply rmap_list_length in Hvs. simpl. now rewrite Hvs, Hfs.
Qed.

(** ** Running the transform *)

Ltac step_event H :=
  rewrite interp_trigger_bind in H |- *;
  match type of H with
  | context [?h ?X ?ev ?w] =>
      match ev with
      | Now => idtac | NewExprId => idtac | Load _ _ => idtac
      | Deduplicate _ _ => idtac
      end;
      let E := fresh "Hev" in
      destruct (h X ev w) as [[?|?] ?] eqn:E; [|discriminate H];
      cbv zeta in H |- *; cbn [outcome final trace] in H |- *
  end.

Ltac step_lift H :=
  rewrite interp_lift_bind in H |- *;
  match type of H with
  | context [match ?r with Ok _ => _ | Err _ => _ end] =>
      let E := fresh "Hop" in
      destruct r eqn:E; [|discriminate H]
  end.

Section Transform.
Context {W : Type} (h : env W) (self : TableETL).

(** What a successful run of [transform_upstream] went through. *)
Lemma daily_transform_inv (ups : list ETLDataSet) (w : W) (ds : ETLDataSet) (self' : TableETL) :
  outcome (interp h (DailyOrderMetricsGoldETL.transform_upstream self ups) w)
  = Ok (ds, self') ->
  exists first id_date id_sum id_mean id_ts t dated active daily stamped,
    nth_error ups 0 = Some first /\
    withColumn (ds_current_data first) "order_date" (CastDate "order_ts") id_date
      = Ok dated /\
    filter_col dated "is_active" = Ok active /\
    groupBy_agg active "order_date"
      [(Sum "total_price", mk_attr id_sum "total_price_sum");
       (Mean "total_price", mk_attr id_mean "total_price_mean")] = Ok daily /\
    withColumn daily "etl_inserted" (Lit (VTimestamp t)) id_ts = Ok stamped /\
    ds = envelope self stamped /\
    self' = set_current_data self stamped /\
    trace (interp h (DailyOrderMetricsGoldETL.transform_upstream self ups) w)
    = [(RNewExprId, AExprId id_date); (RNewExprId, AExprId id_sum);
       (RNewExprId, AExprId id_mean); (RNow, ADatetime t);
       (RNewExprId, AExprId id_ts)].
Proof.
  unfold DailyOrderMetricsGoldETL.transform_upstream, index. intros H.
  destruct (nth_error ups 0) as [first|] eqn:Hfirst; [|discriminate H].
  cbn [bind] in H |- *.
  step_event H. step_lift H. step_lift H. step_event H. step_event H.
  step_lift H. step_event H. step_event H. step_lift H.
  cbn in H. injection H as <- <-.
  repeat eexists; try eassumption; reflexivity.
Qed.

(** The frame a successful run returns: the three columns of the grouping
    and, last, the timestamp read from the clock, the same in every row. *)
Lemma daily_transform_shape (ups : list ETLDataSet) (w : W) (ds : ETLDataSet) (self' : TableETL) :
  outcome (interp h (DailyOrderMetricsGoldETL.transform_upstream self ups) w)
  = Ok (ds, self') ->
  exists id_key id_sum id_mean id_ts t body,
    ds_current_data ds
    = mk_df [mk_attr id_key "order_date"; mk_attr id_sum "total_price_sum";
             mk_attr id_mean "total_price_mean"; mk_attr id_ts "etl_inserted"]
            (map (fun r => r ++ [VTimestamp t]) body) /\
    Forall (fun r => List.length r = 3) body /\
    ds = envelope self (ds_current_data ds) /\
    self' = set_current_data self (ds_current_data ds) /\
    clock_reads
      (trace (interp h (DailyOrderMetricsGoldETL.transform_upstream self ups) w))
    = [ADatetime t].
Proof.
  intros H.
  destruct (daily_transform_inv ups w ds self' H)
    as (first & id_date & id_sum & id_mean & id_ts & t & dated & active & daily
        & stamped & _ & _ & _ & Hg & Hs & -> & -> & Htr).
  apply groupBy_agg_schema in Hg as ([ik [id_key key_name]] & Hk & Hsch & Hrows).
  apply resolve_name in Hk. cbn [snd col_name] in Hk, Hsch. subst key_name.
  cbn [map snd] in Hsch.
  rewrite withColumn_lit_fresh in Hs by (rewrite Hsch; reflexivity).
  injection Hs as <-. rewrite Hsch.
  exists id_key, id_sum, id_mean, id_ts, t, (rows daily).
  cbn [envelope ds_current_data]. rewrite Htr.
  repeat split; try reflexivity. exact Hrows.
Qed.

End Transform.

(** ** Consequences for the output frame *)

Section Output.
Context (id_key id_sum id_mean id_ts : nat) (t : datetime) (body : list row).
Hypothesis three : Forall (fun r => List.length r = 3) body.

Let out : DataFrame :=
  mk_df [mk_attr id_key "order_date"; mk_attr id_sum "total_price_sum";
         mk_attr id_mean "total_price_mean"; mk_attr id_ts "etl_inserted"]
        (map (fun r => r ++ [VTimestamp t]) body).

Lemma out_columns : columns out = DailyOrderMetricsGoldETL.selected_columns.
Proof. reflexivity. Qed.

Lemma out_resolve_stamp :
  resolve out "etl_inserted" = Ok (3, mk_attr id_ts "etl_inserted").
Proof. reflexivity. Qed.

Lemma out_rows_stamped (r : row) :
  In r (rows out) -> cell r 3 = VTimestamp t.
Proof.
  cbn [out rows]. intros Hin. apply in_map_iff in Hin as (r0 & <- & Hin).
  rewrite Forall_forall in three. specialize (three r0 Hin).
  destruct r0 as [|a [|b [|c [|? ?]]]]; try discriminate three. reflexivity.
Qed.

(** Projecting the output to the published columns changes nothing. *)
Lemma out_select :
  select out DailyOrderMetricsGoldETL.selected_columns = Ok out.
Proof.
  unfold select. cbn [rmap_list DailyOrderMetricsGoldETL.selected_columns].
  change (resolve out "order_date") with (@Ok (nat * attr) (0, mk_attr id_key "order_date")).
  change (resolve out "total_price_sum")
    with (@Ok (nat * attr) (1, mk_attr id_sum "total_price_sum")).
  change (resolve out "total_price_mean")
    with (@Ok (nat * attr) (2, mk_attr id_mean "total_price_mean")).
  change (resolve out "etl_inserted")
    with (@Ok (nat * attr) (3, mk_attr id_ts "etl_inserted")).
  cbn [rbind map snd fst]. unfold out at 2. f_equal. f_equal.
  cbn [rows out]. rewrite map_map.
  apply map_ext_in. intros r0 Hin.
  rewrite Forall_forall in three. specialize (three r0 Hin).
  destruct r0 as [|a [|b [|c [|? ?]]]]; try discriminate three. reflexivity.
Qed.

End Output.

End DailyFacts.

(* ================================================================== *)
(** * The daily-metrics transform, row by row                          *)
(* ================================================================== *)

Module DailyRows.
Import Py Spark SparkSql Runtime Base Notions FrameFacts RunFacts DailyFacts.
Local Open Scope list_scope.

Lemma filter_map_comm {A B} (f : B -> bool) (g : A -> B) (l : list A) :
  filter f (map g l) = map g (filter (fun x => f (g x)) l).
Proof.
  induction l as [|x l IH]; simpl; [reflexivity|].
  rewrite IH. now destruct (f (g x)).
Qed.

Lemma filter_filter {A} (f g : A -> bool) (l : list A) :
  filter f (filter g l) = filter (fun x => g x && f x) l.
Proof.
  induction l as [|x l IH]; simpl; [reflexivity|].
  destruct (g x); simpl; rewrite IH; reflexivity.
Qed.

Lemma rmap_list_total {A B} (f : A -> result B) (l : list A) :
  (forall a, In a l -> exists b, f a = Ok b) -> exists bs, rmap_list f l = Ok bs.
Proof.
  induction l as [|a l IH]; intros H; cbn [rmap_list]; [eauto|].
  destruct (H a) as (b & ->); [now left|].
  destruct IH as (bs & ->); [intros x Hx; apply H; now right|].
  cbn [rbind]. eauto.
Qed.

Lemma cell_app_l (r : row) (v : value) (i : nat) :
  i < List.length r -> cell (r ++ [v]) i = cell r i.
Proof. intros H. unfold cell. now apply app_nth1. Qed.

Lemma cell_app_last (r : row) (v : value) :
  cell (r ++ [v]) (List.length r) = v.
Proof. unfold cell. rewrite app_nth2, Nat.sub_diag by lia. reflexivity. Qed.

(** ** Names after a column was added or replaced *)

Lemma positions_appended_other (sch : list attr) (a' : attr) (name : string) :
  name_eqb (col_name a') name = false ->
  positions name (sch ++ [a']) = positions name sch.
Proof.
  intros Hn. unfold positions. rewrite positions_from_app. cbn [positions_from].
  rewrite Hn. apply app_nil_r.
Qed.

Lemma positions_appended (sch : list attr) (a' : attr) :
  positions (col_name a') sch = [] ->
  positions (col_name a') (sch ++ [a']) = [List.length sch].
Proof.
  intros Hn. unfold positions in *. rewrite positions_from_app, Hn.
  cbn [positions_from app]. now rewrite name_eqb_refl.
Qed.

Lemma positions_replaced_other (name name' : string) (id : nat) (sch : list attr) :
  name_eqb name name' = false ->
  positions name'
    (set_where (map (fun a => name_eqb (col_name a) name) sch) (mk_attr id name) sch)
  = positions name' sch.
Proof.
  intros Hn. unfold positions. generalize 0.
  induction sch as [|a sch IH]; intros k; [reflexivity|].
  cbn [map set_where positions_from].
  destruct (name_eqb (col_name a) name) eqn:E; cbn [col_name].
  - rewrite (name_eqb_left _ _ name' E), Hn, IH. reflexivity.
  - rewrite IH. reflexivity.
Qed.

Lemma cell_set_where (mask : list bool) (v : value) (r : row) (i : nat) :
  List.length mask = List.length r ->
  cell (set_where mask v r) i
  = match nth_error mask i with
    | Some true => v
    | _ => cell r i
    end.
Proof.
  intros Hl. unfold cell.
  pose proof (set_where_nth mask v r i Hl) as E.
  destruct (nth_error mask i) as [[|]|] eqn:M.
  - now apply nth_error_nth.
  - destruct (nth_error r i) as [x|] eqn:R.
    + rewrite (nth_error_nth _ _ _ E). now rewrite (nth_error_nth _ _ _ R).
    + apply nth_error_None in R. apply nth_error_None in E.
      now rewrite !nth_overflow.
  - apply nth_error_None in M. apply nth_error_None in E.
    rewrite !nth_overflow; [reflexivity | lia | exact E].
Qed.

Section Rows.
Context (src : DataFrame) (i_ts i_active i_price : nat) (a_ts a_active a_price : attr).
Hypothesis has_ts : resolve src "order_ts" = Ok (i_ts, a_ts).
Hypothesis has_active : resolve src "is_active" = Ok (i_active, a_active).
Hypothesis has_price : resolve src "total_price" = Ok (i_price, a_price).
Hypothesis wf : well_formed src.

Let n : nat := List.length (schema src).

Lemma row_length (r : row) : In r (rows src) -> List.length r = n.
Proof. intros H. unfold well_formed in wf. rewrite Forall_forall in wf. now apply wf. Qed.

Lemma casts_are_dates (rs : list row) (vs : list value) :
  rmap_list (fun r => cast_date_cell (cell r i_ts)) rs = Ok vs ->
  vs = map (order_date_of i_ts) rs.
Proof.
  intros H. apply rmap_list_ok in H.
  induction H as [|r v rs vs Hr _ IH]; simpl; [reflexivity|].
  unfold order_date_of at 1. rewrite Hr. now f_equal.
Qed.

Lemma combine_map_fun {A B} (f : A -> B) (l : list A) :
  combine l (map f l) = map (fun x => (x, f x)) l.
Proof. induction l as [|x l IH]; simpl; [reflexivity | now rewrite IH]. Qed.

Lemma has_positions :
  positions "is_active" (schema src) = [i_active] /\
  positions "total_price" (schema src) = [i_price].
Proof.
  apply resolve_ok in has_active as (H1 & _). apply resolve_ok in has_price as (H2 & _).
  now split.
Qed.

(** The frame with the date, when the orders have no [order_date] yet. *)
Lemma dated_appended (id : nat) :
  positions "order_date" (schema src) = [] ->
  dated_as src i_ts i_active i_price (mk_df (schema src ++ [mk_attr id "order_date"])
                  (map (fun r => r ++ [order_date_of i_ts r]) (rows src)))
           n (fun r => r ++ [order_date_of i_ts r]).
Proof.
  intros Hno. destruct has_positions as (Ha & Hp).
  split; [exact (positions_appended (schema src) (mk_attr id "order_date") Hno)|].
  split; [cbn [schema]; rewrite positions_appended_other by reflexivity; exact Ha|].
  split; [cbn [schema]; rewrite positions_appended_other by reflexivity; exact Hp|].
  split; [reflexivity|].
  intros r Hr. split; [rewrite <- (row_length r Hr); apply cell_app_last|].
  split; apply cell_app_l; rewrite (row_length r Hr).
  - exact (resolve_lt _ _ _ has_active).
  - exact (resolve_lt _ _ _ has_price).
Qed.

Lemma mask_other (name : string) (i : nat) :
  name_eqb "order_date" name = false ->
  positions name (schema src) = [i] ->
  nth_error (map (fun a => name_eqb (col_name a) "order_date") (schema src)) i
  = Some false.
Proof.
  intros Hn Hp.
  assert (Hin : In i (positions name (schema src))) by (rewrite Hp; now left).
  apply positions_spec in Hin as (a & Ha & Hm).
  rewrite mask_nth, Ha. cbn [option_map]. f_equal.
  destruct (name_eqb (col_name a) "order_date") eqn:E; [|reflexivity].
  pose proof (name_eqb_left _ _ name E) as C. rewrite Hm, Hn in C. discriminate C.
Qed.

(** The frame with the date, when the orders have an [order_date] already:
    the new column takes its place. *)
Lemma dated_replaced (id j : nat) :
  positions "order_date" (schema src) = [j] ->
  let mask := map (fun a => name_eqb (col_name a) "order_date") (schema src) in
  dated_as src i_ts i_active i_price (mk_df (set_where mask (mk_attr id "order_date") (schema src))
                  (map (fun r => set_where mask (order_date_of i_ts r) r) (rows src)))
           j (fun r => set_where mask (order_date_of i_ts r) r).
Proof.
  intros Hj mask. destruct has_positions as (Ha & Hp).
  split; [cbn [schema]; unfold mask; now rewrite positions_set_where|].
  split; [cbn [schema]; unfold mask;
          rewrite positions_replaced_other by reflexivity; exact Ha|].
  split; [cbn [schema]; unfold mask;
          rewrite positions_replaced_other by reflexivity; exact Hp|].
  split; [reflexivity|].
  intros r Hr.
  assert (Hl : List.length mask = List.length r)
    by (unfold mask; rewrite length_map; symmetry; apply (row_length r Hr)).
  rewrite !cell_set_where by exact Hl. unfold mask.
  rewrite (mask_other "is_active" i_active eq_refl Ha).
  rewrite (mask_other "total_price" i_price eq_refl Hp).
  assert (Hin : In j (positions "order_date" (schema src))) by (rewrite Hj; now left).
  apply positions_spec in Hin as (a & Hja & Hm).
  rewrite mask_nth, Hja. cbn [option_map]. rewrite Hm. auto.
Qed.

(** Step 1: the date column. *)
Lemma dated_frame (id : nat) (dated : DataFrame) :
  withColumn src "order_date" (CastDate "order_ts") id = Ok dated ->
  exists kpos f, dated_as src i_ts i_active i_price dated kpos f.
Proof.
  unfold withColumn. cbn [eval_column]. rewrite has_ts. cbn [rbind fst].
  intros H. apply rbind_ok in H as (vs & Hvs & H).
  apply casts_are_dates in Hvs. subst vs.
  rewrite combine_map_fun, !map_map in H. cbn [fst snd] in H.
  destruct (positions "order_date" (schema src)) as [|j [|? ?]] eqn:E;
    [| |discriminate H]; injection H as <-.
  - exists n, (fun r => r ++ [order_date_of i_ts r]). now apply dated_appended.
  - eexists j, _. now apply dated_replaced.
Qed.

Section Dated.
Context (dated : DataFrame) (kpos : nat) (f : row -> row).
Hypothesis is_dated : dated_as src i_ts i_active i_price dated kpos f.

Lemma dated_rows : rows dated = map f (rows src).
Proof. apply is_dated. Qed.

Lemma resolve_key :
  resolve dated "order_date"
  = Ok (kpos, mk_attr (id_at (schema dated) kpos) "order_date").
Proof. apply resolve_of_positions, is_dated. Qed.

Lemma resolve_flag :
  resolve dated "is_active"
  = Ok (i_active, mk_attr (id_at (schema dated) i_active) "is_active").
Proof. apply resolve_of_positions, is_dated. Qed.

Lemma resolve_price :
  resolve dated "total_price"
  = Ok (i_price, mk_attr (id_at (schema dated) i_price) "total_price").
Proof. apply resolve_of_positions, is_dated. Qed.

Lemma dated_cells (r : row) :
  In r (rows src) ->
  cell (f r) kpos = order_date_of i_ts r /\
  cell (f r) i_active = cell r i_active /\
  cell (f r) i_price = cell r i_price.
Proof. apply is_dated. Qed.

Let kept : list row := filter (is_active_row i_active) (rows src).

(** Step 2: the inactive orders go. *)
Lemma active_frame (active : DataFrame) :
  filter_col dated "is_active" = Ok active ->
  active = mk_df (schema dated) (map f kept).
Proof.
  unfold filter_col. rewrite resolve_flag. cbn [rbind fst]. intros H.
  apply rbind_ok in H as (passed & Hk & H). injection H as <-. f_equal.
  apply rfilter_ok in Hk. rewrite Hk, dated_rows, filter_map_comm. f_equal.
  apply filter_ext_in. intros r Hr.
  unfold accepts, is_active_row.
  destruct (dated_cells r Hr) as (_ & -> & _).
  destruct (cell r i_active) as [|[]| | | | | | | |]; reflexivity.
Qed.

Lemma kept_in (r : row) : In r kept -> In r (rows src).
Proof. unfold kept. rewrite filter_In. tauto. Qed.

Lemma group_of (d : value) :
  map (fun r => cell r i_price)
      (filter (fun r => value_eqb (cell r kpos) d) (map f kept))
  = prices_on i_ts i_active i_price (rows src) d.
Proof.
  rewrite filter_map_comm, map_map. unfold prices_on, kept.
  rewrite filter_filter.
  erewrite (filter_ext_in
              (fun x => is_active_row i_active x && value_eqb (cell (f x) kpos) d)
              (fun r => is_active_row i_active r && value_eqb (order_date_of i_ts r) d)).
  - apply map_ext_in. intros r Hr. apply filter_In in Hr as [Hr _].
    now apply dated_cells.
  - intros r Hr. now destruct (dated_cells r Hr) as (-> & _).
Qed.

Lemma keys_of :
  map (fun r => cell r kpos) (map f kept) = map (order_date_of i_ts) kept.
Proof.
  rewrite map_map. apply map_ext_in. intros r Hr.
  apply dated_cells. now apply kept_in.
Qed.

(** Step 3: one row per date with an active order, carrying the sum and the
    mean of the prices of that date's active orders. *)
Lemma daily_frame (id_sum id_mean : nat) (daily : DataFrame) :
  groupBy_agg (mk_df (schema dated) (map f kept)) "order_date"
    [(Sum "total_price", mk_attr id_sum "total_price_sum");
     (Mean "total_price", mk_attr id_mean "total_price_mean")] = Ok daily ->
  Forall2 (fun d r =>
             exists s m, r = [d; s; m] /\
               sum_cells (prices_on i_ts i_active i_price (rows src) d) = Ok s /\
               mean_cells (prices_on i_ts i_active i_price (rows src) d) = Ok m)
          (active_dates i_ts i_active (rows src)) (rows daily).
Proof.
  unfold groupBy_agg.
  rewrite (resolve_schema (mk_df (schema dated) (map f kept)) dated _ eq_refl).
  rewrite resolve_key. cbn [rbind fst snd rmap_list bind_agg].
  rewrite (resolve_schema (mk_df (schema dated) (map f kept)) dated _ eq_refl).
  rewrite resolve_price. cbn [rbind fst snd rows]. intros H.
  apply rbind_ok in H as (out & Hout & H). injection H as <-. cbn [rows].
  apply rmap_list_ok in Hout. rewrite keys_of in Hout.
  unfold active_dates. fold kept.
  eapply Forall2_impl; [|exact Hout].
  intros d r Hr. cbn beta in Hr.
  apply rbind_ok in Hr as (vs & Hvs & Hr). injection Hr as <-.
  cbn [rmap_list] in Hvs. rewrite group_of in Hvs.
  apply rbind_ok in Hvs as (s & Hs & Hvs).
  apply rbind_ok in Hvs as (ms & Hms & Hvs). injection Hvs as <-.
  apply rbind_ok in Hms as (m & Hm & Hms). injection Hms as <-.
  exists s, m. auto.
Qed.

End Dated.

(** The whole transform, read row by row. *)
Lemma transform_rows {W} (h : env W) (self : TableETL) (first : ETLDataSet)
    (rest : list ETLDataSet) (w : W) (ds : ETLDataSet) (self' : TableETL) :
  ds_current_data first = src ->
  outcome (interp h (DailyOrderMetricsGoldETL.transform_upstream self (first :: rest)) w)
  = Ok (ds, self') ->
  exists t,
    clock_reads
      (trace (interp h (DailyOrderMetricsGoldETL.transform_upstream self
                          (first :: rest)) w)) = [ADatetime t] /\
    Forall2 (fun d r =>
               exists s m, r = [d; s; m; VTimestamp t] /\
                 sum_cells (prices_on i_ts i_active i_price (rows src) d) = Ok s /\
                 mean_cells (prices_on i_ts i_active i_price (rows src) d) = Ok m)
            (active_dates i_ts i_active (rows src)) (rows (ds_current_data ds)).
Proof.
  intros Hsrc H.
  destruct (daily_transform_inv h self _ w ds self' H)
    as (first' & id_date & id_sum & id_mean & id_ts & t & dated & active & daily
        & stamped & Hf & Hd & Ha & Hg & Hs & -> & _ & Htr).
  injection Hf as <-. rewrite Hsrc in Hd.
  apply dated_frame in Hd as (kpos & f & Hd).
  apply (active_frame dated kpos f Hd) in Ha. subst active.
  pose proof (groupBy_agg_schema _ _ _ _ Hg) as (k & Hk & Hsch & _).
  apply resolve_name in Hk.
  apply (daily_frame dated kpos f Hd) in Hg.
  rewrite withColumn_lit_fresh in Hs.
  2:{ rewrite Hsch. destruct k as [ik [idk nk]]. cbn [snd col_name] in Hk. subst nk.
      reflexivity. }
  injection Hs as <-. exists t. split.
  - rewrite Htr. reflexivity.
  - cbn [envelope ds_current_data rows].
    clear - Hg. induction Hg as [|d r ds rs (s & m & -> & Hs & Hm) _ IH];
      constructor; [|exact IH].
    exists s, m. auto.
Qed.

(** ** The transform returns *)

Hypothesis one_date : List.length (positions "order_date" (schema src)) <= 1.
Hypothesis typed_ts : castable i_ts (rows src).
Hypothesis typed_active : flagged i_active (rows src).
Hypothesis typed_price :
  Forall (fun d => exists s m,
            sum_cells (prices_on i_ts i_active i_price (rows src) d) = Ok s /\
            mean_cells (prices_on i_ts i_active i_price (rows src) d) = Ok m)
         (active_dates i_ts i_active (rows src)).

Lemma casts_ok (rs : list row) :
  castable i_ts rs ->
  rmap_list (fun r => cast_date_cell (cell r i_ts)) rs = Ok (map (order_date_of i_ts) rs).
Proof.
  induction 1 as [|r rs (d & Hd) _ IH]; cbn [rmap_list map]; [reflexivity|].
  unfold order_date_of at 1. rewrite Hd, IH. reflexivity.
Qed.

Lemma dated_ok (id : nat) :
  exists dated kpos f,
    withColumn src "order_date" (CastDate "order_ts") id = Ok dated /\
    dated_as src i_ts i_active i_price dated kpos f.
Proof.
  unfold withColumn. cbn [eval_column]. rewrite has_ts. cbn [rbind fst].
  rewrite casts_ok by exact typed_ts. cbn [rbind].
  rewrite combine_map_fun, !map_map. cbn [fst snd].
  destruct (positions "order_date" (schema src)) as [|j [|? ?]] eqn:E;
    [| |cbn in one_date; lia].
  - eexists _, n, _. split; [reflexivity|]. now apply dated_appended.
  - eexists _, j, _. split; [reflexivity|]. now apply dated_replaced.
Qed.

Section DatedOk.
Context (dated : DataFrame) (kpos : nat) (f : row -> row).
Hypothesis is_dated : dated_as src i_ts i_active i_price dated kpos f.

Let kept : list row := filter (is_active_row i_active) (rows src).

Lemma active_ok :
  filter_col dated "is_active" = Ok (mk_df (schema dated) (map f kept)).
Proof.
  destruct (filter_col dated "is_active") as [active|e] eqn:E.
  - f_equal. now apply (active_frame dated kpos f is_dated) in E.
  - unfold filter_col in E. rewrite (resolve_flag dated kpos f is_dated) in E.
    cbn [rbind fst] in E. rewrite (dated_rows dated kpos f is_dated) in E.
    rewrite (rfilter_total _ (accepts (fun r => as_condition (cell r i_active)))) in E;
      [discriminate E|].
    intros r' Hin. apply in_map_iff in Hin as (r & <- & Hr).
    unfold flagged in typed_active. rewrite Forall_forall in typed_active.
    destruct (typed_active r Hr) as (b & Hb). unfold accepts.
    destruct (dated_cells dated kpos f is_dated r Hr) as (_ & -> & _).
    rewrite Hb. now destruct b.
Qed.

Lemma in_distinct_keys (seen ks : list value) (k : value) :
  In k (distinct_keys seen ks) -> In k ks.
Proof.
  revert seen. induction ks as [|x ks IH]; intros seen; cbn [distinct_keys];
    [tauto|].
  destruct (existsb (value_eqb x) seen).
  - intros H. right. eapply IH, H.
  - intros [<- | H]; [now left | right; eapply IH, H].
Qed.

Lemma daily_ok (id_sum id_mean : nat) :
  exists daily,
    groupBy_agg (mk_df (schema dated) (map f kept)) "order_date"
      [(Sum "total_price", mk_attr id_sum "total_price_sum");
       (Mean "total_price", mk_attr id_mean "total_price_mean")] = Ok daily.
Proof.
  unfold groupBy_agg.
  rewrite (resolve_schema (mk_df (schema dated) (map f kept)) dated _ eq_refl).
  rewrite (resolve_key dated kpos f is_dated). cbn [rbind fst snd rmap_list bind_agg].
  rewrite (resolve_schema (mk_df (schema dated) (map f kept)) dated _ eq_refl).
  rewrite (resolve_price dated kpos f is_dated). cbn [rbind fst snd rows].
  unfold kept. rewrite (keys_of dated kpos f is_dated).
  match goal with
  | |- context [rmap_list ?g ?l] =>
      destruct (rmap_list_total g l) as (out & Hout); [|rewrite Hout]
  end.
  - intros kv Hkv. cbn [rmap_list]. rewrite (group_of dated kpos f is_dated).
    rewrite Forall_forall in typed_price.
    destruct (typed_price kv Hkv) as (s & m & -> & ->).
    cbn [rbind]. eauto.
  - cbn [rbind]. eauto.
Qed.

End DatedOk.

(** On orders whose dates, flags and aggregates are described, and with a
    clock and a counter that answer, the transform returns. *)
Lemma transform_total {W} (h : env W) (self : TableETL) (first : ETLDataSet)
    (rest : list ETLDataSet) (w : W) :
  ds_current_data first = src -> engine_answers h ->
  exists ds self',
    outcome (interp h (DailyOrderMetricsGoldETL.transform_upstream self (first :: rest)) w)
    = Ok (ds, self').
Proof.
  intros Hsrc [Hclock Hids].
  unfold DailyOrderMetricsGoldETL.transform_upstream, index. cbn [nth_error bind].
  rewrite Hsrc.
  destruct (Hids w) as (id & w1 & E1). rewrite interp_trigger_bind, E1.
  cbv zeta. cbn [outcome].
  destruct (dated_ok id) as (dated & kpos & f & Hd & Hdated).
  rewrite Hd. cbn [lift bind].
  rewrite (active_ok dated kpos f Hdated). cbn [lift bind].
  destruct (Hids w1) as (id_sum & w2 & E2). rewrite interp_trigger_bind, E2.
  cbv zeta. cbn [outcome].
  destruct (Hids w2) as (id_mean & w3 & E3). rewrite interp_trigger_bind, E3.
  cbv zeta. cbn [outcome].
  destruct (daily_ok dated kpos f Hdated id_sum id_mean) as (daily & Hg).
  rewrite Hg. cbn [lift bind].
  destruct (Hclock w3) as (t & w4 & E4). rewrite interp_trigger_bind, E4.
  cbv zeta. cbn [outcome].
  destruct (Hids w4) as (id_ts & w5 & E5). rewrite interp_trigger_bind, E5.
  cbv zeta. cbn [outcome].
  pose proof (groupBy_agg_schema _ _ _ _ Hg) as (k & Hk & Hsch & _).
  apply resolve_name in Hk.
  rewrite withColumn_lit_fresh.
  2:{ rewrite Hsch. destruct k as [ik [idk nk]]. cbn [snd col_name] in Hk. subst nk.
      reflexivity. }
  cbn. eauto.
Qed.

End Rows.

End DailyRows.
(* ================================================================== *)
(** * The wide-order-items transform                                   *)
(* ================================================================== *)

Module WideFacts.
Import Py Spark SparkSql Runtime Base Notions EdgeNotions FrameFacts RunFacts
       DailyFacts DailyRows.
Local Open Scope list_scope.

(** ** Renumbering *)

Lemma renumber_length (sch : list attr) (ids : list nat) :
  List.length (renumber sch ids) = List.length sch.
Proof.
  revert ids. induction sch as [|a sch IH]; intros [|id ids]; cbn; auto.
Qed.

Lemma renumber_names (sch : list attr) (ids : list nat) :
  map col_name (renumber sch ids) = map col_name sch.
Proof.
  revert ids. induction sch as [|a sch IH]; intros [|id ids]; cbn; auto.
  now rewrite IH.
Qed.

Lemma renumber_self (sch : list attr) : renumber sch (map expr_id sch) = sch.
Proof.
  induction sch as [|[id n] sch IH]; cbn; [reflexivity | now rewrite IH].
Qed.

Lemma positions_renumber (name : string) (sch : list attr) (ids : list nat) :
  positions name (renumber sch ids) = positions name sch.
Proof. apply positions_names, renumber_names. Qed.

(** ** The key of a join *)

Lemma key_position_ok (sch : list attr) (key : string) (i : nat) :
  key_position sch key = Ok i ->
  exists a rest,
    nth_error sch i = Some a /\ name_eqb (col_name a) key = true /\
    positions key sch = i :: rest /\
    count_occ Nat.eq_dec (map expr_id sch) (expr_id a) = 1.
Proof.
  unfold key_position. destruct (positions key sch) as [|j rest] eqn:E; [discriminate|].
  destruct (Nat.eqb_spec (count_occ Nat.eq_dec (map expr_id sch) (id_at sch j)) 1)
    as [Hc|]; [|discriminate].
  intros [= <-].
  assert (Hin : In j (positions key sch)) by (rewrite E; now left).
  apply positions_spec in Hin as (a & Ha & Hn).
  exists a, rest. rewrite (id_at_nth _ _ _ Ha) in Hc. auto.
Qed.

Lemma key_position_lt (sch : list attr) (key : string) (i : nat) :
  key_position sch key = Ok i -> i < List.length sch.
Proof.
  intros H. apply key_position_ok in H as (a & _ & Ha & _).
  apply nth_error_Some. congruence.
Qed.

(** Where the name resolves, the key is the column it resolves to. *)
Lemma key_position_resolve (df : DataFrame) (key : string) (c : nat * attr) (i : nat) :
  resolve df key = Ok c -> key_position (schema df) key = Ok i -> i = fst c.
Proof.
  destruct c as [j a]. intros Hr Hk. apply resolve_ok in Hr as (Hp & _).
  apply key_position_ok in Hk as (_ & rest & _ & _ & Hp' & _).
  rewrite Hp in Hp'. now injection Hp'.
Qed.

(** ** Joins *)

Lemma keys_meet_ok (k k' : value) (b : bool) :
  keys_meet k k' = Ok b -> b = negb (is_null k) && value_eqb k k'.
Proof.
  unfold keys_meet. destruct (is_null k) eqn:Nk; cbn [orb negb andb].
  - now intros [= <-].
  - destruct (is_null k') eqn:Nk'.
    + intros [= <-]. destruct k'; try discriminate Nk'. now destruct k.
    + destruct (same_type k k'); [now intros [= <-] | discriminate].
Qed.

Lemma join_matches (k : value) (ri : nat) (rs ms : list row) :
  rfilter (fun rr => keys_meet k (cell rr ri)) rs = Ok ms ->
  ms = filter (key_matches k ri) rs.
Proof.
  revert ms. induction rs as [|rr rs IH]; cbn [rfilter filter]; intros ms H.
  - now injection H as <-.
  - apply rbind_ok in H as (b & Hb & H). apply rbind_ok in H as (ms' & Hms & H).
    injection H as <-. apply keys_meet_ok in Hb. unfold key_matches at 1.
    rewrite <- Hb, (IH ms' Hms). reflexivity.
Qed.

Lemma join_inv (l r j : DataFrame) (key : string) (how : join_type) (ids : list nat) :
  join l r key how ids = Ok j ->
  exists li ri lk,
    key_position (schema l) key = Ok li /\ key_position (schema r) key = Ok ri /\
    nth_error (schema l) li = Some lk /\
    schema j = lk :: remove_at li (schema l)
                  ++ remove_at ri (renumber (schema r) ids) /\
    rows j = flat_map (fun lr => joined_rows how li ri (List.length (schema r) - 1) lr
                                   (filter (key_matches (cell lr li) ri) (rows r)))
                      (rows l).
Proof.
  unfold join. intros H.
  apply rbind_ok in H as (li & Hl & H). apply rbind_ok in H as (ri & Hr & H).
  apply rbind_ok in H as (joined & Hj & H). injection H as <-.
  pose proof (key_position_ok _ _ _ Hl) as (lk & _ & Hlk & _).
  exists li, ri, lk. cbn [schema rows].
  rewrite (nth_error_nth _ _ _ Hlk).
  repeat split; try assumption.
  clear Hl Hr Hlk. revert joined Hj.
  induction (rows l) as [|lr ls IH]; cbn [rmap_list flat_map]; intros joined Hj.
  - now injection Hj as <-.
  - apply rbind_ok in Hj as (out & Hout & Hj). apply rbind_ok in Hj as (outs & Houts & Hj).
    injection Hj as <-. cbn [List.concat]. rewrite (IH outs Houts). f_equal.
    apply rbind_ok in Hout as (ms & Hms & Hout). injection Hout as <-.
    now rewrite (join_matches _ _ _ _ Hms).
Qed.

(** An attribute of a join comes from the left side or from the renumbered
    right side. *)
Lemma join_schema_in (l r j : DataFrame) (key : string) (how : join_type)
    (ids : list nat) (a : attr) :
  join l r key how ids = Ok j -> In a (schema j) ->
  In a (schema l) \/ In a (renumber (schema r) ids).
Proof.
  intros H Hin. apply join_inv in H as (li & ri & lk & _ & _ & Hlk & Hs & _).
  rewrite Hs in Hin. destruct Hin as [<- | Hin].
  - left. eapply nth_error_In, Hlk.
  - apply in_app_or in Hin as [Hin | Hin]; apply in_remove_at in Hin; auto.
Qed.

Lemma length_remove_at {A} (i : nat) (l : list A) :
  i < List.length l -> List.length (remove_at i l) = List.length l - 1.
Proof.
  intros H. unfold remove_at.
  rewrite length_app, length_firstn, length_skipn. lia.
Qed.

Lemma join_well_formed (l r j : DataFrame) (key : string) (how : join_type)
    (ids : list nat) :
  well_formed l -> well_formed r -> join l r key how ids = Ok j -> well_formed j.
Proof.
  intros Wl Wr H.
  pose proof (join_inv _ _ _ _ _ _ H) as (li & ri & lk & Hl & Hr & Hlk & Hs & Hrows).
  pose proof (key_position_lt _ _ _ Hl) as Ll.
  pose proof (key_position_lt _ _ _ Hr) as Lr.
  unfold well_formed in *. rewrite Hs, Hrows.
  rewrite Forall_forall in *. intros row Hin.
  apply in_flat_map in Hin as (lr & Hlr & Hin).
  specialize (Wl lr Hlr).
  assert (Hlen : forall rest, List.length rest = List.length (schema r) - 1 ->
            List.length (cell lr li :: remove_at li lr ++ rest)
            = List.length (lk :: remove_at li (schema l)
                             ++ remove_at ri (renumber (schema r) ids))).
  { intros rest Hrest. cbn [List.length].
    rewrite !length_app, !length_remove_at; rewrite ?renumber_length; lia. }
  unfold joined_rows in Hin.
  destruct (filter _ (rows r)) as [|m ms] eqn:Ef.
  - destruct how.
    + destruct Hin.
    + destruct Hin as [<- | []]. apply Hlen. apply repeat_length.
  - assert (Hm : forall rr, In rr (m :: ms) -> In rr (rows r)).
    { intros rr Hrr. rewrite <- Ef in Hrr. now apply filter_In in Hrr. }
    assert (Hin' : In row (map (fun rr => cell lr li :: remove_at li lr
                                           ++ remove_at ri rr) (m :: ms)))
      by (destruct how; exact Hin).
    apply in_map_iff in Hin' as (rr & <- & Hrr).
    apply Hlen. rewrite length_remove_at; rewrite (Wr rr (Hm rr Hrr)); lia.
Qed.

(** ** Dropping by reference *)

Lemma keep_mask_length {A B} (mask : list bool) (l : list A) (l' : list B) :
  List.length l = List.length l' ->
  List.length (keep_mask mask l) = List.length (keep_mask mask l').
Proof.
  revert l l'. induction mask as [|b mask IH]; intros [|x l] [|y l'] H;
    try discriminate H; try reflexivity.
  injection H as H. cbn [keep_mask]. destruct b; cbn [List.length]; auto.
Qed.

Lemma drop_well_formed (df : DataFrame) (ref : attr) :
  well_formed df -> well_formed (drop df ref).
Proof.
  unfold well_formed, drop. cbn [schema rows]. rewrite !Forall_forall.
  intros Wf row Hin. apply in_map_iff in Hin as (r & <- & Hr).
  apply keep_mask_length. now apply Wf.
Qed.

Lemma groupBy_well_formed (df out : DataFrame) (key : string)
    (aggs : list (agg_expr * attr)) :
  groupBy_agg df key aggs = Ok out -> well_formed out.
Proof.
  intros H. apply groupBy_agg_schema in H as (k & _ & Hs & Hr).
  unfold well_formed. rewrite Hs. cbn [List.length]. now rewrite length_map.
Qed.

Lemma getitem_ok (df : DataFrame) (name : string) (a : attr) :
  getitem df name = Ok a -> exists i, resolve df name = Ok (i, a).
Proof.
  unfold getitem. intros H. apply rbind_ok in H as ([i b] & Hr & H).
  injection H as <-. eauto.
Qed.

(** The reference [df[name]] has the id of every column of [df] that bears
    the name. *)
Lemma dropped_by_reference (df : DataFrame) (name : string) (ref a : attr) :
  getitem df name = Ok ref -> In a (schema df) ->
  name_eqb (col_name a) name = true -> expr_id a = expr_id ref.
Proof.
  intros H Hin Hn. apply getitem_ok in H as (i & H).
  apply In_nth_error in Hin as (j & Hj).
  pose proof (resolve_unique df name (i, ref) j a H Hj Hn) as ->.
  apply resolve_ok in H as (_ & _ & b & Hb & _ & <-). cbn [fst] in Hj. congruence.
Qed.

(** ** Running the transform *)

Lemma join_frames_bind {B} (l r : DataFrame) (key : string) (how : join_type)
    (f : DataFrame -> prog B) :
  bind (join_frames l r key how) f
  = bind (trigger (Deduplicate (schema l) (schema r)))
         (fun ids => bind (lift (join l r key how ids)) f).
Proof. reflexivity. Qed.

Ltac step_join H :=
  rewrite join_frames_bind in H |- *; step_event H; step_lift H.

Section Transform.
Context {W : Type} (h : env W) (self : TableETL).

(** What a successful run of [transform_upstream] went through. *)
Lemma wide_transform_inv (ups : list ETLDataSet) (w : W) (ds : ETLDataSet) (self' : TableETL) :
  outcome (interp h (WideOrderItemsGoldETL.transform_upstream self ups) w)
  = Ok (ds, self') ->
  exists d0 d1 d2 d3 d4 t ids1 j1 ids2 j2 ids3 bridged category_ts bridge_ts
         id_categories grain ids4 j3 fact_ts product_ts seller_ts id_ts stamped,
    (nth_error ups 0 = Some d0 /\ nth_error ups 1 = Some d1 /\
     nth_error ups 2 = Some d2 /\ nth_error ups 3 = Some d3 /\
     nth_error ups 4 = Some d4) /\
    join (ds_current_data d0) (ds_current_data d1) "product_id" LeftOuter ids1
      = Ok j1 /\
    join j1 (ds_current_data d2) "seller_id" LeftOuter ids2 = Ok j2 /\
    join (ds_current_data d3) (ds_current_data d4) "category_id" Inner ids3
      = Ok bridged /\
    getitem (ds_current_data d4) "etl_inserted" = Ok category_ts /\
    getitem (ds_current_data d3) "etl_inserted" = Ok bridge_ts /\
    groupBy_agg (drop (drop bridged category_ts) bridge_ts) "product_id"
      [(CollectListStruct ["category_id"; "category_name"],
        mk_attr id_categories "categories")] = Ok grain /\
    join j2 grain "product_id" LeftOuter ids4 = Ok j3 /\
    getitem (ds_current_data d0) "etl_inserted" = Ok fact_ts /\
    getitem (ds_current_data d1) "etl_inserted" = Ok product_ts /\
    getitem (ds_current_data d2) "etl_inserted" = Ok seller_ts /\
    withColumn (drop (drop (drop j3 fact_ts) product_ts) seller_ts)
               "etl_inserted" (Lit (VTimestamp t)) id_ts = Ok stamped /\
    ds = envelope self stamped /\
    self' = set_current_data self stamped /\
    trace (interp h (WideOrderItemsGoldETL.transform_upstream self ups) w)
    = [(RNow, ADatetime t);
       (RDeduplicate (schema (ds_current_data d0)) (schema (ds_current_data d1)),
        AExprIds ids1);
       (RDeduplicate (schema j1) (schema (ds_current_data d2)), AExprIds ids2);
       (RDeduplicate (schema (ds_current_data d3)) (schema (ds_current_data d4)),
        AExprIds ids3);
       (RNewExprId, AExprId id_categories);
       (RDeduplicate (schema j2) (schema grain), AExprIds ids4);
       (RNewExprId, AExprId id_ts)].
Proof.
  unfold WideOrderItemsGoldETL.transform_upstream, index. intros H.
  destruct (nth_error ups 0) as [d0|] eqn:H0; [|discriminate H]. cbn [bind] in H |- *.
  destruct (nth_error ups 1) as [d1|] eqn:H1; [|discriminate H]. cbn [bind] in H |- *.
  destruct (nth_error ups 2) as [d2|] eqn:H2; [|discriminate H]. cbn [bind] in H |- *.
  destruct (nth_error ups 3) as [d3|] eqn:H3; [|discriminate H]. cbn [bind] in H |- *.
  destruct (nth_error ups 4) as [d4|] eqn:H4; [|discriminate H]. cbn [bind] in H |- *.
  step_event H. step_join H. step_join H. step_join H. step_lift H. step_lift H.
  step_event H. step_lift H. step_join H. step_lift H. step_lift H. step_lift H.
  step_event H. step_lift H.
  cbn in H. injection H as <- <-.
  exists d0, d1, d2, d3, d4.
  repeat eexists; try eassumption; reflexivity.
Qed.

End Transform.

(** ** When no join renumbers, no upstream timestamp column survives the
    three drops *)

Section Dropped.
Context (fact product seller grain j1 j2 j3 : DataFrame)
        (ids1 ids2 ids4 : list nat)
        (fact_ts product_ts seller_ts : attr).
Hypothesis join1 : join fact product "product_id" LeftOuter ids1 = Ok j1.
Hypothesis join2 : join j1 seller "seller_id" LeftOuter ids2 = Ok j2.
Hypothesis join3 : join j2 grain "product_id" LeftOuter ids4 = Ok j3.
Hypothesis kept1 : renumber (schema product) ids1 = schema product.
Hypothesis kept2 : renumber (schema seller) ids2 = schema seller.
Hypothesis grain_names :
  forall a, In a (schema grain) -> col_name a = "product_id" \/ col_name a = "categories".
Hypothesis ref_fact : getitem fact "etl_inserted" = Ok fact_ts.
Hypothesis ref_product : getitem product "etl_inserted" = Ok product_ts.
Hypothesis ref_seller : getitem seller "etl_inserted" = Ok seller_ts.

Lemma renumbered_names (sch : list attr) (ids : list nat) (a : attr) :
  In a (renumber sch ids) -> exists b, In b sch /\ col_name b = col_name a.
Proof.
  revert ids. induction sch as [|b sch IH]; intros ids Hin; [destruct ids; destruct Hin|].
  destruct ids as [|id ids].
  - exists a. auto.
  - destruct Hin as [<- | Hin].
    + exists b. split; [now left | reflexivity].
    + destruct (IH ids Hin) as (c & Hc & Hn). exists c. split; [now right | exact Hn].
Qed.

Lemma no_timestamp_left :
  positions "etl_inserted"
            (schema (drop (drop (drop j3 fact_ts) product_ts) seller_ts)) = [].
Proof.
  apply positions_none, Forall_forall. intros a Hin.
  destruct (name_eqb (col_name a) "etl_inserted") eqn:Hn; [exfalso | reflexivity].
  apply in_drop_schema in Hin as (Hin & Hs).
  apply in_drop_schema in Hin as (Hin & Hp).
  apply in_drop_schema in Hin as (Hin & Hf).
  destruct (join_schema_in _ _ _ _ _ _ a join3 Hin) as [Hin2 | Hg].
  - destruct (join_schema_in _ _ _ _ _ _ a join2 Hin2) as [Hin1 | Hse].
    + destruct (join_schema_in _ _ _ _ _ _ a join1 Hin1) as [Hfa | Hpr].
      * apply Hf. eapply dropped_by_reference; eauto.
      * rewrite kept1 in Hpr. apply Hp. eapply dropped_by_reference; eauto.
    + rewrite kept2 in Hse. apply Hs. eapply dropped_by_reference; eauto.
  - apply renumbered_names in Hg as (b & Hb & Hbn). rewrite <- Hbn in Hn.
    destruct (grain_names b Hb) as [C | C]; rewrite C in Hn; discriminate Hn.
Qed.

End Dropped.

Section Shape.
Context {W : Type} (h : env W) (self : TableETL).

(** The frame a successful run returns: the three joins, the three drops,
    then the stamp, under the name [etl_inserted], in every row. *)
Lemma wide_transform_stamped (ups : list ETLDataSet) (w : W) (ds : ETLDataSet)
    (self' : TableETL) :
  outcome (interp h (WideOrderItemsGoldETL.transform_upstream self ups) w)
  = Ok (ds, self') ->
  exists joined id_ts t,
    withColumn joined "etl_inserted" (Lit (VTimestamp t)) id_ts
    = Ok (ds_current_data ds) /\
    (forall i, i < 5 -> exists d a, nth_error ups i = Some d /\
                                    getitem (ds_current_data d) "etl_inserted" = Ok a) /\
    ((forall i, i < 3 -> exists d, nth_error ups i = Some d /\
                                   well_formed (ds_current_data d)) ->
     well_formed joined) /\
    ds = envelope self (ds_current_data ds) /\
    self' = set_current_data self (ds_current_data ds) /\
    clock_reads (trace (interp h (WideOrderItemsGoldETL.transform_upstream self ups) w))
    = [ADatetime t] /\
    last (trace (interp h (WideOrderItemsGoldETL.transform_upstream self ups) w))
         (RNow, ADone)
    = (RNewExprId, AExprId id_ts).
Proof.
  intros H.
  destruct (wide_transform_inv h self ups w ds self' H)
    as (d0 & d1 & d2 & d3 & d4 & t & ids1 & j1 & ids2 & j2 & ids3 & bridged
        & category_ts & bridge_ts & id_categories & grain & ids4 & j3 & fact_ts
        & product_ts & seller_ts & id_ts & stamped & (H0 & H1 & H2 & H3 & H4)
        & Hj1 & Hj2 & Hb & Hct & Hbt & Hg & Hj3 & Hft & Hpt & Hst & Hs & -> & ->
        & Htr).
  exists (drop (drop (drop j3 fact_ts) product_ts) seller_ts), id_ts, t.
  cbn [envelope ds_current_data]. rewrite Htr.
  repeat split; try reflexivity; try assumption.
  { intros i Hi.
    destruct i as [|[|[|[|[|i]]]]]; [eauto | eauto | eauto | eauto | eauto | lia]. }
  intros Hwf. do 3 apply drop_well_formed.
  destruct (Hwf 0) as (e0 & E0 & W0); [lia|].
  destruct (Hwf 1) as (e1 & E1 & W1); [lia|].
  destruct (Hwf 2) as (e2 & E2 & W2); [lia|].
  rewrite H0 in E0. rewrite H1 in E1. rewrite H2 in E2.
  injection E0 as <-. injection E1 as <-. injection E2 as <-.
  eapply join_well_formed; [| |exact Hj3].
  - eapply join_well_formed; [| |exact Hj2]; [|exact W2].
    eapply join_well_formed; [| |exact Hj1]; assumption.
  - eapply groupBy_well_formed; exact Hg.
Qed.


End Shape.

End WideFacts.

(* ================================================================== *)
(** * The extraction loop                                              *)
(* ================================================================== *)

Module ExtractFacts.
Import Py Spark SparkSql Runtime Base Pipeline Notions FrameFacts RunFacts.
Local Open Scope list_scope.

Lemma wide_extract_eq :
  WideOrderItemsGoldETL.extract_upstream = DailyOrderMetricsGoldETL.extract_upstream.
Proof. reflexivity. Qed.

Section Loop.
Context {W : Type} (h : env W) (ru wd : bool).

Let body (table_etl_class : class_ref) : prog ETLDataSet :=
  (table <- trigger (Instantiate table_etl_class ru wd) ;;
   _ <- (if ru then trigger (CallRun table) else Ret tt) ;;
   trigger (CallRead table))%prog.

(** One turn, when it succeeds. *)
Lemma body_ok (c : class_ref) (w : W) (e : ETLDataSet) :
  outcome (interp h (body c) w) = Ok e ->
  exists o, trace (interp h (body c) w) = extraction_block ru wd (c, o, e).
Proof.
  unfold body. intros H.
  rewrite interp_trigger_bind in H |- *.
  destruct (h _ (Instantiate c ru wd) w) as [[o|?] w1]; [|discriminate H].
  cbv zeta in H |- *. cbn [outcome trace] in H |- *.
  exists o. unfold extraction_block. cbn [fst snd request_of answer_of].
  destruct ru.
  - rewrite interp_trigger_bind in H |- *.
    destruct (h _ (CallRun o) w1) as [[[]|?] w2]; [|discriminate H].
    cbv zeta in H |- *. cbn [outcome trace interp trigger] in H |- *.
    destruct (h _ (CallRead o) w2) as [[e'|?] w3]; [|discriminate H].
    cbn in H |- *. now injection H as ->.
  - cbn [bind interp trigger] in H |- *.
    destruct (h _ (CallRead o) w1) as [[e'|?] w3]; [|discriminate H].
    cbn in H |- *. now injection H as ->.
Qed.

(** The whole loop, when it succeeds: one block per declared class, in
    declaration order, the envelopes collected in that order. *)
Lemma loop_ok (classes : list class_ref) : forall (w : W) (envs : list ETLDataSet),
  outcome (interp h (for_each classes body) w) = Ok envs ->
  exists objs,
    List.length objs = List.length classes /\
    List.length envs = List.length classes /\
    trace (interp h (for_each classes body) w)
    = flat_map (extraction_block ru wd) (combine (combine classes objs) envs).
Proof.
  induction classes as [|c classes IH]; intros w envs H.
  - cbn in H. injection H as <-. exists []. auto.
  - cbn [for_each] in H |- *. rewrite interp_bind in H |- *.
    destruct (outcome (interp h (body c) w)) as [e|?] eqn:He; [|discriminate H].
    destruct (body_ok c w e He) as (o & Hb).
    cbv zeta in H |- *. cbn [outcome trace] in H |- *.
    rewrite interp_bind in H |- *.
    destruct (outcome (interp h (for_each classes body) (final (interp h (body c) w))))
      as [es|?] eqn:Hes; [|discriminate H].
    destruct (IH _ es Hes) as (objs & Lo & Le & Ht).
    cbn in H. injection H as <-.
    exists (o :: objs). cbn [List.length combine flat_map outcome trace interp].
    rewrite Hb, Ht, app_nil_r. auto.
Qed.

End Loop.

(** Both units' [extract_upstream] is that loop. *)
Lemma extract_ok {W} (h : env W) (self : TableETL) (w : W) (envs : list ETLDataSet) :
  outcome (interp h (DailyOrderMetricsGoldETL.extract_upstream self) w) = Ok envs ->
  exists objs,
    List.length objs = List.length (upstream_tables self) /\
    List.length envs = List.length (upstream_tables self) /\
    trace (interp h (DailyOrderMetricsGoldETL.extract_upstream self) w)
    = flat_map (extraction_block (run_upstream self) (write_data self))
               (combine (combine (upstream_tables self) objs) envs).
Proof. apply loop_ok. Qed.

(** ** Reading the blocks *)

Lemma instantiations_app (a b : list call) :
  instantiations (a ++ b) = instantiations a ++ instantiations b.
Proof. apply flat_map_app. Qed.

Lemma reads_app (a b : list call) : reads (a ++ b) = reads a ++ reads b.
Proof. apply flat_map_app. Qed.

Lemma runs_app (a b : list call) : runs (a ++ b) = runs a ++ runs b.
Proof. apply flat_map_app. Qed.

Section Blocks.
Context (ru wd : bool).

Lemma instantiations_blocks (l : list (class_ref * obj * ETLDataSet)) :
  instantiations (flat_map (extraction_block ru wd) l)
  = map (fun x => (fst (fst x), ru, wd, AObject (snd (fst x)))) l.
Proof.
  induction l as [|x l IH]; [reflexivity|].
  cbn [flat_map map]. rewrite instantiations_app, IH.
  unfold extraction_block. destruct ru; reflexivity.
Qed.

Lemma reads_blocks (l : list (class_ref * obj * ETLDataSet)) :
  reads (flat_map (extraction_block ru wd) l)
  = map (fun x => (snd (fst x), AEnvelope (snd x))) l.
Proof.
  induction l as [|x l IH]; [reflexivity|].
  cbn [flat_map map]. rewrite reads_app, IH.
  unfold extraction_block. destruct ru; reflexivity.
Qed.

Lemma runs_blocks (l : list (class_ref * obj * ETLDataSet)) :
  runs (flat_map (extraction_block ru wd) l)
  = if ru then map (fun x => snd (fst x)) l else [].
Proof.
  induction l as [|x l IH]; [now destruct ru|].
  cbn [flat_map map]. rewrite runs_app, IH.
  unfold extraction_block. destruct ru; reflexivity.
Qed.

End Blocks.

Lemma nth_error_combine {A B} (l : list A) (l' : list B) (i : nat) (a : A) (b : B) :
  nth_error l i = Some a -> nth_error l' i = Some b ->
  nth_error (combine l l') i = Some (a, b).
Proof.
  revert l l'. induction i as [|i IH]; intros [|x l] [|y l'] Ha Hb;
    try discriminate; cbn in *.
  - congruence.
  - now apply IH.
Qed.

Lemma nth_error_length {A B} (l : list A) (l' : list B) (i : nat) (a : A) :
  List.length l' = List.length l -> nth_error l i = Some a ->
  exists b, nth_error l' i = Some b.
Proof.
  intros Hl Ha. destruct (nth_error l' i) as [b|] eqn:E; [eauto|].
  apply nth_error_None in E. assert (i < List.length l) by (apply nth_error_Some; congruence).
  lia.
Qed.

(** ** Flags along the recursion *)

Lemma all_events_bind (ok : forall X, event X -> Prop) {A B}
    (p : prog A) (f : A -> prog B) :
  all_events ok p -> (forall a, all_events ok (f a)) -> all_events ok (bind p f).
Proof.
  intros Hp Hf. induction Hp as [a|e|X ev k Hev _ IH]; cbn [bind].
  - apply Hf.
  - constructor.
  - constructor; [exact Hev | exact IH].
Qed.

Lemma all_events_trigger (ok : forall X, event X -> Prop) {X} (ev : event X) :
  ok X ev -> all_events ok (trigger ev).
Proof. intros H. constructor; [exact H | intros x; constructor]. Qed.

(** The extraction loop only passes on the unit's own flags. *)
Lemma extract_passes_flags (root self : TableETL) :
  run_upstream self = run_upstream root -> write_data self = write_data root ->
  all_events (passes_flags root) (DailyOrderMetricsGoldETL.extract_upstream self).
Proof.
  intros Hru Hwd. unfold DailyOrderMetricsGoldETL.extract_upstream.
  induction (upstream_tables self) as [|c classes IH]; cbn [for_each].
  - constructor.
  - apply all_events_bind.
    + apply all_events_bind; [apply all_events_trigger; cbn; auto|].
      intros table. apply all_events_bind.
      * destruct (run_upstream self); [apply all_events_trigger; exact I | constructor].
      * intros _. apply all_events_trigger. exact I.
    + intros y. apply all_events_bind; [exact IH | intros ys; constructor].
Qed.

Lemma trace_passes_flags {W} (h : env W) (root : TableETL) {A} (p : prog A) :
  all_events (passes_flags root) p ->
  forall w, Forall (fun c => request_passes_flags root (fst c)) (trace (interp h p w)).
Proof.
  induction 1 as [a|e|X ev k Hev _ IH]; intros w; cbn [interp trace]; [constructor..|].
  assert (Hr : request_passes_flags root (request_of ev)) by (destruct ev; exact Hev).
  destruct (h X ev w) as [[x|e] w']; cbn [trace]; constructor; auto.
Qed.

Lemma combine3_fst {A B C} (l : list A) (l' : list B) (l'' : list C) :
  List.length l' = List.length l -> List.length l'' = List.length l ->
  map fst (combine (combine l l') l'') = combine l l'.
Proof.
  revert l' l''. induction l as [|x l IH]; intros [|y l'] [|z l''] H1 H2;
    try discriminate; [reflexivity|].
  cbn. f_equal. apply IH; cbn in *; lia.
Qed.

Lemma combine3_snd {A B C} (l : list A) (l' : list B) (l'' : list C) :
  List.length l' = List.length l -> List.length l'' = List.length l ->
  map (fun x => (snd (fst x), snd x)) (combine (combine l l') l'') = combine l' l''.
Proof.
  revert l' l''. induction l as [|x l IH]; intros [|y l'] [|z l''] H1 H2;
    try discriminate; [reflexivity|].
  cbn. f_equal. apply IH; cbn in *; lia.
Qed.

Lemma combine3_mid {A B C} (l : list A) (l' : list B) (l'' : list C) :
  List.length l' = List.length l -> List.length l'' = List.length l ->
  map (fun x => snd (fst x)) (combine (combine l l') l'') = l'.
Proof.
  revert l' l''. induction l as [|x l IH]; intros [|y l'] [|z l''] H1 H2;
    try discriminate; [reflexivity|].
  cbn. f_equal. apply IH; cbn in *; lia.
Qed.

Section Invariant.
Context {W : Type} (h : env W) (I : W -> Prop) (ok : forall X, event X -> Prop).
Hypothesis env_keeps : forall X (ev : event X) w, ok X ev -> I w -> I (snd (h X ev w)).

(** An invariant that the environment keeps on every event a program
    issues holds when the program has run, whether it returned or raised. *)
Lemma interp_invariant {A} (p : prog A) :
  all_events ok p -> forall w, I w -> I (final (interp h p w)).
Proof.
  induction 1 as [a|e|X ev k Hev _ IH]; intros w Hw; cbn [interp final]; auto.
  specialize (env_keeps X ev w Hev Hw).
  destruct (h X ev w) as [[x|e] w']; cbn [snd final] in *; auto.
Qed.

End Invariant.

Section Flags.
Context (declared : class_ref -> list class_ref) (served : class_ref -> ETLDataSet)
        (root : TableETL).

Lemma unit_of_flags (i : instance) :
  same_flags root i ->
  run_upstream (unit_of declared i) = run_upstream root /\
  write_data (unit_of declared i) = write_data root.
Proof. intros [? ?]. cbn. auto. Qed.

(** The unit graph keeps every instance on the root's flags, however deep
    the [run()] calls nest. *)
Lemma pipeline_keeps_flags (depth : nat) :
  forall X (ev : event X) (hp : heap),
    passes_flags root X ev -> Forall (same_flags root) hp ->
    Forall (same_flags root) (snd (pipeline_env declared served depth X ev hp)).
Proof.
  induction depth as [|depth IH]; intros X ev hp Hev Hg;
    destruct ev as [| |l r|f p|c ru wd|t|t]; cbn [pipeline_env snd]; try exact Hg.
  - destruct Hev as [-> ->]. apply Forall_app. split; [exact Hg|].
    repeat constructor.
  - now destruct (nth_error hp t).
  - now destruct (nth_error hp t).
  - destruct Hev as [-> ->]. apply Forall_app. split; [exact Hg|].
    repeat constructor.
  - destruct (nth_error hp t) as [i|] eqn:E; [|exact Hg]. cbn [snd].
    assert (Hi : same_flags root i).
    { rewrite Forall_forall in Hg. apply Hg. eapply nth_error_In; eauto. }
    destruct (unit_of_flags i Hi) as [Hru Hwd].
    apply (interp_invariant _ (Forall (same_flags root)) (passes_flags root) IH).
    + now apply extract_passes_flags.
    + exact Hg.
  - now destruct (nth_error hp t).
Qed.

Lemma extraction_keeps_flags (depth : nat) (hp : heap) :
  Forall (same_flags root) hp ->
  Forall (same_flags root)
         (final (interp (pipeline_env declared served depth)
                        (DailyOrderMetricsGoldETL.extract_upstream root) hp)).
Proof.
  intros Hg.
  apply (interp_invariant _ (Forall (same_flags root)) (passes_flags root)
           (pipeline_keeps_flags depth)).
  - now apply extract_passes_flags.
  - exact Hg.
Qed.

End Flags.

End ExtractFacts.

(* ================================================================== *)
(** * Properties of [read]                                            *)
(* ================================================================== *)

Import Py Spark SparkSql Runtime Base Storage Pipeline Notions.
Import PyFacts FrameFacts SqlFacts RunFacts LatestFacts.
Local Open Scope list_scope.

(** C1 (latest-partition selection), amended.  For both gold units, with
    [write_data] set and no partition values given, [read] loads the stored
    table twice: once to probe for the greatest [etl_inserted], which no
    stored row exceeds, and once to return exactly the stored rows whose
    [etl_inserted] equals that greatest value, projected to the unit's
    published columns.  After writes at strictly increasing ingestion
    timestamps [t1 < ... < tN] into an empty store, [read] returns exactly
    the rows of the last write that wrote any row: those written at [tN]
    when that write was not empty, those of an earlier write when every write
    after it was empty. *)
Theorem C1_latest_partition_read :
  (forall (W : Type) (h : env W) (self : TableETL)
          (partition_values : option (list (string * string)))
          (stored : DataFrame) (i : nat) (a : attr) (w : W),
      write_data self = true ->
      truthy partition_values = false ->
      serves h self stored w ->
      resolve stored "etl_inserted" = Ok (i, a) ->
      timestamp_column i (rows stored) ->
      exists latest,
        select_max stored "etl_inserted" = Ok latest /\
        (forall r, In r (rows stored) -> value_ltb latest (cell r i) <> Some true) /\
        interp h (DailyOrderMetricsGoldETL.read self partition_values) w
        = mk_run (rbind (select (mk_df (schema stored)
                                   (filter (fun r => value_eqb (cell r i) latest)
                                           (rows stored)))
                                DailyOrderMetricsGoldETL.selected_columns)
                        (fun d => Ok (envelope self d)))
                 w (loads self [stored; stored]) /\
        interp h (WideOrderItemsGoldETL.read self partition_values) w
        = mk_run (rbind (select (mk_df (schema stored)
                                   (filter (fun r => value_eqb (cell r i) latest)
                                           (rows stored)))
                                WideOrderItemsGoldETL.selected_columns)
                        (fun d => Ok (envelope self d)))
                 w (loads self [stored; stored]))
  /\
  (forall (self : TableETL) (sch : list attr) (i : nat) (a : attr)
          (writes : list (datetime * list row)),
      write_data self = true ->
      resolve (mk_df sch []) "etl_inserted" = Ok (i, a) ->
      writes <> [] ->
      increasing (map fst writes) = true ->
      Forall (stamped i) writes ->
      exists written,
        write_all self (map (batch_envelope self sch) writes) [] = Ok written /\
        outcome (interp storage_env (DailyOrderMetricsGoldETL.read self None) written)
        = rbind (select (mk_df sch (latest_rows writes))
                        DailyOrderMetricsGoldETL.selected_columns)
                (fun d => Ok (envelope self d)) /\
        outcome (interp storage_env (WideOrderItemsGoldETL.read self None) written)
        = rbind (select (mk_df sch (latest_rows writes))
                        WideOrderItemsGoldETL.selected_columns)
                (fun d => Ok (envelope self d)))
  /\
  (forall (earlier : list (datetime * list row)) (tN : datetime) (rowsN : list row),
      (rowsN <> [] -> latest_rows (earlier ++ [(tN, rowsN)]) = rowsN) /\
      latest_rows (earlier ++ [(tN, [])]) = latest_rows earlier).
Proof.
  split; [|split].
  - intros W h self pv stored i a w Hw Hp Hs Hr Hc.
    destruct (max_cells_spec i (rows stored) Hc) as (latest & Hmax & Hcases).
    exists latest.
    split; [unfold select_max; now rewrite Hr|]. split.
    + intros r Hin. destruct Hcases as [[Hnil _] | (m & Hl & _ & _ & Hup)].
      * rewrite Hnil in Hin. destruct Hin.
      * rewrite Hl.
        unfold timestamp_column in Hc. rewrite Forall_forall in Hc.
        destruct (Hc r Hin) as (t & Ht & _). rewrite Ht. cbn [value_ltb].
        rewrite (Hup r t Hin Ht). discriminate.
    + rewrite daily_read_eq, wide_read_eq.
      split; now apply read_latest_spec with (a := a).
  - intros self sch i a writes Hw Hr Hsome Hinc Hst.
    set (all := List.concat (map snd writes)).
    exists [(storage_path self, mk_df sch all)].
    split; [destruct writes as [|b bs]; [congruence | now apply write_all_fresh]|].
    assert (Hres : resolve (mk_df sch all) "etl_inserted" = Ok (i, a))
      by (rewrite <- Hr; now apply resolve_schema).
    rewrite daily_read_eq, wide_read_eq.
    destruct (latest_rows_split writes)
      as [[Hall Hl] | (earlier & tN & rowsN & later & E & Hne & Hsil & Hl)].
    + assert (Hnil : all = []) by now apply concat_silent.
      rewrite Hl.
      assert (Hcol : timestamp_column i (rows (mk_df sch all)))
        by (cbn [rows]; rewrite Hnil; constructor).
      assert (Hlat : max_cells (map (fun r => cell r i) (rows (mk_df sch all)))
                     = Ok VNull)
        by (cbn [rows]; now rewrite Hnil).
      split;
        rewrite (read_latest_spec storage_env _ self None (mk_df sch all) i a _
                   VNull Hw eq_refl (storage_serves self _) Hres Hcol Hlat);
        cbn [outcome rows schema]; now rewrite Hnil.
    + rewrite Hl. unfold all in *. clear all. subst writes.
      assert (Hcol : timestamp_column i
                (rows (mk_df sch (List.concat (map snd (earlier ++ (tN, rowsN) :: later))))))
        by (eapply all_rows_timestamps; eassumption).
      assert (Hlat : max_cells
                (map (fun r => cell r i)
                   (rows (mk_df sch (List.concat
                                       (map snd (earlier ++ (tN, rowsN) :: later))))))
                = Ok (VTimestamp tN))
        by (eapply latest_is_last; eassumption).
      assert (Hnew : filter (fun r => value_eqb (cell r i) (VTimestamp tN))
                       (List.concat (map snd (earlier ++ (tN, rowsN) :: later)))
                     = rowsN)
        by (eapply newest_rows; eassumption).
      split;
        rewrite (read_latest_spec storage_env _ self None _ i a _
                   (VTimestamp tN) Hw eq_refl (storage_serves self _) Hres Hcol Hlat);
        cbn [outcome rows schema]; now rewrite Hnew.
  - intros earlier tN rowsN. split.
    + intros Hne. induction earlier as [|b earlier IH]; cbn [app latest_rows snd].
      * reflexivity.
      * rewrite IH. destruct rowsN; [congruence | reflexivity].
    + induction earlier as [|b earlier IH]; cbn [app latest_rows snd].
      * reflexivity.
      * now rewrite IH.
Qed.

(** Two writes of daily metrics, at [t1] and then at [t2]: a read without
    partition values returns the two rows written at [t2]. *)
Lemma C1_latest_partition_read_witness :
  write_all (Examples.daily_unit true)
            (map (batch_envelope (Examples.daily_unit true) Examples.daily_schema)
                 [(Examples.t1, Examples.daily_batch1);
                  (Examples.t2, Examples.daily_batch2)]) []
  = Ok Examples.daily_store /\
  outcome (interp storage_env
             (DailyOrderMetricsGoldETL.read (Examples.daily_unit true) None)
             Examples.daily_store)
  = Ok (envelope (Examples.daily_unit true)
                 (mk_df Examples.daily_schema Examples.daily_batch2)).
Proof.
  destruct (proj1 (proj2 C1_latest_partition_read)
              (Examples.daily_unit true) Examples.daily_schema 3
              (mk_attr 4 "etl_inserted")
              [(Examples.t1, Examples.daily_batch1);
               (Examples.t2, Examples.daily_batch2)])
    as (written & Hw & Hd & _).
  - reflexivity.
  - reflexivity.
  - discriminate.
  - reflexivity.
  - repeat constructor.
  - assert (E : written = Examples.daily_store).
    { vm_compute in Hw. now injection Hw as <-. }
    subst written. split; [reflexivity|]. rewrite Hd. reflexivity.
Defined.

(** C1 as stated fails when the last write wrote no row.  A write of one
    row of daily metrics at [t1], then a write of no row at [t2 > t1]: the
    stored table holds the row of [t1] only, the greatest [etl_inserted] is
    [t1], and a read without partition values returns that row, not the
    rows written at [t2], of which there are none. *)
Lemma C1_latest_partition_read_counterexample :
  increasing [Examples.t1; Examples.t2] = true /\
  Forall (stamped 3) [(Examples.t1, Examples.daily_batch1); (Examples.t2, [])] /\
  write_all (Examples.daily_unit true)
            (map (batch_envelope (Examples.daily_unit true) Examples.daily_schema)
                 [(Examples.t1, Examples.daily_batch1); (Examples.t2, [])]) []
  = Ok [("s3a://rainforest/delta/gold/daily_order_metrics",
         mk_df Examples.daily_schema Examples.daily_batch1)] /\
  outcome (interp storage_env
             (DailyOrderMetricsGoldETL.read (Examples.daily_unit true) None)
             [("s3a://rainforest/delta/gold/daily_order_metrics",
               mk_df Examples.daily_schema Examples.daily_batch1)])
  = Ok (envelope (Examples.daily_unit true)
                 (mk_df Examples.daily_schema Examples.daily_batch1)) /\
  outcome (interp storage_env
             (DailyOrderMetricsGoldETL.read (Examples.daily_unit true) None)
             [("s3a://rainforest/delta/gold/daily_order_metrics",
               mk_df Examples.daily_schema Examples.daily_batch1)])
  <> rbind (select (mk_df Examples.daily_schema [])
                   DailyOrderMetricsGoldETL.selected_columns)
           (fun d => Ok (envelope (Examples.daily_unit true) d)).
Proof.
  split; [reflexivity|]. split; [repeat constructor|].
  split; [reflexivity|]. split; [vm_compute; reflexivity|].
  vm_compute. intros C. discriminate C.
Qed.

(** Explicit partition selection with one pair: a key that is a plain
    column name and a value free of quotes and backslashes select exactly
    the stored rows whose cell equals the value, projected to the published
    columns; given the text of a timestamp, these are the rows written at
    that timestamp. *)
Lemma explicit_partition_single_pair {W : Type} (h : env W) (cols : list string)
    (self : TableETL) (k v : string) (stored : DataFrame) (w w' : W) :
  write_data self = true ->
  plain_identifier k = true -> plain_literal v = true ->
  h _ (Load (data_format self) (storage_path self)) w = (Ok stored, w') ->
  interp h (read_with cols self (Some [(k, v)])) w
  = mk_run (rbind (resolve stored k) (fun c =>
            rbind (rfilter (equals_literal (fst c) v) (rows stored)) (fun kept =>
            rbind (select (mk_df (schema stored) kept) cols)
                  (fun d => Ok (envelope self d)))))
           w' (loads self [stored]).
Proof.
  intros Hw Hk Hv Hl.
  rewrite (read_explicit h cols self (Some [(k, v)]) stored w w' Hw eq_refl Hl).
  unfold DailyOrderMetricsGoldETL.partition_filter_of.
  cbn [items map String.concat fst snd].
  rewrite filter_expr_equality by assumption.
  destruct (resolve stored k) as [c|e]; cbn [rbind]; [|reflexivity].
  destruct (rfilter (equals_literal (fst c) v) (rows stored)); reflexivity.
Qed.

Lemma explicit_partition_timestamp {W : Type} (h : env W) (cols : list string)
    (self : TableETL) (t : datetime) (stored : DataFrame) (i : nat) (a : attr)
    (w w' : W) :
  write_data self = true -> valid_datetime t = true ->
  h _ (Load (data_format self) (storage_path self)) w = (Ok stored, w') ->
  resolve stored "etl_inserted" = Ok (i, a) ->
  timestamp_column i (rows stored) ->
  outcome (interp h (read_with cols self (Some [("etl_inserted", str_datetime t)])) w)
  = rbind (select (mk_df (schema stored)
                         (filter (fun r => value_eqb (cell r i) (VTimestamp t))
                                 (rows stored)))
                  cols)
          (fun d => Ok (envelope self d)).
Proof.
  intros Hw Hv Hl Hr Hc.
  rewrite (explicit_partition_single_pair h cols self "etl_inserted" (str_datetime t)
             stored w w' Hw eq_refl (plain_str_datetime t) Hl).
  rewrite Hr. cbn [outcome rbind fst].
  now rewrite (rfilter_timestamp i t (rows stored) Hv Hc).
Qed.

(** C2 (explicit partition selection), where the code departs from it.  The
    filter text is built with [" AND".join]: from the second pair on, the key
    is glued to [AND].  For any dictionary of two or more pairs of plain
    column names and plain values, both units' [read] loads the table and
    then raises the parser's exception instead of returning the rows that
    satisfy all the equalities. *)
Theorem C2_several_pairs_raise_parse_exception :
  forall (W : Type) (h : env W) (self : TableETL) (stored : DataFrame) (w w' : W)
         (kv1 kv2 : string * string) (more : list (string * string)),
    write_data self = true ->
    Forall plain_pair (kv1 :: kv2 :: more) ->
    h _ (Load (data_format self) (storage_path self)) w = (Ok stored, w') ->
    DailyOrderMetricsGoldETL.partition_filter_of (kv1 :: kv2 :: more)
    = (fst kv1 ++ " = '" ++ snd kv1 ++ "' AND" ++ fst kv2 ++ " = '" ++ snd kv2 ++ "'"
         ++ joined_tail more)%string /\
    interp h (DailyOrderMetricsGoldETL.read self (Some (kv1 :: kv2 :: more))) w
    = mk_run (Err ParseException) w' (loads self [stored]) /\
    interp h (WideOrderItemsGoldETL.read self (Some (kv1 :: kv2 :: more))) w
    = mk_run (Err ParseException) w' (loads self [stored]).
Proof.
  intros W h self stored w w' kv1 kv2 more Hw Hplain Hl.
  pose proof (several_pairs_do_not_parse kv1 kv2 more Hplain) as Hbad.
  split.
  - rewrite partition_filter_text. reflexivity.
  - rewrite daily_read_eq, wide_read_eq.
    split;
      rewrite (read_explicit h _ self (Some (kv1 :: kv2 :: more)) stored w w'
                 Hw eq_refl Hl);
      cbn [items]; unfold filter_expr;
      destruct (lex Blank _) as [ts|e]; cbn [rbind] in Hbad |- *;
      try (now rewrite Hbad); now injection Hbad as ->.
Qed.

(** A dictionary with [etl_inserted] and [order_date] on stored daily
    metrics that hold a row matching both: the read raises. *)
Lemma C2_several_pairs_raise_parse_exception_witness :
  DailyOrderMetricsGoldETL.partition_filter_of
    [("etl_inserted", "2024-01-02 06:00:00.250000"); ("order_date", "2024-01-01")]
  = "etl_inserted = '2024-01-02 06:00:00.250000' ANDorder_date = '2024-01-01'" /\
  outcome (interp storage_env
             (DailyOrderMetricsGoldETL.read (Examples.daily_unit true)
                (Some [("etl_inserted", "2024-01-02 06:00:00.250000");
                       ("order_date", "2024-01-01")]))
             Examples.daily_store)
  = Err ParseException /\
  In [VDate (mk_date 2024 1 1); VDecimal 20 2 700; VDecimal 14 6 7000000;
      VTimestamp Examples.t2]
     (rows Examples.daily_stored).
Proof.
  destruct (C2_several_pairs_raise_parse_exception
              store storage_env (Examples.daily_unit true)
              Examples.daily_stored Examples.daily_store Examples.daily_store
              ("etl_inserted", "2024-01-02 06:00:00.250000")
              ("order_date", "2024-01-01") [])
    as (Htext & Hd & _).
  - reflexivity.
  - repeat constructor.
  - reflexivity.
  - split; [exact Htext|]. split; [now rewrite Hd|].
    right. right. now left.
Defined.

(** What passes a filter given as text: rows of the frame, under its
    schema. *)
Lemma filter_expr_rows (df f : DataFrame) (text : string) :
  filter_expr df text = Ok f ->
  schema f = schema df /\ exists keep, rows f = filter keep (rows df).
Proof.
  unfold filter_expr. intros H.
  apply rbind_ok in H as (ts & _ & H). apply rbind_ok in H as (cs & _ & H).
  apply rbind_ok in H as (fs & _ & H). apply rbind_ok in H as (kept & Hk & H).
  injection H as <-. split; [reflexivity|].
  apply rfilter_ok in Hk. eauto.
Qed.

(** C8 (published columns).  For both gold units (read with its column
    list), whatever the environment serves and the cache holds, each mode
    of [read] wraps the projection of one frame to the unit's published
    column list: the cached frame; the loaded table filtered by the text
    built from the partition values; the loaded table filtered on the
    [etl_inserted] the probe showed.  The projection keeps every row of that
    frame and, of its cells, those of the published columns in the published
    order, whatever other columns the frame has; so the columns of every
    envelope [read] returns are exactly the published list. *)
Theorem C8_read_projects_to_published_columns :
  forall (W : Type) (h : env W) (self : TableETL)
         (partition_values : option (list (string * string))) (w : W)
         (read : TableETL -> option (list (string * string)) -> prog ETLDataSet)
         (published : list string),
    (read = DailyOrderMetricsGoldETL.read /\
     published = DailyOrderMetricsGoldETL.selected_columns) \/
    (read = WideOrderItemsGoldETL.read /\
     published = WideOrderItemsGoldETL.selected_columns) ->
    (forall cached,
        write_data self = false -> current_data self = Some cached ->
        interp h (read self partition_values) w
        = mk_run (rbind (select cached published) (fun d => Ok (envelope self d)))
                 w [])
    /\
    (forall stored w',
        write_data self = true -> truthy partition_values = true ->
        h _ (Load (data_format self) (storage_path self)) w = (Ok stored, w') ->
        interp h (read self partition_values) w
        = mk_run (rbind (filter_expr stored
                           (DailyOrderMetricsGoldETL.partition_filter_of
                              (items partition_values)))
                    (fun f => rbind (select f published)
                                    (fun d => Ok (envelope self d))))
                 w' (loads self [stored]))
    /\
    (forall probed stored w1 w2 latest shown,
        write_data self = true -> truthy partition_values = false ->
        h _ (Load (data_format self) (storage_path self)) w = (Ok probed, w1) ->
        select_max probed "etl_inserted" = Ok latest ->
        py_str latest = Ok shown ->
        h _ (Load (data_format self) (storage_path self)) w1 = (Ok stored, w2) ->
        interp h (read self partition_values) w
        = mk_run (rbind (filter_expr stored ("etl_inserted = '" ++ shown ++ "'")%string)
                    (fun f => rbind (select f published)
                                    (fun d => Ok (envelope self d))))
                 w2 (loads self [probed; stored]))
    /\
    (forall stored text f,
        filter_expr stored text = Ok f ->
        schema f = schema stored /\ exists keep, rows f = filter keep (rows stored))
    /\
    (forall frame data,
        select frame published = Ok data ->
        columns data = published /\
        exists ps,
          Forall2 (fun name p => positions name (schema frame) = [p]) published ps /\
          schema data = map (fun np => mk_attr (id_at (schema frame) (snd np)) (fst np))
                            (combine published ps) /\
          rows data = map (fun r => map (cell r) ps) (rows frame))
    /\
    (forall ds,
        outcome (interp h (read self partition_values) w) = Ok ds ->
        columns (ds_current_data ds) = published /\
        ds = envelope self (ds_current_data ds)).
Proof.
  intros W h self pv w read published Hread.
  assert (E : read = read_with published)
    by (destruct Hread as [[-> ->] | [-> ->]]; reflexivity).
  rewrite E. clear E Hread.
  split; [|split; [|split; [|split; [|split]]]].
  - intros cached Hw Hc. now apply read_cached.
  - intros stored w' Hw Hp Hl. now apply read_explicit.
  - intros probed stored w1 w2 latest shown Hw Hp Hl1 Hmax Hstr Hl2.
    apply (read_latest h published self pv probed stored w w1 w2 latest shown);
      assumption.
  - intros stored text f. apply filter_expr_rows.
  - intros frame data Hs. split; [now apply select_columns in Hs|].
    now apply select_inv.
  - intros ds H. apply read_returns_selected in H as (f & d & Hs & ->).
    cbn [envelope ds_current_data]. split; [now apply select_columns in Hs|].
    reflexivity.
Qed.

(** The three modes on sample data: the wide unit serves its cached frame
    under the eleven published columns, without [product_name] and
    [seller_name]; the daily unit serves the partition asked for, and the
    latest one when none is asked for. *)
Lemma C8_read_projects_to_published_columns_witness :
  (select Examples.wide_order_items WideOrderItemsGoldETL.selected_columns
   = Ok EdgeExamples.wide_published /\
   interp storage_env
          (WideOrderItemsGoldETL.read
             (set_current_data (Examples.wide_unit false) Examples.wide_order_items)
             None) []
   = mk_run (Ok (envelope (Examples.wide_unit false) EdgeExamples.wide_published))
            [] []) /\
  interp storage_env
         (DailyOrderMetricsGoldETL.read (Examples.daily_unit true)
            (Some [("etl_inserted", "2024-01-01 06:00:00")]))
         Examples.daily_store
  = mk_run (Ok (envelope (Examples.daily_unit true)
                         (mk_df Examples.daily_schema Examples.daily_batch1)))
           Examples.daily_store
           (loads (Examples.daily_unit true) [Examples.daily_stored]) /\
  interp storage_env
         (DailyOrderMetricsGoldETL.read (Examples.daily_unit true) None)
         Examples.daily_store
  = mk_run (Ok (envelope (Examples.daily_unit true)
                         (mk_df Examples.daily_schema Examples.daily_batch2)))
           Examples.daily_store
           (loads (Examples.daily_unit true)
                  [Examples.daily_stored; Examples.daily_stored]).
Proof.
  split; [|split].
  - assert (Hs : select Examples.wide_order_items WideOrderItemsGoldETL.selected_columns
                 = Ok EdgeExamples.wide_published) by reflexivity.
    split; [exact Hs|].
    rewrite (proj1 (C8_read_projects_to_published_columns
                      store storage_env
                      (set_current_data (Examples.wide_unit false)
                                        Examples.wide_order_items)
                      None [] WideOrderItemsGoldETL.read
                      WideOrderItemsGoldETL.selected_columns
                      (or_intror (conj eq_refl eq_refl)))
                   Examples.wide_order_items eq_refl eq_refl).
    now rewrite Hs.
  - rewrite (proj1 (proj2 (C8_read_projects_to_published_columns
                      store storage_env (Examples.daily_unit true)
                      (Some [("etl_inserted", "2024-01-01 06:00:00")])
                      Examples.daily_store DailyOrderMetricsGoldETL.read
                      DailyOrderMetricsGoldETL.selected_columns
                      (or_introl (conj eq_refl eq_refl))))
                   Examples.daily_stored Examples.daily_store
                   eq_refl eq_refl eq_refl).
    vm_compute. reflexivity.
  - rewrite (proj1 (proj2 (proj2 (C8_read_projects_to_published_columns
                      store storage_env (Examples.daily_unit true) None
                      Examples.daily_store DailyOrderMetricsGoldETL.read
                      DailyOrderMetricsGoldETL.selected_columns
                      (or_introl (conj eq_refl eq_refl)))))
                   Examples.daily_stored Examples.daily_stored
                   Examples.daily_store Examples.daily_store
                   (VTimestamp Examples.t2) "2024-01-02 06:00:00.250000"
                   eq_refl eq_refl eq_refl eq_refl eq_refl eq_refl).
    vm_compute. reflexivity.
Defined.

(* ================================================================== *)
(** * Properties of [transform_upstream]                              *)
(* ================================================================== *)

Import Py Spark SparkSql Runtime Base Storage Pipeline Notions.
Import PyFacts FrameFacts SqlFacts RunFacts LatestFacts DailyFacts DailyRows.
Local Open Scope list_scope.

Lemma envelope_set_current_data (self : TableETL) (cached df : DataFrame) :
  envelope (set_current_data self cached) df = envelope self df.
Proof. reflexivity. Qed.

(** C3 (read-mode equivalence).  For both gold units with [write_data]
    unset: once [transform_upstream] has returned, [read] on the unit returns
    the transform's frame projected to the published columns, whatever
    partition values are passed and whatever the environment is; it asks
    nothing of the environment (no storage access) and leaves it as it was.
    For the daily metrics the projection is the identity: [read] returns the
    very envelope of the transform. *)
Theorem C3_read_without_write_serves_transform_output :
  forall (W W' : Type) (h : env W) (h' : env W') (self : TableETL)
         (upstream_datasets : list ETLDataSet)
         (partition_values : option (list (string * string)))
         (w : W) (w' : W') (ds : ETLDataSet) (self' : TableETL),
    write_data self = false ->
    (outcome (interp h (DailyOrderMetricsGoldETL.transform_upstream self
                          upstream_datasets) w) = Ok (ds, self') ->
     select (ds_current_data ds) DailyOrderMetricsGoldETL.selected_columns
     = Ok (ds_current_data ds) /\
     interp h' (DailyOrderMetricsGoldETL.read self' partition_values) w'
     = mk_run (Ok ds) w' [])
    /\
    (outcome (interp h (WideOrderItemsGoldETL.transform_upstream self
                          upstream_datasets) w) = Ok (ds, self') ->
     interp h' (WideOrderItemsGoldETL.read self' partition_values) w'
     = mk_run (rbind (select (ds_current_data ds) WideOrderItemsGoldETL.selected_columns)
                     (fun d => Ok (envelope self d)))
              w' []).
Proof.
  intros W W' h h' self ups pv w w' ds self' Hw. split; intros H.
  - destruct (daily_transform_shape h self ups w ds self' H)
      as (id_key & id_sum & id_mean & id_ts & t & body & Hd & H3 & Hds & Hself & _).
    pose proof (out_select id_key id_sum id_mean id_ts t body H3) as Hsel.
    cbv zeta in Hsel. rewrite <- Hd in Hsel. split; [exact Hsel|].
    rewrite daily_read_eq.
    rewrite (read_cached h' _ self' pv (ds_current_data ds) w');
      [| now rewrite Hself | now rewrite Hself].
    rewrite Hsel. cbn [rbind]. rewrite Hself, envelope_set_current_data.
    now rewrite <- Hds.
  - destruct (WideFacts.wide_transform_stamped h self ups w ds self' H)
      as (joined & id_ts & t & _ & _ & _ & _ & Hself & _).
    rewrite wide_read_eq.
    rewrite (read_cached h' _ self' pv (ds_current_data ds) w');
      [| now rewrite Hself | now rewrite Hself].
    now rewrite Hself.
Qed.

(** The daily metrics of the sample orders, computed without writing and
    read back: [read] returns the transform's envelope, though partition
    values are passed and storage is empty. *)
Lemma C3_read_without_write_serves_transform_output_witness :
  outcome (interp Examples.engine
             (DailyOrderMetricsGoldETL.transform_upstream
                (Examples.daily_unit false) [Examples.orders_envelope]) 0)
  = Ok (envelope (Examples.daily_unit false) Examples.daily_metrics,
        set_current_data (Examples.daily_unit false) Examples.daily_metrics) /\
  interp storage_env
         (DailyOrderMetricsGoldETL.read
            (set_current_data (Examples.daily_unit false) Examples.daily_metrics)
            (Some [("etl_inserted", "2024-01-01 06:00:00")])) []
  = mk_run (Ok (envelope (Examples.daily_unit false) Examples.daily_metrics)) [] [].
Proof.
  assert (H : outcome (interp Examples.engine
                (DailyOrderMetricsGoldETL.transform_upstream
                   (Examples.daily_unit false) [Examples.orders_envelope]) 0)
              = Ok (envelope (Examples.daily_unit false) Examples.daily_metrics,
                    set_current_data (Examples.daily_unit false) Examples.daily_metrics))
    by (vm_compute; reflexivity).
  split; [exact H|].
  exact (proj2 (proj1 (C3_read_without_write_serves_transform_output
                         nat store Examples.engine storage_env
                         (Examples.daily_unit false) [Examples.orders_envelope]
                         (Some [("etl_inserted", "2024-01-01 06:00:00")]) 0 []
                         _ _ eq_refl) H)).
Defined.

(** C6 (one ingestion timestamp per call).  A call of [transform_upstream]
    that returns has read the clock exactly once, and every row of the frame
    it returns carries that one reading under [etl_inserted]: for the daily
    metrics in the fourth column; for the wide table, whose rows have one
    cell per attribute when those of the three joined sides have, in every
    column of that name, and there is one. *)
Theorem C6_single_ingestion_timestamp :
  forall (W : Type) (h : env W) (self : TableETL)
         (upstream_datasets : list ETLDataSet) (w : W)
         (ds : ETLDataSet) (self' : TableETL),
    (outcome (interp h (DailyOrderMetricsGoldETL.transform_upstream self
                          upstream_datasets) w) = Ok (ds, self') ->
     exists t a,
       clock_reads (trace (interp h (DailyOrderMetricsGoldETL.transform_upstream self
                                       upstream_datasets) w)) = [ADatetime t] /\
       resolve (ds_current_data ds) "etl_inserted" = Ok (3, a) /\
       forall r, In r (rows (ds_current_data ds)) -> cell r 3 = VTimestamp t)
    /\
    (outcome (interp h (WideOrderItemsGoldETL.transform_upstream self
                          upstream_datasets) w) = Ok (ds, self') ->
     exists t,
       clock_reads (trace (interp h (WideOrderItemsGoldETL.transform_upstream self
                                       upstream_datasets) w)) = [ADatetime t] /\
       positions "etl_inserted" (schema (ds_current_data ds)) <> [] /\
       ((forall k, k < 3 -> exists d, nth_error upstream_datasets k = Some d /\
                                      well_formed (ds_current_data d)) ->
        well_formed (ds_current_data ds) /\
        forall r i,
          In r (rows (ds_current_data ds)) ->
          In i (positions "etl_inserted" (schema (ds_current_data ds))) ->
          cell r i = VTimestamp t)).
Proof.
  intros W h self ups w ds self'. split; intros H.
  - destruct (daily_transform_shape h self ups w ds self' H)
      as (id_key & id_sum & id_mean & id_ts & t & body & Hd & H3 & _ & _ & Hc).
    exists t, (mk_attr id_ts "etl_inserted"). split; [exact Hc|].
    rewrite Hd. split; [reflexivity|].
    intros r Hin. eapply out_rows_stamped; eauto.
  - destruct (WideFacts.wide_transform_stamped h self ups w ds self' H)
      as (joined & id_ts & t & Hs & _ & Hwf & _ & _ & Hc & _).
    exists t. split; [exact Hc|].
    apply withColumn_lit_cells in Hs as (Hsome & Hkeep & Hcells).
    split; [exact Hsome|]. intros Hups. specialize (Hwf Hups). auto.
Qed.

(** The sample order item: the one row of the wide table carries the
    clock's [t2] in its [etl_inserted] column, the thirteenth. *)
Lemma C6_single_ingestion_timestamp_witness :
  outcome (interp Examples.engine
             (WideOrderItemsGoldETL.transform_upstream
                (Examples.wide_unit false) Examples.wide_upstream) 0)
  = Ok (envelope (Examples.wide_unit false) Examples.wide_order_items,
        set_current_data (Examples.wide_unit false) Examples.wide_order_items) /\
  positions "etl_inserted" (schema Examples.wide_order_items) = [12] /\
  exists t,
    clock_reads (trace (interp Examples.engine
                          (WideOrderItemsGoldETL.transform_upstream
                             (Examples.wide_unit false) Examples.wide_upstream) 0))
    = [ADatetime t] /\
    forall r, In r (rows Examples.wide_order_items) -> cell r 12 = VTimestamp t.
Proof.
  assert (H : outcome (interp Examples.engine
                (WideOrderItemsGoldETL.transform_upstream
                   (Examples.wide_unit false) Examples.wide_upstream) 0)
              = Ok (envelope (Examples.wide_unit false) Examples.wide_order_items,
                    set_current_data (Examples.wide_unit false)
                                     Examples.wide_order_items))
    by (vm_compute; reflexivity).
  split; [exact H|]. split; [reflexivity|].
  destruct (proj2 (C6_single_ingestion_timestamp nat Examples.engine
                     (Examples.wide_unit false) Examples.wide_upstream 0 _ _) H)
    as (t & Hc & _ & Hrows).
  exists t. split; [exact Hc|].
  intros r Hin. apply Hrows; [|exact Hin|now left].
  intros k Hk.
  destruct k as [|[|[|k]]]; [| | |lia]; eexists; (split; [reflexivity|]);
    repeat constructor.
Defined.




(** C9 (aggregation).  On a well-formed frame of orders that has the
    columns [order_ts], [is_active] and [total_price], the daily-metrics
    transform returns, in some order, one row per date (the [order_ts] cast
    to a date) that has an order whose [is_active] is true; the row holds the
    date, the sum and the mean of [total_price] over that date's active
    orders, as the engine computes them for the type of the column, and the
    ingestion timestamp.  It does return when the dates, the flags and the
    aggregates are described and the clock and the counter answer.  On the
    sample orders (20.00 and 30.00 active, 100.00 inactive, one day, prices
    of type [decimal(10,2)]) the one row holds 50.00 and 25.000000; with
    prices of type [double] it holds 50 and 25. *)
Theorem C9_daily_metrics_aggregation :
  (forall (W : Type) (h : env W) (self : TableETL) (first : ETLDataSet)
          (rest : list ETLDataSet) (w : W) (i_ts i_active i_price : nat)
          (a_ts a_active a_price : attr),
      resolve (ds_current_data first) "order_ts" = Ok (i_ts, a_ts) ->
      resolve (ds_current_data first) "is_active" = Ok (i_active, a_active) ->
      resolve (ds_current_data first) "total_price" = Ok (i_price, a_price) ->
      well_formed (ds_current_data first) ->
      let orders := rows (ds_current_data first) in
      (forall ds self',
          outcome (interp h (DailyOrderMetricsGoldETL.transform_upstream self
                               (first :: rest)) w) = Ok (ds, self') ->
          exists t listed,
            clock_reads (trace (interp h (DailyOrderMetricsGoldETL.transform_upstream
                                            self (first :: rest)) w)) = [ADatetime t] /\
            columns (ds_current_data ds)
            = ["order_date"; "total_price_sum"; "total_price_mean"; "etl_inserted"] /\
            Permutation listed (rows (ds_current_data ds)) /\
            Forall2 (fun d r =>
                       exists s m, r = [d; s; m; VTimestamp t] /\
                         sum_cells (prices_on i_ts i_active i_price orders d) = Ok s /\
                         mean_cells (prices_on i_ts i_active i_price orders d) = Ok m)
                    (active_dates i_ts i_active orders) listed) /\
      (List.length (positions "order_date" (schema (ds_current_data first))) <= 1 ->
       castable i_ts orders -> flagged i_active orders ->
       aggregable i_ts i_active i_price orders -> engine_answers h ->
       exists ds self',
         outcome (interp h (DailyOrderMetricsGoldETL.transform_upstream self
                              (first :: rest)) w) = Ok (ds, self')))
  /\
  (active_dates 1 3 (rows Examples.orders) = [Examples.order_day] /\
   prices_on 1 3 2 (rows Examples.orders) Examples.order_day
   = [VDecimal 10 2 2000; VDecimal 10 2 3000] /\
   sum_cells [VDecimal 10 2 2000; VDecimal 10 2 3000] = Ok (VDecimal 20 2 5000) /\
   mean_cells [VDecimal 10 2 2000; VDecimal 10 2 3000] = Ok (VDecimal 14 6 25000000) /\
   sum_cells [VDouble 20; VDouble 30] = Ok (VDouble 50) /\
   mean_cells [VDouble 20; VDouble 30] = Ok (VDouble 25) /\
   rows (ds_current_data
           (envelope (Examples.daily_unit true) Examples.daily_metrics))
   = [[Examples.order_day; VDecimal 20 2 5000; VDecimal 14 6 25000000;
       VTimestamp Examples.t2]] /\
   outcome (interp Examples.engine
              (DailyOrderMetricsGoldETL.transform_upstream
                 (Examples.daily_unit true) [Examples.orders_envelope]) 0)
   = Ok (envelope (Examples.daily_unit true) Examples.daily_metrics,
         set_current_data (Examples.daily_unit true) Examples.daily_metrics)).
Proof.
  split.
  - intros W h self first rest w i_ts i_active i_price a_ts a_active a_price
           Hts Hact Hp Hwf orders. split.
    + intros ds self' H.
      destruct (transform_rows (ds_current_data first) i_ts i_active i_price
                  a_ts a_active a_price Hts Hact Hp Hwf
                  h self first rest w ds self' eq_refl H) as (t & Hc & Hrows).
      exists t, (rows (ds_current_data ds)).
      split; [exact Hc|]. split; [|split; [apply Permutation_refl | exact Hrows]].
      destruct (daily_transform_shape h self _ w ds self' H)
        as (id_key & id_sum & id_mean & id_ts & t' & body & Hd & _).
      now rewrite Hd.
    + intros Hone Hc Hfl Hpr He.
      exact (transform_total (ds_current_data first) i_ts i_active i_price
               a_ts a_active a_price Hts Hact Hp Hwf Hone Hc Hfl Hpr
               h self first rest w eq_refl He).
  - repeat split; vm_compute; reflexivity.
Qed.

(** The sample orders satisfy what the general statement asks for, so the
    transform returns on them. *)
Lemma C9_daily_metrics_aggregation_witness :
  exists ds self',
    outcome (interp Examples.engine
               (DailyOrderMetricsGoldETL.transform_upstream
                  (Examples.daily_unit true) [Examples.orders_envelope]) 0)
    = Ok (ds, self').
Proof.
  refine (proj2 (proj1 C9_daily_metrics_aggregation nat Examples.engine
                   (Examples.daily_unit true) Examples.orders_envelope [] 0
                   1 3 2 (mk_attr 2 "order_ts") (mk_attr 4 "is_active")
                   (mk_attr 3 "total_price") _ _ _ _) _ _ _ _ _).
  - reflexivity.
  - reflexivity.
  - reflexivity.
  - repeat constructor.
  - cbn. lia.
  - repeat constructor; eexists; reflexivity.
  - repeat constructor; eexists; reflexivity.
  - repeat constructor. eexists. eexists. split; vm_compute; reflexivity.
  - split; intros n; eexists; eexists; reflexivity.
Defined.

(** C10 (the declared primary key is not in the data).  A daily-metrics
    unit constructed without a [primary_keys] argument declares
    [["order_ts"]]; every envelope its [transform_upstream] or its [read]
    returns carries that declaration over data whose columns are exactly
    [order_date], [total_price_sum], [total_price_mean] and [etl_inserted]:
    no declared primary-key column exists in the data. *)
Theorem C10_primary_key_absent_from_data :
  forall (W : Type) (h : env W)
         (upstream_tables : option (list class_ref)) (name : option string)
         (storage_path data_format database : option string)
         (partition_keys : option (list string)) (run_upstream write_data : option bool)
         (upstream_datasets : list ETLDataSet)
         (partition_values : option (list (string * string))) (w : W)
         (ds : ETLDataSet),
    let self := DailyOrderMetricsGoldETL.init upstream_tables name None storage_path
                  data_format database partition_keys run_upstream write_data in
    (forall self',
        outcome (interp h (DailyOrderMetricsGoldETL.transform_upstream self
                             upstream_datasets) w) = Ok (ds, self') ->
        key_missing_from_data ds /\
        forall (W' : Type) (h' : env W') pv w' ds',
          outcome (interp h' (DailyOrderMetricsGoldETL.read self' pv) w') = Ok ds' ->
          key_missing_from_data ds')
    /\
    (outcome (interp h (DailyOrderMetricsGoldETL.read self partition_values) w) = Ok ds ->
     key_missing_from_data ds).
Proof.
  intros W h ups name path fmt db pks ru wd datasets pv w ds self.
  assert (Hread : forall (W' : Type) (h' : env W') (u : TableETL) pv' w' ds',
            primary_keys u = ["order_ts"] ->
            outcome (interp h' (DailyOrderMetricsGoldETL.read u pv') w') = Ok ds' ->
            key_missing_from_data ds').
  { intros W' h' u pv' w' ds' Hpk H. rewrite daily_read_eq in H.
    apply read_returns_selected in H as (f & d & Hs & ->).
    apply select_columns in Hs. unfold key_missing_from_data.
    cbn [envelope ds_primary_keys ds_current_data]. rewrite Hpk, Hs.
    repeat split. repeat constructor.
    cbn. intros [C|[C|[C|[C|[]]]]]; discriminate C. }
  split.
  - intros self' H.
    destruct (daily_transform_shape h self datasets w ds self' H)
      as (id_key & id_sum & id_mean & id_ts & t & body & Hd & _ & Hds & Hself & _).
    split.
    + unfold key_missing_from_data. rewrite Hds at 1 3.
      cbn [envelope ds_primary_keys]. rewrite Hd. cbn [columns schema map col_name].
      repeat split. repeat constructor.
      cbn. intros [C|[C|[C|[C|[]]]]]; discriminate C.
    + intros W' h' pv' w' ds' H'. apply (Hread W' h' self' pv' w' ds'); [|exact H'].
      now rewrite Hself.
  - apply Hread. reflexivity.
Qed.

(** The envelope of the sample daily metrics. *)
Lemma C10_primary_key_absent_from_data_witness :
  key_missing_from_data (envelope (Examples.daily_unit false) Examples.daily_metrics).
Proof.
  refine (proj1 (proj1 (C10_primary_key_absent_from_data nat Examples.engine
                          None None None None None None None (Some false)
                          [Examples.orders_envelope] None 0 _) _ _)).
  vm_compute. reflexivity.
Defined.

(* ================================================================== *)
(** * Properties of [extract_upstream]                                *)
(* ================================================================== *)

Import Py Spark SparkSql Runtime Base Storage Pipeline Notions.
Import FrameFacts RunFacts ExtractFacts.
Local Open Scope list_scope.

(** The success case of the loop, read per kind of call. *)
Lemma extract_calls {W : Type} (h : env W) (self : TableETL) (w : W)
    (envs : list ETLDataSet) :
  outcome (interp h (DailyOrderMetricsGoldETL.extract_upstream self) w) = Ok envs ->
  let tr := trace (interp h (DailyOrderMetricsGoldETL.extract_upstream self) w) in
  List.length envs = List.length (upstream_tables self) /\
  exists objs,
    List.length objs = List.length (upstream_tables self) /\
    tr = flat_map (extraction_block (run_upstream self) (write_data self))
                  (combine (combine (upstream_tables self) objs) envs) /\
    instantiations tr
    = map (fun co => (fst co, run_upstream self, write_data self, AObject (snd co)))
          (combine (upstream_tables self) objs) /\
    runs tr = (if run_upstream self then objs else []) /\
    reads tr = map (fun oe => (fst oe, AEnvelope (snd oe))) (combine objs envs).
Proof.
  intros H tr. destruct (extract_ok h self w envs H) as (objs & Lo & Le & Ht).
  split; [exact Le|]. exists objs. split; [exact Lo|]. split; [exact Ht|].
  unfold tr. rewrite Ht, instantiations_blocks, runs_blocks, reads_blocks.
  split; [|split].
  - rewrite <- (combine3_fst (upstream_tables self) objs envs Lo Le) at 2.
    now rewrite map_map.
  - now rewrite (combine3_mid (upstream_tables self) objs envs Lo Le).
  - rewrite <- (combine3_snd (upstream_tables self) objs envs Lo Le).
    now rewrite map_map.
Qed.

(** C4 (dependency order).  When [extract_upstream] returns, it returns one
    envelope per declared upstream type; the [i]-th instance it created is of
    the [i]-th declared type, the [i]-th [read()] call is on that instance,
    and the [i]-th envelope returned is what that call answered.  In a run
    (extraction, then transformation), [transform_upstream] is given exactly
    the list [extract_upstream] returned. *)
Theorem C4_extract_upstream_keeps_declaration_order :
  forall (W : Type) (h : env W) (self : TableETL) (w : W),
    (forall extract_upstream,
        extract_upstream = WideOrderItemsGoldETL.extract_upstream \/
        extract_upstream = DailyOrderMetricsGoldETL.extract_upstream ->
        forall envs,
          outcome (interp h (extract_upstream self) w) = Ok envs ->
          let tr := trace (interp h (extract_upstream self) w) in
          List.length envs = List.length (upstream_tables self) /\
          forall i cls,
            nth_error (upstream_tables self) i = Some cls ->
            exists instance envelope,
              nth_error (instantiations tr) i
              = Some (cls, run_upstream self, write_data self, AObject instance) /\
              nth_error (reads tr) i = Some (instance, AEnvelope envelope) /\
              nth_error envs i = Some envelope)
    /\
    (forall ds self',
        outcome (interp h (extract_then_transform
                             WideOrderItemsGoldETL.extract_upstream
                             WideOrderItemsGoldETL.transform_upstream self) w)
        = Ok (ds, self') ->
        exists envs,
          outcome (interp h (WideOrderItemsGoldETL.extract_upstream self) w) = Ok envs /\
          outcome (interp h (WideOrderItemsGoldETL.transform_upstream self envs)
                          (final (interp h (WideOrderItemsGoldETL.extract_upstream self) w)))
          = Ok (ds, self')).
Proof.
  intros W h self w. split.
  - intros extract Hex envs H tr.
    assert (E : extract = DailyOrderMetricsGoldETL.extract_upstream)
      by (destruct Hex as [-> | ->]; reflexivity).
    subst extract.
    destruct (extract_calls h self w envs H) as (Le & objs & Lo & _ & Hi & _ & Hr).
    fold tr in Hi, Hr. split; [exact Le|].
    intros i cls Hcls.
    destruct (nth_error_length (upstream_tables self) objs i cls Lo Hcls) as (o & Ho).
    destruct (nth_error_length (upstream_tables self) envs i cls Le Hcls) as (e & He).
    exists o, e. rewrite Hi, Hr. split; [|split; [|exact He]].
    + rewrite nth_error_map, (nth_error_combine _ _ i cls o Hcls Ho). reflexivity.
    + rewrite nth_error_map, (nth_error_combine _ _ i o e Ho He). reflexivity.
  - intros ds self' H. unfold extract_then_transform in H.
    apply interp_bind_ok in H as (envs & He & Ht). eauto.
Qed.

(** The wide unit against the sample unit graph: the third envelope is the
    one read from the instance of the third declared class. *)
Lemma C4_extract_upstream_keeps_declaration_order_witness :
  let run := interp (pipeline_env Examples.declared Examples.served 2)
                    (WideOrderItemsGoldETL.extract_upstream (Examples.wide_unit true)) [] in
  outcome run = Ok (map Examples.served (upstream_tables (Examples.wide_unit true))) /\
  exists instance envelope,
    nth_error (instantiations (trace run)) 2
    = Some ("DimSellerSiverETL", true, true, AObject instance) /\
    nth_error (reads (trace run)) 2 = Some (instance, AEnvelope envelope) /\
    nth_error (map Examples.served (upstream_tables (Examples.wide_unit true))) 2
    = Some envelope.
Proof.
  intros run.
  assert (H : outcome run
              = Ok (map Examples.served (upstream_tables (Examples.wide_unit true))))
    by (vm_compute; reflexivity).
  split; [exact H|].
  exact (proj2 (proj1 (C4_extract_upstream_keeps_declaration_order
                         heap (pipeline_env Examples.declared Examples.served 2)
                         (Examples.wide_unit true) [])
                      WideOrderItemsGoldETL.extract_upstream (or_introl eq_refl) _ H)
               2 "DimSellerSiverETL" eq_refl).
Defined.

(** C5 (flags are passed on unchanged).  In any run of [extract_upstream],
    returning or not, every instance is requested with the unit's own
    [run_upstream] and [write_data].  When it returns, its calls were, for
    each declared type in turn: the instantiation, the instance's [run()]
    exactly when [run_upstream] is set, then its [read()].  In a unit graph
    whose units all extract this way, every instance created below a root
    carries the root's two flags, however deep the recursion goes. *)
Theorem C5_flags_propagate_unchanged :
  (forall (W : Type) (h : env W) (self : TableETL) (w : W) extract_upstream,
      extract_upstream = WideOrderItemsGoldETL.extract_upstream \/
      extract_upstream = DailyOrderMetricsGoldETL.extract_upstream ->
      let tr := trace (interp h (extract_upstream self) w) in
      Forall (fun c => request_passes_flags self (fst c)) tr /\
      forall envs,
        outcome (interp h (extract_upstream self) w) = Ok envs ->
        exists objs,
          List.length objs = List.length (upstream_tables self) /\
          tr = flat_map (extraction_block (run_upstream self) (write_data self))
                        (combine (combine (upstream_tables self) objs) envs) /\
          runs tr = (if run_upstream self then objs else []) /\
          map fst (reads tr) = objs)
  /\
  (forall (declared : class_ref -> list class_ref) (served : class_ref -> ETLDataSet)
          (depth : nat) (root : TableETL) (hp : heap) extract_upstream,
      extract_upstream = WideOrderItemsGoldETL.extract_upstream \/
      extract_upstream = DailyOrderMetricsGoldETL.extract_upstream ->
      Forall (same_flags root) hp ->
      Forall (same_flags root)
             (final (interp (pipeline_env declared served depth)
                            (extract_upstream root) hp))).
Proof.
  split.
  - intros W h self w extract Hex tr.
    assert (E : extract = DailyOrderMetricsGoldETL.extract_upstream)
      by (destruct Hex as [-> | ->]; reflexivity).
    subst extract. split.
    + apply trace_passes_flags. now apply extract_passes_flags.
    + intros envs H.
      destruct (extract_calls h self w envs H) as (Le & objs & Lo & Ht & _ & Hru & Hr).
      fold tr in Ht, Hru, Hr. exists objs. repeat split; try assumption.
      rewrite Hr, map_map. cbn [fst].
      clear - Lo Le. revert envs Le.
      generalize dependent (upstream_tables self). intros classes Lo.
      revert classes Lo. induction objs as [|o objs IH]; intros [|c classes] Lo [|e envs] Le;
        try discriminate; [reflexivity|].
      cbn. f_equal. eapply IH; cbn in *; eauto.
  - intros declared served depth root hp extract Hex Hg.
    assert (E : extract = DailyOrderMetricsGoldETL.extract_upstream)
      by (destruct Hex as [-> | ->]; reflexivity).
    subst extract. now apply extraction_keeps_flags.
Qed.

(** The wide unit with both flags set, against the sample unit graph: seven
    instances come to be, two of them bronze units below silver ones, all
    with both flags set. *)
Lemma C5_flags_propagate_unchanged_witness :
  let run := interp (pipeline_env Examples.declared Examples.served 2)
                    (WideOrderItemsGoldETL.extract_upstream (Examples.wide_unit true)) [] in
  map inst_class (final run)
  = ["FactOrderItemsSiverETL"; "DimProductSiverETL"; "DimSellerSiverETL";
     "SellerBronzeETL"; "ProductCategorySiverETL"; "DimCategorySiverETL";
     "CategoryBronzeETL"] /\
  Forall (same_flags (Examples.wide_unit true)) (final run).
Proof.
  intros run. split; [vm_compute; reflexivity|].
  apply (proj2 C5_flags_propagate_unchanged Examples.declared Examples.served 2
           (Examples.wide_unit true) [] WideOrderItemsGoldETL.extract_upstream
           (or_introl eq_refl)).
  constructor.
Defined.

(* ================================================================== *)
(** * [read]: errors, edges and what it asks of storage                *)
(* ================================================================== *)

Import Py Spark SparkSql Runtime Base Storage Pipeline Notions EdgeNotions.
Import PyFacts FrameFacts SqlFacts RunFacts LatestFacts.
Local Open Scope list_scope.

(** ** Resolution in a frame of distinct attributes *)

Lemma positions_from_NoDup (name : string) (sch : list attr) (k : nat) :
  NoDup (positions_from k name sch).
Proof.
  revert k. induction sch as [|a sch IH]; intros k; cbn [positions_from];
    [constructor|].
  destruct (name_eqb (col_name a) name); [|apply IH].
  constructor; [|apply IH].
  intros Hin. apply positions_from_spec in Hin. lia.
Qed.

Lemma id_at_inj (sch : list attr) (i j : nat) :
  NoDup (map expr_id sch) -> i < List.length sch -> j < List.length sch ->
  id_at sch i = id_at sch j -> i = j.
Proof.
  intros Hnd Hi Hj E. unfold id_at in E.
  rewrite <- !(map_nth expr_id) in E.
  apply (proj1 (NoDup_nth (map expr_id sch) (expr_id (mk_attr 0 ""))) Hnd);
    rewrite ?length_map; assumption.
Qed.

Lemma NoDup_map_in {A B} (f : A -> B) (l : list A) :
  NoDup l -> (forall x y, In x l -> In y l -> f x = f y -> x = y) -> NoDup (map f l).
Proof.
  induction 1 as [|x l Hx _ IH]; intros Hinj; cbn [map]; constructor.
  - intros Hin. apply in_map_iff in Hin as (y & E & Hy).
    rewrite (Hinj y x) in Hy; [contradiction | now right | now left | exact E].
  - apply IH. intros a b Ha Hb. apply Hinj; now right.
Qed.

Lemma distinct_NoDup (l : list nat) : NoDup l -> distinct l = true.
Proof.
  induction 1 as [|x l Hx _ IH]; [reflexivity|].
  cbn [distinct]. rewrite IH, andb_true_r. apply negb_true_iff.
  destruct (existsb (Nat.eqb x) l) eqn:E; [|reflexivity].
  apply existsb_exists in E as (y & Hy & Exy). apply Nat.eqb_eq in Exy. now subst y.
Qed.

Lemma positions_distinct_ids (df : DataFrame) (name : string) :
  distinct_attributes df ->
  distinct (map (id_at (schema df)) (positions name (schema df))) = true.
Proof.
  intros Hd. apply distinct_NoDup, NoDup_map_in; [apply positions_from_NoDup|].
  intros i j Hi Hj. apply positions_spec in Hi as (a & Ha & _).
  apply positions_spec in Hj as (b & Hb & _).
  apply id_at_inj; [exact Hd | |]; apply nth_error_Some; congruence.
Qed.

Lemma resolve_once (df : DataFrame) (name : string) (c : nat * attr) :
  resolve df name = Ok c -> occurs_once name df.
Proof.
  destruct c as [i a]. intros H. apply resolve_ok in H as (H & _).
  unfold occurs_once. now rewrite H.
Qed.

(** In a frame of distinct attributes, a name that fails to resolve raises
    the error of analysis. *)
Lemma resolve_raises (df : DataFrame) (name : string) (e : exn) :
  distinct_attributes df -> resolve df name = Err e -> e = AnalysisException.
Proof.
  intros Hd. unfold resolve.
  pose proof (positions_distinct_ids df name Hd) as Hp.
  destruct (positions name (schema df)) as [|i [|j l]]; [congruence | discriminate|].
  rewrite Hp. congruence.
Qed.

Lemma resolve_not_once (df : DataFrame) (name : string) :
  distinct_attributes df -> ~ occurs_once name df ->
  resolve df name = Err AnalysisException.
Proof.
  intros Hd H. destruct (resolve df name) as [c|e] eqn:E.
  - now apply resolve_once in E.
  - now rewrite (resolve_raises df name e Hd E).
Qed.


Lemma rmap_list_raises {A B} (f : A -> result B) (l : list A) (c : A) (e : exn) :
  (forall a e', f a = Err e' -> e' = e) -> In c l -> f c = Err e ->
  rmap_list f l = Err e.
Proof.
  intros Hall Hin Hc. induction l as [|a l IH]; [destruct Hin|].
  cbn [rmap_list]. destruct (f a) as [b|e'] eqn:E; cbn [rbind].
  - destruct Hin as [<-|Hin]; [congruence|].
    now rewrite (IH Hin).
  - now rewrite (Hall a e' E).
Qed.

Lemma select_not_once (df : DataFrame) (names : list string) (c : string) :
  distinct_attributes df -> In c names -> ~ occurs_once c df ->
  select df names = Err AnalysisException.
Proof.
  intros Hd Hin Hc. unfold select.
  rewrite (rmap_list_raises (resolve df) names c AnalysisException); [reflexivity| |assumption|].
  - intros a e'. now apply resolve_raises.
  - now apply resolve_not_once.
Qed.

(** X1 (the mode without storage).  With [write_data] unset, [read] asks
    nothing of the environment even when it fails: a unit whose cache holds
    nothing raises [AttributeError], and a cached frame (of distinct
    attributes) in which a published column is missing or borne by several
    attributes raises the engine's [AnalysisException], names being compared
    without regard to case; the partition values play no part. *)
Theorem read_cached_mode_failures :
  forall (W : Type) (h : env W) (self : TableETL)
         (partition_values : option (list (string * string))) (w : W),
    write_data self = false ->
    (current_data self = None ->
     interp h (DailyOrderMetricsGoldETL.read self partition_values) w
     = mk_run (Err AttributeError) w [] /\
     interp h (WideOrderItemsGoldETL.read self partition_values) w
     = mk_run (Err AttributeError) w [])
    /\
    (forall (cached : DataFrame) (c : string),
        current_data self = Some cached -> distinct_attributes cached ->
        ~ occurs_once c cached ->
        (In c DailyOrderMetricsGoldETL.selected_columns ->
         interp h (DailyOrderMetricsGoldETL.read self partition_values) w
         = mk_run (Err AnalysisException) w []) /\
        (In c WideOrderItemsGoldETL.selected_columns ->
         interp h (WideOrderItemsGoldETL.read self partition_values) w
         = mk_run (Err AnalysisException) w [])).
Proof.
  intros W h self pv w Hw. rewrite daily_read_eq, wide_read_eq. split.
  - intros Hc. split; now apply read_uncached.
  - intros cached c Hc Hd Hn. split; intros Hin;
      rewrite (read_cached h _ self pv cached w Hw Hc);
      now rewrite (select_not_once cached _ c Hd Hin Hn).
Qed.

(** A unit that has not transformed anything, and the daily metrics cached
    on the wide unit, which have no [order_item_id]. *)
Lemma read_cached_mode_failures_witness :
  interp storage_env
         (DailyOrderMetricsGoldETL.read (Examples.daily_unit false) None)
         Examples.daily_store
  = mk_run (Err AttributeError) Examples.daily_store [] /\
  interp storage_env
         (WideOrderItemsGoldETL.read
            (set_current_data (Examples.wide_unit false) Examples.daily_metrics) None)
         Examples.daily_store
  = mk_run (Err AnalysisException) Examples.daily_store [].
Proof.
  split.
  - exact (proj1 (proj1 (read_cached_mode_failures _ storage_env
                           (Examples.daily_unit false) None Examples.daily_store
                           eq_refl) eq_refl)).
  - refine (proj2 (proj2 (read_cached_mode_failures _ storage_env
                            (set_current_data (Examples.wide_unit false)
                                              Examples.daily_metrics)
                            None Examples.daily_store eq_refl)
                         Examples.daily_metrics "order_item_id" eq_refl _ _) _).
    + unfold distinct_attributes. cbn.
      repeat (constructor; [cbn; intuition discriminate|]). constructor.
    + unfold occurs_once. vm_compute. discriminate.
    + vm_compute. tauto.
Defined.



Lemma max_from_nulls (vs : list value) :
  Forall (fun v => v = VNull) vs -> max_from VNull vs = Ok VNull.
Proof.
  induction 1 as [|v vs Hv _ IH]; [reflexivity|].
  subst v. cbn [max_from max_step is_null rbind]. exact IH.
Qed.

Lemma select_no_rows (sch : list attr) (cols : list string) (df : DataFrame) :
  schema df = sch ->
  select (mk_df sch []) cols
  = rbind (rmap_list (resolve df) cols) (fun cs => Ok (mk_df (map snd cs) [])).
Proof.
  intros <-. unfold select.
  rewrite (select_schema_only (mk_df (schema df) []) df cols eq_refl).
  reflexivity.
Qed.

(** X3 (a table without ingestion timestamps).  When no stored row carries an
    [etl_inserted] value, in particular when the table has no rows, the
    probe for the latest partition answers null, [read] filters on the text
    [etl_inserted = 'None'], which no row passes, and returns a frame
    without rows under the published columns instead of raising. *)
Theorem read_latest_without_timestamps :
  forall (W : Type) (h : env W) (self : TableETL)
         (partition_values : option (list (string * string)))
         (stored : DataFrame) (i : nat) (a : attr) (w : W),
    write_data self = true ->
    truthy partition_values = false ->
    serves h self stored w ->
    resolve stored "etl_inserted" = Ok (i, a) ->
    null_column i (rows stored) ->
    select_max stored "etl_inserted" = Ok VNull /\
    filter_expr stored "etl_inserted = 'None'" = Ok (mk_df (schema stored) []) /\
    interp h (DailyOrderMetricsGoldETL.read self partition_values) w
    = mk_run (rbind (rmap_list (resolve stored) DailyOrderMetricsGoldETL.selected_columns)
                    (fun cs => Ok (envelope self (mk_df (map snd cs) []))))
             w (loads self [stored; stored]) /\
    interp h (WideOrderItemsGoldETL.read self partition_values) w
    = mk_run (rbind (rmap_list (resolve stored) WideOrderItemsGoldETL.selected_columns)
                    (fun cs => Ok (envelope self (mk_df (map snd cs) []))))
             w (loads self [stored; stored]).
Proof.
  intros W h self pv stored i a w Hw Hp Hs Hr Hn.
  assert (Hmax : select_max stored "etl_inserted" = Ok VNull).
  { unfold select_max. rewrite Hr. cbn [rbind fst]. apply max_from_nulls.
    unfold null_column in Hn. rewrite Forall_forall in Hn.
    apply Forall_forall. intros v Hv. apply in_map_iff in Hv as (r & <- & Hin).
    now apply Hn. }
  assert (Hf : filter_expr stored "etl_inserted = 'None'" = Ok (mk_df (schema stored) [])).
  { change "etl_inserted = 'None'" with ("etl_inserted = '" ++ "None" ++ "'")%string.
    rewrite (filter_expr_etl_inserted stored "None" eq_refl), Hr. cbn [rbind fst].
    rewrite (rfilter_total _ (fun _ => false)).
    - now rewrite (filter_none (fun _ => false)).
    - intros r Hin. unfold null_column in Hn. rewrite Forall_forall in Hn.
      unfold equals_literal. now rewrite (Hn r Hin). }
  split; [exact Hmax|]. split; [exact Hf|].
  rewrite daily_read_eq, wide_read_eq.
  split;
    rewrite (read_latest h _ self pv stored stored w w w VNull "None" Hw Hp Hs Hs Hmax eq_refl);
    change ("etl_inserted = '" ++ "None" ++ "'")%string with "etl_inserted = 'None'";
    rewrite Hf; cbn [rbind];
    rewrite (select_no_rows (schema stored) _ stored eq_refl);
    unfold loads; cbn [map];
    destruct (rmap_list (resolve stored) _); reflexivity.
Qed.

(** The daily-metrics table right after it was created, without rows. *)
Lemma read_latest_without_timestamps_witness :
  outcome (interp storage_env
             (DailyOrderMetricsGoldETL.read (Examples.daily_unit true) None)
             [("s3a://rainforest/delta/gold/daily_order_metrics",
               mk_df Examples.daily_schema [])])
  = Ok (envelope (Examples.daily_unit true) (mk_df Examples.daily_schema [])).
Proof.
  destruct (read_latest_without_timestamps _ storage_env (Examples.daily_unit true) None
              (mk_df Examples.daily_schema []) 3 (mk_attr 4 "etl_inserted")
              [("s3a://rainforest/delta/gold/daily_order_metrics",
                mk_df Examples.daily_schema [])]
              eq_refl eq_refl eq_refl eq_refl (Forall_nil _))
    as (_ & _ & Hd & _).
  rewrite Hd. reflexivity.
Defined.

(** X4 (one explicit partition).  With [write_data] set, [read] given the
    single pair [etl_inserted] and the text of a timestamp, as Python prints
    it, loads the table once and returns exactly the stored rows whose
    [etl_inserted] is that timestamp, projected to the published columns;
    none when nothing was written at that timestamp. *)
Theorem read_one_explicit_partition :
  forall (W : Type) (h : env W) (self : TableETL) (t : datetime)
         (stored : DataFrame) (i : nat) (a : attr) (w w' : W),
    write_data self = true ->
    valid_datetime t = true ->
    h _ (Load (data_format self) (storage_path self)) w = (Ok stored, w') ->
    resolve stored "etl_inserted" = Ok (i, a) ->
    timestamp_column i (rows stored) ->
    let written_at_t :=
      mk_df (schema stored)
            (filter (fun r => value_eqb (cell r i) (VTimestamp t)) (rows stored)) in
    interp h (DailyOrderMetricsGoldETL.read self
                (Some [("etl_inserted", str_datetime t)])) w
    = mk_run (rbind (select written_at_t DailyOrderMetricsGoldETL.selected_columns)
                    (fun d => Ok (envelope self d)))
             w' (loads self [stored]) /\
    interp h (WideOrderItemsGoldETL.read self
                (Some [("etl_inserted", str_datetime t)])) w
    = mk_run (rbind (select written_at_t WideOrderItemsGoldETL.selected_columns)
                    (fun d => Ok (envelope self d)))
             w' (loads self [stored]).
Proof.
  intros W h self t stored i a w w' Hw Hv Hl Hr Hc written_at_t.
  rewrite daily_read_eq, wide_read_eq.
  split;
    rewrite (explicit_partition_single_pair h _ self "etl_inserted" (str_datetime t)
               stored w w' Hw eq_refl (plain_str_datetime t) Hl);
    rewrite Hr; cbn [rbind fst];
    now rewrite (rfilter_timestamp i t (rows stored) Hv Hc).
Qed.

(** The partition written at [t1] of the sample table, and a timestamp at
    which nothing was written. *)
Lemma read_one_explicit_partition_witness :
  str_datetime Examples.t1 = "2024-01-01 06:00:00" /\
  outcome (interp storage_env
             (DailyOrderMetricsGoldETL.read (Examples.daily_unit true)
                (Some [("etl_inserted", str_datetime Examples.t1)]))
             Examples.daily_store)
  = Ok (envelope (Examples.daily_unit true)
                 (mk_df Examples.daily_schema Examples.daily_batch1)) /\
  outcome (interp storage_env
             (DailyOrderMetricsGoldETL.read (Examples.daily_unit true)
                (Some [("etl_inserted", str_datetime (mk_datetime 2024 1 3 0 0 0 0))]))
             Examples.daily_store)
  = Ok (envelope (Examples.daily_unit true) (mk_df Examples.daily_schema [])).
Proof.
  split; [reflexivity|]. split.
  - rewrite (proj1 (read_one_explicit_partition _ storage_env
                      (Examples.daily_unit true) Examples.t1 Examples.daily_stored 3
                      (mk_attr 4 "etl_inserted") Examples.daily_store Examples.daily_store
                      eq_refl eq_refl eq_refl eq_refl
                      ltac:(repeat constructor; eexists; split; reflexivity))).
    reflexivity.
  - rewrite (proj1 (read_one_explicit_partition _ storage_env
                      (Examples.daily_unit true) (mk_datetime 2024 1 3 0 0 0 0)
                      Examples.daily_stored 3
                      (mk_attr 4 "etl_inserted") Examples.daily_store Examples.daily_store
                      eq_refl eq_refl eq_refl eq_refl
                      ltac:(repeat constructor; eexists; split; reflexivity))).
    reflexivity.
Defined.

Lemma lex_and_then (r : string) :
  lex Blank (" AND " ++ r)%string
  = rbind (lex Blank r) (fun ts => Ok (TIdent "AND" :: ts)).
Proof.
  change (" AND " ++ r)%string
    with (String " " (String "A" (String "N" (String "D" (String " " r))))).
  cbn [lex].
  change (step Blank " ") with (Ok (@nil token, Blank)). cbn [rbind fst snd].
  change (step Blank "A") with (Ok (@nil token, InIdent "A")). cbn [rbind fst snd].
  change (step (InIdent "A") "N") with (Ok (@nil token, InIdent "AN")). cbn [rbind fst snd].
  change (step (InIdent "AN") "D") with (Ok (@nil token, InIdent "AND")). cbn [rbind fst snd].
  change (step (InIdent "AND") " ") with (Ok ([TIdent "AND"], Blank)). cbn [rbind fst snd].
  destruct (lex Blank r); reflexivity.
Qed.

Lemma lex_conjunction (k1 v1 k2 v2 : string) :
  plain_identifier k1 = true -> plain_literal v1 = true ->
  plain_identifier k2 = true -> plain_literal v2 = true ->
  lex Blank (k1 ++ " = '" ++ v1 ++ "'" ++ " AND " ++ k2 ++ " = '" ++ v2 ++ "'")%string
  = Ok [TIdent k1; TEq; TString v1; TIdent "AND"; TIdent k2; TEq; TString v2].
Proof.
  intros H1 Hv1 H2 Hv2.
  destruct (plain_identifier_chars k1 H1) as (c & k' & -> & Hc & Hk' & _ & _).
  rewrite (lex_equality_then c k' v1 _ Hc Hk' Hv1).
  rewrite lex_and_then, (lex_equality k2 v2 H2 Hv2). reflexivity.
Qed.

Lemma parse_conjunction (k1 v1 k2 v2 : string) :
  plain_identifier k1 = true -> plain_identifier k2 = true ->
  parse [TIdent k1; TEq; TString v1; TIdent "AND"; TIdent k2; TEq; TString v2]
  = Ok [(Column k1, Literal v1); (Column k2, Literal v2)].
Proof.
  intros H1 H2.
  destruct (plain_identifier_chars k1 H1) as (c1 & k1' & _ & _ & _ & Hkw1 & Hd1).
  destruct (plain_identifier_chars k2 H2) as (c2 & k2' & _ & _ & _ & Hkw2 & Hd2).
  cbn [parse operand_of]. rewrite Hkw1, Hd1, Hkw2, Hd2. reflexivity.
Qed.

Lemma accepts_equals_literal (i : nat) (v : string) (r : row) (b : bool) :
  equals_literal i v r = Ok b ->
  exists e, sql_eq (cell r i) (VStr v) = Ok e /\
            accepts (equals_literal i v) r
            = match e with Some true => true | _ => false end.
Proof.
  unfold accepts. intros H. rewrite H. unfold equals_literal in H.
  destruct (sql_eq (cell r i) (VStr v)) as [e|]; [|discriminate].
  exists e. split; [reflexivity|]. cbn [rbind] in H. injection H as <-.
  now destruct e as [[]|].
Qed.

Lemma filter_expr_conjunction (df : DataFrame) (k1 v1 k2 v2 : string)
    (i1 i2 : nat) (a1 a2 : attr) :
  plain_pair (k1, v1) -> plain_pair (k2, v2) ->
  resolve df k1 = Ok (i1, a1) -> resolve df k2 = Ok (i2, a2) ->
  comparable i1 v1 (rows df) -> comparable i2 v2 (rows df) ->
  filter_expr df (k1 ++ " = '" ++ v1 ++ "'" ++ " AND " ++ k2 ++ " = '" ++ v2 ++ "'")%string
  = Ok (mk_df (schema df)
              (filter (fun r => accepts (equals_literal i1 v1) r
                                && accepts (equals_literal i2 v2) r) (rows df))).
Proof.
  intros [Hk1 Hv1] [Hk2 Hv2] Hr1 Hr2 Hc1 Hc2. cbn [fst snd] in *.
  unfold filter_expr.
  rewrite (lex_conjunction k1 v1 k2 v2 Hk1 Hv1 Hk2 Hv2). cbn [rbind].
  rewrite (parse_conjunction k1 v1 k2 v2 Hk1 Hk2).
  cbn [rbind rmap_list]. unfold resolve_comparison, resolve_operand.
  cbn [fst snd]. rewrite Hr1, Hr2. cbn [rbind fst snd].
  rewrite (rfilter_total _ (fun r => accepts (equals_literal i1 v1) r
                                     && accepts (equals_literal i2 v2) r));
    [reflexivity|].
  intros r Hin. unfold comparable in Hc1, Hc2. rewrite Forall_forall in Hc1, Hc2.
  destruct (Hc1 r Hin) as (b1 & Hb1). destruct (Hc2 r Hin) as (b2 & Hb2).
  destruct (accepts_equals_literal i1 v1 r b1 Hb1) as (e1 & He1 & ->).
  destruct (accepts_equals_literal i2 v2 r b2 Hb2) as (e2 & He2 & ->).
  unfold holds. cbn [rmap_list fst snd]. rewrite He1, He2. cbn [rbind forallb].
  now rewrite andb_true_r.
Qed.

Lemma smuggled_text (k1 v1 k2 v2 : string) :
  DailyOrderMetricsGoldETL.partition_filter_of
    [(k1, (v1 ++ "' AND " ++ k2 ++ " = '" ++ v2)%string)]
  = (k1 ++ " = '" ++ v1 ++ "'" ++ " AND " ++ k2 ++ " = '" ++ v2 ++ "'")%string.
Proof.
  unfold DailyOrderMetricsGoldETL.partition_filter_of.
  cbn [map String.concat fst snd].
  rewrite !string_app_assoc. reflexivity.
Qed.

(** X5 (values are spliced into the filter text as they are).  The value of
    a pair goes between two quotes without escaping, so a quote inside it
    ends the literal.  A single pair whose value is [v1' AND k2 = 'v2] makes
    the text [k1 = 'v1' AND k2 = 'v2'], and [read] returns exactly the stored
    rows that satisfy both equalities: the value decides which columns are
    filtered on. *)
Theorem read_partition_value_unescaped :
  forall (W : Type) (h : env W) (self : TableETL) (stored : DataFrame) (w w' : W)
         (k1 v1 k2 v2 : string) (i1 i2 : nat) (a1 a2 : attr),
    write_data self = true ->
    plain_pair (k1, v1) -> plain_pair (k2, v2) ->
    h _ (Load (data_format self) (storage_path self)) w = (Ok stored, w') ->
    resolve stored k1 = Ok (i1, a1) -> resolve stored k2 = Ok (i2, a2) ->
    comparable i1 v1 (rows stored) -> comparable i2 v2 (rows stored) ->
    let value := (v1 ++ "' AND " ++ k2 ++ " = '" ++ v2)%string in
    let both :=
      mk_df (schema stored)
            (filter (fun r => accepts (equals_literal i1 v1) r
                              && accepts (equals_literal i2 v2) r) (rows stored)) in
    DailyOrderMetricsGoldETL.partition_filter_of [(k1, value)]
    = (k1 ++ " = '" ++ v1 ++ "' AND " ++ k2 ++ " = '" ++ v2 ++ "'")%string /\
    interp h (DailyOrderMetricsGoldETL.read self (Some [(k1, value)])) w
    = mk_run (rbind (select both DailyOrderMetricsGoldETL.selected_columns)
                    (fun d => Ok (envelope self d)))
             w' (loads self [stored]) /\
    interp h (WideOrderItemsGoldETL.read self (Some [(k1, value)])) w
    = mk_run (rbind (select both WideOrderItemsGoldETL.selected_columns)
                    (fun d => Ok (envelope self d)))
             w' (loads self [stored]).
Proof.
  intros W h self stored w w' k1 v1 k2 v2 i1 i2 a1 a2 Hw H1 H2 Hl Hr1 Hr2 Hc1 Hc2
         value both.
  split; [apply smuggled_text|].
  rewrite daily_read_eq, wide_read_eq.
  split;
    rewrite (read_explicit h _ self (Some [(k1, value)]) stored w w' Hw eq_refl Hl);
    cbn [items]; unfold value; rewrite smuggled_text;
    now rewrite (filter_expr_conjunction stored k1 v1 k2 v2 i1 i2 a1 a2
                   H1 H2 Hr1 Hr2 Hc1 Hc2).
Qed.

(** On the sample table, one pair whose value carries a second condition
    returns the one row written at [t2] for the first of January. *)
Lemma read_partition_value_unescaped_witness :
  outcome (interp storage_env
             (DailyOrderMetricsGoldETL.read (Examples.daily_unit true)
                (Some [("etl_inserted",
                        "2024-01-02 06:00:00.250000' AND order_date = '2024-01-01")]))
             Examples.daily_store)
  = Ok (envelope (Examples.daily_unit true)
          (mk_df Examples.daily_schema
             [[VDate (mk_date 2024 1 1); VDecimal 20 2 700; VDecimal 14 6 7000000;
               VTimestamp Examples.t2]])).
Proof.
  destruct (read_partition_value_unescaped _ storage_env (Examples.daily_unit true)
              Examples.daily_stored Examples.daily_store Examples.daily_store
              "etl_inserted" "2024-01-02 06:00:00.250000" "order_date" "2024-01-01"
              3 0 (mk_attr 4 "etl_inserted") (mk_attr 1 "order_date")
              eq_refl (conj eq_refl eq_refl) (conj eq_refl eq_refl)
              eq_refl eq_refl eq_refl
              ltac:(repeat constructor; eexists; vm_compute; reflexivity)
              ltac:(repeat constructor; eexists; vm_compute; reflexivity))
    as (_ & Hd & _).
  cbv zeta in Hd. cbn [append] in Hd. rewrite Hd. reflexivity.
Defined.

Lemma lex_dangling_quote (v : string) :
  bare_word v = true -> lex Blank (v ++ "'")%string = Err ParseException.
Proof.
  destruct v as [|c v]; [reflexivity|].
  unfold bare_word. cbn [string_forallb]. intros H.
  apply andb_true_iff in H as [Hc Hv].
  change (String c v ++ "'")%string with (String c (v ++ String quote "")).
  cbn [lex]. unfold step. rewrite (start_ident_char c Hc). cbn [rbind fst snd].
  rewrite (lex_in_ident v (String c "") quote "" Hv eq_refl).
  reflexivity.
Qed.

(** X6 (a quote in a value).  A value with one quote in it, such as
    [O'Brien], leaves a quote without its partner in the filter text:
    [read] loads the table and then raises the parser's exception. *)
Theorem read_quote_in_value_raises :
  forall (W : Type) (h : env W) (self : TableETL) (stored : DataFrame) (w w' : W)
         (k v1 v2 : string),
    write_data self = true ->
    plain_pair (k, v1) -> bare_word v2 = true ->
    h _ (Load (data_format self) (storage_path self)) w = (Ok stored, w') ->
    interp h (DailyOrderMetricsGoldETL.read self (Some [(k, v1 ++ "'" ++ v2)%string])) w
    = mk_run (Err ParseException) w' (loads self [stored]) /\
    interp h (WideOrderItemsGoldETL.read self (Some [(k, v1 ++ "'" ++ v2)%string])) w
    = mk_run (Err ParseException) w' (loads self [stored]).
Proof.
  intros W h self stored w w' k v1 v2 Hw [Hk Hv1] Hv2 Hl. cbn [fst snd] in Hk, Hv1.
  assert (E : filter_expr stored
                (DailyOrderMetricsGoldETL.partition_filter_of
                   [(k, (v1 ++ "'" ++ v2)%string)])
              = Err ParseException).
  { unfold DailyOrderMetricsGoldETL.partition_filter_of.
    cbn [map String.concat fst snd]. rewrite !string_app_assoc.
    change (k ++ " = '" ++ v1 ++ "'" ++ v2 ++ "'")%string
      with (k ++ " = '" ++ v1 ++ "'" ++ (v2 ++ "'"))%string.
    destruct (plain_identifier_chars k Hk) as (c & k' & -> & Hc & Hk' & _ & _).
    unfold filter_expr.
    rewrite (lex_equality_then c k' v1 _ Hc Hk' Hv1).
    now rewrite (lex_dangling_quote v2 Hv2). }
  rewrite daily_read_eq, wide_read_eq.
  split;
    rewrite (read_explicit h _ self (Some [(k, (v1 ++ "'" ++ v2)%string)])
               stored w w' Hw eq_refl Hl);
    cbn [items]; now rewrite E.
Qed.

(** A customer name as a partition value. *)
Lemma read_quote_in_value_raises_witness :
  interp storage_env
         (DailyOrderMetricsGoldETL.read (Examples.daily_unit true)
            (Some [("order_date", "O'Brien")]))
         Examples.daily_store
  = mk_run (Err ParseException) Examples.daily_store
           (loads (Examples.daily_unit true) [Examples.daily_stored]).
Proof.
  exact (proj1 (read_quote_in_value_raises _ storage_env (Examples.daily_unit true)
                  Examples.daily_stored Examples.daily_store Examples.daily_store
                  "order_date" "O" "Brien" eq_refl (conj eq_refl eq_refl) eq_refl
                  eq_refl)).
Defined.

Section Footprint.
Context {W : Type} (h : env W) (cols : list string) (self : TableETL).

Let load_call (a : answer) : call :=
  (RLoad (data_format self) (storage_path self), a).

Lemma load_filter_select_trace (text : string) (w : W) :
  exists a, trace (interp h (load_filter_select cols self text) w) = [load_call a].
Proof.
  unfold load_filter_select. rewrite interp_trigger_bind.
  destruct (h _ (Load (data_format self) (storage_path self)) w) as [[stored|e] w'].
  - exists (AFrame stored). cbv zeta. cbn [trace request_of answer_of].
    rewrite interp_lift_bind. destruct (filter_expr stored text); [|reflexivity].
    rewrite interp_lift_bind. destruct (select _ cols); reflexivity.
  - exists (ARaised e). reflexivity.
Qed.

Lemma read_with_trace (pv : option (list (string * string))) (w : W) :
  exists answers,
    trace (interp h (read_with cols self pv) w) = map load_call answers /\
    List.length answers
    <= (if write_data self then if truthy pv then 1 else 2 else 0).
Proof.
  unfold read_with. destruct (write_data self); cbn [negb].
  - destruct (truthy pv).
    + cbn [bind].
      destruct (load_filter_select_trace
                  (DailyOrderMetricsGoldETL.partition_filter_of (items pv)) w)
        as (a & Ha).
      exists [a]. split; [exact Ha|cbn; lia].
    + rewrite interp_bind, interp_trigger_bind.
      destruct (h _ (Load (data_format self) (storage_path self)) w)
        as [[probed|e] w1]; [|exists [ARaised e]; split; [reflexivity|cbn; lia]].
      cbv zeta. rewrite interp_lift_bind.
      destruct (select_max probed "etl_inserted") as [latest|e];
        [|exists [AFrame probed]; split; [reflexivity|cbn; lia]].
      rewrite interp_lift_bind.
      destruct (py_str latest) as [shown|e];
        [|exists [AFrame probed]; split; [reflexivity|cbn; lia]].
      cbn [interp outcome final trace].
      fold (load_filter_select cols self ("etl_inserted = '" ++ shown ++ "'")%string).
      destruct (load_filter_select_trace ("etl_inserted = '" ++ shown ++ "'")%string w1)
        as (a & Ha).
      exists [AFrame probed; a]. split; [|cbn; lia].
      cbn [trace app map request_of answer_of]. now rewrite Ha.
  - exists []. split; [|cbn; lia].
    destruct (current_data self) as [cached|]; [|reflexivity].
    rewrite interp_lift_bind. destruct (select cached cols); reflexivity.
Qed.

Lemma read_with_ignores_cache (pv : option (list (string * string)))
    (cached : DataFrame) :
  write_data self = true ->
  read_with cols (set_current_data self cached) pv = read_with cols self pv.
Proof.
  intros Hw. unfold read_with. cbn [set_current_data write_data data_format storage_path].
  rewrite Hw. reflexivity.
Qed.

End Footprint.

(** X7 (what [read] asks of its environment).  Whatever the environment
    answers and whether [read] returns or raises, the only calls it makes
    are loads of the unit's own table, in its own format: none with
    [write_data] unset, at most one when partition values are given, at most
    two otherwise.  With [write_data] set the cache is not looked at: the
    frame a transform left on the unit changes nothing of what [read] does. *)
Theorem read_only_loads_own_table :
  forall (W : Type) (h : env W) (self : TableETL)
         (partition_values : option (list (string * string))) (w : W),
    (forall read,
        read = DailyOrderMetricsGoldETL.read \/ read = WideOrderItemsGoldETL.read ->
        Forall (loads_own_table self) (trace (interp h (read self partition_values) w)) /\
        List.length (trace (interp h (read self partition_values) w))
        <= (if write_data self then if truthy partition_values then 1 else 2 else 0) /\
        (write_data self = true ->
         forall cached,
           read (set_current_data self cached) partition_values
           = read self partition_values)).
Proof.
  intros W h self pv w read Hread.
  assert (E : exists cols, read = read_with cols).
  { destruct Hread as [-> | ->];
      [rewrite daily_read_eq | rewrite wide_read_eq]; eauto. }
  destruct E as (cols & ->).
  destruct (read_with_trace h cols self pv w) as (answers & Ht & Hn).
  rewrite Ht. split; [|split].
  - apply Forall_forall. intros c Hc. apply in_map_iff in Hc as (a & <- & _).
    reflexivity.
  - now rewrite length_map.
  - intros Hw cached. now apply read_with_ignores_cache.
Qed.

Lemma read_keeps_envelope (cols : list string) {W : Type} (h : env W) (self : TableETL)
    (pv : option (list (string * string))) (w : W) (ds : ETLDataSet) :
  outcome (interp h (read_with cols self pv) w) = Ok ds ->
  columns (ds_current_data ds) = cols /\
  ds_primary_keys ds = primary_keys self /\
  ds_partition_keys ds = partition_keys self.
Proof.
  intros H. apply read_returns_selected in H as (f & d & Hs & ->).
  cbn [envelope ds_current_data ds_primary_keys ds_partition_keys].
  split; [now apply select_columns with (df := f)|]. split; reflexivity.
Qed.

(** The sample table: one load with a partition value, two without. *)
Lemma read_only_loads_own_table_witness :
  trace (interp storage_env
           (DailyOrderMetricsGoldETL.read (Examples.daily_unit true)
              (Some [("etl_inserted", "2024-01-01 06:00:00")]))
           Examples.daily_store)
  = loads (Examples.daily_unit true) [Examples.daily_stored] /\
  List.length (trace (interp storage_env
                        (DailyOrderMetricsGoldETL.read (Examples.daily_unit true) None)
                        Examples.daily_store)) <= 2.
Proof.
  split; [reflexivity|].
  exact (proj1 (proj2 (read_only_loads_own_table _ storage_env
                         (Examples.daily_unit true) None Examples.daily_store
                         DailyOrderMetricsGoldETL.read (or_introl eq_refl)))).
Defined.

(** X8 (declared keys that are in the data).  A unit constructed without
    [partition_keys] declares [["etl_inserted"]], and a wide-order-items unit
    constructed without [primary_keys] declares [["order_item_id"]]: every
    envelope [read] returns carries these declarations over data that has
    each declared column. *)
Theorem read_declared_keys_present :
  forall (W : Type) (h : env W)
         (upstream_tables : option (list class_ref)) (name : option string)
         (primary_keys : option (list string))
         (storage_path data_format database : option string)
         (run_upstream write_data : option bool)
         (partition_values : option (list (string * string))) (w : W)
         (ds : ETLDataSet),
    (outcome (interp h (DailyOrderMetricsGoldETL.read
                          (DailyOrderMetricsGoldETL.init upstream_tables name
                             primary_keys storage_path data_format database None
                             run_upstream write_data)
                          partition_values) w) = Ok ds ->
     ds_partition_keys ds = ["etl_inserted"] /\
     Forall (fun k => In k (columns (ds_current_data ds))) (ds_partition_keys ds))
    /\
    (outcome (interp h (WideOrderItemsGoldETL.read
                          (WideOrderItemsGoldETL.init upstream_tables name
                             None storage_path data_format database None
                             run_upstream write_data)
                          partition_values) w) = Ok ds ->
     ds_primary_keys ds = ["order_item_id"] /\
     ds_partition_keys ds = ["etl_inserted"] /\
     Forall (fun k => In k (columns (ds_current_data ds)))
            (ds_primary_keys ds ++ ds_partition_keys ds)).
Proof.
  intros W h ups name pks path fmt db ru wd pv w ds.
  rewrite daily_read_eq, wide_read_eq. split; intros H;
    apply read_keeps_envelope in H as (Hc & Hp & Hq);
    rewrite Hc, ?Hp, Hq;
    cbn [DailyOrderMetricsGoldETL.init WideOrderItemsGoldETL.init
         Base.primary_keys Base.partition_keys kwarg app].
  - split; [reflexivity|].
    apply Forall_forall. intros k [<-|[]].
    unfold DailyOrderMetricsGoldETL.selected_columns. cbn [In]. tauto.
  - split; [reflexivity|]. split; [reflexivity|].
    apply Forall_forall. intros k [<-|[<-|[]]];
      unfold WideOrderItemsGoldETL.selected_columns; cbn [In]; tauto.
Qed.

(** The sample table read by the daily unit: its partition key is the last
    of the four columns. *)
Lemma read_declared_keys_present_witness :
  Forall (fun k => In k (columns (mk_df Examples.daily_schema Examples.daily_batch2)))
         ["etl_inserted"].
Proof.
  refine (proj2 (proj1 (read_declared_keys_present _ storage_env None None None None
                          None None None (Some true) None Examples.daily_store
                          (envelope (Examples.daily_unit true)
                             (mk_df Examples.daily_schema Examples.daily_batch2)))
                       _)).
  reflexivity.
Defined.

Lemma load_filter_select_fails {W : Type} (h : env W) (cols : list string)
    (self : TableETL) (text : string) (w w' : W) (e : exn) :
  h _ (Load (data_format self) (storage_path self)) w = (Err e, w') ->
  interp h (load_filter_select cols self text) w
  = mk_run (Err e) w' [(RLoad (data_format self) (storage_path self), ARaised e)].
Proof.
  intros Hl. unfold load_filter_select. now rewrite interp_trigger_bind, Hl.
Qed.

(** X9 (a table that cannot be loaded).  [read] handles no exception of
    storage: with [write_data] set, when the load raises, [read] raises the
    same exception right away, and when the probe for the latest partition
    went through but the load after it raises, [read] raises that exception
    after the two calls. *)
Theorem read_propagates_storage_failure :
  forall (W : Type) (h : env W) (self : TableETL)
         (partition_values : option (list (string * string))) (w w' : W) (e : exn) read,
    read = DailyOrderMetricsGoldETL.read \/ read = WideOrderItemsGoldETL.read ->
    write_data self = true ->
    (h _ (Load (data_format self) (storage_path self)) w = (Err e, w') ->
     interp h (read self partition_values) w
     = mk_run (Err e) w'
              [(RLoad (data_format self) (storage_path self), ARaised e)])
    /\
    (forall probed w1 latest shown,
        truthy partition_values = false ->
        h _ (Load (data_format self) (storage_path self)) w = (Ok probed, w1) ->
        select_max probed "etl_inserted" = Ok latest ->
        py_str latest = Ok shown ->
        h _ (Load (data_format self) (storage_path self)) w1 = (Err e, w') ->
        interp h (read self partition_values) w
        = mk_run (Err e) w'
                 [(RLoad (data_format self) (storage_path self), AFrame probed);
                  (RLoad (data_format self) (storage_path self), ARaised e)]).
Proof.
  intros W h self pv w w' e read Hread Hw.
  assert (E : exists cols, read = read_with cols).
  { destruct Hread as [-> | ->];
      [rewrite daily_read_eq | rewrite wide_read_eq]; eauto. }
  destruct E as (cols & ->). split.
  - intros Hl. unfold read_with. rewrite Hw. cbn [negb].
    destruct (truthy pv).
    + cbn [bind].
      fold (load_filter_select cols self
              (DailyOrderMetricsGoldETL.partition_filter_of (items pv))).
      now apply load_filter_select_fails.
    + rewrite interp_bind, interp_trigger_bind, Hl. reflexivity.
  - intros probed w1 latest shown Hp Hl1 Hmax Hstr Hl2.
    unfold read_with. rewrite Hw, Hp. cbn [negb].
    rewrite interp_bind, interp_trigger_bind, Hl1.
    rewrite Hmax. cbn [lift bind]. rewrite Hstr.
    cbn [lift bind interp outcome final trace app].
    fold (load_filter_select cols self ("etl_inserted = '" ++ shown ++ "'")%string).
    rewrite (load_filter_select_fails h cols self _ w1 w' e Hl2). reflexivity.
Qed.

(** The daily unit against a store that has no table at its path. *)
Lemma read_propagates_storage_failure_witness :
  interp storage_env
         (DailyOrderMetricsGoldETL.read (Examples.daily_unit true) None) []
  = mk_run (Err CollaboratorError) []
           [(RLoad "delta" "s3a://rainforest/delta/gold/daily_order_metrics",
             ARaised CollaboratorError)].
Proof.
  exact (proj1 (read_propagates_storage_failure _ storage_env
                  (Examples.daily_unit true) None [] [] CollaboratorError
                  DailyOrderMetricsGoldETL.read (or_introl eq_refl) eq_refl)
               eq_refl).
Defined.

(* ================================================================== *)
(** * [transform_upstream]: bounds, errors and what the rows add up to *)
(* ================================================================== *)

Import Py Spark SparkSql Runtime Base Storage Pipeline Notions EdgeNotions.
Import PyFacts FrameFacts SqlFacts RunFacts LatestFacts DailyFacts DailyRows WideFacts.
Local Open Scope list_scope.

(** ** Equality of cells is an equivalence *)

Lemma value_nested_ind (P : value -> Prop) :
  P VNull -> (forall b, P (VBool b)) -> (forall z, P (VInt z)) ->
  (forall p s u, P (VDecimal p s u)) -> (forall q, P (VDouble q)) ->
  (forall s, P (VStr s)) ->
  (forall t, P (VTimestamp t)) -> (forall d, P (VDate d)) ->
  (forall l, Forall P l -> P (VStruct l)) ->
  (forall l, Forall P l -> P (VArray l)) ->
  forall v, P v.
Proof.
  intros Hnull Hbool Hint Hdec Hnum Hstr Hts Hdate Hstruct Harray.
  fix IH 1. intros [ |b|z|p s u|q|s|t|d|l|l].
  - exact Hnull.
  - apply Hbool.
  - apply Hint.
  - apply Hdec.
  - apply Hnum.
  - apply Hstr.
  - apply Hts.
  - apply Hdate.
  - apply Hstruct. revert l. fix IHl 1. intros [|x l]; constructor; [apply IH|apply IHl].
  - apply Harray. revert l. fix IHl 1. intros [|x l]; constructor; [apply IH|apply IHl].
Qed.

Lemma value_eqb_struct (xs ys : list value) :
  value_eqb (VStruct xs) (VStruct ys) = all_eqb xs ys.
Proof. reflexivity. Qed.

Lemma value_eqb_array (xs ys : list value) :
  value_eqb (VArray xs) (VArray ys) = all_eqb xs ys.
Proof. reflexivity. Qed.

Lemma date_eqb_eq (a b : date) : date_eqb a b = true <-> a = b.
Proof.
  unfold date_eqb. rewrite lex_eqb_eq. destruct a, b. unfold date_fields. cbn.
  split; [intros H; now injection H as -> -> ->|intros H; now injection H as -> -> ->].
Qed.

Lemma Qeq_bool_sym (x y : Q) : Qeq_bool x y = Qeq_bool y x.
Proof.
  destruct (Qeq_bool x y) eqn:E; symmetry.
  - apply Qeq_bool_iff. symmetry. now apply Qeq_bool_iff.
  - destruct (Qeq_bool y x) eqn:E'; [|reflexivity].
    apply Qeq_bool_iff in E'. symmetry in E'. apply Qeq_bool_iff in E'. congruence.
Qed.

Lemma value_eqb_refl (a : value) : value_eqb a a = true.
Proof.
  induction a using value_nested_ind.
  - reflexivity.
  - now destruct b.
  - cbn. apply Z.eqb_refl.
  - cbn. now rewrite !Nat.eqb_refl, Z.eqb_refl.
  - cbn. apply Qeq_bool_iff. reflexivity.
  - cbn. apply String.eqb_refl.
  - cbn. apply datetime_eqb_refl.
  - cbn. now apply date_eqb_eq.
  - rewrite value_eqb_struct.
    induction H as [|x l Hx _ IH]; [reflexivity|]. cbn [all_eqb]. now rewrite Hx.
  - rewrite value_eqb_array.
    induction H as [|x l Hx _ IH]; [reflexivity|]. cbn [all_eqb]. now rewrite Hx.
Qed.

Lemma all_eqb_sym (l : list value) :
  Forall (fun a => forall b, value_eqb a b = value_eqb b a) l ->
  forall l', all_eqb l l' = all_eqb l' l.
Proof.
  induction 1 as [|x l Hx _ IH]; intros [|y l']; cbn; try reflexivity.
  now rewrite Hx, IH.
Qed.

Lemma lex_eqb_sym (a : list N) : forall b, lex_eqb a b = lex_eqb b a.
Proof.
  induction a as [|x a IH]; intros [|y b]; cbn [lex_eqb]; try reflexivity.
  now rewrite N.eqb_sym, IH.
Qed.

Lemma value_eqb_sym (a : value) : forall b, value_eqb a b = value_eqb b a.
Proof.
  induction a using value_nested_ind; intros [ |b'|z'|p' s' u'|q'|s'|t'|d'|l'|l'];
    try reflexivity; cbn [value_eqb].
  - now destruct b, b'.
  - apply Z.eqb_sym.
  - now rewrite (Nat.eqb_sym p p'), (Nat.eqb_sym s s'), (Z.eqb_sym u u').
  - apply Qeq_bool_sym.
  - apply String.eqb_sym.
  - apply lex_eqb_sym.
  - apply lex_eqb_sym.
  - change (all_eqb l l' = all_eqb l' l). now apply all_eqb_sym.
  - change (all_eqb l l' = all_eqb l' l). now apply all_eqb_sym.
Qed.

Lemma all_eqb_trans (l : list value) :
  Forall (fun a => forall b c, value_eqb a b = true -> value_eqb b c = true ->
                               value_eqb a c = true) l ->
  forall l' l'', all_eqb l l' = true -> all_eqb l' l'' = true -> all_eqb l l'' = true.
Proof.
  induction 1 as [|x l Hx _ IH]; intros [|y l'] [|z l'']; cbn; try congruence.
  intros H1 H2. apply andb_true_iff in H1 as [H1 H1'].
  apply andb_true_iff in H2 as [H2 H2'].
  rewrite (Hx y z H1 H2). now apply (IH l' l'').
Qed.

Lemma value_eqb_trans (a : value) : forall b c,
  value_eqb a b = true -> value_eqb b c = true -> value_eqb a c = true.
Proof.
  induction a using value_nested_ind;
    intros [ |b'|z'|p' s' u'|q'|s'|t'|d'|l'|l']
           [ |b''|z''|p'' s'' u''|q''|s''|t''|d''|l''|l''];
    try (cbn [value_eqb]; congruence); cbn [value_eqb].
  - destruct b, b', b''; cbn; congruence.
  - rewrite !Z.eqb_eq. congruence.
  - rewrite !andb_true_iff, !Nat.eqb_eq, !Z.eqb_eq. intuition congruence.
  - rewrite !Qeq_bool_iff. intros H1 H2. now rewrite H1.
  - rewrite !String.eqb_eq. congruence.
  - rewrite !datetime_eqb_eq. congruence.
  - rewrite !date_eqb_eq. congruence.
  - change (all_eqb l l' = true -> all_eqb l' l'' = true -> all_eqb l l'' = true).
    now apply all_eqb_trans.
  - change (all_eqb l l' = true -> all_eqb l' l'' = true -> all_eqb l l'' = true).
    now apply all_eqb_trans.
Qed.

(** ** The distinct keys of a grouping *)

Lemma distinct_keys_fresh (ks : list value) : forall seen d,
  In d (distinct_keys seen ks) -> existsb (value_eqb d) seen = false.
Proof.
  induction ks as [|k ks IH]; intros seen d Hin; [destruct Hin|].
  cbn [distinct_keys] in Hin.
  destruct (existsb (value_eqb k) seen) eqn:E; [now apply IH|].
  destruct Hin as [<-|Hin]; [exact E|].
  apply IH in Hin. cbn [existsb] in Hin. now apply orb_false_iff in Hin.
Qed.

Lemma distinct_keys_in (ks : list value) : forall seen d,
  In d (distinct_keys seen ks) -> In d ks.
Proof.
  induction ks as [|k ks IH]; intros seen d Hin; [destruct Hin|].
  cbn [distinct_keys] in Hin.
  destruct (existsb (value_eqb k) seen); [right; eapply IH; eassumption|].
  destruct Hin as [<-|Hin]; [now left|right; eapply IH; eassumption].
Qed.

Lemma distinct_keys_NoDup (ks : list value) : forall seen,
  NoDup (distinct_keys seen ks).
Proof.
  induction ks as [|k ks IH]; intros seen; [constructor|].
  cbn [distinct_keys]. destruct (existsb (value_eqb k) seen); [apply IH|].
  constructor; [|apply IH].
  intros Hin. apply distinct_keys_fresh in Hin. cbn [existsb] in Hin.
  now rewrite value_eqb_refl in Hin.
Qed.

Lemma distinct_keys_length (ks : list value) : forall seen,
  List.length (distinct_keys seen ks) <= List.length ks.
Proof.
  induction ks as [|k ks IH]; intros seen; [apply Nat.le_refl|].
  cbn [distinct_keys]. destruct (existsb (value_eqb k) seen); cbn [List.length].
  - specialize (IH seen). lia.
  - specialize (IH (k :: seen)). lia.
Qed.

Lemma distinct_keys_cover (ks : list value) : forall seen x,
  In x ks -> existsb (value_eqb x) seen = false ->
  exists d, In d (distinct_keys seen ks) /\ value_eqb x d = true.
Proof.
  induction ks as [|k ks IH]; intros seen x Hin Hx; [destruct Hin|].
  cbn [distinct_keys]. destruct (existsb (value_eqb k) seen) eqn:E.
  - destruct Hin as [->|Hin]; [congruence|]. now apply IH.
  - destruct (value_eqb x k) eqn:Exk.
    + exists k. split; [now left|exact Exk].
    + destruct Hin as [->|Hin]; [now rewrite value_eqb_refl in Exk|].
      destruct (IH (k :: seen) x Hin) as (d & Hd & Hxd).
      * cbn [existsb]. now rewrite Exk, Hx.
      * exists d. split; [now right|exact Hxd].
Qed.

Lemma existsb_related (x y : value) (seen : list value) :
  value_eqb x y = true -> existsb (value_eqb x) seen = existsb (value_eqb y) seen.
Proof.
  intros Hxy. induction seen as [|s seen IH]; [reflexivity|]. cbn [existsb].
  rewrite IH. f_equal.
  destruct (value_eqb y s) eqn:E.
  - exact (value_eqb_trans x y s Hxy E).
  - destruct (value_eqb x s) eqn:E'; [|reflexivity].
    rewrite value_eqb_sym in Hxy. now rewrite (value_eqb_trans y x s Hxy E') in E.
Qed.

(** ** Sums over the groups of a grouping *)

Section Partition.
Context (key : row -> value) (g : row -> Q).

Let F (l : list row) : Q := Qsum (map g l).

Lemma Qsum_cons (q : Q) (qs : list Q) : Qsum (q :: qs) = (q + Qsum qs)%Q.
Proof. reflexivity. Qed.

Lemma group_sum_cons (r : row) (l : list row) : F (r :: l) = (g r + F l)%Q.
Proof. reflexivity. Qed.

Lemma group_sum_split (p : row -> bool) (l : list row) :
  (F (filter p l) + F (filter (fun r => negb (p r)) l) == F l)%Q.
Proof.
  induction l as [|r l IH]; [reflexivity|].
  cbn [filter]. destruct (p r); cbn [negb]; rewrite !group_sum_cons, <- IH; ring.
Qed.

Lemma group_sums (l : list row) : forall seen,
  (Qsum (map (fun d => F (filter (fun r => value_eqb (key r) d) l))
             (distinct_keys seen (map key l)))
   == F (filter (fun r => negb (existsb (value_eqb (key r)) seen)) l))%Q.
Proof.
  induction l as [|r l IH]; intros seen; [reflexivity|].
  cbn [map distinct_keys filter].
  destruct (existsb (value_eqb (key r)) seen) eqn:E; cbn [negb].
  - rewrite <- (IH seen).
    rewrite (map_ext_in _ (fun d => F (filter (fun r => value_eqb (key r) d) l)));
      [reflexivity|].
    intros d Hd. apply distinct_keys_fresh in Hd.
    destruct (value_eqb (key r) d) eqn:Ed; [|reflexivity].
    rewrite (existsb_related (key r) d seen Ed) in E. congruence.
  - cbn [map]. rewrite Qsum_cons, value_eqb_refl, !group_sum_cons.
    rewrite (map_ext_in _ (fun d => F (filter (fun r => value_eqb (key r) d) l))).
    + rewrite (IH (key r :: seen)).
      rewrite <- (group_sum_split (fun r0 => value_eqb (key r0) (key r))
                    (filter (fun r0 => negb (existsb (value_eqb (key r0)) seen)) l)).
      rewrite !filter_filter.
      rewrite (filter_ext (fun x => negb (existsb (value_eqb (key x)) seen)
                                    && value_eqb (key x) (key r))
                          (fun r0 => value_eqb (key r0) (key r))).
      * rewrite (filter_ext
                   (fun x => negb (existsb (value_eqb (key x)) seen)
                             && negb (value_eqb (key x) (key r)))
                   (fun r0 => negb (existsb (value_eqb (key r0)) (key r :: seen)))).
        -- ring.
        -- intros x. cbn [existsb]. rewrite negb_orb. apply andb_comm.
      * intros x. destruct (value_eqb (key x) (key r)) eqn:Ex;
          [|apply andb_false_r].
        rewrite (existsb_related (key x) (key r) seen Ex), E. reflexivity.
    + intros d Hd. apply distinct_keys_fresh in Hd. cbn [existsb] in Hd.
      apply orb_false_iff in Hd as [Hd _].
      rewrite value_eqb_sym in Hd. now rewrite Hd.
Qed.

Lemma group_sums_all (l : list row) :
  (Qsum (map (fun d => F (filter (fun r => value_eqb (key r) d) l))
             (distinct_keys [] (map key l)))
   == F l)%Q.
Proof.
  rewrite (group_sums l []). cbn [existsb negb].
  now rewrite (filter_all (fun _ => true)).
Qed.

End Partition.

(** ** The daily metrics as a whole *)

Lemma Qsame_den (a b : Z) (d : positive) : (a # d) + (b # d) == (a + b # d).
Proof. unfold Qeq, Qplus. cbn. nia. Qed.

Lemma Qzero_den (d : positive) : (0 # d) == 0.
Proof. reflexivity. Qed.

(** The numbers gathered from a column add up to its total. *)
Lemma Zsum_cons (z : Z) (zs : list Z) : Zsum (z :: zs) = (z + Zsum zs)%Z.
Proof. reflexivity. Qed.

Lemma Zsum_one (z : Z) : Zsum [z] = z.
Proof. cbn. lia. Qed.

Lemma numeric_total (vs : list value) : forall ns,
  numeric_cells vs = Ok ns -> (amount_of ns == total vs)%Q.
Proof.
  induction vs as [|v vs IH]; intros ns H.
  - cbn in H. injection H as <-. reflexivity.
  - cbn [numeric_cells] in H.
    destruct (numeric_cells vs) as [ns'|] eqn:E; [|discriminate].
    cbn [rbind] in H. specialize (IH ns' eq_refl).
    unfold total in *. cbn [map]. rewrite Qsum_cons, <- IH. clear IH E.
    destruct v as [ |b|z|p s u|q|t|t|d|l|l]; cbn [add_number] in H;
      try discriminate H.
    + injection H as <-. cbn [amount]. ring.
    + destruct ns' as [ |zs|p' s' us|qs]; try discriminate H; injection H as <-;
        cbn [amount amount_of].
      * rewrite Zsum_one. ring.
      * rewrite Zsum_cons, inject_Z_plus. reflexivity.
    + destruct ns' as [ |zs|p' s' us|qs]; try discriminate H.
      * injection H as <-. cbn [amount amount_of]. rewrite Zsum_one. ring.
      * destruct ((p =? p') && (s =? s')) eqn:Eq; [|discriminate H].
        injection H as <-. apply andb_true_iff in Eq as [_ Es].
        apply Nat.eqb_eq in Es. subst s'.
        cbn [amount amount_of]. rewrite Zsum_cons. symmetry. apply Qsame_den.
    + destruct ns' as [ |zs|p' s' us|qs]; try discriminate H; injection H as <-;
        cbn [amount amount_of]; [cbn; ring | reflexivity].
Qed.

(** Where [bigint]s were gathered, the column holds one. *)
Lemma numeric_longs (vs : list value) (zs : list Z) :
  numeric_cells vs = Ok (Longs zs) -> Exists (fun v => is_bigint v = true) vs.
Proof.
  revert zs. induction vs as [|v vs IH]; intros zs H; [discriminate H|].
  cbn [numeric_cells] in H.
  destruct (numeric_cells vs) as [ns'|] eqn:E; [|discriminate].
  cbn [rbind] in H.
  destruct v as [ |b|z|p s u|q|t|t|d|l|l]; try discriminate H;
    try (now apply Exists_cons_hd).
  - cbn [add_number] in H. injection H as ->. apply Exists_cons_tl. eauto.
  - destruct ns'; try discriminate H. cbn [add_number] in H.
    destruct ((p =? precision) && (s =? scale)); discriminate H.
  - destruct ns'; discriminate H.
Qed.

Lemma wrap_long_shift (z : Z) :
  exists k : Z, wrap_long z = (z + k * 2 ^ 64)%Z.
Proof.
  exists (- ((z + 2 ^ 63) / 2 ^ 64))%Z. unfold wrap_long.
  rewrite Z.mod_eq by lia. lia.
Qed.

Lemma no_shift : (inject_Z (0 * 2 ^ 64) == 0)%Q.
Proof. reflexivity. Qed.

(** A sum is the total of the column, up to the wrap-around of [bigint]s. *)
Lemma sum_cells_amount (vs : list value) (s : value) :
  sum_cells vs = Ok s ->
  exists k : Z,
    (amount s == total vs + inject_Z (k * 2 ^ 64))%Q /\
    (Forall (fun v => is_bigint v = false) vs -> k = 0%Z).
Proof.
  unfold sum_cells. destruct (numeric_cells vs) as [ns|] eqn:E; [|discriminate].
  cbn [rbind]. pose proof (numeric_total vs ns E) as Ht.
  destruct ns as [ |zs|p sc us|qs].
  - intros [= <-]. exists 0%Z. cbn [amount amount_of] in *.
    split; [rewrite <- Ht; reflexivity | reflexivity].
  - destruct (forallb is_long zs); [|discriminate]. intros [= <-].
    destruct (wrap_long_shift (Zsum zs)) as (k & Hk). exists k. split.
    + cbn [amount amount_of] in *. rewrite Hk, inject_Z_plus, Ht. reflexivity.
    + intros Hall. apply numeric_longs in E. apply Exists_exists in E as (v & Hv & Hb).
      rewrite Forall_forall in Hall. rewrite (Hall v Hv) in Hb. discriminate Hb.
  - destruct (decimals_add_up p sc us); [|discriminate]. intros [= <-].
    exists 0%Z. cbn [amount amount_of] in *.
    split; [rewrite <- Ht, no_shift; ring | reflexivity].
  - destruct (doubles_add_up qs); [|discriminate]. intros [= <-].
    exists 0%Z. cbn [amount amount_of] in *.
    split; [rewrite <- Ht, Qred_correct, no_shift; ring | reflexivity].
Qed.

Lemma order_date_plain (i : nat) (r : row) :
  order_date_of i r = VNull \/ exists d, order_date_of i r = VDate d.
Proof.
  unfold order_date_of, cast_date_cell.
  destruct (cell r i); eauto.
  destruct (cast_date s) as [[d|]|]; cbn [rbind]; eauto.
Qed.

Lemma order_date_eq (i : nat) (r r' : row) :
  value_eqb (order_date_of i r) (order_date_of i r') = true ->
  order_date_of i r = order_date_of i r'.
Proof.
  destruct (order_date_plain i r) as [->|(d & ->)];
    destruct (order_date_plain i r') as [->|(d' & ->)]; cbn [value_eqb];
    try congruence.
  intros H. apply date_eqb_eq in H. now subst.
Qed.

Section DailyWhole.
Context {W : Type} (h : env W) (self : TableETL) (first : ETLDataSet)
        (rest : list ETLDataSet) (w : W)
        (i_ts i_active i_price : nat) (a_ts a_active a_price : attr).
Hypothesis has_ts : resolve (ds_current_data first) "order_ts" = Ok (i_ts, a_ts).
Hypothesis has_active :
  resolve (ds_current_data first) "is_active" = Ok (i_active, a_active).
Hypothesis has_price :
  resolve (ds_current_data first) "total_price" = Ok (i_price, a_price).
Hypothesis wf : well_formed (ds_current_data first).

Let orders : list row := rows (ds_current_data first).
Let active : list row := filter (is_active_row i_active) orders.

Lemma prices_on_active (d : value) :
  prices_on i_ts i_active i_price orders d
  = map (fun r => cell r i_price)
        (filter (fun r => value_eqb (order_date_of i_ts r) d) active).
Proof. unfold prices_on, active. now rewrite filter_filter. Qed.

Lemma prices_on_in (d v : value) :
  In v (prices_on i_ts i_active i_price orders d) ->
  exists r, In r orders /\ is_active_row i_active r = true /\ cell r i_price = v.
Proof.
  unfold prices_on. intros Hin. apply in_map_iff in Hin as (r & <- & Hr).
  apply filter_In in Hr as (Hr & Hf). apply andb_true_iff in Hf as [Hact _]. eauto.
Qed.

Lemma daily_rows_of (ds : ETLDataSet) (self' : TableETL) :
  outcome (interp h (DailyOrderMetricsGoldETL.transform_upstream self (first :: rest)) w)
  = Ok (ds, self') ->
  Forall2 (fun d r => cell r 0 = d /\
                      exists k : Z,
                        (amount (cell r 1)
                         == total (prices_on i_ts i_active i_price orders d)
                            + inject_Z (k * 2 ^ 64))%Q /\
                        (Forall (fun v => is_bigint v = false)
                                (prices_on i_ts i_active i_price orders d) -> k = 0%Z))
          (active_dates i_ts i_active orders) (rows (ds_current_data ds)).
Proof.
  intros H.
  destruct (transform_rows (ds_current_data first) i_ts i_active i_price
              a_ts a_active a_price has_ts has_active has_price wf
              h self first rest w ds self' eq_refl H) as (t & _ & Hrows).
  fold orders in Hrows.
  induction Hrows as [|d r ds' rs (s & m & -> & Hs & _) _ IH]; constructor.
  - split; [reflexivity|]. cbn [cell nth]. now apply sum_cells_amount.
  - exact IH.
Qed.

Lemma daily_dates_of (ds : ETLDataSet) (self' : TableETL) :
  outcome (interp h (DailyOrderMetricsGoldETL.transform_upstream self (first :: rest)) w)
  = Ok (ds, self') ->
  map (fun r => cell r 0) (rows (ds_current_data ds))
  = active_dates i_ts i_active orders.
Proof.
  intros H. apply daily_rows_of in H.
  induction H as [|d r ds' rs [Hd _] _ IH]; [reflexivity|].
  cbn [map]. now rewrite Hd, IH.
Qed.

Lemma daily_sums_of (ds : ETLDataSet) (self' : TableETL) :
  outcome (interp h (DailyOrderMetricsGoldETL.transform_upstream self (first :: rest)) w)
  = Ok (ds, self') ->
  exists k : Z,
    (Qsum (map (fun r => amount (cell r 1)) (rows (ds_current_data ds)))
     == total (map (fun r => cell r i_price) active) + inject_Z (k * 2 ^ 64))%Q /\
    (Forall (fun r => is_bigint (cell r i_price) = false) active -> k = 0%Z).
Proof.
  intros H. apply daily_rows_of in H.
  assert (E : exists k : Z,
             (Qsum (map (fun r => amount (cell r 1)) (rows (ds_current_data ds)))
              == Qsum (map (fun d => total (prices_on i_ts i_active i_price orders d))
                           (active_dates i_ts i_active orders))
                 + inject_Z (k * 2 ^ 64))%Q /\
             (Forall (fun r => is_bigint (cell r i_price) = false) active -> k = 0%Z)).
  { induction H as [|d r ds' rs [_ (k & Hs & Hk)] _ (k' & IH & Hk')].
    - exists 0%Z. split; [cbn [map]; rewrite no_shift; reflexivity | reflexivity].
    - exists (k + k')%Z. split.
      + cbn [map]. rewrite !Qsum_cons, Hs, IH.
        rewrite Z.mul_add_distr_r, inject_Z_plus. ring.
      + intros Hall. rewrite (Hk' Hall), Hk; [reflexivity|].
        apply Forall_forall. intros v Hv.
        apply prices_on_in in Hv as (r0 & Hr0 & Hact & <-).
        rewrite Forall_forall in Hall. apply Hall. apply filter_In. now split. }
  destruct E as (k & E & Hk). exists k. split; [|exact Hk].
  rewrite E. apply Qplus_comp; [|reflexivity].
  unfold active_dates. fold orders. fold active.
  rewrite (map_ext _ (fun d => Qsum (map (fun r => amount (cell r i_price))
                        (filter (fun r => value_eqb (order_date_of i_ts r) d) active)))).
  - rewrite (group_sums_all (order_date_of i_ts) (fun r => amount (cell r i_price)) active).
    unfold total. now rewrite map_map.
  - intros d. rewrite prices_on_active. unfold total. now rewrite map_map.
Qed.

End DailyWhole.

(** X10 (the daily sums add up).  On a well-formed frame of orders with the
    columns [order_ts], [is_active] and [total_price]: when the daily-metrics
    transform returns, the values of its [total_price_sum] column, the
    second, add up to the sum of [total_price] over all active orders, null
    counting for nothing, up to a multiple of [2^64]; the multiple is zero
    when no active order's price is a [bigint], whose sums wrap around.  No
    active order's price is lost or counted twice by the grouping. *)
Theorem daily_sums_add_up :
  forall (W : Type) (h : env W) (self : TableETL) (first : ETLDataSet)
         (rest : list ETLDataSet) (w : W) (i_ts i_active i_price : nat)
         (a_ts a_active a_price : attr) (ds : ETLDataSet) (self' : TableETL),
    resolve (ds_current_data first) "order_ts" = Ok (i_ts, a_ts) ->
    resolve (ds_current_data first) "is_active" = Ok (i_active, a_active) ->
    resolve (ds_current_data first) "total_price" = Ok (i_price, a_price) ->
    well_formed (ds_current_data first) ->
    outcome (interp h (DailyOrderMetricsGoldETL.transform_upstream self
                         (first :: rest)) w) = Ok (ds, self') ->
    let active := filter (is_active_row i_active) (rows (ds_current_data first)) in
    (exists a, resolve (ds_current_data ds) "total_price_sum" = Ok (1, a)) /\
    exists k : Z,
      (Qsum (map (fun r => amount (cell r 1)) (rows (ds_current_data ds)))
       == total (map (fun r => cell r i_price) active) + inject_Z (k * 2 ^ 64))%Q /\
      (Forall (fun r => is_bigint (cell r i_price) = false) active -> k = 0%Z).
Proof.
  intros W h self first rest w i_ts i_active i_price a_ts a_active a_price ds self'
         Hts Hact Hprice Hwf H active.
  split.
  - destruct (daily_transform_shape h self _ w ds self' H)
      as (id_key & id_sum & id_mean & id_ts & t & body & -> & _).
    eexists. reflexivity.
  - exact (daily_sums_of h self first rest w i_ts i_active i_price
             a_ts a_active a_price Hts Hact Hprice Hwf ds self' H).
Qed.

(** The sample orders: the one daily sum, 50.00, is the 20.00 and the 30.00
    of the two active orders; the inactive order's 100.00 is not in it. *)
Lemma daily_sums_add_up_witness :
  (Qsum (map (fun r => amount (cell r 1)) (rows Examples.daily_metrics))
   == total [VDecimal 10 2 2000; VDecimal 10 2 3000])%Q /\
  (total [VDecimal 10 2 2000; VDecimal 10 2 3000] == 50)%Q.
Proof.
  destruct (proj2 (daily_sums_add_up _ Examples.engine (Examples.daily_unit true)
                  Examples.orders_envelope [] 0 1 3 2
                  (mk_attr 2 "order_ts") (mk_attr 4 "is_active")
                  (mk_attr 3 "total_price")
                  (envelope (Examples.daily_unit true) Examples.daily_metrics)
                  (set_current_data (Examples.daily_unit true) Examples.daily_metrics)
                  eq_refl eq_refl eq_refl
                  ltac:(repeat constructor)
                  eq_refl)) as (k & Hsum & Hk).
  rewrite Hk in Hsum by (repeat constructor).
  split; [|reflexivity].
  rewrite Hsum. vm_compute. reflexivity.
Defined.

(** X11 (one row per date).  Under the same conditions the [order_date]
    column, the first, is a key of the frame the daily-metrics transform
    returns: no two rows carry the same date, every active order's date has
    its row, every row's date is the date of some active order, and there
    are no more rows than active orders; none when no order is active. *)
Theorem daily_one_row_per_date :
  forall (W : Type) (h : env W) (self : TableETL) (first : ETLDataSet)
         (rest : list ETLDataSet) (w : W) (i_ts i_active i_price : nat)
         (a_ts a_active a_price : attr) (ds : ETLDataSet) (self' : TableETL),
    resolve (ds_current_data first) "order_ts" = Ok (i_ts, a_ts) ->
    resolve (ds_current_data first) "is_active" = Ok (i_active, a_active) ->
    resolve (ds_current_data first) "total_price" = Ok (i_price, a_price) ->
    well_formed (ds_current_data first) ->
    outcome (interp h (DailyOrderMetricsGoldETL.transform_upstream self
                         (first :: rest)) w) = Ok (ds, self') ->
    let orders := rows (ds_current_data first) in
    let dates := map (fun r => cell r 0) (rows (ds_current_data ds)) in
    (exists a, resolve (ds_current_data ds) "order_date" = Ok (0, a)) /\
    NoDup dates /\
    (forall r, In r orders -> is_active_row i_active r = true ->
               In (order_date_of i_ts r) dates) /\
    (forall d, In d dates ->
               exists r, In r orders /\ is_active_row i_active r = true /\
                         order_date_of i_ts r = d) /\
    List.length (rows (ds_current_data ds))
    <= List.length (filter (is_active_row i_active) orders).
Proof.
  intros W h self first rest w i_ts i_active i_price a_ts a_active a_price ds self'
         Hts Hact Hprice Hwf H orders dates.
  pose proof (daily_dates_of h self first rest w i_ts i_active i_price
                a_ts a_active a_price Hts Hact Hprice Hwf ds self' H) as Hdates.
  fold orders in Hdates. fold dates in Hdates.
  split; [|split; [|split; [|split]]].
  - destruct (daily_transform_shape h self _ w ds self' H)
      as (id_key & id_sum & id_mean & id_ts & t & body & -> & _).
    eexists. reflexivity.
  - rewrite Hdates. apply distinct_keys_NoDup.
  - intros r Hin Hr. rewrite Hdates. unfold active_dates.
    destruct (distinct_keys_cover
                (map (order_date_of i_ts) (filter (is_active_row i_active) orders))
                [] (order_date_of i_ts r)) as (d & Hd & Hrd).
    + apply in_map. apply filter_In. now split.
    + reflexivity.
    + pose proof Hd as Hd'. apply distinct_keys_in in Hd'.
      apply in_map_iff in Hd' as (r' & <- & _).
      now rewrite (order_date_eq i_ts r r' Hrd).
  - intros d Hd. rewrite Hdates in Hd. apply distinct_keys_in in Hd.
    apply in_map_iff in Hd as (r & <- & Hr). apply filter_In in Hr as [Hin Hr].
    exists r. now repeat split.
  - rewrite <- (length_map (fun r => cell r 0)). fold dates. rewrite Hdates.
    unfold active_dates.
    etransitivity; [apply distinct_keys_length|]. now rewrite length_map.
Qed.

(** The sample orders, all of one day: one row, for that day. *)
Lemma daily_one_row_per_date_witness :
  NoDup (map (fun r => cell r 0) (rows Examples.daily_metrics)) /\
  List.length (rows Examples.daily_metrics) <= 2.
Proof.
  destruct (daily_one_row_per_date _ Examples.engine (Examples.daily_unit true)
              Examples.orders_envelope [] 0 1 3 2
              (mk_attr 2 "order_ts") (mk_attr 4 "is_active")
              (mk_attr 3 "total_price")
              (envelope (Examples.daily_unit true) Examples.daily_metrics)
              (set_current_data (Examples.daily_unit true) Examples.daily_metrics)
              eq_refl eq_refl eq_refl
              ltac:(repeat constructor)
              eq_refl) as (_ & Hn & _ & _ & Hl).
  split; [exact Hn|exact Hl].
Defined.

(** ** Bounds and missing columns *)

(** X12 (how many datasets a transform looks at).  The daily-metrics
    transform indexes the first upstream dataset and the wide-order-items
    transform the first five: given fewer they raise [IndexError] before
    anything else happens (the clock is not read, nothing is cached), and
    datasets beyond these are never looked at. *)
Theorem transform_upstream_bounds :
  forall (W : Type) (h : env W) (self : TableETL) (w : W),
    interp h (DailyOrderMetricsGoldETL.transform_upstream self []) w
    = mk_run (Err IndexError) w [] /\
    (forall upstream_datasets,
        List.length upstream_datasets < 5 ->
        interp h (WideOrderItemsGoldETL.transform_upstream self upstream_datasets) w
        = mk_run (Err IndexError) w []) /\
    (forall first rest,
        DailyOrderMetricsGoldETL.transform_upstream self (first :: rest)
        = DailyOrderMetricsGoldETL.transform_upstream self [first]) /\
    (forall d0 d1 d2 d3 d4 rest,
        WideOrderItemsGoldETL.transform_upstream self (d0 :: d1 :: d2 :: d3 :: d4 :: rest)
        = WideOrderItemsGoldETL.transform_upstream self [d0; d1; d2; d3; d4]).
Proof.
  intros W h self w. split; [reflexivity|]. split; [|split; reflexivity].
  intros ups Hlen.
  destruct ups as [|d0 [|d1 [|d2 [|d3 [|d4 rest]]]]]; try reflexivity.
  cbn [List.length] in Hlen. lia.
Qed.

(** Four of the five sample frames. *)
Lemma transform_upstream_bounds_witness :
  interp Examples.engine
         (WideOrderItemsGoldETL.transform_upstream (Examples.wide_unit true)
            (firstn 4 Examples.wide_upstream)) 0
  = mk_run (Err IndexError) 0 [].
Proof.
  refine (proj1 (proj2 (transform_upstream_bounds _ Examples.engine
                          (Examples.wide_unit true) 0))
                (firstn 4 Examples.wide_upstream) _).
  cbn. lia.
Defined.

(** X13 (orders without the columns the daily metrics need).  When no
    column of the frame of orders is named [order_ts], or one is, its cells
    cast to dates, at most one column is named [order_date] and none
    [is_active], names being compared without regard to case, the
    daily-metrics transform raises the engine's [AnalysisException]; it has
    not read the clock by then. *)
Theorem daily_transform_missing_column :
  forall (W : Type) (h : env W) (self : TableETL) (first : ETLDataSet)
         (rest : list ETLDataSet) (w : W),
    engine_answers h ->
    let orders := ds_current_data first in
    let run := interp h (DailyOrderMetricsGoldETL.transform_upstream self
                           (first :: rest)) w in
    (positions "order_ts" (schema orders) = [] ->
     outcome run = Err AnalysisException /\ clock_reads (trace run) = []) /\
    (forall i a,
        resolve orders "order_ts" = Ok (i, a) -> castable i (rows orders) ->
        List.length (positions "order_date" (schema orders)) <= 1 ->
        positions "is_active" (schema orders) = [] ->
        outcome run = Err AnalysisException /\ clock_reads (trace run) = []).
Proof.
  intros W h self first rest w [_ Hid] orders run.
  destruct (Hid w) as (n & w1 & En).
  assert (Hrun : run = let r := interp h
                   (bind (lift (withColumn orders "order_date" (CastDate "order_ts") n))
                      (fun wide_orders_data =>
                       bind (lift (filter_col wide_orders_data "is_active"))
                         (fun active =>
                          (id_sum <- trigger NewExprId ;;
                           id_mean <- trigger NewExprId ;;
                           daily <- lift (groupBy_agg active "order_date"
                              [(Sum "total_price", mk_attr id_sum "total_price_sum");
                               (Mean "total_price", mk_attr id_mean "total_price_mean")]) ;;
                           t <- trigger Now ;;
                           id_ts <- trigger NewExprId ;;
                           stamped <- lift (withColumn daily "etl_inserted"
                                              (Lit (VTimestamp t)) id_ts) ;;
                           Ret (envelope self stamped,
                                set_current_data self
                                  (ds_current_data (envelope self stamped))))%prog)))
                   w1 in
                 mk_run (outcome r) (final r) ((RNewExprId, AExprId n) :: trace r)).
  { unfold run, DailyOrderMetricsGoldETL.transform_upstream.
    cbn [index nth_error bind]. fold orders.
    change (Vis NewExprId ?k) with (bind (trigger NewExprId) k).
    rewrite interp_trigger_bind, En. reflexivity. }
  rewrite Hrun. cbv zeta. cbn [outcome trace]. split.
  - intros Hn. rewrite interp_lift_bind.
    unfold withColumn, eval_column. rewrite (resolve_missing orders _ Hn).
    cbn [rbind outcome trace]. split; reflexivity.
  - intros i a Hr Hc Hone Hn. rewrite interp_lift_bind.
    assert (Hd : exists dated,
               withColumn orders "order_date" (CastDate "order_ts") n = Ok dated /\
               positions "is_active" (schema dated) = []).
    { unfold withColumn, eval_column. rewrite Hr. cbn [rbind fst].
      rewrite (casts_ok i (rows orders) Hc). cbn [rbind].
      destruct (positions "order_date" (schema orders)) as [|j [|? ?]] eqn:E;
        [| |cbn in Hone; lia]; eexists; (split; [reflexivity|]); cbn [schema].
      - now rewrite positions_appended_other.
      - now rewrite positions_replaced_other. }
    destruct Hd as (dated & -> & Hd). rewrite interp_lift_bind.
    unfold filter_col. rewrite (resolve_missing dated _ Hd).
    cbn [rbind outcome trace]. split; reflexivity.
Qed.

(** The stored daily metrics handed to the daily transform as if they were
    orders: they have no [order_ts]. *)
Lemma daily_transform_missing_column_witness :
  outcome (interp Examples.engine
             (DailyOrderMetricsGoldETL.transform_upstream (Examples.daily_unit true)
                [Examples.wrap "daily" Examples.daily_stored]) 0)
  = Err AnalysisException.
Proof.
  refine (proj1 (proj1 (daily_transform_missing_column _ Examples.engine
                          (Examples.daily_unit true)
                          (Examples.wrap "daily" Examples.daily_stored) [] 0 _) _)).
  - split; intros w; eexists; eexists; reflexivity.
  - reflexivity.
Defined.


(* ================================================================== *)
(** * [transform_upstream]: the rows of the wide table                 *)
(* ================================================================== *)

Import Py Spark SparkSql Runtime Base Storage Pipeline Notions EdgeNotions.
Import PyFacts FrameFacts SqlFacts RunFacts LatestFacts DailyFacts DailyRows WideFacts.
Local Open Scope list_scope.

(** ** One row per order item *)

Lemma flat_map_length_ge {A B} (f : A -> list B) (l : list A) :
  (forall x, In x l -> 1 <= List.length (f x)) ->
  List.length l <= List.length (flat_map f l).
Proof.
  induction l as [|x l IH]; intros H; [apply Nat.le_refl|].
  cbn [flat_map List.length]. rewrite length_app.
  pose proof (H x (or_introl eq_refl)).
  assert (List.length l <= List.length (flat_map f l))
    by (apply IH; intros y Hy; apply H; now right).
  lia.
Qed.

Lemma flat_map_length_eq {A B} (f : A -> list B) (l : list A) :
  (forall x, In x l -> List.length (f x) = 1) ->
  List.length (flat_map f l) = List.length l.
Proof.
  induction l as [|x l IH]; intros H; [reflexivity|].
  cbn [flat_map List.length]. rewrite length_app.
  rewrite (H x (or_introl eq_refl)), IH; [reflexivity|].
  intros y Hy. apply H. now right.
Qed.

Lemma filter_guard_length {A} (b : bool) (p : A -> bool) (l : list A) :
  List.length (filter (fun x => b && p x) l) <= List.length (filter p l).
Proof.
  destruct b; cbn [andb].
  - apply Nat.le_refl.
  - rewrite (filter_none (fun _ => false)); [cbn; lia|reflexivity].
Qed.

(** A left join loses no row of its left side. *)
Lemma join_left_keeps_rows (l r j : DataFrame) (key : string) (ids : list nat) :
  join l r key LeftOuter ids = Ok j ->
  List.length (rows l) <= List.length (rows j).
Proof.
  intros H. apply join_inv in H as (li & ri & lk & _ & _ & _ & _ & ->).
  apply flat_map_length_ge. intros lr _. unfold joined_rows.
  destruct (filter _ (rows r)) as [|m ms]; cbn [List.length map]; lia.
Qed.

(** Against a right side with no key twice it keeps their number. *)
Lemma join_left_unique_rows (l r j : DataFrame) (key : string) (ids : list nat)
    (ri : nat) :
  join l r key LeftOuter ids = Ok j ->
  key_position (schema r) key = Ok ri -> unique_key ri (rows r) ->
  List.length (rows j) = List.length (rows l).
Proof.
  intros H Hr Hu. apply join_inv in H as (li & ri' & lk & _ & Hr' & _ & _ & ->).
  rewrite Hr in Hr'. injection Hr' as <-.
  apply flat_map_length_eq. intros lr _.
  set (ms := filter (key_matches (cell lr li) ri) (rows r)).
  assert (Hms : List.length ms <= 1).
  { unfold ms, key_matches. etransitivity; [apply filter_guard_length|apply Hu]. }
  unfold joined_rows.
  destruct ms as [|m [|m' ms]]; cbn [List.length map] in *; try reflexivity.
  lia.
Qed.

Lemma drop_rows_length (df : DataFrame) (ref : attr) :
  List.length (rows (drop df ref)) = List.length (rows df).
Proof. unfold drop. cbn [rows]. apply length_map. Qed.

Lemma withColumn_lit_rows_length (df out : DataFrame) (name : string) (v : value)
    (id : nat) :
  withColumn df name (Lit v) id = Ok out ->
  List.length (rows out) = List.length (rows df).
Proof.
  intros H.
  destruct (withColumn_lit_cases _ _ _ _ _ H) as [[_ ->] | (i & _ & ->)];
    cbn [rows]; apply length_map.
Qed.

Lemma distinct_keys_one_match (k : value) (ks : list value) : forall seen,
  (existsb (value_eqb k) seen = true ->
   filter (value_eqb k) (distinct_keys seen ks) = []) /\
  List.length (filter (value_eqb k) (distinct_keys seen ks)) <= 1.
Proof.
  induction ks as [|x ks IH]; intros seen; [split; [reflexivity|cbn; lia]|].
  cbn [distinct_keys]. destruct (existsb (value_eqb x) seen) eqn:E; [apply IH|].
  cbn [filter]. destruct (value_eqb k x) eqn:Ekx.
  - destruct (IH (x :: seen)) as [Hnone _].
    rewrite Hnone by (cbn [existsb]; now rewrite Ekx).
    split; [|cbn; lia].
    intros Hk. rewrite (existsb_related k x seen Ekx) in Hk. congruence.
  - destruct (IH (x :: seen)) as [Hnone Hone]. split; [|exact Hone].
    intros Hk. apply Hnone. cbn [existsb]. now rewrite Hk, orb_true_r.
Qed.

Lemma filter_map_length {A B} (f : B -> bool) (g : A -> B) (l : list A) :
  List.length (filter (fun x => f (g x)) l) = List.length (filter f (map g l)).
Proof. now rewrite filter_map_comm, length_map. Qed.

(** What a grouping returns: the resolved key, the bound aggregates, and one
    row per distinct key. *)
Lemma groupBy_agg_inv (df out : DataFrame) (key : string)
    (aggs : list (agg_expr * attr)) :
  groupBy_agg df key aggs = Ok out ->
  exists k fs,
    resolve df key = Ok k /\
    rmap_list (fun a => bind_agg df (fst a)) aggs = Ok fs /\
    schema out = snd k :: map snd aggs /\
    Forall2 (fun kv g =>
               exists vs,
                 rmap_list (fun f => f (filter (fun r => value_eqb (cell r (fst k)) kv)
                                               (rows df))) fs = Ok vs /\
                 g = kv :: vs)
            (distinct_keys [] (map (fun r => cell r (fst k)) (rows df)))
            (rows out).
Proof.
  unfold groupBy_agg. intros H.
  apply rbind_ok in H as (k & Hk & H). apply rbind_ok in H as (fs & Hfs & H).
  apply rbind_ok in H as (body & Hb & H). injection H as <-.
  exists k, fs. cbn [schema rows]. repeat split; try assumption.
  apply rmap_list_ok in Hb.
  induction Hb as [|kv g ks gs Hg _ IH]; constructor; [|exact IH].
  apply rbind_ok in Hg as (vs & Hvs & Hg). injection Hg as <-. eauto.
Qed.

Lemma groupBy_agg_keys (df out : DataFrame) (key : string)
    (aggs : list (agg_expr * attr)) (k : nat * attr) :
  groupBy_agg df key aggs = Ok out -> resolve df key = Ok k ->
  map (fun g => cell g 0) (rows out)
  = distinct_keys [] (map (fun r => cell r (fst k)) (rows df)).
Proof.
  intros H Hk. apply groupBy_agg_inv in H as (k' & fs & Hk' & _ & _ & Hrows).
  rewrite Hk in Hk'. injection Hk' as <-.
  induction Hrows as [|kv g ks gs (vs & _ & ->) _ IH]; [reflexivity|].
  cbn [map]. now rewrite IH.
Qed.

(** No two rows of a grouping have the same key. *)
Lemma groupBy_agg_unique (df out : DataFrame) (key : string)
    (aggs : list (agg_expr * attr)) :
  groupBy_agg df key aggs = Ok out -> unique_key 0 (rows out).
Proof.
  intros H. pose proof (groupBy_agg_inv _ _ _ _ H) as (k & _ & Hk & _).
  intros x. rewrite (filter_map_length (value_eqb x) (fun r => cell r 0)).
  rewrite (groupBy_agg_keys _ _ _ _ k H Hk).
  apply distinct_keys_one_match.
Qed.

(** The key of a grouping is its first column, also for a join on it. *)
Lemma groupBy_agg_key_first (df out : DataFrame) (key : string)
    (aggs : list (agg_expr * attr)) (i : nat) :
  groupBy_agg df key aggs = Ok out ->
  key_position (schema out) key = Ok i -> i = 0.
Proof.
  intros H Hi.
  destruct (groupBy_agg_schema df out key _ H) as (k & Hk & Hs & _).
  apply resolve_name in Hk.
  apply key_position_ok in Hi as (_ & rest & _ & _ & Hp & _).
  rewrite Hs in Hp. unfold positions in Hp. cbn [positions_from] in Hp.
  rewrite Hk, name_eqb_refl in Hp. now injection Hp.
Qed.

Lemma single_row_unique (i : nat) (r : row) : unique_key i [r].
Proof.
  intros k. cbn [filter]. destruct (value_eqb k (cell r i)); cbn [List.length]; lia.
Qed.

(** X14 (one row per order item).  When the wide-order-items transform
    returns, its frame has at least as many rows as the frame of order
    items: the three left joins lose none.  When no two products share a
    [product_id] and no two sellers a [seller_id], it has exactly as many:
    the categories are gathered per product before they are joined, so a
    product in several categories does not multiply its order items. *)
Theorem wide_one_row_per_order_item :
  forall (W : Type) (h : env W) (self : TableETL)
         (d0 d1 d2 d3 d4 : ETLDataSet) (rest : list ETLDataSet) (w : W)
         (ds : ETLDataSet) (self' : TableETL),
    outcome (interp h (WideOrderItemsGoldETL.transform_upstream self
                         (d0 :: d1 :: d2 :: d3 :: d4 :: rest)) w) = Ok (ds, self') ->
    List.length (rows (ds_current_data d0))
    <= List.length (rows (ds_current_data ds)) /\
    (forall i_product a_product i_seller a_seller,
        resolve (ds_current_data d1) "product_id" = Ok (i_product, a_product) ->
        resolve (ds_current_data d2) "seller_id" = Ok (i_seller, a_seller) ->
        unique_key i_product (rows (ds_current_data d1)) ->
        unique_key i_seller (rows (ds_current_data d2)) ->
        List.length (rows (ds_current_data ds))
        = List.length (rows (ds_current_data d0))).
Proof.
  intros W h self d0 d1 d2 d3 d4 rest w ds self' H.
  destruct (wide_transform_inv h self _ w ds self' H)
    as (e0 & e1 & e2 & e3 & e4 & t & ids1 & j1 & ids2 & j2 & ids3 & bridged
        & category_ts & bridge_ts & id_categories & grain & ids4 & j3 & fact_ts
        & product_ts & seller_ts & id_ts & stamped & (H0 & H1 & H2 & _ & _)
        & Hj1 & Hj2 & _ & _ & _ & Hg & Hj3 & _ & _ & _ & Hst & -> & _ & _).
  cbn [nth_error] in H0, H1, H2.
  injection H0 as <-. injection H1 as <-. injection H2 as <-.
  cbn [envelope ds_current_data].
  rewrite (withColumn_lit_rows_length _ _ _ _ _ Hst), !drop_rows_length.
  split.
  - pose proof (join_left_keeps_rows _ _ _ _ _ Hj1).
    pose proof (join_left_keeps_rows _ _ _ _ _ Hj2).
    pose proof (join_left_keeps_rows _ _ _ _ _ Hj3). lia.
  - intros ip ap is_ as_ Hp Hs Hup Hus.
    pose proof (join_inv _ _ _ _ _ _ Hj1) as (l1 & r1 & _ & _ & Hr1 & _).
    pose proof (join_inv _ _ _ _ _ _ Hj2) as (l2 & r2 & _ & _ & Hr2 & _).
    pose proof (join_inv _ _ _ _ _ _ Hj3) as (l3 & r3 & _ & _ & Hr3 & _).
    pose proof (key_position_resolve _ _ _ _ Hp Hr1) as E1. cbn [fst] in E1. subst r1.
    pose proof (key_position_resolve _ _ _ _ Hs Hr2) as E2. cbn [fst] in E2. subst r2.
    pose proof (groupBy_agg_key_first _ _ _ _ _ Hg Hr3) as E3. subst r3.
    rewrite <- (join_left_unique_rows _ _ _ _ _ ip Hj1 Hr1 Hup).
    rewrite <- (join_left_unique_rows _ _ _ _ _ is_ Hj2 Hr2 Hus).
    apply (join_left_unique_rows _ _ _ _ _ 0 Hj3 Hr3).
    exact (groupBy_agg_unique _ _ _ _ Hg).
Qed.

(** The sample order item, of a product in two categories: one row. *)
Lemma wide_one_row_per_order_item_witness :
  List.length (rows Examples.wide_order_items)
  = List.length (rows Examples.fact_order_items).
Proof.
  refine (proj2 (wide_one_row_per_order_item _ Examples.engine
                   (Examples.wide_unit false)
                   (Examples.wrap "fact_order_items" Examples.fact_order_items)
                   (Examples.wrap "dim_product" Examples.dim_product)
                   (Examples.wrap "dim_seller" Examples.dim_seller)
                   (Examples.wrap "product_category" Examples.product_category)
                   (Examples.wrap "dim_category" Examples.dim_category) [] 0
                   (envelope (Examples.wide_unit false) Examples.wide_order_items)
                   (set_current_data (Examples.wide_unit false)
                                     Examples.wide_order_items)
                   eq_refl)
                0 (mk_attr 21 "product_id") 0 (mk_attr 31 "seller_id")
                eq_refl eq_refl _ _);
    apply single_row_unique.
Defined.

(** ** What the wide table keeps of an order item *)

Lemma remove_at_cons {A} (i : nat) (x : A) (a : list A) :
  remove_at (S i) (x :: a) = x :: remove_at i a.
Proof. reflexivity. Qed.

Lemma remove_at_nil {A} (i : nat) : remove_at i (@nil A) = [].
Proof. now destruct i. Qed.

Lemma remove_at_head {A} (x : A) (a : list A) : remove_at 0 (x :: a) = a.
Proof. reflexivity. Qed.

Lemma combine_nil_r {A B} (a : list A) : combine a (@nil B) = [].
Proof. now destruct a. Qed.

Lemma combine_remove_at {A B} (i : nat) : forall (a : list A) (b : list B),
  combine (remove_at i a) (remove_at i b) = remove_at i (combine a b).
Proof.
  induction i as [|i IH]; intros [|x a] [|y b];
    cbn [combine];
    rewrite ?remove_at_nil, ?remove_at_cons, ?remove_at_head, ?combine_nil_r;
    try reflexivity.
  cbn [combine]. now rewrite IH.
Qed.

Lemma combine_app_same {A B} (a1 a2 : list A) (b1 b2 : list B) :
  List.length a1 = List.length b1 ->
  combine (a1 ++ a2) (b1 ++ b2) = combine a1 b1 ++ combine a2 b2.
Proof.
  revert b1. induction a1 as [|x a1 IH]; intros [|y b1] H; try discriminate H.
  - reflexivity.
  - cbn. f_equal. apply IH. now injection H.
Qed.

Lemma in_remove_at_or {A} (i : nat) (l : list A) (x : A) :
  In x l -> In x (remove_at i l) \/ nth_error l i = Some x.
Proof.
  revert l. induction i as [|i IH]; intros [|y l] H; try destruct H as [<-|H];
    rewrite ?remove_at_cons, ?remove_at_head; cbn [nth_error In]; auto.
  destruct (IH l H) as [Hin|Hn]; auto.
Qed.

Lemma same_length_remove_at {A B} (i : nat) (a : list A) (b : list B) :
  List.length a = List.length b ->
  List.length (remove_at i a) = List.length (remove_at i b).
Proof.
  intros H. unfold remove_at. rewrite !length_app, !length_firstn, !length_skipn.
  now rewrite H.
Qed.

Lemma nth_error_combine_inv {A B} (l : list A) (l' : list B) (i : nat) (a : A) (b : B) :
  nth_error (combine l l') i = Some (a, b) ->
  nth_error l i = Some a /\ nth_error l' i = Some b.
Proof.
  revert l l'. induction i as [|i IH]; intros [|x l] [|y l'] H; try discriminate H.
  - cbn in H. injection H as <- <-. now split.
  - cbn in H |- *. now apply IH.
Qed.

(** What a row holds, it holds under an attribute of the frame, at some
    position. *)
Lemma carries_at (df : DataFrame) (r : row) (a : attr) (v : value) :
  carries df r a v <->
  exists p, nth_error (schema df) p = Some a /\ nth_error r p = Some v.
Proof.
  unfold carries. split.
  - intros H. apply In_nth_error in H as (p & Hp). exists p.
    now apply nth_error_combine_inv.
  - intros (p & Ha & Hv). apply (nth_error_In _ p).
    now apply ExtractFacts.nth_error_combine.
Qed.

Lemma carries_in (df : DataFrame) (r : row) (a : attr) (v : value) :
  carries df r a v -> In a (schema df).
Proof. intros H. apply carries_at in H as (p & Ha & _). eapply nth_error_In, Ha. Qed.

Lemma carried_over_trans (keep : attr -> Prop) (a b c : DataFrame) :
  carried_over keep a b -> carried_over keep b c -> carried_over keep a c.
Proof.
  intros [Hab Hba] [Hbc Hcb]. split.
  - intros r Hr. destruct (Hab r Hr) as (r' & Hr' & H1).
    destruct (Hbc r' Hr') as (r'' & Hr'' & H2).
    exists r''. split; [exact Hr''|]. intros x v Hk Hc. apply H2; [exact Hk|].
    now apply H1.
  - intros r'' Hr''. destruct (Hcb r'' Hr'') as (r' & Hr' & H2).
    destruct (Hba r' Hr') as (r & Hr & H1).
    exists r. split; [exact Hr|]. intros x v Hk Hc. apply H2; [exact Hk|].
    now apply H1.
Qed.

Lemma carried_over_weaken (keep keep' : attr -> Prop) (a b : DataFrame) :
  (forall x, keep' x -> keep x) -> carried_over keep a b -> carried_over keep' a b.
Proof.
  intros Hk [Hab Hba]. split.
  - intros r Hr. destruct (Hab r Hr) as (r' & Hr' & H). exists r'. split; [exact Hr'|].
    intros x v Hx. apply H. now apply Hk.
  - intros r' Hr'. destruct (Hba r' Hr') as (r & Hr & H). exists r. split; [exact Hr|].
    intros x v Hx. apply H. now apply Hk.
Qed.

(** The row a join makes of a left row holds all that the left row holds,
    whatever follows it. *)
Lemma joined_row_left (l : DataFrame) (li : nat) (lk : attr) (lr : row)
    (right : list attr) (Y : row) (a : attr) (v : value) :
  nth_error (schema l) li = Some lk -> List.length lr = List.length (schema l) ->
  carries l lr a v ->
  In (a, v) (combine (lk :: remove_at li (schema l) ++ right)
                     (cell lr li :: remove_at li lr ++ Y)).
Proof.
  intros Hlk Hlen Hc. unfold carries in Hc. cbn [combine].
  rewrite combine_app_same by (apply same_length_remove_at; now rewrite Hlen).
  rewrite combine_remove_at.
  destruct (in_remove_at_or li _ _ Hc) as [Hin'|Hn].
  - right. apply in_or_app. now left.
  - left. apply nth_error_combine_inv in Hn as [Ha Hv].
    unfold cell. rewrite (nth_error_nth _ _ _ Hv). congruence.
Qed.

(** A row of a join comes from a row of its left side, and holds all that
    row holds. *)
Lemma join_row_from_left (l r j : DataFrame) (key : string) (how : join_type)
    (ids : list nat) :
  well_formed l -> join l r key how ids = Ok j ->
  forall o, In o (rows j) ->
    exists lr, In lr (rows l) /\ forall a v, carries l lr a v -> carries j o a v.
Proof.
  intros Wl H o Ho.
  apply join_inv in H as (li & ri & lk & _ & _ & Hlk & Hs & Hrows).
  rewrite Hrows in Ho. apply in_flat_map in Ho as (lr & Hlr & Ho).
  exists lr. split; [exact Hlr|]. intros a v Hc.
  unfold well_formed in Wl. rewrite Forall_forall in Wl.
  unfold carries at 1. rewrite Hs. unfold joined_rows in Ho.
  destruct (filter _ (rows r)) as [|m ms].
  - destruct how; [destruct Ho|]. destruct Ho as [<-|[]].
    now apply joined_row_left; [|apply Wl|].
  - assert (Ho' : In o (map (fun rr => cell lr li :: remove_at li lr ++ remove_at ri rr)
                            (m :: ms))) by (destruct how; exact Ho).
    apply in_map_iff in Ho' as (rr & <- & _).
    now apply joined_row_left; [|apply Wl|].
Qed.

(** A left join keeps, in each of its rows, all that the left row holds. *)
Lemma join_left_carries (l r j : DataFrame) (key : string) (ids : list nat) :
  well_formed l -> join l r key LeftOuter ids = Ok j ->
  carried_over (fun _ => True) l j.
Proof.
  intros Wl H. split.
  - intros lr Hlr.
    pose proof (join_inv _ _ _ _ _ _ H) as (li & ri & lk & _ & _ & Hlk & Hs & Hrows).
    set (ms := filter (key_matches (cell lr li) ri) (rows r)).
    assert (Hex : exists Y, In (cell lr li :: remove_at li lr ++ Y)
                               (joined_rows LeftOuter li ri
                                  (List.length (schema r) - 1) lr ms)).
    { unfold joined_rows. destruct ms as [|m ms']; eexists; left; reflexivity. }
    destruct Hex as (Y & HY).
    exists (cell lr li :: remove_at li lr ++ Y). split.
    + rewrite Hrows. apply in_flat_map. exists lr. split; [exact Hlr | exact HY].
    + intros a v _ Hc. unfold carries at 1. rewrite Hs.
      unfold well_formed in Wl. rewrite Forall_forall in Wl.
      now apply joined_row_left; [|apply Wl|].
  - intros o Ho.
    destruct (join_row_from_left _ _ _ _ _ _ Wl H o Ho) as (lr & Hlr & Hc).
    exists lr. split; [exact Hlr|]. intros a v _. apply Hc.
Qed.

Lemma combine_keep_mask {A B} (mask : list bool) : forall (a : list A) (b : list B),
  combine (keep_mask mask a) (keep_mask mask b) = keep_mask mask (combine a b).
Proof.
  induction mask as [|m mask IH]; intros [|x a] [|y b]; cbn; try reflexivity.
  - now destruct (if m then _ else _).
  - destruct m; cbn; now rewrite IH.
Qed.

Lemma in_keep_mask_combine (f : attr -> bool) (sch : list attr) : forall (r : row) a v,
  In (a, v) (combine sch r) -> f a = true ->
  In (a, v) (keep_mask (map f sch) (combine sch r)).
Proof.
  induction sch as [|x sch IH]; intros [|y r] a v Hin Hf; try destruct Hin.
  - injection H as <- <-. cbn. rewrite Hf. now left.
  - cbn. destruct (f x); [right|]; now apply IH.
Qed.

(** Dropping an attribute keeps what every row holds under the others. *)
Lemma drop_carries (df : DataFrame) (ref : attr) :
  carried_over (fun a => expr_id a <> expr_id ref) df (drop df ref).
Proof.
  assert (H : forall r a v, expr_id a <> expr_id ref -> carries df r a v ->
             carries (drop df ref)
               (keep_mask (map (fun a => negb (expr_id a =? expr_id ref)) (schema df)) r)
               a v).
  { intros r a v Hk Hc. unfold carries, drop. cbn [schema].
    rewrite combine_keep_mask. apply in_keep_mask_combine; [exact Hc|].
    apply negb_true_iff. now apply Nat.eqb_neq. }
  split.
  - intros r Hr. eexists. split; [|intros a v; apply H].
    unfold drop. cbn [rows]. now apply in_map.
  - intros r' Hr'. unfold drop in Hr'. cbn [rows] in Hr'.
    apply in_map_iff in Hr' as (r & <- & Hr). exists r. split; [exact Hr|].
    intros a v. apply H.
Qed.

Lemma in_combine_app {A B} (a x : list A) (b y : list B) (p : A * B) :
  In p (combine a b) -> In p (combine (a ++ x) (b ++ y)).
Proof.
  revert b. induction a as [|u a IH]; intros [|v b] H;
    cbn [combine app In] in *; try contradiction.
  destruct H as [<-|H]; [now left|right; now apply IH].
Qed.

Lemma in_combine_set_where (f : attr -> bool) (a' : attr) (v' : value)
    (sch : list attr) : forall (r : row) a v,
  In (a, v) (combine sch r) -> f a = false ->
  In (a, v) (combine (set_where (map f sch) a' sch) (set_where (map f sch) v' r)).
Proof.
  induction sch as [|x sch IH]; intros [|y r] a v Hin Hf; try destruct Hin.
  - injection H as <- <-. cbn. rewrite Hf. now left.
  - cbn [map set_where combine]. right. now apply IH.
Qed.

(** A literal column keeps what every row holds under the other names,
    whether it goes last or takes the place of a column. *)
Lemma stamp_carries (df out : DataFrame) (name : string) (v' : value) (id : nat) :
  withColumn df name (Lit v') id = Ok out ->
  carried_over (fun a => name_eqb (col_name a) name = false) df out.
Proof.
  intros H.
  destruct (withColumn_lit_cases _ _ _ _ _ H) as [[_ ->] | (i & _ & ->)].
  - split.
    + intros r Hr. exists (r ++ [v']).
      split; [cbn [rows]; now apply (in_map (fun r => r ++ [v']))|].
      intros a v _ Hc. unfold carries in *. cbn [schema]. now apply in_combine_app.
    + intros r' Hr'. cbn [rows] in Hr'. apply in_map_iff in Hr' as (r & <- & Hr).
      exists r. split; [exact Hr|].
      intros a v _ Hc. unfold carries in *. cbn [schema]. now apply in_combine_app.
  - set (mask := map (fun a => name_eqb (col_name a) name) (schema df)).
    split.
    + intros r Hr. exists (set_where mask v' r).
      split; [cbn [rows]; now apply in_map|].
      intros a v Ha Hc. unfold carries in *. cbn [schema].
      now apply (in_combine_set_where (fun a => name_eqb (col_name a) name)).
    + intros r' Hr'. cbn [rows] in Hr'. apply in_map_iff in Hr' as (r & <- & Hr).
      exists r. split; [exact Hr|].
      intros a v Ha Hc. unfold carries in *. cbn [schema].
      now apply (in_combine_set_where (fun a => name_eqb (col_name a) name)).
Qed.

(** What a row holds under an attribute is the cell at the position the
    attribute's name resolves to. *)
Lemma carries_cell (df : DataFrame) (r : row) (a a' : attr) (v : value) (i : nat) :
  carries df r a v -> resolve df (col_name a) = Ok (i, a') -> cell r i = v /\ a' = a.
Proof.
  intros Hc Hr. apply carries_at in Hc as (p & Ha & Hv).
  pose proof (resolve_unique df _ (i, a') p a Hr Ha (name_eqb_refl _)) as E.
  cbn [fst] in E. subst p.
  split; [unfold cell; now apply nth_error_nth|].
  apply resolve_ok in Hr as (_ & -> & _).
  rewrite (id_at_nth _ _ _ Ha). now destruct a.
Qed.

(** An attribute of a frame that is not its timestamp column has another
    name. *)
Lemma kept_not_stamp (df : DataFrame) (ref a : attr) :
  getitem df "etl_inserted" = Ok ref -> In a (schema df) ->
  not_timestamp_of df a -> name_eqb (col_name a) "etl_inserted" = false.
Proof.
  intros Hg Hin Hk.
  destruct (name_eqb (col_name a) "etl_inserted") eqn:E; [exfalso | reflexivity].
  pose proof (dropped_by_reference df _ ref a Hg Hin E) as Hid.
  apply getitem_ok in Hg as (i & Hg). exact (Hk _ _ Hg Hid).
Qed.

(** X15 (the wide table keeps the order item).  With well-formed frames of
    order items, products and sellers: when the wide-order-items transform
    returns, every order item has a row in its frame, and every row of its
    frame comes from an order item, such that whatever the order item holds
    under an attribute that was not dropped (none of the three [etl_inserted]
    attributes) the row holds too; the column of that name, where the frame
    has just one, shows the order item's cell unchanged. *)
Theorem wide_keeps_order_item_fields :
  forall (W : Type) (h : env W) (self : TableETL)
         (d0 d1 d2 d3 d4 : ETLDataSet) (rest : list ETLDataSet) (w : W)
         (ds : ETLDataSet) (self' : TableETL),
    well_formed (ds_current_data d0) ->
    well_formed (ds_current_data d1) ->
    well_formed (ds_current_data d2) ->
    outcome (interp h (WideOrderItemsGoldETL.transform_upstream self
                         (d0 :: d1 :: d2 :: d3 :: d4 :: rest)) w) = Ok (ds, self') ->
    let order_items := ds_current_data d0 in
    let wide := ds_current_data ds in
    let kept (a : attr) :=
      not_timestamp_of (ds_current_data d0) a /\
      not_timestamp_of (ds_current_data d1) a /\
      not_timestamp_of (ds_current_data d2) a in
    let shown (item row : row) :=
      forall a v, kept a -> carries order_items item a v ->
        carries wide row a v /\
        forall i a', resolve wide (col_name a) = Ok (i, a') -> cell row i = v in
    (forall item, In item (rows order_items) ->
       exists row, In row (rows wide) /\ shown item row) /\
    (forall row, In row (rows wide) ->
       exists item, In item (rows order_items) /\ shown item row).
Proof.
  intros W h self d0 d1 d2 d3 d4 rest w ds self' W0 W1 W2 H order_items wide kept shown.
  destruct (wide_transform_inv h self _ w ds self' H)
    as (e0 & e1 & e2 & e3 & e4 & t & ids1 & j1 & ids2 & j2 & ids3 & bridged
        & category_ts & bridge_ts & id_categories & grain & ids4 & j3 & fact_ts
        & product_ts & seller_ts & id_ts & stamped & (H0 & H1 & H2 & _ & _)
        & Hj1 & Hj2 & _ & _ & _ & Hg & Hj3 & Hft & Hpt & Hst & Hs & -> & _ & _).
  cbn [nth_error] in H0, H1, H2.
  injection H0 as <-. injection H1 as <-. injection H2 as <-.
  set (joined := drop (drop (drop j3 fact_ts) product_ts) seller_ts) in *.
  assert (Wj1 : well_formed j1) by (eapply join_well_formed; [| |exact Hj1]; assumption).
  assert (Wj2 : well_formed j2) by (eapply join_well_formed; [| |exact Hj2]; assumption).
  set (keep := fun a => (expr_id a <> expr_id fact_ts /\
                         expr_id a <> expr_id product_ts /\
                         expr_id a <> expr_id seller_ts) /\
                        name_eqb (col_name a) "etl_inserted" = false).
  assert (Hkeep : forall a, kept a -> In a (schema order_items) -> keep a).
  { intros a (K0 & K1 & K2) Hin. split.
    - apply getitem_ok in Hft as (i0 & Hft'). apply getitem_ok in Hpt as (i1 & Hpt').
      apply getitem_ok in Hst as (i2 & Hst').
      split; [exact (K0 _ _ Hft')|]. split; [exact (K1 _ _ Hpt')|].
      exact (K2 _ _ Hst').
    - exact (kept_not_stamp _ _ _ Hft Hin K0). }
  assert (Hall : carried_over keep order_items wide).
  { unfold wide. cbn [envelope ds_current_data].
    eapply carried_over_trans;
      [apply (carried_over_weaken (fun _ => True)); [tauto|];
       exact (join_left_carries _ _ _ _ _ W0 Hj1)|].
    eapply carried_over_trans;
      [apply (carried_over_weaken (fun _ => True)); [tauto|];
       exact (join_left_carries _ _ _ _ _ Wj1 Hj2)|].
    eapply carried_over_trans;
      [apply (carried_over_weaken (fun _ => True)); [tauto|];
       exact (join_left_carries _ _ _ _ _ Wj2 Hj3)|].
    eapply carried_over_trans;
      [apply (carried_over_weaken (fun a => expr_id a <> expr_id fact_ts));
       [unfold keep; tauto|]; apply drop_carries|].
    eapply carried_over_trans;
      [apply (carried_over_weaken (fun a => expr_id a <> expr_id product_ts));
       [unfold keep; tauto|]; apply drop_carries|].
    eapply carried_over_trans;
      [apply (carried_over_weaken (fun a => expr_id a <> expr_id seller_ts));
       [unfold keep; tauto|]; apply drop_carries|].
    apply (carried_over_weaken
             (fun a => name_eqb (col_name a) "etl_inserted" = false));
      [unfold keep; tauto|].
    exact (stamp_carries _ _ _ _ _ Hs). }
  destruct Hall as [Hto Hfrom]. split.
  - intros item Hin. destruct (Hto item Hin) as (row & Hrow & Hc).
    exists row. split; [exact Hrow|]. intros a v Hk Hi.
    pose proof (Hc a v (Hkeep a Hk (carries_in _ _ _ _ Hi)) Hi) as Hw.
    split; [exact Hw|].
    intros i a' Hr. exact (proj1 (carries_cell wide row a a' v i Hw Hr)).
  - intros row Hrow. destruct (Hfrom row Hrow) as (item & Hin & Hc).
    exists item. split; [exact Hin|]. intros a v Hk Hi.
    pose proof (Hc a v (Hkeep a Hk (carries_in _ _ _ _ Hi)) Hi) as Hw.
    split; [exact Hw|].
    intros i a' Hr. exact (proj1 (carries_cell wide row a a' v i Hw Hr)).
Qed.

(** The sample order item: its [order_item_id], 1, and its [quantity], 2,
    are in the one row of the wide table, in the third and the fifth
    column. *)
Lemma wide_keeps_order_item_fields_witness :
  exists row,
    In row (rows Examples.wide_order_items) /\
    cell row 2 = VInt 1 /\ cell row 4 = VInt 2.
Proof.
  destruct (proj1 (wide_keeps_order_item_fields _ Examples.engine
                     (Examples.wide_unit false)
                     (Examples.wrap "fact_order_items" Examples.fact_order_items)
                     (Examples.wrap "dim_product" Examples.dim_product)
                     (Examples.wrap "dim_seller" Examples.dim_seller)
                     (Examples.wrap "product_category" Examples.product_category)
                     (Examples.wrap "dim_category" Examples.dim_category) [] 0
                     (envelope (Examples.wide_unit false) Examples.wide_order_items)
                     (set_current_data (Examples.wide_unit false)
                                       Examples.wide_order_items)
                     ltac:(repeat constructor) ltac:(repeat constructor)
                     ltac:(repeat constructor) eq_refl)
                  [VInt 1; VInt 100; VInt 500; VInt 10; VInt 2; VDecimal 10 2 10000;
                   VDecimal 10 2 9000; VTimestamp Examples.t1; VDecimal 10 2 1000;
                   VTimestamp Examples.t1]
                  (or_introl eq_refl))
    as (row & Hrow & Hshown).
  assert (K : forall n, n <> 20 -> n <> 23 -> n <> 33 ->
            forall name,
            not_timestamp_of Examples.fact_order_items (mk_attr n name) /\
            not_timestamp_of Examples.dim_product (mk_attr n name) /\
            not_timestamp_of Examples.dim_seller (mk_attr n name)).
  { intros n N0 N1 N2 name.
    repeat split; intros i ts E; vm_compute in E; injection E as <- <-; assumption. }
  exists row. split; [exact Hrow|]. split.
  - refine (proj2 (Hshown (mk_attr 11 "order_item_id") (VInt 1) _ _) 2 _ eq_refl).
    + apply K; discriminate.
    + left. reflexivity.
  - refine (proj2 (Hshown (mk_attr 15 "quantity") (VInt 2) _ _) 4 _ eq_refl).
    + apply K; discriminate.
    + do 4 right. left. reflexivity.
Defined.

(** ** What the wide table shows of products and sellers *)

Lemma in_combine_repeat {A B} (l : list A) (a : A) (v : B) :
  In a l -> In (a, v) (combine l (repeat v (List.length l))).
Proof.
  induction l as [|x l IH]; intros H; [destruct H|].
  cbn [List.length repeat combine]. destruct H as [<-|H]; [now left|right; auto].
Qed.

(** *** The key of a join is the first column of its name *)

Lemma positions_from_find (key : string) (sch : list attr) : forall k i rest,
  positions_from k key sch = i :: rest ->
  k <= i /\ nth_error sch (i - k) = find (named key) sch.
Proof.
  induction sch as [|b sch IH]; intros k i rest H; [discriminate H|].
  cbn [positions_from find] in *. unfold named at 1.
  destruct (name_eqb (col_name b) key).
  - injection H as <- _. split; [lia|]. now rewrite Nat.sub_diag.
  - apply IH in H as [Hk Hn]. split; [lia|].
    replace (i - k) with (S (i - S k)) by lia. exact Hn.
Qed.

Lemma positions_find (key : string) (sch : list attr) (i : nat) (rest : list nat) :
  positions key sch = i :: rest -> nth_error sch i = find (named key) sch.
Proof.
  intros H. apply positions_from_find in H as [_ H]. now rewrite Nat.sub_0_r in H.
Qed.

Lemma key_position_find (sch : list attr) (key : string) (i : nat) :
  key_position sch key = Ok i -> nth_error sch i = find (named key) sch.
Proof.
  intros H. apply key_position_ok in H as (_ & rest & _ & _ & Hp & _).
  exact (positions_find _ _ _ _ Hp).
Qed.

Lemma resolve_find (df : DataFrame) (key : string) (i : nat) (a : attr) :
  resolve df key = Ok (i, a) -> nth_error (schema df) i = find (named key) (schema df).
Proof.
  intros H. apply resolve_ok in H as (Hp & _). exact (positions_find _ _ _ _ Hp).
Qed.

Lemma find_app {A} (p : A -> bool) (l1 l2 : list A) :
  find p (l1 ++ l2) = match find p l1 with Some x => Some x | None => find p l2 end.
Proof.
  induction l1 as [|x l1 IH]; [reflexivity|]. cbn [app find].
  now destruct (p x).
Qed.

Lemma find_remove_at {A} (p : A -> bool) (i : nat) : forall l : list A,
  (forall x, nth_error l i = Some x -> p x = false) ->
  find p (remove_at i l) = find p l.
Proof.
  induction i as [|i IH]; intros [|x l] H;
    rewrite ?remove_at_nil, ?remove_at_head, ?remove_at_cons; try reflexivity.
  - cbn [find]. now rewrite (H x eq_refl).
  - cbn [find]. destruct (p x); [reflexivity|]. apply IH. intros y Hy. now apply H.
Qed.

(** The first column of a join bears the name of its key. *)
Lemma join_key_first (l r j : DataFrame) (key : string) (how : join_type)
    (ids : list nat) (li : nat) :
  join l r key how ids = Ok j -> key_position (schema l) key = Ok li ->
  find (named key) (schema j) = nth_error (schema l) li.
Proof.
  intros H Hl. apply join_inv in H as (li' & ri & lk & Hl' & _ & Hlk & Hs & _).
  rewrite Hl in Hl'. injection Hl' as <-.
  apply key_position_ok in Hl as (a & _ & Ha & Hn & _).
  rewrite Hs, Hlk. cbn [find]. unfold named at 1.
  rewrite Ha in Hlk. injection Hlk as <-. now rewrite Hn.
Qed.

(** Under another name, the first column of a join is the first of the left
    side, where the left side has one. *)
Lemma join_key_of_left (l r j : DataFrame) (key : string) (how : join_type)
    (ids : list nat) (other : string) (b : attr) :
  join l r key how ids = Ok j -> name_eqb key other = false ->
  find (named other) (schema l) = Some b ->
  find (named other) (schema j) = Some b.
Proof.
  intros H Hne Hb. apply join_inv in H as (li & ri & lk & Hl & _ & Hlk & Hs & _).
  apply key_position_ok in Hl as (a & _ & Ha & Hn & _).
  rewrite Hlk in Ha. injection Ha as <-.
  assert (Hk : named other lk = false)
    by (unfold named; now rewrite (name_eqb_left _ _ other Hn)).
  rewrite Hs. cbn [find]. rewrite Hk, find_app, find_remove_at, Hb; [reflexivity|].
  intros x Hx. congruence.
Qed.

Lemma count_occ_once_nth (l : list attr) (n : nat) : forall (p q : nat) (x y : attr),
  count_occ Nat.eq_dec (map expr_id l) n = 1 ->
  nth_error l p = Some x -> nth_error l q = Some y ->
  expr_id x = n -> expr_id y = n -> p = q.
Proof.
  induction l as [|a l IH]; intros p q x y Hc Hp Hq Hx Hy;
    [destruct p; discriminate Hp|].
  assert (Hin : forall k z, nth_error l k = Some z -> expr_id z = n ->
                            count_occ Nat.eq_dec (map expr_id l) n > 0).
  { intros k z Hk Hz. apply count_occ_In. rewrite <- Hz.
    apply in_map. eapply nth_error_In, Hk. }
  cbn [map count_occ] in Hc.
  destruct (Nat.eq_dec (expr_id a) n) as [Ea|Ea].
  - destruct p as [|p], q as [|q]; [reflexivity | | |]; cbn [nth_error] in Hp, Hq.
    + pose proof (Hin q y Hq Hy). lia.
    + pose proof (Hin p x Hp Hx). lia.
    + pose proof (Hin p x Hp Hx). lia.
  - destruct p as [|p], q as [|q]; cbn [nth_error] in Hp, Hq.
    + reflexivity.
    + injection Hp as ->. contradiction.
    + injection Hq as ->. contradiction.
    + f_equal. exact (IH p q x y Hc Hp Hq Hx Hy).
Qed.

(** What a row holds under the key attribute of a join is its key. *)
Lemma key_cell (df : DataFrame) (key : string) (i : nat) (b : attr) (r : row)
    (v : value) :
  key_position (schema df) key = Ok i -> nth_error (schema df) i = Some b ->
  carries df r b v -> cell r i = v.
Proof.
  intros Hk Hb Hc. apply key_position_ok in Hk as (a & _ & Ha & _ & _ & Hone).
  rewrite Hb in Ha. injection Ha as <-.
  apply carries_at in Hc as (p & Hp & Hv).
  rewrite (count_occ_once_nth _ _ i p b b Hone Hb Hp eq_refl eq_refl).
  unfold cell. now apply nth_error_nth.
Qed.

Lemma carries_own_cell (df : DataFrame) (r : row) (i : nat) (b : attr) :
  well_formed df -> In r (rows df) -> nth_error (schema df) i = Some b ->
  carries df r b (cell r i).
Proof.
  intros Wf Hin Hb. apply carries_at. exists i. split; [exact Hb|].
  unfold well_formed in Wf. rewrite Forall_forall in Wf.
  unfold cell. apply nth_error_nth'. rewrite (Wf r Hin).
  apply nth_error_Some. congruence.
Qed.

(** *** Where a row of a left join comes from *)

(** The row a join makes of a right row holds all that the right row
    holds, its key apart. *)
Lemma joined_row_right (left right : list attr) (lk : attr) (k : value)
    (lrest rr : row) (ri : nat) (a : attr) (v : value) :
  List.length lrest = List.length left ->
  In (a, v) (combine right rr) -> expr_id a <> id_at right ri ->
  In (a, v) (combine (lk :: left ++ remove_at ri right)
                     (k :: lrest ++ remove_at ri rr)).
Proof.
  intros Hlen Hin Hne. cbn [combine]. right.
  rewrite combine_app_same by now rewrite Hlen.
  apply in_or_app. right. rewrite combine_remove_at.
  destruct (in_remove_at_or ri _ _ Hin) as [Hin'|Hn]; [exact Hin'|].
  exfalso. apply Hne. apply nth_error_combine_inv in Hn as [Ha _].
  symmetry. now apply id_at_nth.
Qed.

(** A row of a left join whose right side was not renumbered: a left row,
    and the right row that matched it or nulls. *)
Lemma join_left_row_from (l r j : DataFrame) (key : string) (ids : list nat)
    (li ri : nat) (rk : attr) :
  well_formed l -> well_formed r -> join l r key LeftOuter ids = Ok j ->
  renumber (schema r) ids = schema r ->
  key_position (schema l) key = Ok li -> key_position (schema r) key = Ok ri ->
  id_at (schema r) ri = expr_id rk ->
  forall o, In o (rows j) ->
  exists lr, In lr (rows l) /\
    (forall a v, carries l lr a v -> carries j o a v) /\
    joined_side (fun _ => True) j o r ri rk (cell lr li).
Proof.
  intros Wl Wr Hj Hkeep Hl Hr Hrk o Ho.
  pose proof (join_inv _ _ _ _ _ _ Hj) as (li' & ri' & lk & Hl' & Hr' & Hlk & Hs & Hrows).
  rewrite Hl in Hl'. injection Hl' as <-. rewrite Hr in Hr'. injection Hr' as <-.
  rewrite Hkeep in Hs.
  pose proof (key_position_lt _ _ _ Hr) as Hrt.
  rewrite Hrows in Ho. apply in_flat_map in Ho as (lr & Hin & Ho).
  unfold well_formed in Wl, Wr. rewrite Forall_forall in Wl, Wr.
  pose proof (Wl lr Hin) as Hlen.
  assert (Hleft : forall Y a v, carries l lr a v ->
            In (a, v) (combine (schema j) (cell lr li :: remove_at li lr ++ Y))).
  { intros Y a v Hc. rewrite Hs. now apply joined_row_left. }
  exists lr. split; [exact Hin|].
  unfold joined_rows in Ho.
  destruct (filter (key_matches (cell lr li) ri) (rows r)) as [|m ms'] eqn:Ems.
  - destruct Ho as [<-|[]]. split; [intros a v; apply Hleft|].
    right. split.
    + intros q Hq. destruct (key_matches (cell lr li) ri q) eqn:E; [|reflexivity].
      assert (Hq' : In q (filter (key_matches (cell lr li) ri) (rows r)))
        by (apply filter_In; now split).
      rewrite Ems in Hq'. destruct Hq'.
    + intros a _ Hne Ha. unfold carries. rewrite Hs. cbn [combine]. right.
      rewrite combine_app_same by (apply same_length_remove_at; now rewrite Hlen).
      apply in_or_app. right.
      replace (List.length (schema r) - 1) with (List.length (remove_at ri (schema r)))
        by (apply length_remove_at; exact Hrt).
      apply in_combine_repeat.
      destruct (in_remove_at_or ri _ _ Ha) as [Hin'|Hn]; [exact Hin'|].
      exfalso. apply Hne. rewrite <- Hrk. symmetry. now apply id_at_nth.
  - apply in_map_iff in Ho as (rr & <- & Hrr).
    split; [intros a v; apply Hleft|].
    left. exists rr.
    assert (Hrr' : In rr (filter (key_matches (cell lr li) ri) (rows r)))
      by (rewrite Ems; exact Hrr).
    apply filter_In in Hrr' as [Hrin Hcond].
    split; [exact Hrin|]. split; [exact Hcond|].
    intros a v _ Hne Hc. unfold carries in *. rewrite Hs.
    apply joined_row_right;
      [apply same_length_remove_at; now rewrite Hlen | exact Hc | now rewrite Hrk].
Qed.

Lemma joined_side_carried (keep keep' : attr -> Prop) (mid wide side : DataFrame)
    (o row : row) (i : nat) (key_attr : attr) (k : value) :
  (forall a, keep' a -> keep a) ->
  (forall a v, keep' a -> carries mid o a v -> carries wide row a v) ->
  joined_side keep mid o side i key_attr k ->
  joined_side keep' wide row side i key_attr k.
Proof.
  intros Hk Hc [(q & Hq & Hm & Hf)|[Hnone Hnull]].
  - left. exists q. split; [exact Hq|]. split; [exact Hm|].
    intros a v Ka Hne Hs. apply Hc; [exact Ka|]. apply Hf; auto.
  - right. split; [exact Hnone|].
    intros a Ka Hne Hin. apply Hc; [exact Ka|]. apply Hnull; auto.
Qed.

Lemma resolve_id_at (df : DataFrame) (name : string) (i : nat) (a : attr) :
  resolve df name = Ok (i, a) -> id_at (schema df) i = expr_id a.
Proof. intros H. now apply resolve_ok in H as (_ & -> & _). Qed.

(** The requests of the transform in which the analyzer kept the ids of
    the right side. *)
Lemma kept_ids (trace : list call) (left right : list attr) (ids : list nat) :
  Forall keeps_ids trace -> In (RDeduplicate left right, AExprIds ids) trace ->
  renumber right ids = right.
Proof.
  intros H Hin. rewrite Forall_forall in H. exact (H _ Hin left right ids eq_refl).
Qed.

(** A literal column under a name the frame does not have keeps what every
    row holds. *)
Lemma stamp_fresh_carries (df out : DataFrame) (name : string) (v' : value) (id : nat) :
  positions name (schema df) = [] -> withColumn df name (Lit v') id = Ok out ->
  carried_over (fun _ => True) df out.
Proof.
  intros Hno H. destruct (stamp_carries _ _ _ _ _ H) as [Hto Hfrom].
  rewrite positions_none, Forall_forall in Hno.
  split.
  - intros r Hr. destruct (Hto r Hr) as (r' & Hr' & Hc). exists r'.
    split; [exact Hr'|]. intros a v _ Ha. apply Hc; [|exact Ha].
    apply Hno. exact (carries_in _ _ _ _ Ha).
  - intros r' Hr'. destruct (Hfrom r' Hr') as (r & Hr & Hc). exists r.
    split; [exact Hr|]. intros a v _ Ha. apply Hc; [|exact Ha].
    apply Hno. exact (carries_in _ _ _ _ Ha).
Qed.

(** X16 (products and sellers in the wide table).  With well-formed frames
    of order items, products and sellers, each with one [product_id] or
    [seller_id] column as the joins need them, and when the analyzer
    renumbered no attribute for a join (the five sides share none): when the
    wide-order-items transform returns, every row of its frame comes from an
    order item and holds all the order item holds; it holds all that a
    product with the order item's [product_id] holds, or null under each
    attribute of the products when there is no such product or the id is
    null; and likewise for the sellers and the order item's [seller_id].
    Attributes that were dropped, and the key attribute of the joined side,
    are left out.  The keys that were compared are of one type: the join of
    keys of different types is not described, and the run does not return
    there. *)
Theorem wide_row_shows_product_and_seller :
  forall (W : Type) (h : env W) (self : TableETL)
         (d0 d1 d2 d3 d4 : ETLDataSet) (rest : list ETLDataSet) (w : W)
         (ds : ETLDataSet) (self' : TableETL)
         (i_item_product i_item_seller i_product i_seller : nat)
         (a_item_product a_item_seller a_product a_seller : attr),
    well_formed (ds_current_data d0) ->
    well_formed (ds_current_data d1) ->
    well_formed (ds_current_data d2) ->
    resolve (ds_current_data d0) "product_id" = Ok (i_item_product, a_item_product) ->
    resolve (ds_current_data d0) "seller_id" = Ok (i_item_seller, a_item_seller) ->
    resolve (ds_current_data d1) "product_id" = Ok (i_product, a_product) ->
    resolve (ds_current_data d2) "seller_id" = Ok (i_seller, a_seller) ->
    outcome (interp h (WideOrderItemsGoldETL.transform_upstream self
                         (d0 :: d1 :: d2 :: d3 :: d4 :: rest)) w) = Ok (ds, self') ->
    Forall keeps_ids
           (trace (interp h (WideOrderItemsGoldETL.transform_upstream self
                               (d0 :: d1 :: d2 :: d3 :: d4 :: rest)) w)) ->
    let order_items := ds_current_data d0 in
    let products := ds_current_data d1 in
    let sellers := ds_current_data d2 in
    let wide := ds_current_data ds in
    let kept (a : attr) :=
      not_timestamp_of order_items a /\ not_timestamp_of products a /\
      not_timestamp_of sellers a in
    forall row, In row (rows wide) ->
      exists item, In item (rows order_items) /\
        (forall a v, kept a -> carries order_items item a v -> carries wide row a v) /\
        joined_side kept wide row products i_product a_product
                    (cell item i_item_product) /\
        joined_side kept wide row sellers i_seller a_seller
                    (cell item i_item_seller).
Proof.
  intros W h self d0 d1 d2 d3 d4 rest w ds self' i_fp i_fs i_p i_s a_fp a_fs a_p a_s
         W0 W1 W2 Rfp Rfs Rp Rs H Hids order_items products sellers wide kept row Hrow.
  destruct (wide_transform_inv h self _ w ds self' H)
    as (e0 & e1 & e2 & e3 & e4 & t & ids1 & j1 & ids2 & j2 & ids3 & bridged
        & category_ts & bridge_ts & id_categories & grain & ids4 & j3 & fact_ts
        & product_ts & seller_ts & id_ts & stamped & (H0 & H1 & H2 & _ & _)
        & Hj1 & Hj2 & _ & _ & _ & Hg & Hj3 & Hft & Hpt & Hst & Hs & -> & _ & Htr).
  cbn [nth_error] in H0, H1, H2.
  injection H0 as <-. injection H1 as <-. injection H2 as <-.
  rewrite Htr in Hids.
  assert (K1 : renumber (schema products) ids1 = schema products)
    by (eapply kept_ids; [exact Hids|]; cbn; tauto).
  assert (K2 : renumber (schema sellers) ids2 = schema sellers)
    by (eapply kept_ids; [exact Hids|]; cbn; tauto).
  set (joined := drop (drop (drop j3 fact_ts) product_ts) seller_ts) in *.
  assert (Hnames : forall a, In a (schema grain) ->
            col_name a = "product_id" \/ col_name a = "categories").
  { pose proof (groupBy_agg_schema _ _ _ _ Hg) as (k & Hk & Hsch & _).
    apply resolve_name in Hk. rewrite Hsch. cbn.
    intros a [<- | [<- | []]]; auto. }
  assert (Hno : positions "etl_inserted" (schema joined) = [])
    by (apply (no_timestamp_left order_items products sellers grain j1 j2 j3
                 ids1 ids2 ids4 fact_ts product_ts seller_ts);
        assumption).
  assert (Wj1 : well_formed j1) by (eapply join_well_formed; [| |exact Hj1]; assumption).
  assert (Wj2 : well_formed j2) by (eapply join_well_formed; [| |exact Hj2]; assumption).
  set (keep := fun a => expr_id a <> expr_id fact_ts /\
                        expr_id a <> expr_id product_ts /\
                        expr_id a <> expr_id seller_ts).
  assert (Hkeep : forall a, kept a -> keep a).
  { intros a (K0 & K1' & K2').
    apply getitem_ok in Hft as (i0 & Hft). apply getitem_ok in Hpt as (i1 & Hpt).
    apply getitem_ok in Hst as (i2 & Hst).
    unfold keep. split; [exact (K0 _ _ Hft)|]. split; [exact (K1' _ _ Hpt)|].
    exact (K2' _ _ Hst). }
  assert (Hall : carried_over keep j2 wide).
  { unfold wide. cbn [envelope ds_current_data].
    eapply carried_over_trans;
      [apply (carried_over_weaken (fun _ => True)); [tauto|];
       exact (join_left_carries _ _ _ _ _ Wj2 Hj3)|].
    eapply carried_over_trans;
      [apply (carried_over_weaken (fun a => expr_id a <> expr_id fact_ts));
       [unfold keep; tauto|]; apply drop_carries|].
    eapply carried_over_trans;
      [apply (carried_over_weaken (fun a => expr_id a <> expr_id product_ts));
       [unfold keep; tauto|]; apply drop_carries|].
    eapply carried_over_trans;
      [apply (carried_over_weaken (fun a => expr_id a <> expr_id seller_ts));
       [unfold keep; tauto|]; apply drop_carries|].
    apply (carried_over_weaken (fun _ => True)); [tauto|].
    exact (stamp_fresh_carries _ _ _ _ _ Hno Hs). }
  destruct (proj2 Hall row Hrow) as (o2 & Ho2 & C2).
  pose proof (join_inv _ _ _ _ _ _ Hj1) as (li1 & ri1 & _ & Hl1 & Hr1 & _).
  pose proof (join_inv _ _ _ _ _ _ Hj2) as (li2 & ri2 & _ & Hl2 & Hr2 & _).
  pose proof (key_position_resolve _ _ _ _ Rfp Hl1) as E. cbn [fst] in E. subst li1.
  pose proof (key_position_resolve _ _ _ _ Rp Hr1) as E. cbn [fst] in E. subst ri1.
  pose proof (key_position_resolve _ _ _ _ Rs Hr2) as E. cbn [fst] in E. subst ri2.
  destruct (join_left_row_from j1 sellers j2 "seller_id" ids2 li2 i_s a_s
              Wj1 W2 Hj2 K2 Hl2 Hr2 (resolve_id_at _ _ _ _ Rs) o2 Ho2)
    as (o1 & Ho1 & C1 & S1).
  destruct (join_left_row_from order_items products j1 "product_id" ids1 i_fp i_p a_p
              W0 W1 Hj1 K1 Hl1 Hr1 (resolve_id_at _ _ _ _ Rp) o1 Ho1)
    as (item & Hitem & C0 & P0).
  exists item. split; [exact Hitem|].
  assert (Hto : forall a v, kept a -> carries j1 o1 a v -> carries wide row a v).
  { intros a v Ka Hc. apply C2; [now apply Hkeep|]. now apply C1. }
  split; [|split].
  - intros a v Ka Hc. apply Hto; [exact Ka|]. now apply C0.
  - apply (joined_side_carried (fun _ => True) kept j1 wide products o1 row);
      [tauto|exact Hto|exact P0].
  - assert (Ek : cell o1 li2 = cell item i_fs).
    { pose proof (resolve_ok _ _ _ _ Rfs) as (_ & _ & b & Hb & _ & _).
      pose proof (carries_own_cell order_items item i_fs b W0 Hitem Hb) as Hown.
      apply C0 in Hown.
      assert (Hfind : find (named "seller_id") (schema j1) = Some b).
      { apply (join_key_of_left _ _ _ _ _ _ "seller_id" b Hj1 eq_refl).
        now rewrite <- (resolve_find _ _ _ _ Rfs). }
      rewrite <- (key_position_find _ _ _ Hl2) in Hfind.
      exact (key_cell j1 "seller_id" li2 b o1 _ Hl2 Hfind Hown). }
    rewrite <- Ek.
    apply (joined_side_carried (fun _ => True) kept j2 wide sellers o2 row);
      [tauto| |exact S1].
    intros a v Ka Hc. apply C2; [now apply Hkeep|exact Hc].
Qed.

(** The sample order item, of product 500 and seller 10: the one row of the
    wide table holds the product's name and the seller's. *)
Lemma wide_row_shows_product_and_seller_witness :
  exists row, In row (rows Examples.wide_order_items) /\
    carries Examples.wide_order_items row (mk_attr 22 "product_name") (VStr "kettle") /\
    carries Examples.wide_order_items row (mk_attr 32 "seller_name") (VStr "user_1").
Proof.
  destruct (rows Examples.wide_order_items) as [|row others] eqn:Erows;
    [discriminate Erows|].
  assert (Hrow : In row (rows Examples.wide_order_items))
    by (rewrite Erows; now left).
  exists row. split; [now left|]. clear Erows.
  assert (Hids : Forall keeps_ids
                   (trace (interp Examples.engine
                             (WideOrderItemsGoldETL.transform_upstream
                                (Examples.wide_unit false) Examples.wide_upstream) 0))).
  { vm_compute. repeat constructor; intros l r ids E; inversion E; reflexivity. }
  destruct (wide_row_shows_product_and_seller _ Examples.engine
              (Examples.wide_unit false)
              (Examples.wrap "fact_order_items" Examples.fact_order_items)
              (Examples.wrap "dim_product" Examples.dim_product)
              (Examples.wrap "dim_seller" Examples.dim_seller)
              (Examples.wrap "product_category" Examples.product_category)
              (Examples.wrap "dim_category" Examples.dim_category) [] 0
              (envelope (Examples.wide_unit false) Examples.wide_order_items)
              (set_current_data (Examples.wide_unit false) Examples.wide_order_items)
              2 3 0 0 (mk_attr 13 "product_id") (mk_attr 14 "seller_id")
              (mk_attr 21 "product_id") (mk_attr 31 "seller_id")
              ltac:(repeat constructor) ltac:(repeat constructor)
              ltac:(repeat constructor) eq_refl eq_refl eq_refl eq_refl eq_refl
              Hids row Hrow)
    as (item & Hitem & _ & HP & HS).
  destruct Hitem as [<-|[]].
  assert (K : forall n, n <> 20 -> n <> 23 -> n <> 33 ->
            forall name,
            not_timestamp_of Examples.fact_order_items (mk_attr n name) /\
            not_timestamp_of Examples.dim_product (mk_attr n name) /\
            not_timestamp_of Examples.dim_seller (mk_attr n name)).
  { intros n N0 N1 N2 name.
    repeat split; intros i ts E; vm_compute in E; injection E as <- <-; assumption. }
  split.
  - destruct HP as [(q & Hq & _ & Hf)|[Hnone _]].
    + destruct Hq as [<-|[]]. apply Hf.
      * apply K; discriminate.
      * discriminate.
      * right. left. reflexivity.
    + specialize (Hnone _ (or_introl eq_refl)). discriminate Hnone.
  - destruct HS as [(q & Hq & _ & Hf)|[Hnone _]].
    + destruct Hq as [<-|[]]. apply Hf.
      * apply K; discriminate.
      * discriminate.
      * right. left. reflexivity.
    + specialize (Hnone _ (or_introl eq_refl)). discriminate Hnone.
Defined.

(** ** The categories of a product *)

Lemma joined_rows_inner (li ri width : nat) (lr : row) (ms : list row) :
  joined_rows Inner li ri width lr ms
  = map (fun rr => cell lr li :: remove_at li lr ++ remove_at ri rr) ms.
Proof. now destruct ms. Qed.

(** Where a row of an inner join comes from, and which pairs give one; the
    right side was not renumbered. *)
Lemma join_inner_rows (l r j : DataFrame) (key : string) (ids : list nat)
    (li ri : nat) :
  well_formed l -> well_formed r -> join l r key Inner ids = Ok j ->
  renumber (schema r) ids = schema r ->
  key_position (schema l) key = Ok li -> key_position (schema r) key = Ok ri ->
  let from (o lr rr : row) :=
    (forall a v, carries l lr a v -> carries j o a v) /\
    (forall a v, expr_id a <> id_at (schema r) ri ->
                 carries r rr a v -> carries j o a v) in
  (forall o, In o (rows j) ->
     exists lr rr, In lr (rows l) /\ In rr (rows r) /\
                   key_matches (cell lr li) ri rr = true /\ from o lr rr) /\
  (forall lr rr, In lr (rows l) -> In rr (rows r) ->
     key_matches (cell lr li) ri rr = true ->
     exists o, In o (rows j) /\ from o lr rr).
Proof.
  intros Wl Wr Hj Hkeep Hl Hr from.
  pose proof (join_inv _ _ _ _ _ _ Hj) as (li' & ri' & lk & Hl' & Hr' & Hlk & Hs & Hrows).
  rewrite Hl in Hl'. injection Hl' as <-. rewrite Hr in Hr'. injection Hr' as <-.
  rewrite Hkeep in Hs.
  unfold well_formed in Wl, Wr. rewrite Forall_forall in Wl, Wr.
  assert (Hfrom : forall lr rr, In lr (rows l) -> In rr (rows r) ->
            from (cell lr li :: remove_at li lr ++ remove_at ri rr) lr rr).
  { intros lr rr Hlr Hrr. pose proof (Wl lr Hlr) as Hlen.
    split; intros a v.
    - intros Hc. unfold carries at 1. rewrite Hs. now apply joined_row_left.
    - intros Hne Hc. unfold carries in *. rewrite Hs.
      apply joined_row_right;
        [apply same_length_remove_at; now rewrite Hlen | exact Hc | exact Hne]. }
  split.
  - intros o Ho. rewrite Hrows in Ho.
    apply in_flat_map in Ho as (lr & Hlr & Ho).
    rewrite joined_rows_inner in Ho.
    apply in_map_iff in Ho as (rr & <- & Hrr).
    apply filter_In in Hrr as [Hrr Hm].
    exists lr, rr. repeat split; try assumption; now apply Hfrom.
  - intros lr rr Hlr Hrr Hm.
    exists (cell lr li :: remove_at li lr ++ remove_at ri rr). split.
    + rewrite Hrows. apply in_flat_map. exists lr. split; [exact Hlr|].
      rewrite joined_rows_inner.
      apply (in_map (fun rr => cell lr li :: remove_at li lr ++ remove_at ri rr)).
      apply filter_In. now split.
    + now apply Hfrom.
Qed.

Lemma Forall2_right_in {A B} (R : A -> B -> Prop) (l : list A) (l' : list B) (y : B) :
  Forall2 R l l' -> In y l' -> exists x, In x l /\ R x y.
Proof.
  induction 1 as [|x y' l l' Hxy _ IH]; intros Hin; [destruct Hin|].
  destruct Hin as [<-|Hin].
  - exists x. split; [now left | exact Hxy].
  - destruct (IH Hin) as (x' & Hx' & Hr). exists x'. split; [now right | exact Hr].
Qed.

(** The rows of a grouping that gathers structs. *)
Lemma groupBy_collect_rows (df out : DataFrame) (key : string) (names : list string)
    (attr_c : attr) (ik : nat) (ak : attr) :
  groupBy_agg df key [(CollectListStruct names, attr_c)] = Ok out ->
  resolve df key = Ok (ik, ak) ->
  (forall g, In g (rows out) ->
     exists kv ixs,
       rmap_list (resolve df) names = Ok ixs /\
       g = [kv; VArray (map (fun r => VStruct (map (fun i => cell r (fst i)) ixs))
                            (filter (fun r => value_eqb (cell r ik) kv) (rows df)))]) /\
  (forall r, In r (rows df) ->
     exists g, In g (rows out) /\ value_eqb (cell r ik) (cell g 0) = true).
Proof.
  intros H Hk. split.
  - pose proof (groupBy_agg_inv _ _ _ _ H) as (k & fs & Hk' & Hfs & _ & Hrows).
    rewrite Hk in Hk'. injection Hk' as <-. cbn [fst] in Hrows.
    cbn [rmap_list fst bind_agg] in Hfs.
    apply rbind_ok in Hfs as (f & Hf & Hfs). injection Hfs as <-.
    apply rbind_ok in Hf as (ixs & Hix & Hf). injection Hf as <-.
    intros g Hg. apply (Forall2_right_in _ _ _ _ Hrows) in Hg as (kv & _ & vs & Hvs & ->).
    cbn [rmap_list rbind] in Hvs. injection Hvs as <-. eauto.
  - intros r Hr.
    destruct (distinct_keys_cover (map (fun r => cell r ik) (rows df)) [] (cell r ik))
      as (d & Hd & Hrd).
    + now apply (in_map (fun r => cell r ik)).
    + reflexivity.
    + pose proof (groupBy_agg_keys _ _ _ _ (ik, ak) H Hk) as Hkeys. cbn [fst] in Hkeys.
      rewrite <- Hkeys in Hd. apply in_map_iff in Hd as (g & <- & Hg).
      exists g. split; [exact Hg | exact Hrd].
Qed.

Lemma distinct_ids_tell_apart (l : list attr) (x y : attr) :
  NoDup (map expr_id l) -> In x l -> In y l -> expr_id x = expr_id y -> x = y.
Proof.
  induction l as [|a l IH]; intros Hn Hx Hy E; [destruct Hx|].
  cbn [map] in Hn. apply NoDup_cons_iff in Hn as [Hna Hn].
  destruct Hx as [->|Hx], Hy as [->|Hy]; auto.
  - exfalso. apply Hna. rewrite E. now apply in_map.
  - exfalso. apply Hna. rewrite <- E. now apply in_map.
Qed.

(** Attributes of different names, among attributes told apart by their
    ids, have different ids. *)
Lemma ids_differ_by_name (l : list attr) (x y : attr) (name : string) :
  NoDup (map expr_id l) -> In x l -> In y l ->
  named name x = false -> named name y = true ->
  expr_id x <> expr_id y.
Proof.
  intros Hn Hx Hy Nx Ny E.
  rewrite (distinct_ids_tell_apart l x y Hn Hx Hy E) in Nx. congruence.
Qed.

(** What a row holds under an attribute is the cell at the position any
    spelling of the attribute's name resolves to. *)
Lemma carries_named_cell (df : DataFrame) (r : row) (a a' : attr) (v : value)
    (name : string) (i : nat) :
  carries df r a v -> resolve df name = Ok (i, a') -> named name a = true ->
  cell r i = v.
Proof.
  intros Hc Hr Hn. apply carries_at in Hc as (p & Ha & Hv).
  pose proof (resolve_unique df _ (i, a') p a Hr Ha Hn) as E.
  cbn [fst] in E. subst p. unfold cell. now apply nth_error_nth.
Qed.

(** The column a name resolves to, with its attribute in the frame. *)
Lemma resolve_attr (df : DataFrame) (name : string) (i : nat) (a : attr) :
  resolve df name = Ok (i, a) ->
  exists b, nth_error (schema df) i = Some b /\ In b (schema df) /\
            named name b = true /\ expr_id b = expr_id a.
Proof.
  intros H. apply resolve_ok in H as (_ & _ & b & Hb & Hn & Hid).
  exists b. repeat split; try assumption. eapply nth_error_In, Hb.
Qed.

Section Enriched.
Context (bridge categories bridged : DataFrame) (ids : list nat)
        (category_ts bridge_ts : attr) (i_bridge_category i_category : nat).
Hypothesis wf_bridge : well_formed bridge.
Hypothesis wf_categories : well_formed categories.
Hypothesis joined : join bridge categories "category_id" Inner ids = Ok bridged.
Hypothesis not_renumbered : renumber (schema categories) ids = schema categories.
Hypothesis bridge_key :
  key_position (schema bridge) "category_id" = Ok i_bridge_category.
Hypothesis category_key :
  key_position (schema categories) "category_id" = Ok i_category.

Let enriched : DataFrame := drop (drop bridged category_ts) bridge_ts.

Let keep (a : attr) : Prop :=
  expr_id a <> expr_id category_ts /\ expr_id a <> expr_id bridge_ts.

Let from (b c row : row) : Prop :=
  (forall a v, keep a -> carries bridge b a v -> carries enriched row a v) /\
  (forall a v, keep a -> expr_id a <> id_at (schema categories) i_category ->
               carries categories c a v -> carries enriched row a v).

Lemma enriched_carried : carried_over keep bridged enriched.
Proof.
  unfold enriched.
  eapply carried_over_trans;
    [apply (carried_over_weaken (fun a => expr_id a <> expr_id category_ts));
     [unfold keep; tauto|]; apply drop_carries|].
  apply (carried_over_weaken (fun a => expr_id a <> expr_id bridge_ts));
    [unfold keep; tauto|]. apply drop_carries.
Qed.

Lemma enriched_row_from (row : row) :
  In row (rows enriched) ->
  exists b c, In b (rows bridge) /\ In c (rows categories) /\
              key_matches (cell b i_bridge_category) i_category c = true /\
              from b c row.
Proof.
  intros Hrow.
  destruct (proj2 enriched_carried row Hrow) as (br & Hbr & Hc).
  destruct (proj1 (join_inner_rows bridge categories bridged "category_id" ids
                     i_bridge_category i_category
                     wf_bridge wf_categories joined not_renumbered
                     bridge_key category_key) br Hbr)
    as (b & c & Hb & Hcc & Hm & Hl & Hr).
  exists b, c. repeat split; try assumption.
  - intros a v Ka Hv. apply Hc; [exact Ka|]. now apply Hl.
  - intros a v Ka Hne Hv. apply Hc; [exact Ka|]. now apply Hr.
Qed.

Lemma enriched_row_of (b c : row) :
  In b (rows bridge) -> In c (rows categories) ->
  key_matches (cell b i_bridge_category) i_category c = true ->
  exists row, In row (rows enriched) /\ from b c row.
Proof.
  intros Hb Hcc Hm.
  destruct (proj2 (join_inner_rows bridge categories bridged "category_id" ids
                     i_bridge_category i_category
                     wf_bridge wf_categories joined not_renumbered
                     bridge_key category_key)
                  b c Hb Hcc Hm) as (br & Hbr & Hl & Hr).
  destruct (proj1 enriched_carried br Hbr) as (row & Hrow & Hc).
  exists row. split; [exact Hrow|]. split.
  - intros a v Ka Hv. apply Hc; [exact Ka|]. now apply Hl.
  - intros a v Ka Hne Hv. apply Hc; [exact Ka|]. now apply Hr.
Qed.

End Enriched.

(** X17 (the categories of a wide row).  With well-formed frames on all
    five sides, attributes told apart by their ids within the bridge and the
    categories, the new [categories] attribute none of the three dropped
    ones, and when the analyzer renumbered no attribute for a join (the
    sides share none): when the wide-order-items transform returns, every
    row of its frame comes from an order item such that the row holds, under
    the [categories] attribute, an array whose elements are exactly the
    structs of [category_id] and [category_name] of the categories of the
    order item's product, or null when the product has no category or the
    order item no product.  The order of the elements is as the engine
    gathers them and is not described.  The keys that were compared are of
    one type: the join of keys of different types is not described, and the
    run does not return there. *)
Theorem wide_row_categories :
  forall (W : Type) (h : env W) (self : TableETL)
         (d0 d1 d2 d3 d4 : ETLDataSet) (rest : list ETLDataSet) (w : W)
         (ds : ETLDataSet) (self' : TableETL)
         (i_item_product i_bridge_product i_bridge_category i_category i_name : nat)
         (a_item_product a_bridge_product a_bridge_category a_category a_name : attr)
         (id_categories : nat),
    well_formed (ds_current_data d0) ->
    well_formed (ds_current_data d1) ->
    well_formed (ds_current_data d2) ->
    well_formed (ds_current_data d3) ->
    well_formed (ds_current_data d4) ->
    resolve (ds_current_data d0) "product_id" = Ok (i_item_product, a_item_product) ->
    resolve (ds_current_data d3) "product_id" = Ok (i_bridge_product, a_bridge_product) ->
    resolve (ds_current_data d3) "category_id"
    = Ok (i_bridge_category, a_bridge_category) ->
    resolve (ds_current_data d4) "category_id" = Ok (i_category, a_category) ->
    resolve (ds_current_data d4) "category_name" = Ok (i_name, a_name) ->
    NoDup (map expr_id (schema (ds_current_data d3) ++ schema (ds_current_data d4))) ->
    outcome (interp h (WideOrderItemsGoldETL.transform_upstream self
                         (d0 :: d1 :: d2 :: d3 :: d4 :: rest)) w) = Ok (ds, self') ->
    Forall keeps_ids
           (trace (interp h (WideOrderItemsGoldETL.transform_upstream self
                               (d0 :: d1 :: d2 :: d3 :: d4 :: rest)) w)) ->
    nth_error (trace (interp h (WideOrderItemsGoldETL.transform_upstream self
                                  (d0 :: d1 :: d2 :: d3 :: d4 :: rest)) w)) 4
    = Some (RNewExprId, AExprId id_categories) ->
    let order_items := ds_current_data d0 in
    let wide := ds_current_data ds in
    let categories := mk_attr id_categories "categories" in
    not_timestamp_of order_items categories ->
    not_timestamp_of (ds_current_data d1) categories ->
    not_timestamp_of (ds_current_data d2) categories ->
    forall row, In row (rows wide) ->
      exists item, In item (rows order_items) /\
        let listed :=
          category_of (ds_current_data d3) (ds_current_data d4)
                      i_bridge_product i_bridge_category i_category i_name
                      (cell item i_item_product) in
        (carries wide row categories VNull /\ forall e, ~ listed e) \/
        (exists elems, carries wide row categories (VArray elems) /\
                       forall e, In e elems <-> listed e).
Proof.
  intros W h self d0 d1 d2 d3 d4 rest w ds self'
         i_fp i_bp i_bc i_c i_cn a_fp a_bp a_bc a_c a_cn id_cat
         W0 W1 W2 W3 W4 Rfp Rbp Rbc Rc Rcn Hnodup H Hids Hnth order_items wide cat_attr
         K0 K1 K2 row Hrow.
  destruct (wide_transform_inv h self _ w ds self' H)
    as (e0 & e1 & e2 & e3 & e4 & t & ids1 & j1 & ids2 & j2 & ids3 & bridged
        & category_ts & bridge_ts & id_categories & grain & ids4 & j3 & fact_ts
        & product_ts & seller_ts & id_ts & stamped & (H0 & H1 & H2 & H3 & H4)
        & Hj1 & Hj2 & Hb & Hct & Hbt & Hg & Hj3 & Hft & Hpt & Hst & Hs & -> & _ & Htr).
  cbn [nth_error] in H0, H1, H2, H3, H4.
  injection H0 as <-. injection H1 as <-. injection H2 as <-.
  injection H3 as <-. injection H4 as <-.
  rewrite Htr in Hnth, Hids. cbn [nth_error] in Hnth. injection Hnth as <-.
  fold cat_attr in Hg.
  set (bridge := ds_current_data d3) in *.
  set (cats := ds_current_data d4) in *.
  assert (N1 : renumber (schema (ds_current_data d1)) ids1 = schema (ds_current_data d1))
    by (eapply kept_ids; [exact Hids|]; cbn; tauto).
  assert (N2 : renumber (schema (ds_current_data d2)) ids2 = schema (ds_current_data d2))
    by (eapply kept_ids; [exact Hids|]; cbn; tauto).
  assert (N3 : renumber (schema cats) ids3 = schema cats)
    by (eapply kept_ids; [exact Hids|]; cbn; tauto).
  assert (N4 : renumber (schema grain) ids4 = schema grain)
    by (eapply kept_ids; [exact Hids|]; cbn; tauto).
  set (enriched := drop (drop bridged category_ts) bridge_ts) in *.
  set (joined := drop (drop (drop j3 fact_ts) product_ts) seller_ts) in *.
  (* the frame after the drops has no etl_inserted, so the stamp goes last *)
  assert (Hnames : forall a, In a (schema grain) ->
            col_name a = "product_id" \/ col_name a = "categories").
  { pose proof (groupBy_agg_schema _ _ _ _ Hg) as (k & Hk & Hsch & _).
    apply resolve_name in Hk. rewrite Hsch. cbn.
    intros a [<- | [<- | []]]; auto. }
  assert (Hno : positions "etl_inserted" (schema joined) = [])
    by (apply (no_timestamp_left order_items (ds_current_data d1) (ds_current_data d2)
                 grain j1 j2 j3 ids1 ids2 ids4 fact_ts product_ts seller_ts);
        assumption).
  assert (Wj1 : well_formed j1) by (eapply join_well_formed; [| |exact Hj1]; assumption).
  assert (Wj2 : well_formed j2) by (eapply join_well_formed; [| |exact Hj2]; assumption).
  assert (Wg : well_formed grain) by (eapply groupBy_well_formed; exact Hg).
  set (keep := fun a => expr_id a <> expr_id fact_ts /\
                        expr_id a <> expr_id product_ts /\
                        expr_id a <> expr_id seller_ts).
  assert (Kcat : keep cat_attr).
  { apply getitem_ok in Hft as (i0 & Hft). apply getitem_ok in Hpt as (i1 & Hpt).
    apply getitem_ok in Hst as (i2 & Hst).
    unfold keep. split; [exact (K0 _ _ Hft)|]. split; [exact (K1 _ _ Hpt)|].
    exact (K2 _ _ Hst). }
  assert (Hall : carried_over keep j3 wide).
  { unfold wide. cbn [envelope ds_current_data].
    eapply carried_over_trans;
      [apply (carried_over_weaken (fun a => expr_id a <> expr_id fact_ts));
       [unfold keep; tauto|]; apply drop_carries|].
    eapply carried_over_trans;
      [apply (carried_over_weaken (fun a => expr_id a <> expr_id product_ts));
       [unfold keep; tauto|]; apply drop_carries|].
    eapply carried_over_trans;
      [apply (carried_over_weaken (fun a => expr_id a <> expr_id seller_ts));
       [unfold keep; tauto|]; apply drop_carries|].
    apply (carried_over_weaken (fun _ => True)); [tauto|].
    exact (stamp_fresh_carries _ _ _ _ _ Hno Hs). }
  (* the grain: its key first, the categories second *)
  destruct (groupBy_agg_schema _ _ _ _ Hg) as ([ik ak] & Rek & Hgs & _).
  cbn [snd map] in Hgs.
  destruct (groupBy_collect_rows enriched grain "product_id" _ cat_attr ik ak Hg Rek)
    as (Hgrows & Hgcover).
  pose proof (join_inv _ _ _ _ _ _ Hj1) as (li1 & ri1 & _ & Hl1 & _).
  pose proof (join_inv _ _ _ _ _ _ Hj3) as (li3 & ri3 & _ & Hl3 & Hr3 & _).
  pose proof (key_position_resolve _ _ _ _ Rfp Hl1) as E. cbn [fst] in E. subst li1.
  pose proof (groupBy_agg_key_first _ _ _ _ _ Hg Hr3) as E. subst ri3.
  assert (Hidk : id_at (schema grain) 0 = expr_id ak) by (now rewrite Hgs).
  assert (Hdiff : expr_id cat_attr <> expr_id ak).
  { pose proof (key_position_ok _ _ _ Hr3) as (a & _ & Ha & _ & _ & Hone).
    rewrite Hgs in Ha, Hone. cbn [nth_error] in Ha. injection Ha as <-.
    cbn [map count_occ] in Hone. intros E. rewrite E in Hone.
    destruct (Nat.eq_dec (expr_id ak) (expr_id ak)) as [_|C]; [|now apply C].
    discriminate Hone. }
  (* back from the wide row to the order item *)
  destruct (proj2 Hall row Hrow) as (o3 & Ho3 & C3).
  destruct (join_left_row_from j2 grain j3 "product_id" ids4 li3 0 ak
              Wj2 Wg Hj3 N4 Hl3 Hr3 Hidk o3 Ho3) as (o2 & Ho2 & _ & G).
  destruct (join_row_from_left _ _ _ _ _ _ Wj1 Hj2 o2 Ho2) as (o1 & Ho1 & C1).
  destruct (join_row_from_left _ _ _ _ _ _ W0 Hj1 o1 Ho1) as (item & Hitem & C0).
  exists item. split; [exact Hitem|]. cbv zeta.
  assert (Ek : cell o2 li3 = cell item i_fp).
  { pose proof (resolve_ok _ _ _ _ Rfp) as (_ & _ & b & Hb0 & _ & _).
    pose proof (carries_own_cell order_items item i_fp b W0 Hitem Hb0) as Hown.
    apply C0, C1 in Hown.
    assert (Hfind : find (named "product_id") (schema j2) = Some b).
    { apply (join_key_of_left _ _ _ _ _ _ "product_id" b Hj2 eq_refl).
      now rewrite (join_key_first _ _ _ _ _ _ _ Hj1 Hl1). }
    rewrite <- (key_position_find _ _ _ Hl3) in Hfind.
    exact (key_cell j2 "product_id" li3 b o2 _ Hl3 Hfind Hown). }
  rewrite Ek in G.
  set (p := cell item i_fp) in *.
  (* the attributes of the bridge and the categories, and their ids *)
  destruct (resolve_attr _ _ _ _ Rbp) as (b_bp & Nbp & Ibp & Mbp & _).
  destruct (resolve_attr _ _ _ _ Rbc) as (b_bc & Nbc & Ibc & Mbc & _).
  destruct (resolve_attr _ _ _ _ Rc) as (b_c & Nc & Ic & Mc & Idc).
  destruct (resolve_attr _ _ _ _ Rcn) as (b_cn & Ncn & Icn & Mcn & _).
  apply getitem_ok in Hct as (ict & Hct). apply getitem_ok in Hbt as (ibt & Hbt).
  destruct (resolve_attr _ _ _ _ Hct) as (b_ct & _ & Ict & Mct & Idct).
  destruct (resolve_attr _ _ _ _ Hbt) as (b_bt & _ & Ibt & Mbt & Idbt).
  assert (Kept : forall x name,
            In x (schema bridge ++ schema cats) -> named name x = true ->
            name_eqb name "etl_inserted" = false ->
            expr_id x <> expr_id category_ts /\ expr_id x <> expr_id bridge_ts).
  { intros x name Hx Hn Hne.
    assert (Nx : named "etl_inserted" x = false)
      by (unfold named in *; now rewrite (name_eqb_left _ _ _ Hn)).
    rewrite <- Idct, <- Idbt.
    split; apply (ids_differ_by_name _ _ _ "etl_inserted" Hnodup Hx);
      try assumption; apply in_or_app; auto. }
  pose proof (join_inv _ _ _ _ _ _ Hb) as (lib & rib & _ & Hlb & Hrb & _).
  pose proof (key_position_resolve _ _ _ _ Rbc Hlb) as E. cbn [fst] in E. subst lib.
  pose proof (key_position_resolve _ _ _ _ Rc Hrb) as E. cbn [fst] in E. subst rib.
  (* the product of a row of the enriched bridge *)
  assert (Eprod : forall b br,
            In b (rows bridge) ->
            (forall a v, expr_id a <> expr_id category_ts /\
                         expr_id a <> expr_id bridge_ts ->
                         carries bridge b a v -> carries enriched br a v) ->
            cell br ik = cell b i_bp).
  { intros b br Hbin Hl.
    apply (carries_named_cell enriched br b_bp ak _ "product_id" ik);
      [|exact Rek|exact Mbp].
    apply Hl; [|exact (carries_own_cell bridge b i_bp b_bp W3 Hbin Nbp)].
    apply (Kept b_bp "product_id"); [apply in_or_app; now left|exact Mbp|reflexivity]. }
  destruct G as [(g & Hg0 & Hm & Hf)|[Hnone Hnull]].
  - (* a grain row matches the order item's product *)
    right.
    destruct (Hgrows g Hg0) as (kv & ixs & Hix & Eg).
    cbn [rmap_list] in Hix.
    destruct (resolve enriched "category_id") as [[ic ac]|] eqn:Ric; [|discriminate].
    destruct (resolve enriched "category_name") as [[inm an]|] eqn:Rin; [|discriminate].
    cbn [rbind] in Hix. injection Hix as <-.
    set (elems := map (fun r => VStruct (map (fun i : nat * attr => cell r (fst i))
                                             [(ic, ac); (inm, an)]))
                      (filter (fun r => value_eqb (cell r ik) kv) (rows enriched)))
      in *.
    exists elems. split.
    + apply C3; [exact Kcat|]. apply Hf; [exact I|exact Hdiff|].
      apply carries_at. exists 1. rewrite Hgs, Eg. now split.
    + unfold key_matches in Hm. apply andb_true_iff in Hm as [Hnn Hpk].
      replace (cell g 0) with kv in Hpk by (rewrite Eg; reflexivity).
      assert (Ecells : forall b c br,
                In b (rows bridge) -> In c (rows cats) ->
                (forall a v, expr_id a <> expr_id category_ts /\
                             expr_id a <> expr_id bridge_ts ->
                             carries bridge b a v -> carries enriched br a v) ->
                (forall a v, expr_id a <> expr_id category_ts /\
                             expr_id a <> expr_id bridge_ts ->
                             expr_id a <> id_at (schema cats) i_c ->
                             carries cats c a v -> carries enriched br a v) ->
                cell br ic = cell b i_bc /\ cell br inm = cell c i_cn).
      { intros b c br Hbin Hcin Hl Hr. split.
        - apply (carries_named_cell enriched br b_bc ac _ "category_id" ic);
            [|exact Ric|exact Mbc].
          apply Hl; [|exact (carries_own_cell bridge b i_bc b_bc W3 Hbin Nbc)].
          apply (Kept b_bc "category_id");
            [apply in_or_app; now left|exact Mbc|reflexivity].
        - apply (carries_named_cell enriched br b_cn an _ "category_name" inm);
            [|exact Rin|exact Mcn].
          apply Hr; [| |exact (carries_own_cell cats c i_cn b_cn W4 Hcin Ncn)].
          + apply (Kept b_cn "category_name");
              [apply in_or_app; now right|exact Mcn|reflexivity].
          + rewrite (id_at_nth _ _ _ Nc).
            apply (ids_differ_by_name (schema bridge ++ schema cats) _ _
                     "category_id" Hnodup);
              [apply in_or_app; now right | apply in_or_app; now right | | exact Mc].
            unfold named in *. now rewrite (name_eqb_left _ _ _ Mcn). }
      intros e. unfold category_of. split.
      * intros He. unfold elems in He.
        apply in_map_iff in He as (br & <- & Hbr).
        apply filter_In in Hbr as [Hbr Hkv].
        destruct (enriched_row_from bridge cats bridged ids3 category_ts bridge_ts
                    i_bc i_c W3 W4 Hb N3 Hlb Hrb br Hbr)
          as (b & c & Hbin & Hcin & Hbc & Hl & Hr).
        destruct (Ecells b c br Hbin Hcin Hl Hr) as [E1 E2].
        exists b, c. repeat split; try assumption.
        -- unfold key_matches. rewrite Hnn. cbn [andb].
           rewrite <- (Eprod b br Hbin Hl).
           apply (value_eqb_trans p kv); [exact Hpk|].
           now rewrite value_eqb_sym.
        -- cbn [map fst]. now rewrite E1, E2.
      * intros (b & c & Hbin & Hcin & Hpb & Hbc & ->).
        destruct (enriched_row_of bridge cats bridged ids3 category_ts bridge_ts
                    i_bc i_c W3 W4 Hb N3 Hlb Hrb b c Hbin Hcin Hbc)
          as (br & Hbr & Hl & Hr).
        destruct (Ecells b c br Hbin Hcin Hl Hr) as [E1 E2].
        unfold elems. apply in_map_iff. exists br. split.
        -- cbn [map fst]. now rewrite E1, E2.
        -- apply filter_In. split; [exact Hbr|].
           rewrite (Eprod b br Hbin Hl).
           unfold key_matches in Hpb. apply andb_true_iff in Hpb as [_ Hpb].
           apply (value_eqb_trans _ p); [now rewrite value_eqb_sym|exact Hpk].
  - (* no grain row matches *)
    left. split.
    + apply C3; [exact Kcat|]. apply Hnull; [exact I|exact Hdiff|].
      rewrite Hgs. right. now left.
    + intros e (b & c & Hbin & Hcin & Hpb & Hbc & _).
      destruct (enriched_row_of bridge cats bridged ids3 category_ts bridge_ts
                  i_bc i_c W3 W4 Hb N3 Hlb Hrb b c Hbin Hcin Hbc)
        as (br & Hbr & Hl & _).
      destruct (Hgcover br Hbr) as (g & Hg0 & Hbg).
      specialize (Hnone g Hg0).
      unfold key_matches in Hpb, Hnone. apply andb_true_iff in Hpb as [Hnn Hpb].
      rewrite Hnn in Hnone. cbn [andb] in Hnone.
      rewrite (Eprod b br Hbin Hl) in Hbg.
      now rewrite (value_eqb_trans p _ _ Hpb Hbg) in Hnone.
Qed.

(** The sample order item, of product 500, which the bridge puts in the
    categories 1 and 2: the one row of the wide table lists Electronics. *)
Lemma wide_row_categories_witness :
  exists row elems,
    In row (rows Examples.wide_order_items) /\
    carries Examples.wide_order_items row (mk_attr 0 "categories") (VArray elems) /\
    In (VStruct [VInt 1; VStr "Electronics"]) elems.
Proof.
  destruct (rows Examples.wide_order_items) as [|row others] eqn:Erows;
    [discriminate Erows|].
  assert (Hrow : In row (rows Examples.wide_order_items))
    by (rewrite Erows; now left).
  clear Erows.
  assert (K : forall df, In df [Examples.fact_order_items; Examples.dim_product;
                                Examples.dim_seller] ->
                         not_timestamp_of df (mk_attr 0 "categories")).
  { intros df [<-|[<-|[<-|[]]]] i ts E; vm_compute in E; injection E as <- <-;
      discriminate. }
  assert (Hids : Forall keeps_ids
                   (trace (interp Examples.engine
                             (WideOrderItemsGoldETL.transform_upstream
                                (Examples.wide_unit false) Examples.wide_upstream) 0))).
  { vm_compute. repeat constructor; intros l r ids E; inversion E; reflexivity. }
  destruct (wide_row_categories _ Examples.engine (Examples.wide_unit false)
              (Examples.wrap "fact_order_items" Examples.fact_order_items)
              (Examples.wrap "dim_product" Examples.dim_product)
              (Examples.wrap "dim_seller" Examples.dim_seller)
              (Examples.wrap "product_category" Examples.product_category)
              (Examples.wrap "dim_category" Examples.dim_category) [] 0
              (envelope (Examples.wide_unit false) Examples.wide_order_items)
              (set_current_data (Examples.wide_unit false) Examples.wide_order_items)
              2 0 1 0 1
              (mk_attr 13 "product_id") (mk_attr 41 "product_id")
              (mk_attr 42 "category_id") (mk_attr 51 "category_id")
              (mk_attr 52 "category_name") 0
              ltac:(repeat constructor) ltac:(repeat constructor)
              ltac:(repeat constructor) ltac:(repeat constructor)
              ltac:(repeat constructor)
              eq_refl eq_refl eq_refl eq_refl eq_refl
              ltac:(repeat (constructor; [cbn; intuition discriminate|]); constructor)
              eq_refl Hids eq_refl
              (K _ (or_introl eq_refl))
              (K _ (or_intror (or_introl eq_refl)))
              (K _ (or_intror (or_intror (or_introl eq_refl))))
              row Hrow)
    as (item & Hitem & Hcases).
  destruct Hitem as [<-|[]]. cbv zeta in Hcases.
  assert (L : category_of Examples.product_category Examples.dim_category 0 1 0 1
                          (VInt 500) (VStruct [VInt 1; VStr "Electronics"])).
  { exists [VInt 500; VInt 1; VTimestamp Examples.t1],
           [VInt 1; VStr "Electronics"; VTimestamp Examples.t1].
    repeat split; try reflexivity; left; reflexivity. }
  destruct Hcases as [[_ Hnone]|(elems & Hc & Hl)].
  - exfalso. exact (Hnone _ L).
  - exists row, elems. split; [now left|]. split; [exact Hc|].
    apply Hl. exact L.
Defined.

(* ================================================================== *)
(** * [extract_upstream]: failures, and who each method talks to       *)
(* ================================================================== *)

Import Py Spark SparkSql Runtime Base Storage Pipeline Notions EdgeNotions.
Import FrameFacts RunFacts ExtractFacts.
Local Open Scope list_scope.

Lemma block_raises_nothing (ru wd : bool) (x : class_ref * obj * ETLDataSet) :
  Forall (fun c => raised c = false) (extraction_block ru wd x).
Proof. unfold extraction_block. destruct ru; repeat constructor. Qed.

Lemma block_instantiates_one (ru wd : bool) (c : class_ref) (o : obj) (e : ETLDataSet) :
  instantiations (extraction_block ru wd (c, o, e)) = [(c, ru, wd, AObject o)].
Proof. unfold extraction_block. now destruct ru. Qed.

Section Failing.
Context {W : Type} (h : env W) (ru wd : bool).

Let body (table_etl_class : class_ref) : prog ETLDataSet :=
  (table <- trigger (Instantiate table_etl_class ru wd) ;;
   _ <- (if ru then trigger (CallRun table) else Ret tt) ;;
   trigger (CallRead table))%prog.

(** One turn, when it fails: the failing call comes last and is the first
    to raise. *)
Lemma body_fails (c : class_ref) (w : W) (e : exn) :
  outcome (interp h (body c) w) = Err e ->
  exists before request ans,
    trace (interp h (body c) w) = before ++ [(request, ARaised e)] /\
    Forall (fun x => raised x = false) before /\
    instantiations (trace (interp h (body c) w)) = [(c, ru, wd, ans)].
Proof.
  unfold body. intros H.
  rewrite interp_trigger_bind in H |- *.
  destruct (h _ (Instantiate c ru wd) w) as [[o|e0] w1].
  - cbv zeta in H |- *. cbn [outcome trace request_of answer_of] in H |- *.
    destruct ru.
    + rewrite interp_trigger_bind in H |- *.
      destruct (h _ (CallRun o) w1) as [[[]|e1] w2].
      * cbv zeta in H |- *. cbn [outcome trace interp trigger] in H |- *.
        destruct (h _ (CallRead o) w2) as [[e'|e2] w3]; [discriminate H|].
        cbn in H |- *. injection H as ->.
        exists [(RInstantiate c true wd, AObject o); (RRun o, ADone)], (RRead o),
               (AObject o).
        split; [reflexivity|]. split; [repeat constructor|reflexivity].
      * cbn in H |- *. injection H as ->.
        exists [(RInstantiate c true wd, AObject o)], (RRun o), (AObject o).
        split; [reflexivity|]. split; [repeat constructor|reflexivity].
    + cbn [bind interp trigger] in H |- *.
      destruct (h _ (CallRead o) w1) as [[e'|e2] w3]; [discriminate H|].
      cbn in H |- *. injection H as ->.
      exists [(RInstantiate c false wd, AObject o)], (RRead o), (AObject o).
      split; [reflexivity|]. split; [repeat constructor|reflexivity].
  - cbn in H |- *. injection H as ->.
    exists [], (RInstantiate c ru wd), (ARaised e).
    split; [reflexivity|]. split; [constructor|reflexivity].
Qed.

Lemma loop_fails (classes : list class_ref) : forall (w : W) (e : exn),
  outcome (interp h (for_each classes body) w) = Err e ->
  exists before request k,
    trace (interp h (for_each classes body) w) = before ++ [(request, ARaised e)] /\
    Forall (fun x => raised x = false) before /\
    k < List.length classes /\
    map class_of (instantiations (trace (interp h (for_each classes body) w)))
    = firstn (S k) classes.
Proof.
  induction classes as [|c classes IH]; intros w e H; [discriminate H|].
  cbn [for_each] in H |- *. rewrite interp_bind in H |- *.
  destruct (outcome (interp h (body c) w)) as [y|e0] eqn:Hy.
  - destruct (body_ok h ru wd c w y Hy) as (o & Hb). fold (body c) in Hb.
    cbv zeta in H |- *. cbn [outcome trace] in H |- *.
    rewrite interp_bind in H |- *.
    destruct (outcome (interp h (for_each classes body) (final (interp h (body c) w))))
      as [es|e1] eqn:Hes; [discriminate H|].
    cbn [outcome trace] in H |- *. injection H as ->.
    destruct (IH _ e Hes) as (before & request & k & Ht & Hb' & Hk & Hi).
    exists (extraction_block ru wd (c, o, y) ++ before), request, (S k).
    rewrite instantiations_app, map_app, Hi.
    rewrite Hb, block_instantiates_one, Ht, app_assoc.
    split; [reflexivity|]. split; [|split; [cbn [List.length]; lia|reflexivity]].
    apply Forall_app. split; [apply block_raises_nothing|exact Hb'].
  - cbn [outcome trace] in H |- *. injection H as ->.
    destruct (body_fails c w e Hy) as (before & request & ans & Ht & Hb & Hi).
    exists before, request, 0. rewrite Hi.
    split; [exact Ht|]. split; [exact Hb|]. split; [cbn [List.length]; lia|reflexivity].
Qed.

End Failing.

(** X18 (a failing upstream unit).  [extract_upstream] handles no
    exception: when it raises, the exception is what the environment raised
    in answer to its last call, no call before that one raised, and the
    classes it instantiated are an initial part of the declared list, up to
    the one that failed.  The upstream types declared after it are never
    instantiated, run or read. *)
Theorem extract_upstream_stops_at_first_failure :
  forall (W : Type) (h : env W) (self : TableETL) (w : W) (e : exn) extract_upstream,
    extract_upstream = WideOrderItemsGoldETL.extract_upstream \/
    extract_upstream = DailyOrderMetricsGoldETL.extract_upstream ->
    outcome (interp h (extract_upstream self) w) = Err e ->
    let tr := trace (interp h (extract_upstream self) w) in
    exists before request k,
      tr = before ++ [(request, ARaised e)] /\
      Forall (fun c => raised c = false) before /\
      k < List.length (upstream_tables self) /\
      map class_of (instantiations tr) = firstn (S k) (upstream_tables self).
Proof.
  intros W h self w e extract_upstream Hx H tr.
  assert (E : extract_upstream = DailyOrderMetricsGoldETL.extract_upstream)
    by (destruct Hx as [-> | ->]; reflexivity).
  subst extract_upstream. unfold tr.
  exact (loop_fails h (run_upstream self) (write_data self) (upstream_tables self) w e H).
Qed.

(** Five declared upstream types, the third of which cannot be read: three
    instances come to be, the last two types are not touched. *)
Lemma extract_upstream_stops_at_first_failure_witness :
  map class_of
      (instantiations
         (trace (interp EdgeExamples.third_unreadable
                   (WideOrderItemsGoldETL.extract_upstream (Examples.wide_unit true)) 0)))
  = ["FactOrderItemsSiverETL"; "DimProductSiverETL"; "DimSellerSiverETL"] /\
  exists before request k,
    trace (interp EdgeExamples.third_unreadable
             (WideOrderItemsGoldETL.extract_upstream (Examples.wide_unit true)) 0)
    = before ++ [(request, ARaised CollaboratorError)] /\
    Forall (fun c => raised c = false) before /\
    k < 5 /\
    map class_of
        (instantiations
           (trace (interp EdgeExamples.third_unreadable
                     (WideOrderItemsGoldETL.extract_upstream (Examples.wide_unit true)) 0)))
    = firstn (S k) (upstream_tables (Examples.wide_unit true)).
Proof.
  split; [reflexivity|].
  exact (extract_upstream_stops_at_first_failure _ EdgeExamples.third_unreadable
           (Examples.wide_unit true) 0 CollaboratorError
           WideOrderItemsGoldETL.extract_upstream (or_introl eq_refl) eq_refl).
Defined.

(** ** Who each method talks to *)

Lemma trace_all_events {W : Type} (h : env W) (ok : forall X, event X -> Prop)
    (okr : call -> Prop) :
  (forall X (ev : event X) (a : answer), ok X ev -> okr (request_of ev, a)) ->
  forall A (p : prog A), all_events ok p ->
  forall w, Forall okr (trace (interp h p w)).
Proof.
  intros Hok A p Hp. induction Hp as [a|e|X ev k Hev _ IH]; intros w.
  - constructor.
  - constructor.
  - cbn [interp]. destruct (h X ev w) as [[x|e] w']; cbn [trace].
    + constructor; [now apply Hok|apply IH].
    + constructor; [now apply Hok|constructor].
Qed.

Lemma all_events_lift (ok : forall X, event X -> Prop) {A} (r : result A) :
  all_events ok (lift r).
Proof. destruct r; constructor. Qed.

Lemma all_events_index (ok : forall X, event X -> Prop) {A} (l : list A) (i : nat) :
  all_events ok (index l i).
Proof. unfold index. destruct (nth_error l i); constructor. Qed.

Lemma all_events_for_each (ok : forall X, event X -> Prop) {A B}
    (l : list A) (body : A -> prog B) :
  (forall x, all_events ok (body x)) -> all_events ok (for_each l body).
Proof.
  intros Hb. induction l as [|x l IH]; [constructor|].
  cbn [for_each]. apply all_events_bind; [apply Hb|].
  intros y. apply all_events_bind; [exact IH|]. intros ys. constructor.
Qed.

Lemma all_events_join_frames (ok : forall X, event X -> Prop)
    (l r : DataFrame) (key : string) (how : join_type) :
  ok _ (Deduplicate (schema l) (schema r)) -> all_events ok (join_frames l r key how).
Proof.
  intros H. unfold join_frames.
  apply all_events_bind; [apply all_events_trigger; exact H|].
  intros ids. apply all_events_lift.
Qed.

Ltac walk_program :=
  repeat first
    [ apply all_events_bind;
      [ first [ apply all_events_index | apply all_events_lift
              | apply all_events_trigger; exact I
              | apply all_events_join_frames; exact I ]
      | intros ? ]
    | progress cbv zeta ];
  try apply all_ret.

Lemma daily_transform_events (self : TableETL) (ups : list ETLDataSet) :
  all_events engine_event (DailyOrderMetricsGoldETL.transform_upstream self ups).
Proof. unfold DailyOrderMetricsGoldETL.transform_upstream. walk_program. Qed.

Lemma wide_transform_events (self : TableETL) (ups : list ETLDataSet) :
  all_events analysis_event (WideOrderItemsGoldETL.transform_upstream self ups).
Proof. unfold WideOrderItemsGoldETL.transform_upstream. walk_program. Qed.

Lemma extract_events (self : TableETL) :
  all_events upstream_event (DailyOrderMetricsGoldETL.extract_upstream self).
Proof.
  unfold DailyOrderMetricsGoldETL.extract_upstream.
  apply all_events_for_each. intros c.
  apply all_events_bind; [apply all_events_trigger; exact I|]. intros table.
  apply all_events_bind.
  - destruct (run_upstream self); [apply all_events_trigger; exact I|constructor].
  - intros _. apply all_events_trigger. exact I.
Qed.

(** X19 (who a method talks to).  Whatever the environment answers and
    whether the call returns or raises: [transform_upstream] asks only for
    the time and for the numbers of new attributes, and, in the wide unit,
    the analyzer before each join; it loads no table and creates or drives
    no unit.  [extract_upstream] only creates upstream units, runs them and
    reads them; it loads no table itself and does not read the clock. *)
Theorem transform_and_extract_collaborators :
  forall (W : Type) (h : env W) (self : TableETL)
         (upstream_datasets : list ETLDataSet) (w : W),
    Forall asks_engine
           (trace (interp h (DailyOrderMetricsGoldETL.transform_upstream self
                               upstream_datasets) w)) /\
    Forall (fun c => asks_engine c \/ asks_analyzer c)
           (trace (interp h (WideOrderItemsGoldETL.transform_upstream self
                               upstream_datasets) w)) /\
    Forall drives_upstream
           (trace (interp h (DailyOrderMetricsGoldETL.extract_upstream self) w)) /\
    Forall drives_upstream
           (trace (interp h (WideOrderItemsGoldETL.extract_upstream self) w)).
Proof.
  intros W h self ups w.
  assert (He : forall X (ev : event X) (a : answer),
             engine_event X ev -> asks_engine (request_of ev, a)).
  { intros X ev a. unfold asks_engine. destruct ev; cbn; tauto. }
  assert (Ha : forall X (ev : event X) (a : answer),
             analysis_event X ev ->
             asks_engine (request_of ev, a) \/ asks_analyzer (request_of ev, a)).
  { intros X ev a. unfold asks_engine, asks_analyzer.
    destruct ev; cbn; try tauto. intros _. right. eauto. }
  assert (Hu : forall X (ev : event X) (a : answer),
             upstream_event X ev -> drives_upstream (request_of ev, a)).
  { intros X ev a. unfold drives_upstream. destruct ev; cbn; tauto. }
  split; [|split; [|split]].
  - exact (trace_all_events h _ _ He _ _ (daily_transform_events self ups) w).
  - exact (trace_all_events h _ _ Ha _ _ (wide_transform_events self ups) w).
  - exact (trace_all_events h _ _ Hu _ _ (extract_events self) w).
  - rewrite wide_extract_eq.
    exact (trace_all_events h _ _ Hu _ _ (extract_events self) w).
Qed.
